(** * EventPipe core (src/native/eventpipe/ep.c): session registry, deferred
    start-up queues, event dispatch and provider-configuration parser.

    The C code is embedded shallowly: global variables become the fields of
    a state record, calls into the collaborators of ep.c (session, buffer
    manager, configuration, sample profiler, runtime shim) are recorded in
    program order in a trace, and C strings are Rocq strings read up to
    the first NUL. *)

From Stdlib Require Import ZArith String Ascii Lia Bool.
From Stdlib Require DecimalString HexadecimalString DecimalN HexadecimalN.
From stdpp Require Import base option list gmap strings.

Local Open Scope Z_scope.

(** ** Constants and helpers that ep.c takes from its headers *)

Inductive EventPipeState :=
  | EP_STATE_NOT_INITIALIZED
  | EP_STATE_INITIALIZED
  | EP_STATE_SHUTTING_DOWN.

Inductive EventPipeSessionType :=
  | EP_SESSION_TYPE_FILE
  | EP_SESSION_TYPE_LISTENER
  | EP_SESSION_TYPE_IPCSTREAM
  | EP_SESSION_TYPE_FILESTREAM
  | EP_SESSION_TYPE_USEREVENTS.

#[global] Instance EventPipeState_eq_dec : EqDecision EventPipeState.
Proof. solve_decision. Defined.

#[global] Instance EventPipeSessionType_eq_dec : EqDecision EventPipeSessionType.
Proof. solve_decision. Defined.

(** A pointer that may be NULL is an option; this is the test against NULL. *)
Definition is_null {A : Type} (p : option A) : bool :=
  match p with
  | None => true
  | Some _ => false
  end.

(** Width of [unsigned long], which strtoul returns: 64 bits on LP64
    targets, 32 bits on LLP64 ones. *)
Inductive DataModel := LP64 | LLP64.

(** What ep.c reads from ep-types.h, ep-config.h, ep-session.h and the C
    implementation; none of these declarations is part of ep.c, so the
    model is parametric in them. *)
Class Runtime := {
  EP_MAX_NUMBER_OF_SESSIONS : nat;
  EP_SERIALIZATION_FORMAT_NETTRACE_V4 : Z;
  EP_SERIALIZATION_FORMAT_COUNT : Z;
  EP_EVENT_LEVEL_VERBOSE : Z;
  data_model : DataModel;
  ep_config_get_public_provider_name_utf8 : string;
  ep_config_get_private_provider_name_utf8 : string;
  ep_config_get_sample_profiler_provider_name_utf8 : string;
  ep_session_type_uses_buffer_manager : EventPipeSessionType → bool;
  PERFTRACING_DISABLE_THREADS : bool
}.

Definition UINT64_MAX : Z := 2 ^ 64 - 1.
Definition UINT32_MAX : Z := 2 ^ 32 - 1.

Definition ULONG_MAX {rt : Runtime} : Z :=
  match data_model with
  | LP64 => UINT64_MAX
  | LLP64 => UINT32_MAX
  end.

(** The values of the CoreCLR build on an LP64 target, used to run the
    model on concrete inputs. *)
Definition coreclr : Runtime := {|
  EP_MAX_NUMBER_OF_SESSIONS := 64;
  EP_SERIALIZATION_FORMAT_NETTRACE_V4 := 1;
  EP_SERIALIZATION_FORMAT_COUNT := 2;
  EP_EVENT_LEVEL_VERBOSE := 5;
  data_model := LP64;
  ep_config_get_public_provider_name_utf8 := "Microsoft-Windows-DotNETRuntime";
  ep_config_get_private_provider_name_utf8 := "Microsoft-Windows-DotNETRuntimePrivate";
  ep_config_get_sample_profiler_provider_name_utf8 := "Microsoft-DotNETCore-SampleProfiler";
  ep_session_type_uses_buffer_manager :=
    λ t, match t with EP_SESSION_TYPE_USEREVENTS => false | _ => true end;
  PERFTRACING_DISABLE_THREADS := false
|}.

(** ** C strings and the C library conversions *)

Module CStr.

Definition NUL : ascii := "000"%char.

(** The character a pointer into a NUL-terminated string points at. *)
Definition deref (p : string) : ascii :=
  match p with
  | EmptyString => NUL
  | String c _ => c
  end.

(** [p + 1]. *)
Definition next (p : string) : string :=
  match p with
  | EmptyString => EmptyString
  | String _ rest => rest
  end.

(** [p + n], stopping at the terminator. *)
Fixpoint drop (n : nat) (p : string) : string :=
  match n, p with
  | S n', String _ rest => drop n' rest
  | _, _ => p
  end.

Definition isspace (c : ascii) : bool :=
  let n := N_of_ascii c in
  (n =? 32)%N || ((9 <=? n)%N && (n <=? 13)%N).

(** Value of a character as a digit in bases up to 36. *)
Definition digit_value (c : ascii) : option Z :=
  let n := Z.of_N (N_of_ascii c) in
  if (48 <=? n) && (n <=? 57) then Some (n - 48)
  else if (97 <=? n) && (n <=? 122) then Some (n - 87)
  else if (65 <=? n) && (n <=? 90) then Some (n - 55)
  else None.

Fixpoint skip_space (s : string) : string :=
  match s with
  | String c rest => if isspace c then skip_space rest else s
  | EmptyString => s
  end.

(** Accumulates the longest run of digits of [base]; the boolean records
    that the value left the range [0, umax]. *)
Fixpoint accumulate (base umax : Z) (s : string) (acc : Z) (ovf : bool)
  : Z * bool :=
  match s with
  | String c rest =>
      match digit_value c with
      | Some d =>
          if d <? base then
            let acc' := acc * base + d in
            if umax <? acc' then accumulate base umax rest umax true
            else accumulate base umax rest acc' ovf
          else (acc, ovf)
      | None => (acc, ovf)
      end
  | EmptyString => (acc, ovf)
  end.

Definition has_hex_prefix (s : string) : bool :=
  match s with
  | String "0" (String "x" _) | String "0" (String "X" _) => true
  | _ => false
  end.

(** [strtoul] / [strtoull] of ISO C in the C locale with a null end
    pointer: leading white space, an optional sign, for base 16 an
    optional 0x, then digits; out of range gives the maximum, a minus
    sign negates in the unsigned type. *)
Definition strtou (base umax : Z) (s : string) : Z :=
  let s1 := skip_space s in
  let '(neg, s2) :=
    match s1 with
    | String "-" rest => (true, rest)
    | String "+" rest => (false, rest)
    | _ => (false, s1)
    end in
  let s3 := if (base =? 16) && has_hex_prefix s2 then next (next s2) else s2 in
  let '(v, ovf) := accumulate base umax s3 0 false in
  if ovf then umax
  else if neg then (umax + 1 - v) mod (umax + 1)
  else v.

End CStr.

(** ** Provider configuration *)

(** EventPipeProviderConfiguration as ep_provider_config_init fills it.
    The function asserts that provider_name is not NULL before it fills
    the record; a failure of that assertion is an event of the caller's
    trace, see [parse_providers_asserts]. *)
Record EventPipeProviderConfiguration := {
  provider_name : option string;
  keywords : Z;
  logging_level : Z;
  filter_data : option string;
  event_filter : option Z;
  tracepoint_config : option Z
}.

Definition ep_provider_config_init
    (provider_name : option string) (keywords : Z) (logging_level : Z)
    (filter_data : option string) : EventPipeProviderConfiguration :=
  {| provider_name := provider_name;
     keywords := keywords;
     logging_level := logging_level;
     filter_data := filter_data;
     event_filter := None;
     tracepoint_config := None |}.

Section Parser.
Context {rt : Runtime}.

Definition is_delimiter (c : ascii) : bool :=
  bool_decide (c = CStr.NUL) || bool_decide (c = ","%char) || bool_decide (c = ":"%char).

(** Text of one field: no NUL, comma or colon in it. *)
Fixpoint is_field_text (s : string) : bool :=
  match s with
  | EmptyString => true
  | String c rest => negb (is_delimiter c) && is_field_text rest
  end.

(** Returns the text between [*start] and [*end] and the returned
    pointer ([None] is NULL). *)
Fixpoint get_next_config_value (data : string) : string * option string :=
  match data with
  | EmptyString => (EmptyString, None)
  | String c rest =>
      if bool_decide (c = CStr.NUL) then (EmptyString, None)
      else if bool_decide (c = ","%char) then (EmptyString, Some data)
      else if bool_decide (c = ":"%char) then (EmptyString, Some rest)
      else let '(v, p) := get_next_config_value rest in (String c v, p)
  end.

(** The buffer ([None] when the value is empty) and the updated [*data]. *)
Definition get_next_config_value_as_utf8_string (data : string)
  : option string * option string :=
  let '(v, p) := get_next_config_value data in
  (if (String.length v =? 0)%nat then None else Some v, p).

Definition get_next_config_value_as_uint64_t (data : string)
  : Z * option string :=
  let '(value_as_utf8, p) := get_next_config_value_as_utf8_string data in
  (match value_as_utf8 with
   | Some v => CStr.strtou 16 UINT64_MAX v mod 2 ^ 64
   | None => UINT64_MAX
   end, p).

Definition get_next_config_value_as_uint32_t (data : string)
  : Z * option string :=
  let '(value_as_utf8, p) := get_next_config_value_as_utf8_string data in
  (match value_as_utf8 with
   | Some v => CStr.strtou 10 ULONG_MAX v mod 2 ^ 32
   | None => UINT32_MAX
   end, p).

(** The loop that advances [p] while it points neither at NUL nor at a comma. *)
Fixpoint skip_to_comma (p : string) : string :=
  match p with
  | EmptyString => p
  | String c rest =>
      if bool_decide (c = CStr.NUL) || bool_decide (c = ","%char) then p
      else skip_to_comma rest
  end.

(** Advances [p] by one unless it points at NUL. *)
Definition skip_one (p : string) : string :=
  if bool_decide (CStr.deref p = CStr.NUL) then p else CStr.next p.

(** The counting loop of ep_enable_2. *)
Fixpoint count_providers (fuel : nat) (p : string) : option Z :=
  match fuel with
  | O => None
  | S fuel' =>
      if bool_decide (CStr.deref p = CStr.NUL) then Some 0
      else (λ n, 1 + n) <$> count_providers fuel' (skip_one (skip_to_comma p))
  end.

(** [p] is not NULL and does not point at a comma. *)
Definition at_field (p : option string) : bool :=
  match p with
  | Some q => negb (bool_decide (CStr.deref q = ","%char))
  | None => false
  end.

Inductive ParseResult :=
  | OutOfFuel
  | ParseError
  | Parsed (providers : list EventPipeProviderConfiguration).

(** One provider spec: the four conditional field reads of the parsing
    loop. [None] is the raised error for a missing name. *)
Definition parse_provider (p0 : string)
  : option (EventPipeProviderConfiguration * option string) :=
  let '(name, p1, ok) :=
    if at_field (Some p0) then
      let '(n, p) := get_next_config_value_as_utf8_string p0 in
      (n, p, negb (is_null n))
    else (None, Some p0, true) in
  if negb ok then None else
  let '(keyword_mask, p2) :=
    match p1 with
    | Some q => if at_field p1 then get_next_config_value_as_uint64_t q else (0, p1)
    | None => (0, p1)
    end in
  let '(level, p3) :=
    match p2 with
    | Some q => if at_field p2 then get_next_config_value_as_uint32_t q
                else (EP_EVENT_LEVEL_VERBOSE, p2)
    | None => (EP_EVENT_LEVEL_VERBOSE, p2)
    end in
  let '(args, p4) :=
    match p3 with
    | Some q => if at_field p3 then get_next_config_value_as_utf8_string q
                else (None, p3)
    | None => (None, p3)
    end in
  Some (ep_provider_config_init name keyword_mask level args, p4).

(** The parsing loop of ep_enable_2. *)
Fixpoint parse_providers (fuel : nat) (p : string) : ParseResult :=
  match fuel with
  | O => OutOfFuel
  | S fuel' =>
      if bool_decide (CStr.deref p = CStr.NUL) then Parsed []
      else
        match parse_provider p with
        | None => ParseError
        | Some (cfg, None) => Parsed [cfg]
        | Some (cfg, Some q) =>
            match parse_providers fuel' (skip_one (skip_to_comma q)) with
            | Parsed l => Parsed (cfg :: l)
            | r => r
            end
        end
  end.

(** The provider array and its length as ep_enable_2 passes them to
    ep_enable; [None] when the parse raised an error. Every iteration of
    either loop advances the pointer, so the length of the string plus
    one bounds the iterations. *)
Definition providers_of_config (providers_config : option string)
  : option (list EventPipeProviderConfiguration * Z) :=
  let default :=
    [ ep_provider_config_init (Some ep_config_get_public_provider_name_utf8)
        0x4c14fccbd EP_EVENT_LEVEL_VERBOSE None;
      ep_provider_config_init (Some ep_config_get_private_provider_name_utf8)
        0x4002000b EP_EVENT_LEVEL_VERBOSE None;
      ep_provider_config_init (Some ep_config_get_sample_profiler_provider_name_utf8)
        0x0 EP_EVENT_LEVEL_VERBOSE None ] in
  match providers_config with
  | None => Some (default, 3)
  | Some cfg =>
      if bool_decide (CStr.deref cfg = CStr.NUL) then Some (default, 3) else
      match count_providers (S (String.length cfg)) cfg,
            parse_providers (S (String.length cfg)) cfg with
      | Some n, Parsed l => Some (l, n)
      | _, _ => None
      end
  end.

End Parser.

(** ** The output path of the default session *)

(** [strstr]: the text before the first occurrence of [needle] and the
    text after it, [None] when there is none. *)
Fixpoint strstr (haystack needle : string) : option (string * string) :=
  if String.prefix needle haystack
  then Some (EmptyString, CStr.drop (String.length needle) haystack)
  else match haystack with
       | EmptyString => None
       | String c rest =>
           match strstr rest needle with
           | Some (before, after) => Some (String c before, after)
           | None => None
           end
       end.

(** Modelled from the spec: ep_rt_utf8_string_replace, a helper of the
    runtime shim (ep-rt.h) that ep.c calls in a loop to replace the {pid}
    token; one call replaces the first occurrence of [search] in [*str] by
    [replacement] and tells whether it replaced anything. A null [*str] is
    left alone. *)
Definition ep_rt_utf8_string_replace
    (str : option string) (search replacement : string) : option string * bool :=
  match str with
  | None => (None, false)
  | Some s =>
      match strstr s search with
      | Some (before, after) => (Some (before +:+ replacement +:+ after), true)
      | None => (Some s, false)
      end
  end.

(** The pid rendered by snprintf with the format %u. *)
Definition pid_string (pid : Z) : string :=
  DecimalString.NilZero.string_of_uint (N.to_uint (Z.to_N (pid mod 2 ^ 32))).

(** The number that a text of decimal digits denotes, most significant
    digit first: what the specification means by the decimal process id,
    stated apart from the way [pid_string] produces the text. *)
Fixpoint decimal_value_from (acc : Z) (s : string) : Z :=
  match s with
  | EmptyString => acc
  | String c rest =>
      decimal_value_from (acc * 10 + (Z.of_N (N_of_ascii c) - 48)) rest
  end.

Definition decimal_value (s : string) : Z := decimal_value_from 0 s.

(** The replacement loop of enable_default_session_via_env_variables; it
    runs until a call replaces nothing, [None] is an exhausted fuel. *)
Fixpoint replace_pid_loop (fuel : nat) (path : option string) (pidStr : string)
  : option (option string) :=
  match fuel with
  | O => None
  | S fuel' =>
      let '(path', replaced) := ep_rt_utf8_string_replace path "{pid}" pidStr in
      if replaced then replace_pid_loop fuel' path' pidStr else Some path'
  end.

(** Every occurrence of [search], left to right, replaced by
    [replacement]: the specification's reading of the substitution.
    [skip] counts the characters of an occurrence still to be dropped. *)
Fixpoint substitute_all (search replacement s : string) (skip : nat) : string :=
  match s with
  | EmptyString => EmptyString
  | String c rest =>
      match skip with
      | S k => substitute_all search replacement rest k
      | O =>
          if String.prefix search s
          then replacement +:+ substitute_all search replacement rest
                                (String.length search - 1)
          else String c (substitute_all search replacement rest 0)
      end
  end.

(** Character-level measures used to bound the replacement loop. *)
Fixpoint mem_char (c : ascii) (s : string) : bool :=
  match s with
  | EmptyString => false
  | String a rest => bool_decide (a = c) || mem_char c rest
  end.

Fixpoint count_char (c : ascii) (s : string) : nat :=
  match s with
  | EmptyString => O
  | String a rest => ((if bool_decide (a = c) then 1 else 0) + count_char c rest)%nat
  end.

(** No character of [s] occurs in [search]. *)
Fixpoint chars_apart (search s : string) : bool :=
  match s with
  | EmptyString => true
  | String a rest => negb (mem_char a search) && chars_apart search rest
  end.

Definition is_digit (c : ascii) : bool :=
  let n := N_of_ascii c in (48 <=? n)%N && (n <=? 57)%N.

Fixpoint all_digits (s : string) : bool :=
  match s with
  | EmptyString => true
  | String a rest => is_digit a && all_digits rest
  end.

(** ** The session registry *)

Record EventPipeSessionOptions := {
  output_path : option string;
  circular_buffer_size_in_mb : Z;
  providers : option (list EventPipeProviderConfiguration);
  providers_len : Z;
  session_type : EventPipeSessionType;
  format : Z;
  rundown_keyword : Z;
  stackwalk_requested : bool;
  stream : option Z;
  sync_callback : option Z;
  callback_additional_data : option Z;
  user_events_data_fd : Z
}.

Definition ep_session_options_init
    (output_path : option string) (circular_buffer_size_in_mb : Z)
    (providers : option (list EventPipeProviderConfiguration)) (providers_len : Z)
    (session_type : EventPipeSessionType) (format : Z) (rundown_keyword : Z)
    (stackwalk_requested : bool) (stream sync_callback callback_additional_data : option Z)
    (user_events_data_fd : Z) : EventPipeSessionOptions :=
  {| output_path := output_path;
     circular_buffer_size_in_mb := circular_buffer_size_in_mb;
     providers := providers;
     providers_len := providers_len;
     session_type := session_type;
     format := format;
     rundown_keyword := rundown_keyword;
     stackwalk_requested := stackwalk_requested;
     stream := stream;
     sync_callback := sync_callback;
     callback_additional_data := callback_additional_data;
     user_events_data_fd := user_events_data_fd |}.

(** Modelled from the spec: the EventPipeSession object of ep-session.h,
    reduced to what ep.c reads through the accessors ep_session_get_index,
    ep_session_get_rundown_keyword, ep_session_get_providers and the field
    session_type; [ref_count] is the reference count that
    ep_session_dec_ref releases. *)
Record EventPipeSession := {
  ep_session_get_index : nat;
  ep_session_get_session_type : EventPipeSessionType;
  ep_session_get_rundown_keyword : Z;
  ep_session_get_providers : list EventPipeProviderConfiguration;
  ref_count : Z
}.

(** Modelled from the spec: ep_session_get_mask of ep-session.h, the one
    bit of allow_write that belongs to the slot of the session. *)
Definition ep_session_get_mask (session : EventPipeSession) : Z :=
  Z.shiftl 1 (Z.of_nat (ep_session_get_index session)).

Record EventPipeExecutionCheckpoint := {
  checkpoint_name : option string;
  checkpoint_timestamp : Z
}.

(** Calls that leave ep.c, stores to the volatile globals and failed
    assertions, in program order. Pointers are addresses, 0 is NULL. *)
Inductive Event :=
  | Call_ep_rt_init
  | Call_ep_thread_init
  | Call_ep_config_init
  | Call_ep_event_source_init
  | Call_ep_rt_init_providers_and_events
  | Call_ep_sample_profiler_set_sampling_rate (nanoseconds : Z)
  | Call_ep_session_alloc (result : Z)
  | Call_ep_provider_callback_data_queue_init
  | Call_ep_sample_profiler_init
  | Call_ep_sample_profiler_enable
  | Call_ep_sample_profiler_disable
  | Call_ep_sample_profiler_can_start_sampling
  | Call_ep_event_source_enable (session : Z)
  | Call_log_process_info_event
  | Call_config_enable_disable (session : Z) (enable : bool)
  | Call_ep_session_disable (session : Z)
  | Call_ep_session_enable_rundown (session : Z)
  | Call_ep_thread_get_or_create (result : Z)
  | Call_ep_thread_set_as_rundown_thread (thread session : Z)
  | Call_ep_session_execute_rundown
      (session : Z) (checkpoints : option (list EventPipeExecutionCheckpoint))
  | Call_ep_session_suspend_write_event (session : Z)
  | Call_ep_session_write_all_buffers_to_file (session : Z)
  | Call_ep_session_write_sequence_point_unbuffered (session : Z)
  | Call_ep_session_dec_ref (session : Z)
  | Call_ep_session_start_streaming (session : Z)
  | Call_ep_rt_thread_setup
  | Call_ep_rt_init_finish
  | Call_provider_invoke_callback (callback_data : Z)
  | Store_allow_write (value : Z)
  | Store_session (index : nat) (session : Z)
  | Store_number_of_sessions (value : Z)
  | Assert_failed (message : string).

(** The globals of ep.c, the session objects that are allocated, and the
    trace. *)
Record EventPipe := {
  _ep_state : EventPipeState;
  _ep_number_of_sessions : Z;
  _ep_sessions : list Z;
  _ep_allow_write : Z;
  _ep_can_start_threads : bool;
  _ep_deferred_enable_session_ids : option (list Z);
  _ep_deferred_disable_session_ids : option (list Z);
  _ep_ipc_stream_factory_suspended_ports_callback : bool;
  _ep_rundown_execution_checkpoints : option (list EventPipeExecutionCheckpoint);
  heap : gmap Z EventPipeSession;
  trace : list Event
}.

(** What the collaborators answer: results of calls whose code is outside
    ep.c. *)
Record Oracle := {
  ep_session_alloc_result : Z;
  ep_session_is_valid : bool;
  ep_event_source_enable_result : bool;
  ep_thread_get_or_create_result : Z;
  config_enable_disable_callbacks : Z → bool → list Z;
  suspended_ports_callback_result : bool;
  ep_rt_providers_validate_all_disabled : bool;
  ep_rt_config_value_get_enable : bool;
  ep_rt_config_value_get_config : option string;
  ep_rt_config_value_get_output_path : option string;
  ep_rt_config_value_get_circular_mb : Z;
  ep_rt_config_value_get_output_streaming : bool;
  ep_rt_current_process_get_id : Z
}.

Definition ep_default_rundown_keyword : Z := 0x80020139.

Section FieldUpdates.
Implicit Type s : EventPipe.

Definition set_state (v : EventPipeState) s : EventPipe :=
  {| _ep_state := v;
     _ep_number_of_sessions := _ep_number_of_sessions s;
     _ep_sessions := _ep_sessions s;
     _ep_allow_write := _ep_allow_write s;
     _ep_can_start_threads := _ep_can_start_threads s;
     _ep_deferred_enable_session_ids := _ep_deferred_enable_session_ids s;
     _ep_deferred_disable_session_ids := _ep_deferred_disable_session_ids s;
     _ep_ipc_stream_factory_suspended_ports_callback :=
       _ep_ipc_stream_factory_suspended_ports_callback s;
     _ep_rundown_execution_checkpoints := _ep_rundown_execution_checkpoints s;
     heap := heap s;
     trace := trace s |}.

Definition set_number_of_sessions (v : Z) s : EventPipe :=
  {| _ep_state := _ep_state s;
     _ep_number_of_sessions := v;
     _ep_sessions := _ep_sessions s;
     _ep_allow_write := _ep_allow_write s;
     _ep_can_start_threads := _ep_can_start_threads s;
     _ep_deferred_enable_session_ids := _ep_deferred_enable_session_ids s;
     _ep_deferred_disable_session_ids := _ep_deferred_disable_session_ids s;
     _ep_ipc_stream_factory_suspended_ports_callback :=
       _ep_ipc_stream_factory_suspended_ports_callback s;
     _ep_rundown_execution_checkpoints := _ep_rundown_execution_checkpoints s;
     heap := heap s;
     trace := trace s |}.

Definition set_sessions (v : list Z) s : EventPipe :=
  {| _ep_state := _ep_state s;
     _ep_number_of_sessions := _ep_number_of_sessions s;
     _ep_sessions := v;
     _ep_allow_write := _ep_allow_write s;
     _ep_can_start_threads := _ep_can_start_threads s;
     _ep_deferred_enable_session_ids := _ep_deferred_enable_session_ids s;
     _ep_deferred_disable_session_ids := _ep_deferred_disable_session_ids s;
     _ep_ipc_stream_factory_suspended_ports_callback :=
       _ep_ipc_stream_factory_suspended_ports_callback s;
     _ep_rundown_execution_checkpoints := _ep_rundown_execution_checkpoints s;
     heap := heap s;
     trace := trace s |}.

Definition set_allow_write (v : Z) s : EventPipe :=
  {| _ep_state := _ep_state s;
     _ep_number_of_sessions := _ep_number_of_sessions s;
     _ep_sessions := _ep_sessions s;
     _ep_allow_write := v;
     _ep_can_start_threads := _ep_can_start_threads s;
     _ep_deferred_enable_session_ids := _ep_deferred_enable_session_ids s;
     _ep_deferred_disable_session_ids := _ep_deferred_disable_session_ids s;
     _ep_ipc_stream_factory_suspended_ports_callback :=
       _ep_ipc_stream_factory_suspended_ports_callback s;
     _ep_rundown_execution_checkpoints := _ep_rundown_execution_checkpoints s;
     heap := heap s;
     trace := trace s |}.

Definition set_can_start_threads (v : bool) s : EventPipe :=
  {| _ep_state := _ep_state s;
     _ep_number_of_sessions := _ep_number_of_sessions s;
     _ep_sessions := _ep_sessions s;
     _ep_allow_write := _ep_allow_write s;
     _ep_can_start_threads := v;
     _ep_deferred_enable_session_ids := _ep_deferred_enable_session_ids s;
     _ep_deferred_disable_session_ids := _ep_deferred_disable_session_ids s;
     _ep_ipc_stream_factory_suspended_ports_callback :=
       _ep_ipc_stream_factory_suspended_ports_callback s;
     _ep_rundown_execution_checkpoints := _ep_rundown_execution_checkpoints s;
     heap := heap s;
     trace := trace s |}.

Definition set_deferred_enable_session_ids (v : option (list Z)) s : EventPipe :=
  {| _ep_state := _ep_state s;
     _ep_number_of_sessions := _ep_number_of_sessions s;
     _ep_sessions := _ep_sessions s;
     _ep_allow_write := _ep_allow_write s;
     _ep_can_start_threads := _ep_can_start_threads s;
     _ep_deferred_enable_session_ids := v;
     _ep_deferred_disable_session_ids := _ep_deferred_disable_session_ids s;
     _ep_ipc_stream_factory_suspended_ports_callback :=
       _ep_ipc_stream_factory_suspended_ports_callback s;
     _ep_rundown_execution_checkpoints := _ep_rundown_execution_checkpoints s;
     heap := heap s;
     trace := trace s |}.

Definition set_deferred_disable_session_ids (v : option (list Z)) s : EventPipe :=
  {| _ep_state := _ep_state s;
     _ep_number_of_sessions := _ep_number_of_sessions s;
     _ep_sessions := _ep_sessions s;
     _ep_allow_write := _ep_allow_write s;
     _ep_can_start_threads := _ep_can_start_threads s;
     _ep_deferred_enable_session_ids := _ep_deferred_enable_session_ids s;
     _ep_deferred_disable_session_ids := v;
     _ep_ipc_stream_factory_suspended_ports_callback :=
       _ep_ipc_stream_factory_suspended_ports_callback s;
     _ep_rundown_execution_checkpoints := _ep_rundown_execution_checkpoints s;
     heap := heap s;
     trace := trace s |}.

Definition set_ipc_stream_factory_suspended_ports_callback (v : bool) s : EventPipe :=
  {| _ep_state := _ep_state s;
     _ep_number_of_sessions := _ep_number_of_sessions s;
     _ep_sessions := _ep_sessions s;
     _ep_allow_write := _ep_allow_write s;
     _ep_can_start_threads := _ep_can_start_threads s;
     _ep_deferred_enable_session_ids := _ep_deferred_enable_session_ids s;
     _ep_deferred_disable_session_ids := _ep_deferred_disable_session_ids s;
     _ep_ipc_stream_factory_suspended_ports_callback := v;
     _ep_rundown_execution_checkpoints := _ep_rundown_execution_checkpoints s;
     heap := heap s;
     trace := trace s |}.

Definition set_rundown_execution_checkpoints
    (v : option (list EventPipeExecutionCheckpoint)) s : EventPipe :=
  {| _ep_state := _ep_state s;
     _ep_number_of_sessions := _ep_number_of_sessions s;
     _ep_sessions := _ep_sessions s;
     _ep_allow_write := _ep_allow_write s;
     _ep_can_start_threads := _ep_can_start_threads s;
     _ep_deferred_enable_session_ids := _ep_deferred_enable_session_ids s;
     _ep_deferred_disable_session_ids := _ep_deferred_disable_session_ids s;
     _ep_ipc_stream_factory_suspended_ports_callback :=
       _ep_ipc_stream_factory_suspended_ports_callback s;
     _ep_rundown_execution_checkpoints := v;
     heap := heap s;
     trace := trace s |}.

Definition set_heap (v : gmap Z EventPipeSession) s : EventPipe :=
  {| _ep_state := _ep_state s;
     _ep_number_of_sessions := _ep_number_of_sessions s;
     _ep_sessions := _ep_sessions s;
     _ep_allow_write := _ep_allow_write s;
     _ep_can_start_threads := _ep_can_start_threads s;
     _ep_deferred_enable_session_ids := _ep_deferred_enable_session_ids s;
     _ep_deferred_disable_session_ids := _ep_deferred_disable_session_ids s;
     _ep_ipc_stream_factory_suspended_ports_callback :=
       _ep_ipc_stream_factory_suspended_ports_callback s;
     _ep_rundown_execution_checkpoints := _ep_rundown_execution_checkpoints s;
     heap := v;
     trace := trace s |}.

(** Appends one event to the trace. *)
Definition log (e : Event) s : EventPipe :=
  {| _ep_state := _ep_state s;
     _ep_number_of_sessions := _ep_number_of_sessions s;
     _ep_sessions := _ep_sessions s;
     _ep_allow_write := _ep_allow_write s;
     _ep_can_start_threads := _ep_can_start_threads s;
     _ep_deferred_enable_session_ids := _ep_deferred_enable_session_ids s;
     _ep_deferred_disable_session_ids := _ep_deferred_disable_session_ids s;
     _ep_ipc_stream_factory_suspended_ports_callback :=
       _ep_ipc_stream_factory_suspended_ports_callback s;
     _ep_rundown_execution_checkpoints := _ep_rundown_execution_checkpoints s;
     heap := heap s;
     trace := trace s ++ [e] |}.

End FieldUpdates.

Section Operations.
Context {rt : Runtime}.
Implicit Type s : EventPipe.
Implicit Type o : Oracle.

(** A debug assertion: a failure is recorded and execution goes on, as in
    a release build. *)
Definition EP_ASSERT (condition : bool) (message : string) s : EventPipe :=
  if condition then s else log (Assert_failed message) s.

(** *** Volatile accessors *)

(** Every call site passes an index below EP_MAX_NUMBER_OF_SESSIONS. *)
Definition ep_volatile_load_session (i : nat) s : Z :=
  default 0 (_ep_sessions s !! i).

Definition ep_volatile_store_session (i : nat) (session : Z) s : EventPipe :=
  log (Store_session i session) (set_sessions (<[i := session]> (_ep_sessions s)) s).

Definition ep_volatile_store_allow_write (v : Z) s : EventPipe :=
  log (Store_allow_write v) (set_allow_write v s).

Definition ep_volatile_store_number_of_sessions (v : Z) s : EventPipe :=
  log (Store_number_of_sessions v) (set_number_of_sessions v s).

(** *** Collaborators *)

(** Modelled from the spec: ep_session_alloc of ep-session.c. The address
    comes from the allocator; the new object carries the slot index and
    the options it was built from and holds one reference. *)
Definition ep_session_alloc o (index : nat) (options : EventPipeSessionOptions) s
  : option (Z * EventPipeSession) * EventPipe :=
  let p := ep_session_alloc_result o in
  let s := log (Call_ep_session_alloc p) s in
  if p =? 0 then (None, s)
  else
    let obj := {| ep_session_get_index := index;
                  ep_session_get_session_type := session_type options;
                  ep_session_get_rundown_keyword := rundown_keyword options;
                  ep_session_get_providers := default [] (providers options);
                  ref_count := 1 |} in
    (Some (p, obj), set_heap (<[p := obj]> (heap s)) s).

(** Modelled from the spec: ep_session_dec_ref of ep-session.c, which
    releases one reference and frees the object with the last one; a null
    session is ignored. *)
Definition ep_session_dec_ref (session : Z) s : EventPipe :=
  if session =? 0 then s
  else
    let s := log (Call_ep_session_dec_ref session) s in
    match heap s !! session with
    | Some obj =>
        if ref_count obj - 1 <=? 0 then set_heap (delete session (heap s)) s
        else set_heap (<[session :=
               {| ep_session_get_index := ep_session_get_index obj;
                  ep_session_get_session_type := ep_session_get_session_type obj;
                  ep_session_get_rundown_keyword := ep_session_get_rundown_keyword obj;
                  ep_session_get_providers := ep_session_get_providers obj;
                  ref_count := ref_count obj - 1 |}]> (heap s)) s
    | None => s
    end.

(** config_enable_disable of ep-config.c appends the provider callbacks it
    collects to the queue of the caller. *)
Definition config_enable_disable o (session : Z) (queue : list Z) (enable : bool) s
  : list Z * EventPipe :=
  (queue ++ config_enable_disable_callbacks o session enable,
   log (Call_config_enable_disable session enable) s).

Definition session_requested_sampling (session : EventPipeSession) : bool :=
  existsb
    (λ p, bool_decide
            (provider_name p = Some ep_config_get_sample_profiler_provider_name_utf8))
    (ep_session_get_providers session).

Definition ipc_stream_factory_any_suspended_ports o s : bool :=
  if _ep_ipc_stream_factory_suspended_ports_callback s
  then suspended_ports_callback_result o
  else false.

(** *** Static functions of ep.c *)

Definition state_ge_initialized (st : EventPipeState) : bool :=
  match st with
  | EP_STATE_NOT_INITIALIZED => false
  | _ => true
  end.

Definition enabled s : bool :=
  state_ge_initialized (_ep_state s) && (0 <? _ep_number_of_sessions s).

(** The loop of generate_session_index from index [i] on, [n] slots left. *)
Fixpoint generate_session_index_from (n i : nat) s : nat :=
  match n with
  | O => EP_MAX_NUMBER_OF_SESSIONS
  | S n' =>
      if ep_volatile_load_session i s =? 0 then i
      else generate_session_index_from n' (S i) s
  end.

Definition generate_session_index s : nat :=
  generate_session_index_from EP_MAX_NUMBER_OF_SESSIONS 0 s.

(** The loop of is_session_id_in_collection: the first slot that holds
    the pointer. *)
Fixpoint find_session_from (n i : nat) (session : Z) s : option nat :=
  match n with
  | O => None
  | S n' =>
      if ep_volatile_load_session i s =? session then Some i
      else find_session_from n' (S i) session s
  end.

Definition is_session_id_in_collection (session_id : Z) s : bool * EventPipe :=
  let s := EP_ASSERT (negb (session_id =? 0)) "session_id != 0" s in
  match find_session_from EP_MAX_NUMBER_OF_SESSIONS 0 session_id s with
  | Some i =>
      (true,
       EP_ASSERT
         (match heap s !! session_id with
          | Some session => bool_decide (i = ep_session_get_index session)
          | None => false
          end) "i == ep_session_get_index (session)" s)
  | None => (false, s)
  end.

Definition check_options_valid (options : EventPipeSessionOptions) : bool :=
  if EP_SERIALIZATION_FORMAT_COUNT <=? format options then false
  else if (circular_buffer_size_in_mb options <=? 0)
          && ep_session_type_uses_buffer_manager (session_type options) then false
  else if is_null (providers options) || (providers_len options <=? 0) then false
  else if (bool_decide (session_type options = EP_SESSION_TYPE_FILE)
           || bool_decide (session_type options = EP_SESSION_TYPE_FILESTREAM))
          && is_null (output_path options) then false
  else if bool_decide (session_type options = EP_SESSION_TYPE_IPCSTREAM)
          && is_null (stream options) then false
  else if bool_decide (session_type options = EP_SESSION_TYPE_USEREVENTS)
          && (user_events_data_fd options =? -1) then false
  else true.

(** The error exit of [enable]: the session, if any, is released and the
    id is zero. *)
Definition enable_on_error (session : Z) (queue : list Z) s : Z * list Z * EventPipe :=
  (0, queue, ep_session_dec_ref session s).

Definition enable o (options : EventPipeSessionOptions) (queue : list Z) s
  : Z * list Z * EventPipe :=
  let s := EP_ASSERT (format options <? EP_SERIALIZATION_FORMAT_COUNT)
             "options->format < EP_SERIALIZATION_FORMAT_COUNT" s in
  let s := EP_ASSERT (negb (ep_session_type_uses_buffer_manager (session_type options))
                      || (0 <? circular_buffer_size_in_mb options))
             "circular_buffer_size_in_mb > 0" s in
  let s := EP_ASSERT ((0 <? providers_len options)
                      && negb (is_null (providers options)))
             "providers_len > 0 && providers != NULL" s in
  if negb (bool_decide (_ep_state s = EP_STATE_INITIALIZED)) then enable_on_error 0 queue s
  else
    let session_index := generate_session_index s in
    if negb (session_index <? EP_MAX_NUMBER_OF_SESSIONS)%nat then enable_on_error 0 queue s
    else
      match ep_session_alloc o session_index options s with
      | (None, s) => enable_on_error 0 queue s
      | (Some (session, obj), s) =>
          if negb (ep_session_is_valid o) then enable_on_error session queue s
          else if (EP_MAX_NUMBER_OF_SESSIONS <=? ep_session_get_index obj)%nat then
            enable_on_error session queue
              (log (Assert_failed "Session index was out of range.") s)
          else if Z.of_nat EP_MAX_NUMBER_OF_SESSIONS <=? _ep_number_of_sessions s then
            enable_on_error session queue
              (log (Assert_failed "max number of sessions reached.") s)
          else
            let s := log Call_ep_sample_profiler_init s in
            let s := log (Call_ep_event_source_enable session) s in
            if negb (ep_event_source_enable_result o) then enable_on_error session queue s
            else if negb (ep_volatile_load_session (ep_session_get_index obj) s =? 0) then
              enable_on_error session queue
                (log (Assert_failed "Attempting to override an existing session.") s)
            else
              let s := ep_volatile_store_session (ep_session_get_index obj) session s in
              let s := ep_volatile_store_allow_write
                         (Z.lor (_ep_allow_write s) (ep_session_get_mask obj) mod 2 ^ 64) s in
              let s := ep_volatile_store_number_of_sessions
                         ((_ep_number_of_sessions s + 1) mod 2 ^ 32) s in
              let '(queue, s) := config_enable_disable o session queue true s in
              let s := if session_requested_sampling obj
                       then log Call_ep_sample_profiler_enable s else s in
              (session, queue, s)
      end.

(** The rundown block of disable_holding_lock. *)
Definition rundown o (id : Z) (queue : list Z) s : list Z * EventPipe :=
  let s := log (Call_ep_session_enable_rundown id) s in
  let thread := ep_thread_get_or_create_result o in
  let s := log (Call_ep_thread_get_or_create thread) s in
  if negb (thread =? 0) then
    let s := log (Call_ep_thread_set_as_rundown_thread thread id) s in
    let '(queue, s) := config_enable_disable o id queue true s in
    let s := log (Call_ep_session_execute_rundown id
                    (_ep_rundown_execution_checkpoints s)) s in
    let '(queue, s) := config_enable_disable o id queue false s in
    let s := log (Call_ep_thread_set_as_rundown_thread thread 0) s in
    (queue, s)
  else
    (queue,
     log (Assert_failed "Failed to get or create the EventPipeThread for rundown events.") s).

(** [None] is the dereference of a session pointer that is not an
    allocated session. *)
Definition disable_holding_lock o (id : Z) (queue : list Z) s
  : option (list Z * EventPipe) :=
  let s := EP_ASSERT (negb (id =? 0)) "id != 0" s in
  let s := EP_ASSERT (0 <? _ep_number_of_sessions s)
             "ep_volatile_load_number_of_sessions () > 0" s in
  let '(found, s) := is_session_id_in_collection id s in
  if found then
    session ← heap s !! id;
    let s := if session_requested_sampling session
             then log Call_ep_sample_profiler_disable s else s in
    let s := log Call_log_process_info_event s in
    let '(queue, s) := config_enable_disable o id queue false s in
    let s := log (Call_ep_session_disable id) s in
    let '(queue, s) :=
      if negb (ep_session_get_rundown_keyword session =? 0) && _ep_can_start_threads s
      then rundown o id queue s else (queue, s) in
    let s := ep_volatile_store_allow_write
               (Z.land (_ep_allow_write s)
                       (Z.lnot (ep_session_get_mask session) mod 2 ^ 64)) s in
    let s := EP_ASSERT
               (ep_volatile_load_session (ep_session_get_index session) s =? id)
               "ep_volatile_load_session (ep_session_get_index (session)) == session" s in
    let s := ep_volatile_store_session (ep_session_get_index session) 0 s in
    let s := log (Call_ep_session_suspend_write_event id) s in
    let s := log (Call_ep_session_write_all_buffers_to_file id) s in
    let s := ep_volatile_store_number_of_sessions
               ((_ep_number_of_sessions s - 1) mod 2 ^ 32) s in
    let s := log (Call_ep_session_write_sequence_point_unbuffered id) s in
    let s := ep_session_dec_ref id s in
    Some (queue, s)
  else Some (queue, s).

(** Dequeues and invokes the queued provider callbacks in order. *)
Definition invoke_callbacks (queue : list Z) s : EventPipe :=
  foldl (λ s c, log (Call_provider_invoke_callback c) s) s queue.

Definition disable_helper o (id : Z) s : option EventPipe :=
  let s := if _ep_can_start_threads s then log Call_ep_rt_thread_setup s else s in
  if id =? 0 then Some s
  else
    let s := log Call_ep_provider_callback_data_queue_init s in
    '(queue, s) ← (if 0 <? _ep_number_of_sessions s
                   then disable_holding_lock o id [] s
                   else Some ([], s));
    let s := invoke_callbacks queue s in
    let s := if (_ep_number_of_sessions s =? 0)
                && negb (bool_decide (_ep_state s = EP_STATE_SHUTTING_DOWN))
             then EP_ASSERT (ep_rt_providers_validate_all_disabled o)
                    "ep_rt_providers_validate_all_disabled ()" s
             else s in
    Some s.

(** *** Public functions *)

Definition ep_enable_3 o (options : EventPipeSessionOptions) s : Z * EventPipe :=
  if negb (check_options_valid options) then (0, s)
  else
    let s := log Call_ep_provider_callback_data_queue_init s in
    let '(session_id, queue, s) := enable o options [] s in
    (session_id, invoke_callbacks queue s).

Definition ep_enable o
    (output_path : option string) (circular_buffer_size_in_mb : Z)
    (providers : option (list EventPipeProviderConfiguration)) (providers_len : Z)
    (session_type : EventPipeSessionType) (format : Z) (rundown_keyword : Z)
    (stream sync_callback callback_additional_data : option Z) s : Z * EventPipe :=
  ep_enable_3 o
    (ep_session_options_init output_path circular_buffer_size_in_mb providers
       providers_len session_type format rundown_keyword true stream sync_callback
       callback_additional_data 0) s.

(** What the parsing loop of ep_enable_2 leaves in the trace: every spec
    that is read without the raised error is handed to
    ep_provider_config_init, whose assertion on provider_name fails for a
    spec without a name (one that starts at a comma). The loop is the one
    of [parse_providers], run on the same fuel; it ends with the string,
    with a spec that takes the string to its end, or with the raised
    error, and the specs before that have been initialised. *)
Fixpoint parse_providers_asserts (fuel : nat) (p : string) s : EventPipe :=
  match fuel with
  | O => s
  | S fuel' =>
      if bool_decide (CStr.deref p = CStr.NUL) then s
      else
        match parse_provider p with
        | None => s
        | Some (provider_config, q) =>
            let s := EP_ASSERT (negb (is_null (provider_name provider_config)))
                       "provider_name != NULL" s in
            match q with
            | None => s
            | Some q => parse_providers_asserts fuel' (skip_one (skip_to_comma q)) s
            end
        end
  end.

(** The three default providers carry names, so only a configuration
    that is parsed can fail the assertion. *)
Definition providers_of_config_asserts (providers_config : option string) s
  : EventPipe :=
  match providers_config with
  | None => s
  | Some cfg =>
      if bool_decide (CStr.deref cfg = CStr.NUL) then s
      else parse_providers_asserts (S (String.length cfg)) cfg s
  end.

Definition ep_enable_2 o
    (output_path : option string) (circular_buffer_size_in_mb : Z)
    (providers_config : option string)
    (session_type : EventPipeSessionType) (format : Z) (rundown_keyword : Z)
    (stream sync_callback callback_additional_data : option Z) s : Z * EventPipe :=
  let s := providers_of_config_asserts providers_config s in
  match providers_of_config providers_config with
  | Some (providers, providers_len) =>
      ep_enable o output_path circular_buffer_size_in_mb (Some providers) providers_len
        session_type format rundown_keyword stream sync_callback
        callback_additional_data s
  | None => (0, s)
  end.

(** [None] is a push onto a deferred queue that was never allocated. *)
Definition ep_disable o (id : Z) s : option EventPipe :=
  if negb (_ep_can_start_threads s) && negb (ipc_stream_factory_any_suspended_ports o s)
  then
    ids ← _ep_deferred_disable_session_ids s;
    Some (set_deferred_disable_session_ids (Some (ids ++ [id])) s)
  else disable_helper o id s.

Definition ep_start_streaming (session_id : Z) s : option EventPipe :=
  let '(found, s) := is_session_id_in_collection session_id s in
  if found then
    if _ep_can_start_threads s
    then Some (log (Call_ep_session_start_streaming session_id) s)
    else
      ids ← _ep_deferred_enable_session_ids s;
      Some (set_deferred_enable_session_ids (Some (ids ++ [session_id])) s)
  else Some s.

Definition ep_is_session_enabled (session_id : Z) s : option bool :=
  if session_id =? 0 then Some false
  else
    session ← heap s !! session_id;
    Some (negb (ep_volatile_load_session (ep_session_get_index session) s =? 0)).

(** The replay of the deferred-enable queue in ep_finish_init. *)
Definition start_deferred_sessions (ids : list Z) s : EventPipe :=
  foldl (λ s session_id,
           let '(found, s) := is_session_id_in_collection session_id s in
           if found then log (Call_ep_session_start_streaming session_id) s else s)
        s ids.

(** The replay of the deferred-disable queue in ep_finish_init. *)
Definition disable_deferred_sessions o (ids : list Z) s : option EventPipe :=
  foldl (λ r session_id, r ≫= disable_helper o session_id) (Some s) ids.

Definition ep_finish_init o s : option EventPipe :=
  let s := log Call_ep_rt_init_finish s in
  let s := set_can_start_threads true s in
  let s :=
    if bool_decide (_ep_state s = EP_STATE_INITIALIZED) then
      match _ep_deferred_enable_session_ids s with
      | Some ids =>
          set_deferred_enable_session_ids (Some []) (start_deferred_sessions ids s)
      | None => s
      end
    else s in
  let s := log Call_ep_sample_profiler_can_start_sampling s in
  if bool_decide (_ep_state s = EP_STATE_INITIALIZED) then
    match _ep_deferred_disable_session_ids s with
    | Some ids =>
        s ← disable_deferred_sessions o ids s;
        Some (set_deferred_disable_session_ids (Some []) s)
    | None => Some s
    end
  else Some s.

(** The output path that enable_default_session_via_env_variables hands
    to ep_enable_2: the configured template with the pid replaced, or
    the default name. *)
Definition default_session_output_path o : option string :=
  let ep_config_output_path := ep_rt_config_value_get_output_path o in
  let pidStr := pid_string (ep_rt_current_process_get_id o) in
  match replace_pid_loop
          (S (String.length (default "" ep_config_output_path)))
          ep_config_output_path pidStr with
  | Some (Some path) => Some path
  | Some None => Some "trace.nettrace"
  | None => None
  end.

(** [None] is the replacement loop not coming to an end. *)
Definition enable_default_session_via_env_variables o s : option EventPipe :=
  if ep_rt_config_value_get_enable o then
    output_path ← default_session_output_path o;
    let ep_circular_mb := ep_rt_config_value_get_circular_mb o in
    let ep_circular_mb := if 0 <? ep_circular_mb then ep_circular_mb else 1 in
    let '(session_id, s) :=
      ep_enable_2 o (Some output_path) ep_circular_mb (ep_rt_config_value_get_config o)
        (if ep_rt_config_value_get_output_streaming o
         then EP_SESSION_TYPE_FILESTREAM else EP_SESSION_TYPE_FILE)
        EP_SERIALIZATION_FORMAT_NETTRACE_V4 ep_default_rundown_keyword
        None None None s in
    if negb (session_id =? 0) then ep_start_streaming session_id s else Some s
  else Some s.

(** The loop of ep_init that stores NULL into the slots from index [i]
    on, [n] slots left. *)
Fixpoint clear_sessions_from (n i : nat) s : EventPipe :=
  match n with
  | O => s
  | S n' => clear_sessions_from n' (S i) (ep_volatile_store_session i 0 s)
  end.

(** [enable_ids_allocated], [disable_ids_allocated] and
    [checkpoints_allocated] tell whether the two calls of
    dn_vector_alloc_t and the call of dn_vector_ptr_alloc returned a
    vector. A failed allocation leaves through ep_on_error, whose
    handler goes on at ep_on_exit as in [enable]: what was stored so far
    stays, the state is still EP_STATE_NOT_INITIALIZED and the default
    session is not looked at. *)
Definition ep_init o
    (enable_ids_allocated disable_ids_allocated checkpoints_allocated : bool) s
  : option EventPipe :=
  let s := log Call_ep_rt_init s in
  if negb (bool_decide (_ep_state s = EP_STATE_NOT_INITIALIZED)) then
    Some (log (Assert_failed "EventPipe already initialized.") s)
  else
    let s := log Call_ep_thread_init s in
    let s := clear_sessions_from EP_MAX_NUMBER_OF_SESSIONS 0 s in
    let s := log Call_ep_config_init s in
    let s := log Call_ep_event_source_init s in
    let s := log Call_ep_rt_init_providers_and_events s in
    let s := log (Call_ep_sample_profiler_set_sampling_rate
                    (if PERFTRACING_DISABLE_THREADS then 5000000 else 1000000)) s in
    let s := set_deferred_enable_session_ids
               (if enable_ids_allocated then Some [] else None) s in
    let s := set_deferred_disable_session_ids
               (if disable_ids_allocated then Some [] else None) s in
    if negb (enable_ids_allocated && disable_ids_allocated) then Some s
    else
      let s := set_rundown_execution_checkpoints
                 (if checkpoints_allocated then Some [] else None) s in
      if negb checkpoints_allocated then Some s
      else
        let s := set_state EP_STATE_INITIALIZED s in
        enable_default_session_via_env_variables o s.

(** Installs the callback that reports suspended diagnostic ports, or
    removes it when called with NULL. *)
Definition ep_ipc_stream_factory_callback_set (suspended_ports_callback : bool) s
  : EventPipe :=
  set_ipc_stream_factory_suspended_ports_callback suspended_ports_callback s.

(** The globals as their initialisers leave them. *)
Definition initial_state : EventPipe :=
  {| _ep_state := EP_STATE_NOT_INITIALIZED;
     _ep_number_of_sessions := 0;
     _ep_sessions := replicate EP_MAX_NUMBER_OF_SESSIONS 0;
     _ep_allow_write := 0;
     _ep_can_start_threads := false;
     _ep_deferred_enable_session_ids := None;
     _ep_deferred_disable_session_ids := None;
     _ep_ipc_stream_factory_suspended_ports_callback := false;
     _ep_rundown_execution_checkpoints := None;
     heap := ∅;
     trace := [] |}.

End Operations.

(** ** Look-up, checkpoints and shutdown *)

Section Lifecycle.
Context {rt : Runtime}.
Implicit Type s : EventPipe.
Implicit Type o : Oracle.

(** ep_enabled: the test of [enabled], taken without the lock. *)
Definition ep_enabled s : bool :=
  state_ge_initialized (_ep_state s) && (0 <? _ep_number_of_sessions s).

(** The session pointer for an id that is in the registry, NULL (0)
    otherwise and before the engine is initialised. *)
Definition ep_get_session (session_id : Z) s : Z * EventPipe :=
  if bool_decide (_ep_state s = EP_STATE_NOT_INITIALIZED) then
    (0, log (Assert_failed
               "EventPipe::GetSession invoked before EventPipe was initialized.") s)
  else
    let '(found, s) := is_session_id_in_collection session_id s in
    if found then (session_id, s) else (0, s).

(** [allocated] tells whether ep_rt_object_alloc returned an object. *)
Definition ep_execution_checkpoint_alloc
    (allocated : bool) (name : option string) (timestamp : Z)
  : option EventPipeExecutionCheckpoint :=
  if allocated
  then Some {| checkpoint_name := name; checkpoint_timestamp := timestamp |}
  else None.

(** [pushed] is the result of dn_vector_ptr_push_back; [None] is a push
    onto a checkpoint list that was never allocated. *)
Definition ep_add_rundown_execution_checkpoint
    (allocated pushed : bool) (name : option string) (timestamp : Z) s
  : option (bool * EventPipe) :=
  match ep_execution_checkpoint_alloc allocated name timestamp with
  | None => Some (false, s)
  | Some exec_checkpoint =>
      checkpoints ← _ep_rundown_execution_checkpoints s;
      if pushed
      then Some (true, set_rundown_execution_checkpoints
                         (Some (checkpoints ++ [exec_checkpoint])) s)
      else Some (false, s)
  end.

(** The loop of ep_shutdown over the slots from index [i] on, [n] slots
    left: every session that is not a listener is disabled. [None] is the
    read of the type of a session that is not allocated. *)
Fixpoint shutdown_sessions o (n i : nat) s : option EventPipe :=
  match n with
  | O => Some s
  | S n' =>
      let session := ep_volatile_load_session i s in
      s ← (if negb (session =? 0) then
             obj ← heap s !! session;
             if negb (bool_decide
                        (ep_session_get_session_type obj = EP_SESSION_TYPE_LISTENER))
             then ep_disable o session s
             else Some s
           else Some s);
      shutdown_sessions o n' (S i) s
  end.

(** [ep_rt_process_detach] is the answer of the runtime; the boolean of
    the result tells whether control reached the exit label, where
    ep_rt_shutdown is called. *)
Definition ep_shutdown o (ep_rt_process_detach : bool) s : option (bool * EventPipe) :=
  if bool_decide (_ep_state s = EP_STATE_SHUTTING_DOWN) then Some (false, s)
  else if ep_rt_process_detach then Some (false, s)
  else if negb (bool_decide (_ep_state s = EP_STATE_INITIALIZED)) then Some (false, s)
  else
    let s := set_state EP_STATE_SHUTTING_DOWN s in
    s ← shutdown_sessions o EP_MAX_NUMBER_OF_SESSIONS 0 s;
    let s := if is_null (_ep_rundown_execution_checkpoints s) then s
             else set_rundown_execution_checkpoints None s in
    let s := set_deferred_enable_session_ids None s in
    let s := set_deferred_disable_session_ids None s in
    Some (true, s).

End Lifecycle.

(** ** Event dispatch *)

(** write_event_2 stores to none of the globals of ep.c, so what a writing
    thread does is collected apart from the trace of the state: the calls
    it makes and the assertions that fail, in program order. The registry
    is read as it stands, with no enable or disable running beside the
    writer. *)
Module Dispatch.

Inductive Event :=
  | Call_ep_thread_get_or_create (result : Z)
  | Call_ep_thread_set_session_write_in_progress (session_index : Z)
  | Call_ep_session_write_event
      (session thread ep_event payload activity_id related_activity_id
       event_thread stack : Z)
  | Assert_failed (message : string).

(** What the EventPipeThread of the caller and the payload answer. *)
Record Answers := {
  ep_thread_is_rundown_thread : bool;
  ep_thread_get_rundown_session : Z;
  ep_event_payload_get_flat_data : Z
}.

Definition EP_ASSERT (condition : bool) (message : string) : list Event :=
  if condition then [] else [Assert_failed message].

Section Write.
Context {rt : Runtime}.
Implicit Type s : EventPipe.

(** The fan-out loop from index [i] on, [n] slots left. *)
Fixpoint write_event_2_loop (n i : nat)
    (thread ep_event payload activity_id related_activity_id event_thread stack : Z) s
  : list Event :=
  match n with
  | O => []
  | S n' =>
      (if Z.land (_ep_allow_write s) (Z.shiftl 1 (Z.of_nat i)) =? 0 then []
       else
         [Call_ep_thread_set_session_write_in_progress (Z.of_nat i)]
         ++ (let session := ep_volatile_load_session i s in
             if negb (session =? 0)
             then [Call_ep_session_write_event session thread ep_event payload
                     activity_id related_activity_id event_thread stack]
             else [])
         ++ [Call_ep_thread_set_session_write_in_progress UINT32_MAX])
      ++ write_event_2_loop n' (S i) thread ep_event payload activity_id
           related_activity_id event_thread stack s
  end.

Definition write_event_2 (o : Oracle) (a : Answers)
    (thread ep_event payload activity_id related_activity_id event_thread stack : Z) s
  : list Event :=
  EP_ASSERT (negb (ep_event =? 0)) "ep_event != NULL"
  ++ EP_ASSERT (negb (payload =? 0)) "payload != NULL"
  ++ (if negb (state_ge_initialized (_ep_state s)) then []
      else
        let current_thread := ep_thread_get_or_create_result o in
        [Call_ep_thread_get_or_create current_thread]
        ++ (if current_thread =? 0
            then [Assert_failed "Failed to get or create an EventPipeThread."]
            else if ep_thread_is_rundown_thread a then
              let rundown_session := ep_thread_get_rundown_session a in
              EP_ASSERT (negb (rundown_session =? 0)) "rundown_session != NULL"
              ++ EP_ASSERT (negb (thread =? 0)) "thread != NULL"
              ++ (if negb (thread =? 0) && negb (rundown_session =? 0)
                     && negb (ep_event_payload_get_flat_data a =? 0)
                  then [Call_ep_session_write_event rundown_session thread ep_event
                          payload activity_id related_activity_id event_thread stack]
                  else [])
            else
              write_event_2_loop EP_MAX_NUMBER_OF_SESSIONS 0 thread ep_event payload
                activity_id related_activity_id event_thread stack s)).

(** The sessions an event was written to, in the order of the writes. *)
Definition written_sessions (t : list Event) : list Z :=
  omap (λ e, match e with
             | Call_ep_session_write_event session _ _ _ _ _ _ _ => Some session
             | _ => None
             end) t.

End Write.

End Dispatch.

(** ** Well-formed registries *)

Section Invariant.
Context {rt : Runtime}.

(** The session pointer is held by one of the registry slots. *)
Definition registered (session : Z) (s : EventPipe) : Prop :=
  ∃ i, (i < EP_MAX_NUMBER_OF_SESSIONS)%nat ∧ ep_volatile_load_session i s = session.

Definition live_sessions (s : EventPipe) : list Z :=
  filter (λ p, p ≠ 0) (_ep_sessions s).

(** The registry invariant that holds under the lock: the slot array has
    its declared size, which fits the 64-bit write mask; every non-null
    slot points at an allocated session whose index is the slot; and the
    session counter is the number of non-null slots. *)
Record registry_wf (s : EventPipe) : Prop := {
  wf_max : (EP_MAX_NUMBER_OF_SESSIONS ≤ 64)%nat;
  wf_length : length (_ep_sessions s) = EP_MAX_NUMBER_OF_SESSIONS;
  wf_slot : ∀ i p, _ep_sessions s !! i = Some p → p ≠ 0 →
            ∃ obj, heap s !! p = Some obj ∧ ep_session_get_index obj = i;
  wf_count : _ep_number_of_sessions s = Z.of_nat (length (live_sessions s))
}.

(** The globals of two states agree; heap and trace may differ. *)
Definition same_globals s s' : Prop :=
  _ep_state s' = _ep_state s
  ∧ _ep_number_of_sessions s' = _ep_number_of_sessions s
  ∧ _ep_sessions s' = _ep_sessions s
  ∧ _ep_allow_write s' = _ep_allow_write s
  ∧ _ep_can_start_threads s' = _ep_can_start_threads s
  ∧ _ep_deferred_enable_session_ids s' = _ep_deferred_enable_session_ids s
  ∧ _ep_deferred_disable_session_ids s' = _ep_deferred_disable_session_ids s
  ∧ _ep_ipc_stream_factory_suspended_ports_callback s'
    = _ep_ipc_stream_factory_suspended_ports_callback s
  ∧ _ep_rundown_execution_checkpoints s' = _ep_rundown_execution_checkpoints s.


(** The globals agree and so do the session objects other than the one
    at address [p]. *)
Definition frame (p : Z) (s s' : EventPipe) : Prop :=
  same_globals s s' ∧ ∀ x, x ≠ p → heap s' !! x = heap s !! x.

(** The events of the rundown block for a session. *)
Definition rundown_events o (id : Z)
    (checkpoints : option (list EventPipeExecutionCheckpoint)) : list Event :=
  let thread := ep_thread_get_or_create_result o in
  [Call_ep_session_enable_rundown id; Call_ep_thread_get_or_create thread]
  ++ (if negb (thread =? 0) then
        [Call_ep_thread_set_as_rundown_thread thread id;
         Call_config_enable_disable id true;
         Call_ep_session_execute_rundown id checkpoints;
         Call_config_enable_disable id false;
         Call_ep_thread_set_as_rundown_thread thread 0]
      else
        [Assert_failed "Failed to get or create the EventPipeThread for rundown events."]).


End Invariant.

(** ** The write mask and the registry *)

Section Mask.
Context {rt : Runtime}.

(** Bit [i] of _ep_allow_write is set exactly when slot [i] of the
    registry holds a session. *)
Definition allow_write_wf (s : EventPipe) : Prop :=
  ∀ i : nat,
    Z.testbit (_ep_allow_write s) (Z.of_nat i)
    = negb (ep_volatile_load_session i s =? 0).

(** What a writer does for the slots from index [i] on when it goes by
    the slots themselves: for every slot that holds a session it sets its
    marker to the index, writes the event to the session, and resets the
    marker. *)
Fixpoint fan_out (i : nat) (slots : list Z)
    (thread ep_event payload activity_id related_activity_id event_thread stack : Z)
  : list Dispatch.Event :=
  match slots with
  | [] => []
  | session :: slots' =>
      (if session =? 0 then []
       else [Dispatch.Call_ep_thread_set_session_write_in_progress (Z.of_nat i);
             Dispatch.Call_ep_session_write_event session thread ep_event payload
               activity_id related_activity_id event_thread stack;
             Dispatch.Call_ep_thread_set_session_write_in_progress UINT32_MAX])
      ++ fan_out (S i) slots' thread ep_event payload activity_id
           related_activity_id event_thread stack
  end.

(** The trace of [s'] is the trace of [s] with further events behind
    it. *)
Definition trace_extends (s s' : EventPipe) : Prop :=
  ∃ events, trace s' = trace s ++ events.

(** The session at [p] is allocated and is a listener. *)
Definition is_listener (h : gmap Z EventPipeSession) (p : Z) : bool :=
  match h !! p with
  | Some obj => bool_decide (ep_session_get_session_type obj = EP_SESSION_TYPE_LISTENER)
  | None => false
  end.

End Mask.

(** Provider names separated by commas, as a configuration string. *)
Fixpoint comma_separated (names : list string) : string :=
  match names with
  | [] => ""
  | [name] => name
  | name :: rest => name +:+ String "," (comma_separated rest)
  end.

(** Where a pointer stands relative to the provider spec that starts at
    [p]: it has not gone past the comma that ends the spec, and NULL means
    that the string ends with this spec. *)
Definition along (p : string) (x : option string) : Prop :=
  match x with
  | Some q => skip_to_comma q = skip_to_comma p
  | None => CStr.deref (skip_to_comma p) = CStr.NUL
  end.

(** The keyword mask as it is written in a configuration: hexadecimal
    digits, lower case, no prefix. *)
Definition keywords_text (k : N) : string :=
  HexadecimalString.NilZero.string_of_uint (N.to_hex_uint k).

(** The level as it is written in a configuration: decimal digits. *)
Definition level_text (l : N) : string :=
  DecimalString.NilZero.string_of_uint (N.to_uint l).

(** ** Concrete inputs *)

(** Collaborators that succeed, with [addr] as the next session address
    and no tracing requested through the environment. *)
Definition quiet_oracle (addr : Z) : Oracle :=
  {| ep_session_alloc_result := addr;
     ep_session_is_valid := true;
     ep_event_source_enable_result := true;
     ep_thread_get_or_create_result := 77;
     config_enable_disable_callbacks := λ _ _, [];
     suspended_ports_callback_result := false;
     ep_rt_providers_validate_all_disabled := true;
     ep_rt_config_value_get_enable := false;
     ep_rt_config_value_get_config := None;
     ep_rt_config_value_get_output_path := None;
     ep_rt_config_value_get_circular_mb := 0;
     ep_rt_config_value_get_output_streaming := false;
     ep_rt_current_process_get_id := 4242 |}.

(** The same collaborators, except that ep_thread_get_or_create returns
    no thread. *)
Definition no_thread_oracle : Oracle :=
  {| ep_session_alloc_result := 0;
     ep_session_is_valid := true;
     ep_event_source_enable_result := true;
     ep_thread_get_or_create_result := 0;
     config_enable_disable_callbacks := λ _ _, [];
     suspended_ports_callback_result := false;
     ep_rt_providers_validate_all_disabled := true;
     ep_rt_config_value_get_enable := false;
     ep_rt_config_value_get_config := None;
     ep_rt_config_value_get_output_path := None;
     ep_rt_config_value_get_circular_mb := 0;
     ep_rt_config_value_get_output_streaming := false;
     ep_rt_current_process_get_id := 4242 |}.

(** A listener session on one provider with the default rundown keyword. *)
Definition listener_options : EventPipeSessionOptions :=
  ep_session_options_init None 1
    (Some [ep_provider_config_init (Some "Foo") 0x10 3 None]) 1
    EP_SESSION_TYPE_LISTENER 1 ep_default_rundown_keyword true None None None 0.

(** The CoreCLR engine after ep_init, and after one session was enabled
    at address 1000. *)
Definition started : EventPipe :=
  Eval vm_compute in
  default (@initial_state coreclr)
    (@ep_init coreclr (quiet_oracle 0) true true true (@initial_state coreclr)).

Definition one_session : EventPipe :=
  Eval vm_compute in
  (@ep_enable_3 coreclr (quiet_oracle 1000) listener_options started).2.

(** The same engine once ep_finish_init has run. *)
Definition running : EventPipe :=
  Eval vm_compute in
  default one_session (@ep_finish_init coreclr (quiet_oracle 0) one_session).

(** The running engine after its session was disabled once. *)
Definition disabled_once : EventPipe :=
  Eval vm_compute in
  default running (@disable_helper coreclr (quiet_oracle 0) 1000 running).

(** One session enabled while the runtime is still suspended at start-up:
    the diagnostic server has installed its callback and reports a
    suspended port. *)
Definition suspended_oracle : Oracle :=
  {| ep_session_alloc_result := 0;
     ep_session_is_valid := true;
     ep_event_source_enable_result := true;
     ep_thread_get_or_create_result := 77;
     config_enable_disable_callbacks := λ _ _, [];
     suspended_ports_callback_result := true;
     ep_rt_providers_validate_all_disabled := true;
     ep_rt_config_value_get_enable := false;
     ep_rt_config_value_get_config := None;
     ep_rt_config_value_get_output_path := None;
     ep_rt_config_value_get_circular_mb := 0;
     ep_rt_config_value_get_output_streaming := false;
     ep_rt_current_process_get_id := 4242 |}.

Definition suspended_at_startup : EventPipe :=
  Eval vm_compute in
  ep_ipc_stream_factory_callback_set true one_session.

(** Tracing requested through the environment, with a pid token in the
    output path. *)
Definition tracing_oracle : Oracle :=
  {| ep_session_alloc_result := 1000;
     ep_session_is_valid := true;
     ep_event_source_enable_result := true;
     ep_thread_get_or_create_result := 77;
     config_enable_disable_callbacks := λ _ _, [];
     suspended_ports_callback_result := false;
     ep_rt_providers_validate_all_disabled := true;
     ep_rt_config_value_get_enable := true;
     ep_rt_config_value_get_config := None;
     ep_rt_config_value_get_output_path := Some "trace_{pid}.nettrace";
     ep_rt_config_value_get_circular_mb := 0;
     ep_rt_config_value_get_output_streaming := false;
     ep_rt_current_process_get_id := 4242 |}.

(** ** The queue of provider callbacks *)

(** ep_provider_callback_data_queue_enqueue and _try_dequeue move
    callback records into and out of heap objects that a dn_queue holds
    by pointer. The queue is the list of those pointers, oldest first;
    pointers are addresses, 0 is NULL. *)
Module ProviderCallback.

Record EventPipeProviderCallbackData := {
  filter_data : option string;
  callback_function : Z;
  callback_data : Z;
  keywords : Z;
  provider_level : Z;
  enabled : bool;
  session_id : Z;
  provider : Z
}.

(** A record after memset (.., 0, sizeof ..). *)
Definition zeroed : EventPipeProviderCallbackData :=
  {| filter_data := None;
     callback_function := 0;
     callback_data := 0;
     keywords := 0;
     provider_level := 0;
     enabled := false;
     session_id := 0;
     provider := 0 |}.

(** The dn_queue of an EventPipeProviderCallbackDataQueue and the
    callback records that are allocated. *)
Record State := {
  queue : list Z;
  objects : gmap Z EventPipeProviderCallbackData
}.

(** ep_provider_callback_data_free: NULL is ignored; the string and the
    object are released. *)
Definition ep_provider_callback_data_free (p : Z) (st : State) : State :=
  if p =? 0 then st
  else {| queue := queue st; objects := delete p (objects st) |}.

(** ep_provider_callback_data_alloc_move for a source record: [instance]
    is what ep_rt_object_alloc returns. The result is the new object (or
    NULL) and the source as the call leaves it. *)
Definition ep_provider_callback_data_alloc_move
    (instance : Z) (src : EventPipeProviderCallbackData) (st : State)
  : Z * EventPipeProviderCallbackData * State :=
  if instance =? 0 then (0, src, ep_provider_callback_data_free 0 st)
  else (instance, zeroed,
        {| queue := queue st; objects := <[instance := src]> (objects st) |}).

(** ep_provider_callback_data_init_move: the destination and the source
    as the call leaves them. *)
Definition ep_provider_callback_data_init_move
    (dst src : EventPipeProviderCallbackData)
  : EventPipeProviderCallbackData * EventPipeProviderCallbackData :=
  (src, zeroed).

(** [pushed] is the result of dn_queue_push. The result is the returned
    boolean and the caller's record as the call leaves it. *)
Definition ep_provider_callback_data_queue_enqueue
    (instance : Z) (pushed : bool)
    (provider_callback_data : EventPipeProviderCallbackData) (st : State)
  : bool * EventPipeProviderCallbackData * State :=
  let '(provider_callback_data_move, provider_callback_data, st) :=
    ep_provider_callback_data_alloc_move instance provider_callback_data st in
  if provider_callback_data_move =? 0 then
    (false, provider_callback_data,
     ep_provider_callback_data_free provider_callback_data_move st)
  else if negb pushed then
    (false, provider_callback_data,
     ep_provider_callback_data_free provider_callback_data_move st)
  else
    (true, provider_callback_data,
     {| queue := queue st ++ [provider_callback_data_move];
        objects := objects st |}).

(** The result is the returned boolean and the caller's record as the
    call leaves it; [None] is the read of a queued pointer that is not an
    allocated record. *)
Definition ep_provider_callback_data_queue_try_dequeue
    (provider_callback_data : EventPipeProviderCallbackData) (st : State)
  : option (bool * EventPipeProviderCallbackData * State) :=
  match queue st with
  | [] => Some (false, provider_callback_data, st)
  | value :: rest =>
      let st := {| queue := rest; objects := objects st |} in
      if value =? 0 then Some (false, provider_callback_data, st)
      else
        src ← objects st !! value;
        let '(provider_callback_data, src) :=
          ep_provider_callback_data_init_move provider_callback_data src in
        let st := {| queue := queue st; objects := <[value := src]> (objects st) |} in
        Some (true, provider_callback_data, ep_provider_callback_data_free value st)
  end.

(** The loop [while (try_dequeue (queue, &data)) invoke (&data)] of
    ep_enable_3, disable_helper and ep_create_provider: the records it
    hands to the callback, in order, and the state it leaves. [fuel]
    bounds the iterations. *)
Fixpoint drain (fuel : nat) (provider_callback_data : EventPipeProviderCallbackData)
    (st : State) : option (list EventPipeProviderCallbackData * State) :=
  match fuel with
  | O => None
  | S fuel' =>
      match ep_provider_callback_data_queue_try_dequeue provider_callback_data st with
      | None => None
      | Some (false, _, st) => Some ([], st)
      | Some (true, provider_callback_data, st) =>
          match drain fuel' provider_callback_data st with
          | None => None
          | Some (invoked, st) => Some (provider_callback_data :: invoked, st)
          end
      end
  end.

(** The queue holds pointers to allocated records, none of them twice
    and none of them NULL; [contents] are the records in queue order. *)
Definition queue_wf (st : State) (contents : list EventPipeProviderCallbackData)
  : Prop :=
  NoDup (queue st)
  ∧ (0 ∉ queue st)
  ∧ ((λ p, objects st !! p) <$> queue st) = (Some <$> contents).

End ProviderCallback.

(** ** Writers against disable: the quiescence handshake *)

(** The fan-out loop of write_event_2 and the tail of disable_holding_lock
    run as interleaved atomic steps over the shared registry, one load or
    store of a volatile per step, in sequentially consistent order. *)
Module Quiescence.

(** Where a writer thread stands in the loop of write_event_2; [i] is the
    loop index. *)
Inductive WriterPc :=
  | W_idle
  | W_check (i : nat)
  | W_mark (i : nat)
  | W_load (i : nat)
  | W_write (i : nat) (session : Z)
  | W_clear (i : nat).

(** Modelled from the spec: the per-thread write-in-progress marker of
    ep-thread.h, which write_event_2 sets through
    ep_thread_set_session_write_in_progress; UINT32_MAX means that the
    thread is not writing. *)
Record Writer := {
  pc : WriterPc;
  session_write_in_progress : Z
}.

(** Where the disabling thread stands in disable_holding_lock, from the
    store that clears the allow_write bit on. In [D_wait] it is inside
    ep_session_suspend_write_event with the threads it has still to
    wait for. *)
Inductive DisablerPc :=
  | D_clear_bit
  | D_null_slot
  | D_wait (remaining : list nat)
  | D_write_all_buffers
  | D_store_count
  | D_sequence_point
  | D_dec_ref
  | D_done.

#[global] Instance DisablerPc_eq_dec : EqDecision DisablerPc.
Proof. solve_decision. Defined.

(** Accesses to session objects: an event written into a session, and
    the release of a session's memory. *)
Inductive Access :=
  | Write (thread : nat) (session : Z)
  | Free (session : Z).

Record State := {
  allow_write : Z;
  sessions : list Z;
  number_of_sessions : Z;
  allocated : gset Z;
  threads : list Writer;
  disabler : DisablerPc;
  history : list Access
}.

Inductive Actor :=
  | Writer_thread (t : nat)
  | Disabler_thread.

Section Steps.
Context {rt : Runtime}.

Definition set_writer (t : nat) (w : Writer) (s : State) : State :=
  {| allow_write := allow_write s;
     sessions := sessions s;
     number_of_sessions := number_of_sessions s;
     allocated := allocated s;
     threads := <[t := w]> (threads s);
     disabler := disabler s;
     history := history s |}.

Definition record_access (a : Access) (s : State) : State :=
  {| allow_write := allow_write s;
     sessions := sessions s;
     number_of_sessions := number_of_sessions s;
     allocated := allocated s;
     threads := threads s;
     disabler := disabler s;
     history := history s ++ [a] |}.

Definition set_disabler (d : DisablerPc) (s : State) : State :=
  {| allow_write := allow_write s;
     sessions := sessions s;
     number_of_sessions := number_of_sessions s;
     allocated := allocated s;
     threads := threads s;
     disabler := d;
     history := history s |}.

Definition at_pc (p : WriterPc) (w : Writer) : Writer :=
  {| pc := p; session_write_in_progress := session_write_in_progress w |}.

(** One step of writer thread [t] in write_event_2: the test of the
    allow_write bit, the store of the marker, the reload of the slot,
    the write into the session, the store that clears the marker. *)
Definition writer_step (t : nat) (s : State) : State :=
  match threads s !! t with
  | None => s
  | Some w =>
      match pc w with
      | W_idle => set_writer t (at_pc (W_check 0) w) s
      | W_check i =>
          if (EP_MAX_NUMBER_OF_SESSIONS <=? i)%nat then set_writer t (at_pc W_idle w) s
          else if Z.land (allow_write s) (Z.shiftl 1 (Z.of_nat i)) =? 0
               then set_writer t (at_pc (W_check (S i)) w) s
               else set_writer t (at_pc (W_mark i) w) s
      | W_mark i =>
          set_writer t {| pc := W_load i; session_write_in_progress := Z.of_nat i |} s
      | W_load i =>
          let session := default 0 (sessions s !! i) in
          if session =? 0 then set_writer t (at_pc (W_clear i) w) s
          else set_writer t (at_pc (W_write i session) w) s
      | W_write i session =>
          record_access (Write t session) (set_writer t (at_pc (W_clear i) w) s)
      | W_clear i =>
          set_writer t {| pc := W_check (S i); session_write_in_progress := UINT32_MAX |} s
      end
  end.

(** Modelled from the spec: ep_session_suspend_write_event of
    ep-session.c, the wait until no thread reports writing to the
    slot: it goes through the threads one by one and yields while the
    marker of the thread is the index of the session; and
    ep_session_dec_ref, taken to free the session. The other steps are
    the stores of disable_holding_lock in its order. *)
Definition disabler_step (target : Z) (index : nat) (s : State) : State :=
  match disabler s with
  | D_clear_bit =>
      set_disabler D_null_slot
        {| allow_write :=
             Z.land (allow_write s) (Z.lnot (Z.shiftl 1 (Z.of_nat index)) mod 2 ^ 64);
           sessions := sessions s;
           number_of_sessions := number_of_sessions s;
           allocated := allocated s;
           threads := threads s;
           disabler := disabler s;
           history := history s |}
  | D_null_slot =>
      set_disabler (D_wait (seq 0 (length (threads s))))
        {| allow_write := allow_write s;
           sessions := <[index := 0]> (sessions s);
           number_of_sessions := number_of_sessions s;
           allocated := allocated s;
           threads := threads s;
           disabler := disabler s;
           history := history s |}
  | D_wait [] => set_disabler D_write_all_buffers s
  | D_wait (t :: remaining) =>
      match threads s !! t with
      | Some w =>
          if session_write_in_progress w =? Z.of_nat index then s
          else set_disabler (D_wait remaining) s
      | None => set_disabler (D_wait remaining) s
      end
  | D_write_all_buffers => set_disabler D_store_count s
  | D_store_count =>
      set_disabler D_sequence_point
        {| allow_write := allow_write s;
           sessions := sessions s;
           number_of_sessions := (number_of_sessions s - 1) mod 2 ^ 32;
           allocated := allocated s;
           threads := threads s;
           disabler := disabler s;
           history := history s |}
  | D_sequence_point => set_disabler D_dec_ref s
  | D_dec_ref =>
      set_disabler D_done
        {| allow_write := allow_write s;
           sessions := sessions s;
           number_of_sessions := number_of_sessions s;
           allocated := allocated s ∖ {[target]};
           threads := threads s;
           disabler := disabler s;
           history := history s ++ [Free target] |}
  | D_done => s
  end.

Definition step (target : Z) (index : nat) (s : State) (a : Actor) : State :=
  match a with
  | Writer_thread t => writer_step t s
  | Disabler_thread => disabler_step target index s
  end.

(** An interleaving is the list of the threads that take the steps. *)
Definition run (target : Z) (index : nat) (schedule : list Actor) (s : State) : State :=
  foldl (step target index) s schedule.

(** A writer that is past the store of its marker has the marker set,
    and one that holds a session pointer took it from its slot. *)
Definition writer_consistent (s : State) (w : Writer) : bool :=
  match pc w with
  | W_load i => session_write_in_progress w =? Z.of_nat i
  | W_write i session =>
      (session_write_in_progress w =? Z.of_nat i)
      && negb (session =? 0)
      && bool_decide (sessions s !! i = Some session)
  | _ => true
  end.

(** The states in which disable(target) may begin: the session sits in
    its slot, the non-null slots hold allocated sessions that differ
    from one another, the writers are anywhere in their loop, and
    nothing has been freed. *)
Definition initial (target : Z) (index : nat) (s : State) : bool :=
  match disabler s with D_clear_bit => true | _ => false end
  && negb (target =? 0)
  && bool_decide (sessions s !! index = Some target)
  && forallb (λ p, (p =? 0) || bool_decide (p ∈ allocated s)) (sessions s)
  && bool_decide (NoDup (filter (λ p, p ≠ 0) (sessions s)))
  && forallb (writer_consistent s) (threads s)
  && match history s with [] => true | _ => false end.

(** No event is written into a session after the session was freed. *)
Definition no_write_after_free (l : list Access) : Prop :=
  ∀ i j t p, l !! i = Some (Free p) → l !! j = Some (Write t p) → (j < i)%nat.

(** What holds of a writer in every reachable state: past the store of
    its marker the marker is set; a session pointer it holds is non-null
    and allocated, and either still sits in its slot or is the session
    being disabled, whose disabler has not yet seen this thread quiet. *)
Definition writer_invariant (target : Z) (index : nat) (s : State) (t : nat) (w : Writer)
  : Prop :=
  match pc w with
  | W_load i => session_write_in_progress w = Z.of_nat i
  | W_write i p =>
      session_write_in_progress w = Z.of_nat i
      ∧ p ≠ 0
      ∧ p ∈ allocated s
      ∧ (sessions s !! i = Some p
         ∨ (p = target ∧ i = index
            ∧ ∃ remaining, disabler s = D_wait remaining ∧ t ∈ remaining))
  | _ => True
  end.

(** The session is in its slot until the slot is set to NULL, in no slot
    afterwards, and allocated until its reference is released. *)
Definition disabler_invariant (target : Z) (index : nat) (s : State) : Prop :=
  match disabler s with
  | D_clear_bit | D_null_slot => sessions s !! index = Some target
  | D_done => ∀ i, sessions s !! i ≠ Some target
  | _ => (∀ i, sessions s !! i ≠ Some target) ∧ target ∈ allocated s
  end.

Record invariant (target : Z) (index : nat) (s : State) : Prop := {
  inv_target : target ≠ 0;
  inv_allocated : ∀ i p, sessions s !! i = Some p → p ≠ 0 → p ∈ allocated s;
  inv_exclusive : ∀ i j p, p ≠ 0 → sessions s !! i = Some p → sessions s !! j = Some p → i = j;
  inv_disabler : disabler_invariant target index s;
  inv_writers : ∀ t w, threads s !! t = Some w → writer_invariant target index s t w;
  inv_freed : ∀ p, Free p ∈ history s → p ∉ allocated s;
  inv_history : no_write_after_free (history s)
}.

End Steps.

End Quiescence.

(** Two idle writer threads and one session at address 1000 in slot 0, and
    an interleaving in which thread 0 has reloaded the session pointer
    when the disabling thread clears the bit and the slot. *)
Definition two_writers : Quiescence.State :=
  {| Quiescence.allow_write := 1;
     Quiescence.sessions := 1000 :: replicate 63 0;
     Quiescence.number_of_sessions := 1;
     Quiescence.allocated := {[1000]};
     Quiescence.threads :=
       replicate 2 {| Quiescence.pc := Quiescence.W_idle;
                      Quiescence.session_write_in_progress := UINT32_MAX |};
     Quiescence.disabler := Quiescence.D_clear_bit;
     Quiescence.history := [] |}.

Definition racing_schedule : list Quiescence.Actor :=
  replicate 4 (Quiescence.Writer_thread 0)
  ++ replicate 4 Quiescence.Disabler_thread
  ++ replicate 3 (Quiescence.Writer_thread 1)
  ++ replicate 2 (Quiescence.Writer_thread 0)
  ++ replicate 8 Quiescence.Disabler_thread
  ++ replicate 3 (Quiescence.Writer_thread 0).

(** ** How long a writer keeps its marker *)

Section Release.
Context {rt : Runtime}.

(** The steps of its own that a writer at this place of the loop takes at
    most until its marker is reset after a visit of slot [index]; 0 when it
    is not visiting that slot. *)
Definition steps_to_release (index : nat) (w : Quiescence.Writer) : nat :=
  match Quiescence.pc w with
  | Quiescence.W_mark i => if bool_decide (i = index) then 4 else 0
  | Quiescence.W_load i => if bool_decide (i = index) then 3 else 0
  | Quiescence.W_write i _ => if bool_decide (i = index) then 2 else 0
  | Quiescence.W_clear i => if bool_decide (i = index) then 1 else 0
  | _ => 0
  end.

(** The steps that thread [t] takes in an interleaving. *)
Fixpoint steps_of (t : nat) (schedule : list Quiescence.Actor) : nat :=
  match schedule with
  | [] => 0
  | Quiescence.Writer_thread t' :: schedule' =>
      (if bool_decide (t' = t) then 1 else 0) + steps_of t schedule'
  | Quiescence.Disabler_thread :: schedule' => steps_of t schedule'
  end.

(** The allow_write bit of the slot is clear, and thread [t] is at most
    [n] of its steps away from a marker that is not the slot. *)
Definition releasing (index t : nat) (n : nat) (s : Quiescence.State) : Prop :=
  Z.land (Quiescence.allow_write s) (Z.shiftl 1 (Z.of_nat index)) = 0
  ∧ ∃ w, Quiescence.threads s !! t = Some w
         ∧ (steps_to_release index w ≤ n)%nat
         ∧ (steps_to_release index w = 0%nat →
            Quiescence.session_write_in_progress w ≠ Z.of_nat index).

End Release.

(** Thread 0 of [two_writers] has reloaded the session pointer of slot 0
    when the disabling thread clears the bit of the slot; and an
    interleaving in which the thread takes four more steps. *)
Definition caught_writing : Quiescence.State :=
  @Quiescence.run coreclr 1000 0
    (replicate 4 (Quiescence.Writer_thread 0) ++ [Quiescence.Disabler_thread])
    two_writers.

Definition release_schedule : list Quiescence.Actor :=
  [Quiescence.Writer_thread 0; Quiescence.Disabler_thread;
   Quiescence.Writer_thread 1; Quiescence.Writer_thread 0;
   Quiescence.Writer_thread 0; Quiescence.Disabler_thread;
   Quiescence.Writer_thread 0].

(** * Properties *)

(** ** The provider-configuration parser *)

Section ParserFacts.
Context {rt : Runtime}.

Lemma append_cons c s r : String c s +:+ r = String c (s +:+ r).
Proof. reflexivity. Qed.

Lemma append_empty_r s : s +:+ "" = s.
Proof. induction s as [|c s IH]; [done|]. by rewrite append_cons, IH. Qed.

Lemma is_delimiter_false c :
  is_delimiter c = false →
  c ≠ CStr.NUL ∧ c ≠ ","%char ∧ c ≠ ":"%char.
Proof.
  unfold is_delimiter. intros H.
  apply orb_false_elim in H as [H H3]. apply orb_false_elim in H as [H1 H2].
  apply bool_decide_eq_false in H1, H2, H3. done.
Qed.

Lemma is_field_text_cons c s :
  is_field_text (String c s) = true →
  c ≠ CStr.NUL ∧ c ≠ ","%char ∧ c ≠ ":"%char ∧ is_field_text s = true.
Proof.
  simpl. intros [Hc Hs]%andb_true_iff. apply negb_true_iff in Hc.
  destruct (is_delimiter_false c Hc) as (? & ? & ?). done.
Qed.

Ltac step_field H :=
  apply is_field_text_cons in H as (? & ? & ? & H);
  rewrite ?append_cons; simpl;
  repeat (rewrite bool_decide_eq_false_2 by done).

Lemma get_next_config_value_end s :
  is_field_text s = true → get_next_config_value s = (s, None).
Proof.
  induction s as [|c s IH]; intros H; [done|].
  step_field H. by rewrite IH.
Qed.

Lemma get_next_config_value_colon s rest :
  is_field_text s = true →
  get_next_config_value (s +:+ String ":" rest) = (s, Some rest).
Proof.
  induction s as [|c s IH]; intros H; [done|].
  step_field H. by rewrite IH.
Qed.

Lemma get_next_config_value_comma s rest :
  is_field_text s = true →
  get_next_config_value (s +:+ String "," rest) = (s, Some (String "," rest)).
Proof.
  induction s as [|c s IH]; intros H; [done|].
  step_field H. by rewrite IH.
Qed.

Lemma at_field_text s rest :
  is_field_text s = true → s ≠ "" → at_field (Some (s +:+ rest)) = true.
Proof.
  destruct s as [|c s]; [done|]. intros H _.
  apply is_field_text_cons in H as (? & ? & ? & _).
  rewrite append_cons. simpl. by rewrite bool_decide_eq_false_2.
Qed.


Lemma length_zero_iff s : (String.length s =? 0)%nat = false ↔ s ≠ "".
Proof. destruct s; simpl; split; done. Qed.

(** A spec that is only a name: no field after it is read. *)
Lemma parse_provider_name_only name :
  is_field_text name = true → name ≠ "" →
  parse_provider name
  = Some (ep_provider_config_init (Some name) 0 EP_EVENT_LEVEL_VERBOSE None, None).
Proof.
  intros Hf Hne. unfold parse_provider.
  pose proof (at_field_text name "" Hf Hne) as Ha.
  rewrite append_empty_r in Ha.
  rewrite Ha. unfold get_next_config_value_as_utf8_string.
  rewrite get_next_config_value_end by done.
  apply length_zero_iff in Hne. rewrite Hne. simpl. done.
Qed.

(** A name followed by an empty Keywords field. *)
Lemma parse_provider_empty_keywords name rest :
  is_field_text name = true → name ≠ "" →
  ∃ cfg p, parse_provider (name +:+ String ":" (String ":" rest)) = Some (cfg, p)
           ∧ provider_name cfg = Some name
           ∧ keywords cfg = UINT64_MAX.
Proof.
  intros Hf Hne. unfold parse_provider.
  rewrite (at_field_text name _ Hf Hne).
  unfold get_next_config_value_as_utf8_string at 1.
  rewrite get_next_config_value_colon by done.
  rewrite (proj2 (length_zero_iff name) Hne). simpl.
  repeat match goal with
       | |- context [let '(_, _) := ?e in _] => destruct e
       | |- context [match ?p with Some _ => _ | None => _ end] => destruct p
       | |- context [if ?b then _ else _] => destruct b
       end; eauto.
Qed.

(** A name followed by a colon that ends the string: the Keywords field
    is read and is empty. *)
Lemma parse_provider_empty_keywords_end name :
  is_field_text name = true → name ≠ "" →
  parse_provider (name +:+ ":")
  = Some (ep_provider_config_init (Some name) (2 ^ 64 - 1) EP_EVENT_LEVEL_VERBOSE None,
          None).
Proof.
  intros Hf Hne. unfold parse_provider.
  rewrite (at_field_text name _ Hf Hne).
  unfold get_next_config_value_as_utf8_string at 1.
  rewrite get_next_config_value_colon by done.
  rewrite (proj2 (length_zero_iff name) Hne). done.
Qed.

(** A name followed by a colon and a comma: no field is read after the
    name, the pointer stays at the comma. *)
Lemma parse_provider_empty_keywords_comma name rest :
  is_field_text name = true → name ≠ "" →
  parse_provider (name +:+ String ":" (String "," rest))
  = Some (ep_provider_config_init (Some name) 0 EP_EVENT_LEVEL_VERBOSE None,
          Some (String "," rest)).
Proof.
  intros Hf Hne. unfold parse_provider.
  rewrite (at_field_text name _ Hf Hne).
  unfold get_next_config_value_as_utf8_string at 1.
  rewrite get_next_config_value_colon by done.
  rewrite (proj2 (length_zero_iff name) Hne). done.
Qed.

(** *** Both loops of ep_enable_2 stop within the fuel given to them *)

Lemma get_next_config_value_length data v q :
  get_next_config_value data = (v, Some q) →
  (String.length q ≤ String.length data)%nat
  ∧ (CStr.deref data ≠ ","%char → String.length q < String.length data)%nat.
Proof.
  revert v q. induction data as [|c data IH]; intros v q; simpl; [done|].
  repeat case_bool_decide; subst; try done.
  - intros [= <- <-]. simpl. split; [lia|done].
  - intros [= <- <-]. split; intros; lia.
  - destruct (get_next_config_value data) as [v' p'] eqn:E.
    intros [= <- ->]. destruct (IH _ _ eq_refl). split; intros; lia.
Qed.

Definition within (p : option string) (n : nat) : Prop :=
  ∀ q, p = Some q → (String.length q ≤ n)%nat.

Lemma within_mono p n m : within p n → (n ≤ m)%nat → within p m.
Proof. intros H ? q Hq. specialize (H q Hq). lia. Qed.

Lemma as_utf8_string_within data :
  within (get_next_config_value_as_utf8_string data).2 (String.length data).
Proof.
  unfold get_next_config_value_as_utf8_string.
  destruct (get_next_config_value data) as [v p] eqn:E. simpl.
  intros q ->. by apply get_next_config_value_length in E as [? _].
Qed.

Lemma as_uint64_within data :
  within (get_next_config_value_as_uint64_t data).2 (String.length data).
Proof.
  unfold get_next_config_value_as_uint64_t.
  pose proof (as_utf8_string_within data) as H.
  by destruct (get_next_config_value_as_utf8_string data).
Qed.

Lemma as_uint32_within data :
  within (get_next_config_value_as_uint32_t data).2 (String.length data).
Proof.
  unfold get_next_config_value_as_uint32_t.
  pose proof (as_utf8_string_within data) as H.
  by destruct (get_next_config_value_as_utf8_string data).
Qed.

Lemma skip_to_comma_length p :
  (String.length (skip_to_comma p) ≤ String.length p)%nat.
Proof.
  induction p as [|c p IH]; simpl; [done|].
  destruct (_ || _); simpl; lia.
Qed.

Lemma skip_to_comma_at p :
  CStr.deref (skip_to_comma p) = CStr.NUL ∨ CStr.deref (skip_to_comma p) = ","%char.
Proof.
  induction p as [|c p IH]; simpl; [by left|].
  destruct (_ || _) eqn:E; [|done]. simpl.
  apply orb_true_iff in E as [E|E]; apply bool_decide_eq_true in E; auto.
Qed.

Lemma skip_one_length p :
  (String.length (skip_one p) ≤ String.length p)%nat.
Proof. unfold skip_one. case_bool_decide; [done|]. destruct p; simpl; lia. Qed.

Lemma skip_one_comma_length p :
  CStr.deref p = ","%char →
  (String.length (skip_one p) < String.length p)%nat.
Proof.
  unfold skip_one. destruct p as [|c p]; simpl; [done|]. intros ->.
  rewrite bool_decide_eq_false_2 by done. simpl. lia.
Qed.

(** The pointer after one loop iteration is strictly further on. *)
Lemma advance_length p q :
  CStr.deref p ≠ CStr.NUL →
  (String.length q ≤ String.length p)%nat →
  (CStr.deref p ≠ ","%char → String.length q < String.length p)%nat →
  (CStr.deref p = ","%char → q = p) →
  (String.length (skip_one (skip_to_comma q)) < String.length p)%nat.
Proof.
  intros Hnul Hle Hlt Heq.
  destruct (decide (CStr.deref p = ","%char)) as [Hc|Hc].
  - rewrite (Heq Hc). destruct p as [|c p]; [done|]. simpl in Hc. subst c.
    vm_compute skip_to_comma. unfold skip_one. simpl. lia.
  - specialize (Hlt Hc). pose proof (skip_to_comma_length q).
    pose proof (skip_one_length (skip_to_comma q)). lia.
Qed.

Lemma count_providers_terminates fuel p :
  (String.length p < fuel)%nat → is_Some (count_providers fuel p).
Proof.
  revert p. induction fuel as [|fuel IH]; intros p Hlen; [lia|].
  simpl. case_bool_decide as Hnul; [by eexists|].
  apply fmap_is_Some, IH.
  assert (String.length (skip_one (skip_to_comma p)) < String.length p)%nat; [|lia].
  destruct p as [|c p]; [done|]. simpl in Hnul. simpl.
  rewrite bool_decide_eq_false_2 by done. simpl.
  case_bool_decide as Hc; simpl.
  - subst c. unfold skip_one. simpl. lia.
  - pose proof (skip_to_comma_length p).
    pose proof (skip_one_length (skip_to_comma p)). lia.
Qed.

Lemma parse_provider_advances p cfg q :
  CStr.deref p ≠ CStr.NUL →
  parse_provider p = Some (cfg, Some q) →
  (String.length (skip_one (skip_to_comma q)) < String.length p)%nat.
Proof.
  intros Hnul. unfold parse_provider. unfold at_field at 1.
  case_bool_decide as Hc; simpl.
  - (* the spec starts with a comma: nothing is read *)
    rewrite !Hc. repeat (rewrite (bool_decide_eq_true_2 (_ = _)) by done; simpl).
    intros [= <- <-]. apply advance_length; try done.
  - pose proof (as_utf8_string_within p) as H1.
    unfold get_next_config_value_as_utf8_string in *.
    destruct (get_next_config_value p) as [v p1] eqn:E1. simpl in H1.
    destruct (String.length v =? 0)%nat; simpl; [done|].
    assert (within p1 (String.length p - 1)) as H1'.
    { intros q1 ->. apply get_next_config_value_length in E1 as [_ E1].
      specialize (E1 Hc). lia. }
    clear H1 E1.
    assert (∀ p2 : option string, within p2 (String.length p - 1) →
            ∀ (A : Type) (f : string → A * option string) (d : A),
              (∀ x, within (f x).2 (String.length x)) →
              within (match p2 with
                      | Some x => if at_field p2 then f x else (d, p2)
                      | None => (d, p2)
                      end).2 (String.length p - 1)) as Hstep.
    { intros p2 H2 A f d Hf. destruct p2 as [x|]; [|done].
      destruct (at_field (Some x)); [|done].
      eapply within_mono; [apply Hf|]. by apply H2. }
    pose proof (Hstep p1 H1' _ get_next_config_value_as_uint64_t 0 as_uint64_within) as H2.
    destruct (match p1 with Some _ => _ | None => _ end) as [kw p2]. simpl in H2.
    pose proof (Hstep p2 H2 _ get_next_config_value_as_uint32_t
                  EP_EVENT_LEVEL_VERBOSE as_uint32_within) as H3.
    destruct (match p2 with Some _ => _ | None => _ end) as [lv p3]. simpl in H3.
    pose proof (Hstep p3 H3 _ get_next_config_value_as_utf8_string
                  None as_utf8_string_within) as H4.
    destruct (match p3 with Some _ => _ | None => _ end) as [ar p4]. simpl in H4.
    intros [= <- ->]. specialize (H4 q eq_refl).
    pose proof (skip_to_comma_length q).
    pose proof (skip_one_length (skip_to_comma q)).
    destruct p; simpl in *; [done|lia].
Qed.

Lemma parse_providers_terminates fuel p :
  (String.length p < fuel)%nat → parse_providers fuel p ≠ OutOfFuel.
Proof.
  revert p. induction fuel as [|fuel IH]; intros p Hlen; [lia|].
  simpl. case_bool_decide as Hnul; [done|].
  destruct (parse_provider p) as [[cfg [q|]]|] eqn:E; [|done..].
  apply parse_provider_advances in E; [|done].
  specialize (IH (skip_one (skip_to_comma q)) ltac:(lia)).
  by destruct (parse_providers fuel _).
Qed.

(** ep_enable_2 either raises the parse error or passes an array on. *)
Lemma providers_of_config_total cfg :
  providers_of_config cfg = None ↔
  ∃ s, cfg = Some s ∧ CStr.deref s ≠ CStr.NUL
       ∧ parse_providers (S (String.length s)) s = ParseError.
Proof.
  unfold providers_of_config. destruct cfg as [s|].
  2: { split; [done|]. by intros (s & ? & _). }
  case_bool_decide as Hnul.
  { split; [done|]. intros (s' & [= <-] & ? & _). done. }
  destruct (count_providers_terminates (S (String.length s)) s) as [n ->]; [lia|].
  pose proof (parse_providers_terminates (S (String.length s)) s ltac:(lia)) as Hp.
  destruct (parse_providers _ s) eqn:E; [done| |].
  - split; [|done]. intros _. exists s. by rewrite E.
  - split; [done|]. intros (s' & [= <-] & _ & E'). by rewrite E in E'.
Qed.

End ParserFacts.

(** C3, as the code has it. The empty configuration string (and a null
    one) gives the three default providers: the public and the private
    runtime provider with their fixed keyword masks and the sample
    profiler with no keyword, all at verbose level. "Foo:10:3,Bar" gives
    two providers: Foo with keywords 0x10, level 3 and no arguments, and
    Bar at the most verbose level with keyword mask 0, since no Keywords
    field is read once the string ends after the name. *)
Theorem providers_of_config_examples {rt : Runtime} :
  let default :=
    [ ep_provider_config_init (Some ep_config_get_public_provider_name_utf8)
        0x4c14fccbd EP_EVENT_LEVEL_VERBOSE None;
      ep_provider_config_init (Some ep_config_get_private_provider_name_utf8)
        0x4002000b EP_EVENT_LEVEL_VERBOSE None;
      ep_provider_config_init (Some ep_config_get_sample_profiler_provider_name_utf8)
        0 EP_EVENT_LEVEL_VERBOSE None ] in
  providers_of_config (Some "") = Some (default, 3)
  ∧ providers_of_config None = Some (default, 3)
  ∧ providers_of_config (Some "Foo:10:3,Bar")
    = Some ([ ep_provider_config_init (Some "Foo") 0x10 3 None;
              ep_provider_config_init (Some "Bar") 0 EP_EVENT_LEVEL_VERBOSE None ], 2).
Proof.
  destruct rt as [? ? ? ? [] ? ? ? ? ?]; by vm_compute.
Qed.

(** C3 as the specification words it does not hold: the second provider of
    "Foo:10:3,Bar" does not carry the all-keywords mask. *)
Lemma providers_of_config_bar_not_all_keywords :
  ¬ ∃ foo bar n,
      @providers_of_config coreclr (Some "Foo:10:3,Bar") = Some ([foo; bar], n)
      ∧ keywords bar = UINT64_MAX.
Proof. intros (foo & bar & n & [= <- <- <-] & Hk). discriminate Hk. Qed.

(** C10, as the code has it. In a provider spec, a Keywords field that
    is present but empty gives the mask UINT64_MAX = 2^64-1 when the colon
    after the name is followed by another colon (as in "Name::3") or by
    the end of the string (as in "Name:"); when it is followed by a comma
    (as in "Name:,Other") no field is read after the name and the keyword
    mask stays 0, as it does for a spec that ends right after the name (as
    in "Name"). *)
Theorem keyword_mask_empty_field_versus_no_field {rt : Runtime} (name rest : string) :
  is_field_text name = true → name ≠ "" →
  (∃ cfg p, parse_provider (name +:+ "::" +:+ rest) = Some (cfg, p)
            ∧ provider_name cfg = Some name
            ∧ keywords cfg = 2 ^ 64 - 1)
  ∧ parse_provider (name +:+ ":")
    = Some (ep_provider_config_init (Some name) (2 ^ 64 - 1) EP_EVENT_LEVEL_VERBOSE None,
            None)
  ∧ parse_provider (name +:+ ":," +:+ rest)
    = Some (ep_provider_config_init (Some name) 0 EP_EVENT_LEVEL_VERBOSE None,
            Some ("," +:+ rest))
  ∧ parse_provider name
    = Some (ep_provider_config_init (Some name) 0 EP_EVENT_LEVEL_VERBOSE None, None)
  ∧ providers_of_config (Some name)
    = Some ([ep_provider_config_init (Some name) 0 EP_EVENT_LEVEL_VERBOSE None], 1)
  ∧ providers_of_config (Some "Name::3")
    = Some ([ep_provider_config_init (Some "Name") (2 ^ 64 - 1) 3 None], 1)
  ∧ providers_of_config (Some "Name:")
    = Some ([ep_provider_config_init (Some "Name") (2 ^ 64 - 1)
               EP_EVENT_LEVEL_VERBOSE None], 1)
  ∧ providers_of_config (Some "Name:,Other")
    = Some ([ep_provider_config_init (Some "Name") 0 EP_EVENT_LEVEL_VERBOSE None;
             ep_provider_config_init (Some "Other") 0 EP_EVENT_LEVEL_VERBOSE None], 2)
  ∧ providers_of_config (Some "Name")
    = Some ([ep_provider_config_init (Some "Name") 0 EP_EVENT_LEVEL_VERBOSE None], 1).
Proof.
  intros Hf Hne. split; [|split; [|split; [|split; [|split; [|split; [|split; [|split]]]]]]].
  - apply parse_provider_empty_keywords; done.
  - by apply parse_provider_empty_keywords_end.
  - by apply parse_provider_empty_keywords_comma.
  - by apply parse_provider_name_only.
  - unfold providers_of_config.
    destruct name as [|c name]; [done|].
    apply is_field_text_cons in Hf as (Hnul & Hcomma & Hcolon & Hf).
    cbn [CStr.deref]. rewrite bool_decide_eq_false_2 by done.
    assert (skip_to_comma (String c name) = "") as Hskip.
    { assert (∀ s, is_field_text s = true → skip_to_comma s = "") as Hs.
      { clear. induction s as [|a s IH]; [done|]. intros H.
        apply is_field_text_cons in H as (? & ? & ? & H). simpl.
        rewrite !bool_decide_eq_false_2 by done. simpl. auto. }
      apply Hs. simpl. unfold is_delimiter.
      rewrite !bool_decide_eq_false_2 by done. simpl. done. }
    cbn [count_providers String.length CStr.deref].
    rewrite (bool_decide_eq_false_2 (c = CStr.NUL)) by done.
    rewrite Hskip. cbn [skip_one CStr.deref count_providers].
    destruct (String.length name); cbn;
    (rewrite (bool_decide_eq_false_2 (c = CStr.NUL)) by done);
    rewrite parse_provider_name_only; try done;
    simpl; unfold is_delimiter; rewrite ?bool_decide_eq_false_2 by done; done.
  - clear. destruct rt as [? ? ? ? [] ? ? ? ? ?]; by vm_compute.
  - clear. destruct rt as [? ? ? ? [] ? ? ? ? ?]; by vm_compute.
  - clear. destruct rt as [? ? ? ? [] ? ? ? ? ?]; by vm_compute.
  - clear. destruct rt as [? ? ? ? [] ? ? ? ? ?]; by vm_compute.
Qed.

Lemma keyword_mask_empty_field_versus_no_field_witness :
  is_field_text "Name" = true ∧ "Name" ≠ ""
  ∧ (∃ cfg p, @parse_provider coreclr "Name::3" = Some (cfg, p)
              ∧ provider_name cfg = Some "Name" ∧ keywords cfg = 2 ^ 64 - 1)
  ∧ @parse_provider coreclr "Name:,Other"
    = Some (ep_provider_config_init (Some "Name") 0 5 None, Some ",Other").
Proof.
  split; [reflexivity|]. split; [discriminate|].
  pose proof (@keyword_mask_empty_field_versus_no_field coreclr "Name" "3"
                eq_refl ltac:(discriminate)) as H3.
  pose proof (@keyword_mask_empty_field_versus_no_field coreclr "Name" "Other"
                eq_refl ltac:(discriminate)) as Ho.
  split; [exact (proj1 H3)|exact (proj1 (proj2 (proj2 Ho)))].
Defined.

(** C10 as the specification words it does not hold: a colon after the
    provider name with nothing in the Keywords field does not always give
    the mask 2^64-1; in "Name:,Other" the comma keeps the field from being
    read and the mask of Name is 0. *)
Lemma keyword_mask_empty_field_before_comma :
  ¬ ∀ (name rest : string) (cfg : EventPipeProviderConfiguration) (p : option string),
      is_field_text name = true → name ≠ "" →
      is_delimiter (CStr.deref rest) = true →
      @parse_provider coreclr (name +:+ String ":" rest) = Some (cfg, p) →
      keywords cfg = 2 ^ 64 - 1.
Proof.
  intros H.
  specialize (H "Name" ",Other" _ _ eq_refl ltac:(discriminate) eq_refl eq_refl).
  discriminate H.
Qed.

(** ** Replacing the {pid} token *)

Section StringFacts.

Lemma append_assoc (a b c : string) : (a +:+ b) +:+ c = a +:+ b +:+ c.
Proof. induction a as [|x a IH]; [done|]. by rewrite !append_cons, IH. Qed.

Lemma count_char_append c a b :
  count_char c (a +:+ b) = (count_char c a + count_char c b)%nat.
Proof.
  induction a as [|x a IH]; [done|]. rewrite append_cons. simpl. rewrite IH. lia.
Qed.

Lemma count_char_length c s : (count_char c s ≤ String.length s)%nat.
Proof. induction s as [|x s IH]; simpl; [done|]. case_bool_decide; lia. Qed.

Lemma count_char_not_mem c s : mem_char c s = false → count_char c s = O.
Proof.
  induction s as [|x s IH]; simpl; [done|].
  intros [H1 H2]%orb_false_elim. rewrite H1. simpl. auto.
Qed.

Lemma prefix_cons a s1 b s2 :
  String.prefix (String a s1) (String b s2) = true ↔ a = b ∧ String.prefix s1 s2 = true.
Proof.
  simpl. destruct (ascii_dec a b) as [->|Hne]; [by split; [|intros [_ ?]]|].
  split; [done|]. by intros [? _].
Qed.

Lemma prefix_drop pat s :
  String.prefix pat s = true → s = pat +:+ CStr.drop (String.length pat) s.
Proof.
  revert s. induction pat as [|p pat IH]; intros s; [by destruct s|].
  destruct s as [|c s]; [done|]. intros [-> H]%prefix_cons.
  rewrite append_cons. simpl. f_equal. by apply IH.
Qed.

Lemma prefix_append pat s : String.prefix pat (pat +:+ s) = true.
Proof.
  induction pat as [|p pat IH]; [by destruct s|].
  rewrite append_cons. by apply prefix_cons.
Qed.

Lemma prefix_extend pat x z :
  String.prefix pat x = true → String.prefix pat (x +:+ z) = true.
Proof.
  revert x. induction pat as [|p pat IH]; intros x; [by destruct (x +:+ z)|].
  destruct x as [|c x]; [done|]. intros [-> H]%prefix_cons.
  rewrite append_cons. apply prefix_cons. auto.
Qed.

(** An occurrence cannot run into a character that the pattern lacks. *)
Lemma prefix_stops pat x d y :
  mem_char d pat = false →
  String.prefix pat (x +:+ String d y) = true → String.prefix pat x = true.
Proof.
  revert x. induction pat as [|p pat IH]; intros x; [by destruct x|].
  simpl. intros [Hp Hd]%orb_false_elim. apply bool_decide_eq_false in Hp.
  destruct x as [|c x].
  - intros [-> _]%prefix_cons. done.
  - rewrite append_cons. intros [-> H]%prefix_cons. apply prefix_cons. eauto.
Qed.

Lemma strstr_unfold s pat :
  strstr s pat =
  if String.prefix pat s then Some (EmptyString, CStr.drop (String.length pat) s)
  else match s with
       | EmptyString => None
       | String c rest =>
           match strstr rest pat with
           | Some (before, after) => Some (String c before, after)
           | None => None
           end
       end.
Proof. by destruct s. Qed.

Lemma strstr_Some s pat a b :
  strstr s pat = Some (a, b) → s = a +:+ pat +:+ b.
Proof.
  revert a. induction s as [|c s IH]; intros a; rewrite strstr_unfold.
  - destruct (String.prefix pat "") eqn:E; [|done].
    intros [= <- <-]. by apply prefix_drop in E.
  - destruct (String.prefix pat (String c s)) eqn:E.
    + intros [= <- <-]. by apply prefix_drop in E.
    + destruct (strstr s pat) as [[a' b']|] eqn:E'; [|done].
      intros [= <- <-]. rewrite append_cons. f_equal. by apply IH.
Qed.

(** Where the first occurrence starts after [c], none starts at [c]. *)
Lemma strstr_cons c a b s pat :
  strstr s pat = Some (String c a, b) →
  ∃ s', s = String c s' ∧ String.prefix pat s = false ∧ strstr s' pat = Some (a, b).
Proof.
  rewrite strstr_unfold. destruct (String.prefix pat s) eqn:E; [done|].
  destruct s as [|c' s']; [done|].
  destruct (strstr s' pat) as [[a' b']|] eqn:E'; [|done].
  intros [= -> -> ->]. exists s'. done.
Qed.

Lemma strstr_nil b s pat :
  strstr s pat = Some (EmptyString, b) → String.prefix pat s = true.
Proof.
  rewrite strstr_unfold. destruct (String.prefix pat s) eqn:E; [done|].
  destruct s as [|c' s']; [done|]. by destruct (strstr s' pat) as [[a' b']|].
Qed.

End StringFacts.

Section Replace.
Variables (search replacement : string) (p0 d0 : ascii) (search' replacement' : string).
Hypothesis search_cons : search = String p0 search'.
Hypothesis replacement_cons : replacement = String d0 replacement'.
Hypothesis apart : chars_apart search replacement = true.

Local Abbreviation subst := (substitute_all search replacement).

Lemma head_not_in_replacement : mem_char p0 replacement = false.
Proof using search_cons apart.
  clear replacement_cons. revert apart. generalize replacement as r.
  induction r as [|a r IH]; simpl; [done|].
  intros [Ha Hr]%andb_true_iff. rewrite IH by done.
  apply negb_true_iff in Ha. rewrite search_cons in Ha. simpl in Ha.
  apply orb_false_elim in Ha as [Ha _]. apply bool_decide_eq_false in Ha.
  rewrite bool_decide_eq_false_2; [done|congruence].
Qed.

Lemma replacement_head_not_in_search : mem_char d0 search = false.
Proof using replacement_cons apart.
  rewrite replacement_cons in apart. simpl in apart.
  apply andb_true_iff in apart as [Ha _]. by apply negb_true_iff in Ha.
Qed.

(** One replacement removes an occurrence of the first character of the
    token, which bounds the number of loop iterations. *)
Lemma replace_decreases s a b :
  strstr s search = Some (a, b) →
  (count_char p0 (a +:+ replacement +:+ b) < count_char p0 s)%nat.
Proof using search_cons apart.
  intros ->%strstr_Some. rewrite !count_char_append.
  rewrite (count_char_not_mem _ _ head_not_in_replacement).
  rewrite search_cons. simpl. rewrite bool_decide_eq_true_2 by done. lia.
Qed.

Lemma subst_cons c rest :
  subst (String c rest) 0 =
  if String.prefix search (String c rest)
  then replacement +:+ subst rest (String.length search - 1)
  else String c (subst rest 0).
Proof. reflexivity. Qed.

Lemma subst_skip x b : subst (x +:+ b) (String.length x) = subst b 0.
Proof. induction x as [|c x IH]; [done|]. by rewrite append_cons. Qed.

Lemma subst_no_occurrence s : strstr s search = None → subst s 0 = s.
Proof.
  induction s as [|c s IH]; [done|]. rewrite strstr_unfold.
  destruct (String.prefix search (String c s)) eqn:E; [done|].
  destruct (strstr s search) as [[??]|]; [done|]. intros _.
  rewrite subst_cons. rewrite E. f_equal. by apply IH.
Qed.

Lemma subst_through x b : mem_char p0 x = false → subst (x +:+ b) 0 = x +:+ subst b 0.
Proof using search_cons.
  induction x as [|c x IH]; [done|]. intros H. cbn [mem_char] in H.
  apply orb_false_elim in H as [Hc Hx]. apply bool_decide_eq_false in Hc.
  rewrite !append_cons. rewrite subst_cons.
  assert (String.prefix search (String c (x +:+ b)) = false) as ->.
  { rewrite search_cons. simpl. destruct (ascii_dec p0 c); [congruence|done]. }
  f_equal. by apply IH.
Qed.

Lemma subst_token a b :
  strstr (a +:+ search +:+ b) search = Some (a, b) →
  subst (a +:+ search +:+ b) 0 = a +:+ replacement +:+ subst b 0.
Proof using search_cons.
  induction a as [|c a IH]; intros H.
  - change ("" +:+ ?x) with x.
    assert (search +:+ b = String p0 (search' +:+ b)) as Hs by by rewrite search_cons.
    rewrite Hs, subst_cons, <- Hs, prefix_append. f_equal.
    replace (String.length search - 1)%nat with (String.length search')
      by (rewrite search_cons; simpl; lia).
    apply subst_skip.
  - apply strstr_cons in H as (s' & Hs & Hp & H).
    rewrite append_cons in Hs. injection Hs as <-.
    rewrite !append_cons. rewrite subst_cons.
    rewrite append_cons in Hp. rewrite Hp. f_equal. by apply IH.
Qed.

Lemma subst_replaced a b :
  strstr (a +:+ search +:+ b) search = Some (a, b) →
  subst (a +:+ replacement +:+ b) 0 = a +:+ replacement +:+ subst b 0.
Proof using search_cons replacement_cons apart.
  induction a as [|c a IH]; intros H.
  - change ("" +:+ ?x) with x. apply subst_through, head_not_in_replacement.
  - apply strstr_cons in H as (s' & Hs & Hp & H).
    rewrite append_cons in Hs. injection Hs as <-.
    rewrite !append_cons. rewrite subst_cons.
    assert (String.prefix search (String c (a +:+ replacement +:+ b)) = false) as ->.
    { apply not_true_is_false. intros Hq.
      rewrite replacement_cons in Hq.
      change (String.prefix search (String c a +:+ String d0 (replacement' +:+ b)) = true) in Hq.
      apply prefix_stops in Hq; [|apply replacement_head_not_in_search].
      apply (prefix_extend _ _ (search +:+ b)) in Hq. congruence. }
    f_equal. by apply IH.
Qed.

Hypothesis search_pid : search = "{pid}".

Lemma replace_pid_loop_all (fuel : nat) (s : string) :
  (count_char p0 s < fuel)%nat →
  ∃ r, replace_pid_loop fuel (Some s) replacement = Some (Some r)
       ∧ strstr r search = None
       ∧ r = subst s 0.
Proof using search_cons replacement_cons apart search_pid.
  revert s. induction fuel as [|fuel IH]; intros s Hs; [lia|].
  cbn [replace_pid_loop]. rewrite <- search_pid.
  cbn [ep_rt_utf8_string_replace].
  destruct (strstr s search) as [[a b]|] eqn:E.
  - pose proof (replace_decreases _ _ _ E) as Hd.
    destruct (IH (a +:+ replacement +:+ b)) as (r & Hr & Hn & Heq); [lia|].
    exists r. split; [exact Hr|]. split; [done|].
    rewrite Heq. pose proof (strstr_Some _ _ _ _ E) as ->.
    rewrite subst_token, subst_replaced; done.
  - exists s. split; [done|]. split; [done|]. by rewrite subst_no_occurrence.
Qed.

End Replace.

Section PidString.

Lemma all_digits_string_of_uint d :
  all_digits (DecimalString.NilEmpty.string_of_uint d) = true.
Proof. induction d; simpl; try done. Qed.

Lemma pid_string_digits pid :
  all_digits (pid_string pid) = true ∧ pid_string pid ≠ "".
Proof.
  unfold pid_string, DecimalString.NilZero.string_of_uint.
  destruct (N.to_uint _) eqn:E; [done|..];
    (split; [apply (all_digits_string_of_uint (_ _))|done]).
Qed.

Lemma decimal_value_from_acc d p :
  decimal_value_from (Z.pos p) (DecimalString.NilEmpty.string_of_uint d)
  = Z.pos (Pos.of_uint_acc d p).
Proof.
  revert p. induction d; intros p; [done|..];
    cbn [DecimalString.NilEmpty.string_of_uint decimal_value_from Pos.of_uint_acc];
    rewrite <- IHd; f_equal; vm_compute (Z.of_N (N_of_ascii _)); lia.
Qed.

Lemma decimal_value_of_uint d :
  decimal_value (DecimalString.NilEmpty.string_of_uint d) = Z.of_N (N.of_uint d).
Proof.
  unfold decimal_value, N.of_uint.
  induction d; [done|..];
    cbn [DecimalString.NilEmpty.string_of_uint decimal_value_from Pos.of_uint Z.of_N];
    [exact IHd|..];
    rewrite <- decimal_value_from_acc; f_equal.
Qed.

(** N.to_uint gives no leading zero. *)
Lemma to_uint_no_leading_zero n :
  N.to_uint n = Decimal.D0 Decimal.Nil
  ∨ match N.to_uint n with Decimal.Nil | Decimal.D0 _ => False | _ => True end.
Proof.
  assert (∀ d, Decimal.unorm d = Decimal.D0 Decimal.Nil
               ∨ match Decimal.unorm d with
                 | Decimal.Nil | Decimal.D0 _ => False
                 | _ => True
                 end) as H.
  { unfold Decimal.unorm. induction d; simpl; auto. }
  assert (N.to_uint n = Decimal.unorm (N.to_uint n)) as ->.
  { by rewrite <- DecimalN.Unsigned.to_of, DecimalN.Unsigned.of_to. }
  apply H.
Qed.

(** The pid text is the canonical decimal numeral of the pid taken as an
    unsigned 32-bit number: digits only, read back as that number, and
    without a leading zero. *)
Lemma pid_string_decimal pid :
  decimal_value (pid_string pid) = pid mod 2 ^ 32
  ∧ (pid_string pid = "0" ∨ CStr.deref (pid_string pid) ≠ "0"%char).
Proof.
  unfold pid_string. set (n := Z.to_N (pid mod 2 ^ 32)).
  assert (Z.of_N n = pid mod 2 ^ 32) as <-.
  { unfold n. rewrite Z2N.id; [done|]. apply Z.mod_pos_bound. lia. }
  rewrite <- (DecimalN.Unsigned.of_to n) at 2.
  pose proof (decimal_value_of_uint (N.to_uint n)) as Hv.
  pose proof (to_uint_no_leading_zero n) as Hz.
  unfold DecimalString.NilZero.string_of_uint.
  destruct (N.to_uint n) eqn:E; cbn [DecimalString.NilEmpty.string_of_uint] in *;
    try (split; [exact Hv|right; discriminate]).
  - split; [done|by left].
  - destruct Hz as [Hz|[]]. injection Hz as ->. split; [exact Hv|by left].
Qed.

Lemma digit_not_in_token c : is_digit c = true → mem_char c "{pid}" = false.
Proof.
  intros H. cbn [mem_char].
  repeat (case_bool_decide; [subst c; discriminate H|]). done.
Qed.

Lemma all_digits_apart s : all_digits s = true → chars_apart "{pid}" s = true.
Proof.
  induction s as [|c s IH]; [done|]. cbn [all_digits chars_apart].
  intros [Hc Hs]%andb_true_iff. rewrite digit_not_in_token by done. auto.
Qed.

(** The loop over a template stops within the fuel [length + 1], leaves
    no token and yields the template with every token replaced. *)
Lemma replace_pid_loop_result (pid : Z) (template : string) :
  ∃ r, replace_pid_loop (S (String.length template)) (Some template) (pid_string pid)
         = Some (Some r)
       ∧ strstr r "{pid}" = None
       ∧ r = substitute_all "{pid}" (pid_string pid) template 0.
Proof.
  destruct (pid_string_digits pid) as [Hd Hne].
  destruct (pid_string pid) as [|d0 rep'] eqn:E; [done|].
  eapply (replace_pid_loop_all "{pid}" (String d0 rep') "{" d0 "pid}" rep');
    try done.
  - by apply all_digits_apart.
  - pose proof (count_char_length "{" template). lia.
Qed.

End PidString.

(** ** Option validation *)

Section OptionFacts.
Context {rt : Runtime}.

Lemma is_null_None {A} (p : option A) : is_null p = true ↔ p = None.
Proof. by destruct p. Qed.

(** What check_options_valid accepts. *)
Lemma check_options_valid_true options :
  check_options_valid options = true →
  format options < EP_SERIALIZATION_FORMAT_COUNT
  ∧ (circular_buffer_size_in_mb options ≤ 0 →
     ep_session_type_uses_buffer_manager (session_type options) = false)
  ∧ providers options ≠ None
  ∧ 0 < providers_len options
  ∧ (session_type options = EP_SESSION_TYPE_FILE
     ∨ session_type options = EP_SESSION_TYPE_FILESTREAM → output_path options ≠ None)
  ∧ (session_type options = EP_SESSION_TYPE_IPCSTREAM → stream options ≠ None)
  ∧ (session_type options = EP_SESSION_TYPE_USEREVENTS → user_events_data_fd options ≠ -1).
Proof.
  unfold check_options_valid.
  destruct (EP_SERIALIZATION_FORMAT_COUNT <=? format options) eqn:E1; [done|].
  destruct ((circular_buffer_size_in_mb options <=? 0) && _) eqn:E2; [done|].
  destruct (is_null (providers options) || _) eqn:E3; [done|].
  destruct ((bool_decide (session_type options = EP_SESSION_TYPE_FILE) || _) && _)
    eqn:E4; [done|].
  destruct (bool_decide (session_type options = EP_SESSION_TYPE_IPCSTREAM) && _)
    eqn:E5; [done|].
  destruct (bool_decide (session_type options = EP_SESSION_TYPE_USEREVENTS) && _)
    eqn:E6; [done|].
  intros _. apply Z.leb_gt in E1.
  apply orb_false_elim in E3 as [E3 E3']. apply Z.leb_gt in E3'.
  repeat split; try done.
  - intros Hle. apply Z.leb_le in Hle. rewrite Hle in E2. done.
  - intros Hn. by rewrite Hn in E3.
  - intros Ht Hn. rewrite Hn in E4. simpl in E4. rewrite andb_true_r in E4.
    apply orb_false_elim in E4 as [Ea Eb].
    apply bool_decide_eq_false in Ea, Eb. by destruct Ht.
  - intros Ht Hn. rewrite Hn, Ht in E5. done.
  - intros Ht Hn. rewrite Hn, Ht in E6. done.
Qed.

Lemma ep_enable_3_rejected o options s :
  check_options_valid options = false → ep_enable_3 o options s = (0, s).
Proof. intros H. unfold ep_enable_3. by rewrite H. Qed.

End OptionFacts.

(** C7. ep_enable_3 checks the options before anything else: with an
    unknown serialization format, a non-positive buffer size for a session
    type that uses a buffer manager, a File or FileStream session without
    output path, an IpcStream session without stream, or a UserEvents
    session with descriptor -1, it returns session id 0 and the state is
    the one it was called in: nothing is allocated (the trace is
    unchanged) and no session is published. *)
Theorem ep_enable_3_invalid_options {rt : Runtime}
    (o : Oracle) (options : EventPipeSessionOptions) (s : EventPipe) :
  EP_SERIALIZATION_FORMAT_COUNT ≤ format options
  ∨ (circular_buffer_size_in_mb options ≤ 0
     ∧ ep_session_type_uses_buffer_manager (session_type options) = true)
  ∨ ((session_type options = EP_SESSION_TYPE_FILE
      ∨ session_type options = EP_SESSION_TYPE_FILESTREAM)
     ∧ output_path options = None)
  ∨ (session_type options = EP_SESSION_TYPE_IPCSTREAM ∧ stream options = None)
  ∨ (session_type options = EP_SESSION_TYPE_USEREVENTS
     ∧ user_events_data_fd options = -1) →
  check_options_valid options = false
  ∧ ep_enable_3 o options s = (0, s)
  ∧ (ep_enable_3 o options s).2.(trace) = trace s
  ∧ (ep_enable_3 o options s).2.(_ep_sessions) = _ep_sessions s.
Proof.
  intros H.
  assert (check_options_valid options = false) as Hc.
  { destruct (check_options_valid options) eqn:E; [|done]. exfalso.
    apply check_options_valid_true in E as (E1 & E2 & _ & _ & E5 & E6 & E7).
    destruct H as [H|[[H1 H2]|[[H1 H2]|[[H1 H2]|[H1 H2]]]]].
    - lia.
    - specialize (E2 H1). congruence.
    - by apply E5.
    - by apply E6.
    - by apply E7. }
  rewrite (ep_enable_3_rejected o options s Hc). done.
Qed.

Lemma ep_enable_3_invalid_options_witness :
  let options :=
    ep_session_options_init None 1 (Some [ep_provider_config_init (Some "Foo") 0 5 None]) 1
      EP_SESSION_TYPE_FILE 1 0 true None None None 0 in
  session_type options = EP_SESSION_TYPE_FILE ∧ output_path options = None
  ∧ @ep_enable_3 coreclr
      {| ep_session_alloc_result := 1000;
         ep_session_is_valid := true;
         ep_event_source_enable_result := true;
         ep_thread_get_or_create_result := 77;
         config_enable_disable_callbacks := λ _ _, [];
         suspended_ports_callback_result := false;
         ep_rt_providers_validate_all_disabled := true;
         ep_rt_config_value_get_enable := false;
         ep_rt_config_value_get_config := None;
         ep_rt_config_value_get_output_path := None;
         ep_rt_config_value_get_circular_mb := 0;
         ep_rt_config_value_get_output_streaming := false;
         ep_rt_current_process_get_id := 1 |}
      options (set_state EP_STATE_INITIALIZED (@initial_state coreclr))
    = (0, set_state EP_STATE_INITIALIZED (@initial_state coreclr)).
Proof.
  intros options. split; [reflexivity|]. split; [reflexivity|].
  apply (@ep_enable_3_invalid_options coreclr).
  right. right. left. split; [by left|reflexivity].
Defined.

(** C9. With a null providers array or a providers_len of zero,
    ep_enable_3 returns session id 0 whatever the session type is, and the
    state, registry slots included, is left as it was. *)
Theorem ep_enable_3_no_providers {rt : Runtime}
    (o : Oracle) (options : EventPipeSessionOptions) (s : EventPipe) :
  providers options = None ∨ providers_len options = 0 →
  check_options_valid options = false
  ∧ ep_enable_3 o options s = (0, s)
  ∧ (ep_enable_3 o options s).2.(_ep_sessions) = _ep_sessions s.
Proof.
  intros H.
  assert (check_options_valid options = false) as Hc.
  { destruct (check_options_valid options) eqn:E; [|done]. exfalso.
    apply check_options_valid_true in E as (_ & _ & E3 & E4 & _).
    destruct H as [H|H]; [done|lia]. }
  by rewrite (ep_enable_3_rejected o options s Hc).
Qed.

Lemma ep_enable_3_no_providers_witness :
  let options :=
    ep_session_options_init (Some "trace.nettrace") 1 None 0
      EP_SESSION_TYPE_LISTENER 1 0 true None None None 0 in
  providers options = None
  ∧ @check_options_valid coreclr options = false.
Proof.
  intros options. split; [reflexivity|].
  exact (proj1 (@ep_enable_3_no_providers coreclr
    {| ep_session_alloc_result := 1000;
       ep_session_is_valid := true;
       ep_event_source_enable_result := true;
       ep_thread_get_or_create_result := 77;
       config_enable_disable_callbacks := λ _ _, [];
       suspended_ports_callback_result := false;
       ep_rt_providers_validate_all_disabled := true;
       ep_rt_config_value_get_enable := false;
       ep_rt_config_value_get_config := None;
       ep_rt_config_value_get_output_path := None;
       ep_rt_config_value_get_circular_mb := 0;
       ep_rt_config_value_get_output_streaming := false;
       ep_rt_current_process_get_id := 1 |}
    options (@initial_state coreclr) (or_introl eq_refl))).
Defined.

(** ** The registry: enable *)

Section RegistryFacts.
Context {rt : Runtime}.
Implicit Type s : EventPipe.

Lemma load_session_lookup i s p :
  _ep_sessions s !! i = Some p → ep_volatile_load_session i s = p.
Proof. unfold ep_volatile_load_session. by intros ->. Qed.

Lemma load_session_inv i s :
  (i < length (_ep_sessions s))%nat →
  _ep_sessions s !! i = Some (ep_volatile_load_session i s).
Proof.
  intros Hi. unfold ep_volatile_load_session.
  destruct (lookup_lt_is_Some_2 _ _ Hi) as [p ->]. done.
Qed.

Lemma load_session_ext i s s' :
  _ep_sessions s = _ep_sessions s' →
  ep_volatile_load_session i s = ep_volatile_load_session i s'.
Proof. unfold ep_volatile_load_session. by intros ->. Qed.

Lemma generate_session_index_from_ext n i s s' :
  _ep_sessions s = _ep_sessions s' →
  generate_session_index_from n i s = generate_session_index_from n i s'.
Proof.
  intros H. revert i. induction n as [|n IH]; intros i; simpl; [done|].
  by rewrite (load_session_ext i s s'), IH.
Qed.

Lemma generate_session_index_ext s s' :
  _ep_sessions s = _ep_sessions s' →
  generate_session_index s = generate_session_index s'.
Proof. apply generate_session_index_from_ext. Qed.

Lemma find_session_from_ext n i p s s' :
  _ep_sessions s = _ep_sessions s' →
  find_session_from n i p s = find_session_from n i p s'.
Proof.
  intros H. revert i. induction n as [|n IH]; intros i; simpl; [done|].
  by rewrite (load_session_ext i s s'), IH.
Qed.

Lemma generate_session_index_from_spec n i s :
  (i + n = EP_MAX_NUMBER_OF_SESSIONS)%nat →
  let r := generate_session_index_from n i s in
  (r = EP_MAX_NUMBER_OF_SESSIONS
   ∧ ∀ j, (i ≤ j < EP_MAX_NUMBER_OF_SESSIONS)%nat → ep_volatile_load_session j s ≠ 0)
  ∨ ((i ≤ r < EP_MAX_NUMBER_OF_SESSIONS)%nat
     ∧ ep_volatile_load_session r s = 0
     ∧ ∀ j, (i ≤ j < r)%nat → ep_volatile_load_session j s ≠ 0).
Proof.
  revert i. induction n as [|n IH]; intros i Hn; simpl.
  - left. split; [done|]. intros j Hj. lia.
  - destruct (ep_volatile_load_session i s =? 0) eqn:E.
    + right. apply Z.eqb_eq in E. split; [lia|]. split; [done|]. intros j Hj. lia.
    + apply Z.eqb_neq in E.
      destruct (IH (S i) ltac:(lia)) as [[Hr Hall]|(Hr & H0 & Hall)].
      * left. split; [done|]. intros j Hj.
        destruct (decide (j = i)) as [->|]; [done|]. apply Hall. lia.
      * right. split; [lia|]. split; [done|]. intros j Hj.
        destruct (decide (j = i)) as [->|]; [done|]. apply Hall. lia.
Qed.

(** generate_session_index returns the lowest free slot, or
    EP_MAX_NUMBER_OF_SESSIONS when every slot is taken. *)
Lemma generate_session_index_spec s :
  let r := generate_session_index s in
  (r = EP_MAX_NUMBER_OF_SESSIONS
   ∧ ∀ j, (j < EP_MAX_NUMBER_OF_SESSIONS)%nat → ep_volatile_load_session j s ≠ 0)
  ∨ ((r < EP_MAX_NUMBER_OF_SESSIONS)%nat
     ∧ ep_volatile_load_session r s = 0
     ∧ ∀ j, (j < r)%nat → ep_volatile_load_session j s ≠ 0).
Proof.
  destruct (generate_session_index_from_spec EP_MAX_NUMBER_OF_SESSIONS 0 s eq_refl)
    as [[Hr Hall]|(Hr & H0 & Hall)]; [left|right]; unfold generate_session_index.
  - split; [done|]. intros j Hj. apply Hall. lia.
  - split; [lia|]. split; [done|]. intros j Hj. apply Hall. lia.
Qed.

Lemma find_session_from_spec n i p s :
  (i + n = EP_MAX_NUMBER_OF_SESSIONS)%nat →
  match find_session_from n i p s with
  | Some r => (i ≤ r < EP_MAX_NUMBER_OF_SESSIONS)%nat
              ∧ ep_volatile_load_session r s = p
              ∧ ∀ j, (i ≤ j < r)%nat → ep_volatile_load_session j s ≠ p
  | None => ∀ j, (i ≤ j < EP_MAX_NUMBER_OF_SESSIONS)%nat → ep_volatile_load_session j s ≠ p
  end.
Proof.
  revert i. induction n as [|n IH]; intros i Hn; simpl.
  - intros j Hj. lia.
  - destruct (ep_volatile_load_session i s =? p) eqn:E.
    + apply Z.eqb_eq in E. split; [lia|]. split; [done|]. intros j Hj. lia.
    + apply Z.eqb_neq in E. specialize (IH (S i) ltac:(lia)).
      destruct (find_session_from n (S i) p s) as [r|].
      * destruct IH as (Hr & Hp & Hall). split; [lia|]. split; [done|].
        intros j Hj. destruct (decide (j = i)) as [->|]; [done|]. apply Hall. lia.
      * intros j Hj. destruct (decide (j = i)) as [->|]; [done|]. apply IH. lia.
Qed.

Lemma find_session_registered p s :
  is_Some (find_session_from EP_MAX_NUMBER_OF_SESSIONS 0 p s) ↔ registered p s.
Proof.
  pose proof (find_session_from_spec EP_MAX_NUMBER_OF_SESSIONS 0 p s eq_refl) as H.
  destruct (find_session_from _ 0 p s) as [r|]; split.
  - intros _. exists r. destruct H as (? & ? & _). split; [lia|done].
  - by eexists.
  - by intros [? ?].
  - intros (i & Hi & Hp). exfalso. apply (H i); [lia|done].
Qed.

(** Counting the live sessions after a store into a slot. *)
Lemma live_count_insert (l : list Z) i p :
  l !! i = Some 0 → p ≠ 0 →
  length (filter (λ q : Z, q ≠ 0%Z) (<[i := p]> l)) = S (length (filter (λ q : Z, q ≠ 0%Z) l)).
Proof.
  revert i. induction l as [|x l IH]; intros [|i] H Hp; simplify_eq/=.
  - rewrite !(filter_cons (λ q : Z, q ≠ 0%Z)). by repeat case_decide.
  - rewrite !(filter_cons (λ q : Z, q ≠ 0%Z)). destruct (decide (x ≠ 0)); simpl; rewrite IH; done.
Qed.

Lemma live_count_remove (l : list Z) i p :
  l !! i = Some p → p ≠ 0 →
  S (length (filter (λ q : Z, q ≠ 0%Z) (<[i := 0]> l))) = length (filter (λ q : Z, q ≠ 0%Z) l).
Proof.
  revert i. induction l as [|x l IH]; intros [|i] H Hp; simplify_eq/=.
  - rewrite !(filter_cons (λ q : Z, q ≠ 0%Z)). by repeat case_decide.
  - rewrite !(filter_cons (λ q : Z, q ≠ 0%Z)).
    destruct (decide (x ≠ 0)); simpl; erewrite <- IH; done.
Qed.

Lemma live_count_bound (l : list Z) :
  (length (filter (λ q : Z, q ≠ 0%Z) l) ≤ length l)%nat.
Proof. exact (length_filter (λ q : Z, q ≠ 0%Z) l). Qed.

Lemma live_count_free (l : list Z) i :
  l !! i = Some 0 → (length (filter (λ q : Z, q ≠ 0%Z) l) < length l)%nat.
Proof.
  revert i. induction l as [|x l IH]; intros [|i] H; simplify_eq/=.
  - rewrite (filter_cons (λ q : Z, q ≠ 0%Z)). case_decide; [done|].
    pose proof (live_count_bound l). lia.
  - rewrite (filter_cons (λ q : Z, q ≠ 0%Z)).
    destruct (decide (x ≠ 0)); simpl; specialize (IH _ H); lia.
Qed.

(** In a well-formed registry a session sits in the slot of its index
    only: two live sessions never share a slot index. *)
Lemma registry_wf_exclusive s p q obj_p obj_q :
  registry_wf s → p ≠ 0 → q ≠ 0 → p ≠ q →
  registered p s → registered q s →
  heap s !! p = Some obj_p → heap s !! q = Some obj_q →
  ep_session_get_index obj_p ≠ ep_session_get_index obj_q.
Proof.
  intros Hwf Hp Hq Hne (i & Hi & Hpi) (j & Hj & Hqj) Hop Hoq Heq.
  rewrite <- (wf_length _ Hwf) in Hi, Hj.
  apply load_session_inv in Hi, Hj. rewrite Hpi in Hi. rewrite Hqj in Hj.
  destruct (wf_slot _ Hwf _ _ Hi Hp) as (o1 & Ho1 & Hi1).
  destruct (wf_slot _ Hwf _ _ Hj Hq) as (o2 & Ho2 & Hi2).
  rewrite Hop in Ho1. injection Ho1 as <-. rewrite Hoq in Ho2. injection Ho2 as <-.
  assert (i = j) as -> by congruence. rewrite Hi in Hj. congruence.
Qed.

Lemma same_globals_refl s : same_globals s s.
Proof. by repeat split. Qed.

Lemma same_globals_trans s1 s2 s3 :
  same_globals s1 s2 → same_globals s2 s3 → same_globals s1 s3.
Proof.
  unfold same_globals. intros (?&?&?&?&?&?&?&?&?) (?&?&?&?&?&?&?&?&?).
  repeat split; congruence.
Qed.

Lemma same_globals_log e s : same_globals s (log e s).
Proof. by repeat split. Qed.

Lemma same_globals_assert c m s : same_globals s (EP_ASSERT c m s).
Proof. unfold EP_ASSERT. destruct c; by repeat split. Qed.

Lemma heap_assert c m s : heap (EP_ASSERT c m s) = heap s.
Proof. unfold EP_ASSERT. by destruct c. Qed.

Lemma frame_refl p s : frame p s s.
Proof. split; [apply same_globals_refl|done]. Qed.

Lemma frame_trans p s1 s2 s3 : frame p s1 s2 → frame p s2 s3 → frame p s1 s3.
Proof.
  intros [H1 H1'] [H2 H2']. split; [by eapply same_globals_trans|].
  intros x Hx. by rewrite H2', H1'.
Qed.

Lemma frame_log p e s : frame p s (log e s).
Proof. split; [apply same_globals_log|done]. Qed.

Lemma frame_assert p c m s : frame p s (EP_ASSERT c m s).
Proof. split; [apply same_globals_assert|]. intros. by rewrite heap_assert. Qed.

Lemma frame_insert p obj s : frame p s (set_heap (<[p := obj]> (heap s)) s).
Proof.
  split; [by repeat split|]. intros x Hx. simpl. by rewrite lookup_insert_ne.
Qed.

Lemma frame_dec_ref p s : frame p s (ep_session_dec_ref p s).
Proof.
  unfold ep_session_dec_ref. destruct (p =? 0); [apply frame_refl|].
  cbn. destruct (heap s !! p) as [obj|]; [|by split; [repeat split|]].
  destruct (_ <=? _); (split; [by repeat split|]); intros x Hx; simpl.
  - by rewrite lookup_delete_ne.
  - by rewrite lookup_insert_ne.
Qed.

Lemma frame_dec_ref_null p s : frame p s (ep_session_dec_ref 0 s).
Proof. apply frame_refl. Qed.

Lemma enable_inv o options queue s :
  let r := enable o options queue s in
  (r.1.1 = 0 ∧ frame (ep_session_alloc_result o) s r.2
   ∧ (_ep_state s ≠ EP_STATE_INITIALIZED
      ∨ generate_session_index s = EP_MAX_NUMBER_OF_SESSIONS
      ∨ ep_session_alloc_result o = 0
      ∨ ep_session_is_valid o = false
      ∨ Z.of_nat EP_MAX_NUMBER_OF_SESSIONS ≤ _ep_number_of_sessions s
      ∨ ep_event_source_enable_result o = false))
  ∨ (∃ obj,
       let i := generate_session_index s in
       let p := ep_session_alloc_result o in
       r.1.1 = p ∧ p ≠ 0
       ∧ _ep_state s = EP_STATE_INITIALIZED
       ∧ (i < EP_MAX_NUMBER_OF_SESSIONS)%nat
       ∧ ep_volatile_load_session i s = 0
       ∧ _ep_number_of_sessions s < Z.of_nat EP_MAX_NUMBER_OF_SESSIONS
       ∧ ep_session_get_index obj = i
       ∧ ep_session_get_rundown_keyword obj = rundown_keyword options
       ∧ ep_session_get_session_type obj = session_type options
       ∧ _ep_sessions r.2 = <[i := p]> (_ep_sessions s)
       ∧ heap r.2 = <[p := obj]> (heap s)
       ∧ _ep_number_of_sessions r.2 = (_ep_number_of_sessions s + 1) mod 2 ^ 32
       ∧ _ep_allow_write r.2
         = Z.lor (_ep_allow_write s) (ep_session_get_mask obj) mod 2 ^ 64
       ∧ _ep_state r.2 = _ep_state s
       ∧ _ep_can_start_threads r.2 = _ep_can_start_threads s
       ∧ _ep_deferred_enable_session_ids r.2 = _ep_deferred_enable_session_ids s
       ∧ _ep_deferred_disable_session_ids r.2 = _ep_deferred_disable_session_ids s).
Proof.
  unfold enable.
  set (p := ep_session_alloc_result o).
  set (s0 := EP_ASSERT _ _ (EP_ASSERT _ _ (EP_ASSERT _ _ s))).
  assert (frame p s s0) as H0.
  { repeat (eapply frame_trans; [|apply frame_assert]). apply frame_refl. }
  assert (heap s0 = heap s) as Hh0 by (unfold s0; by rewrite !heap_assert).
  clearbody s0.
  pose proof H0 as [(Hst & Hn & Hs & Haw & Hct & Hde & Hdd & Hcb & Hck) _].
  rewrite (generate_session_index_ext s0 s) by done.
  assert (∀ q s1, frame p s s1 →
            (enable_on_error 0 q s1).1.1 = 0 ∧ frame p s (enable_on_error 0 q s1).2)
    as Herr0.
  { intros q s1 H1. split; [done|]. simpl.
    eapply frame_trans; [exact H1|apply frame_dec_ref_null]. }
  assert (∀ q s1, frame p s s1 →
            (enable_on_error p q s1).1.1 = 0 ∧ frame p s (enable_on_error p q s1).2)
    as Herr.
  { intros q s1 H1. split; [done|]. simpl.
    eapply frame_trans; [exact H1|apply frame_dec_ref]. }
  pose proof (generate_session_index_spec s) as Hgen. cbv zeta in Hgen.
  destruct (negb (bool_decide (_ep_state s0 = EP_STATE_INITIALIZED))) eqn:E1.
  { left. apply negb_true_iff, bool_decide_eq_false in E1. rewrite Hst in E1.
    destruct (Herr0 queue s0 H0). auto. }
  apply negb_false_iff, bool_decide_eq_true in E1. rewrite Hst in E1.
  destruct (negb (generate_session_index s <? EP_MAX_NUMBER_OF_SESSIONS)%nat) eqn:E2.
  { left. apply negb_true_iff, Nat.ltb_ge in E2.
    destruct (Herr0 queue s0 H0). split; [done|]. split; [done|].
    right. left. destruct Hgen as [[? _]|[? _]]; [done|lia]. }
  apply negb_false_iff, Nat.ltb_lt in E2.
  destruct Hgen as [[? _]|(_ & Hfree & _)]; [lia|].
  unfold ep_session_alloc. fold p.
  destruct (p =? 0) eqn:E3.
  { left. apply Z.eqb_eq in E3.
    edestruct (Herr0 queue) as [? ?];
      [eapply frame_trans; [exact H0|apply frame_log]|].
    split; [done|]. split; [done|]. auto. }
  apply Z.eqb_neq in E3.
  set (obj := {| ep_session_get_index := generate_session_index s |}).
  set (s1 := set_heap _ _).
  assert (frame p s s1) as H1.
  { eapply frame_trans; [exact H0|]. unfold s1.
    eapply frame_trans; [apply frame_log|apply frame_insert]. }
  assert (heap s1 = <[p := obj]> (heap s)) as Hh1.
  { unfold s1. simpl. by rewrite Hh0. }
  clearbody s1. clear H0 Hh0 Hst Hn Hs Haw Hct Hde Hdd Hcb Hck s0.
  pose proof H1 as [(Hst & Hn & Hs & Haw & Hct & Hde & Hdd & Hcb & Hck) _].
  destruct (negb (ep_session_is_valid o)) eqn:E4.
  { left. apply negb_true_iff in E4.
    destruct (Herr queue s1 H1). auto 10. }
  destruct (EP_MAX_NUMBER_OF_SESSIONS <=? ep_session_get_index obj)%nat eqn:E5.
  { apply Nat.leb_le in E5. simpl in E5. lia. }
  destruct (Z.of_nat EP_MAX_NUMBER_OF_SESSIONS <=? _ep_number_of_sessions s1) eqn:E6.
  { left. apply Z.leb_le in E6. rewrite Hn in E6.
    edestruct (Herr queue) as [? ?];
      [eapply frame_trans; [exact H1|apply frame_log]|].
    split; [done|]. split; [done|]. auto 10. }
  apply Z.leb_gt in E6. rewrite Hn in E6.
  destruct (negb (ep_event_source_enable_result o)) eqn:E7.
  { left. apply negb_true_iff in E7.
    edestruct (Herr queue) as [? ?];
      [eapply frame_trans; [exact H1|];
       eapply frame_trans; apply frame_log|].
    split; [done|]. split; [done|]. auto 10. }
  match goal with |- context [negb (?x =? 0)] => destruct (negb (x =? 0)) eqn:E8 end.
  { apply negb_true_iff, Z.eqb_neq in E8.
    rewrite (load_session_ext _ _ s) in E8 by done. simpl in E8. done. }
  clear E8.
  right. exists obj. cbv zeta.
  unfold config_enable_disable.
  destruct (session_requested_sampling obj); simpl;
    rewrite ?Hst, ?Hn, ?Hs, ?Haw, ?Hct, ?Hde, ?Hdd, ?Hh1; repeat split; done.
Qed.

Lemma registered_lookup p s :
  length (_ep_sessions s) = EP_MAX_NUMBER_OF_SESSIONS →
  registered p s ↔ ∃ i, _ep_sessions s !! i = Some p.
Proof.
  intros Hlen. split.
  - intros (i & Hi & Hp). exists i. rewrite <- Hlen in Hi.
    apply load_session_inv in Hi. by rewrite Hp in Hi.
  - intros (i & Hi). exists i. split.
    + rewrite <- Hlen. by eapply lookup_lt_Some.
    + by apply load_session_lookup.
Qed.

(** A session that is registered is allocated. *)
Lemma registry_wf_registered s p :
  registry_wf s → p ≠ 0 → registered p s →
  ∃ obj, heap s !! p = Some obj
         ∧ _ep_sessions s !! ep_session_get_index obj = Some p.
Proof.
  intros Hwf Hp Hr. apply (registered_lookup _ _ (wf_length _ Hwf)) in Hr as [i Hi].
  destruct (wf_slot _ Hwf _ _ Hi Hp) as (obj & Ho & <-). eauto.
Qed.

Lemma registry_wf_frame p s s' :
  registry_wf s → heap s !! p = None → frame p s s' → registry_wf s'.
Proof.
  intros Hwf Hp [(Hst & Hn & Hs & _) Hh]. split.
  - apply (wf_max _ Hwf).
  - rewrite Hs. apply (wf_length _ Hwf).
  - intros i q Hi Hq. rewrite Hs in Hi.
    destruct (wf_slot _ Hwf _ _ Hi Hq) as (obj & Ho & Hidx).
    exists obj. split; [|done]. rewrite Hh; [done|]. intros ->. congruence.
  - unfold live_sessions. rewrite Hn, Hs. apply (wf_count _ Hwf).
Qed.

Lemma enable_wf o options queue s :
  registry_wf s → heap s !! ep_session_alloc_result o = None →
  registry_wf (enable o options queue s).2.
Proof.
  intros Hwf Hfresh.
  destruct (enable_inv o options queue s) as [(_ & Hf & _)|(obj & H)].
  - by eapply registry_wf_frame.
  - cbv zeta in H.
    destruct H as (_ & Hp & _ & Hi & Hfree & Hn & Hidx & _ & _ & Hs & Hh & Hc & _).
    set (i := generate_session_index s) in *.
    set (p := ep_session_alloc_result o) in *.
    assert (_ep_sessions s !! i = Some 0) as Hi0.
    { rewrite <- Hfree. apply load_session_inv. by rewrite (wf_length _ Hwf). }
    split.
    + apply (wf_max _ Hwf).
    + rewrite Hs, length_insert. apply (wf_length _ Hwf).
    + intros j q Hj Hq. rewrite Hs in Hj. rewrite Hh.
      destruct (decide (j = i)) as [->|Hne].
      * rewrite list_lookup_insert_eq in Hj by (by eapply lookup_lt_Some).
        injection Hj as <-. exists obj. by rewrite lookup_insert_eq.
      * rewrite list_lookup_insert_ne in Hj by done.
        destruct (wf_slot _ Hwf _ _ Hj Hq) as (obj' & Ho & Hidx').
        exists obj'. split; [|done]. rewrite lookup_insert_ne; [done|].
        intros ->. congruence.
    + unfold live_sessions. rewrite Hc, Hs, (live_count_insert _ _ _ Hi0 Hp).
      rewrite (wf_count _ Hwf). unfold live_sessions.
      pose proof (live_count_free _ _ Hi0) as Hlt.
      rewrite (wf_length _ Hwf) in Hlt. pose proof (wf_max _ Hwf).
      rewrite Z.mod_small; lia.
Qed.

Lemma registry_wf_fresh s p :
  registry_wf s → p ≠ 0 → heap s !! p = None → ¬ registered p s.
Proof.
  intros Hwf Hp Hn Hr.
  destruct (registry_wf_registered _ _ Hwf Hp Hr) as (obj & Ho & _). congruence.
Qed.
End RegistryFacts.

(** C6. [enable] takes the slot that generate_session_index finds, the
    lowest-index slot holding NULL, and stores the new session there and
    nowhere else; the registry stays well formed, so two sessions that are
    both registered never have the same slot index; and when every one of
    the EP_MAX_NUMBER_OF_SESSIONS slots is taken, the session id is 0 and
    the registry is untouched. *)
Theorem enable_lowest_free_slot {rt : Runtime}
    (o : Oracle) (options : EventPipeSessionOptions) (queue : list Z) (s : EventPipe) :
  registry_wf s →
  heap s !! ep_session_alloc_result o = None →
  let id := (enable o options queue s).1.1 in
  let s' := (enable o options queue s).2 in
  let i := generate_session_index s in
  (id ≠ 0 →
     (i < EP_MAX_NUMBER_OF_SESSIONS)%nat
     ∧ ep_volatile_load_session i s = 0
     ∧ (∀ j, (j < i)%nat → ep_volatile_load_session j s ≠ 0)
     ∧ _ep_sessions s' = <[i := id]> (_ep_sessions s)
     ∧ ¬ registered id s)
  ∧ (_ep_state s = EP_STATE_INITIALIZED →
     (∃ j, (j < EP_MAX_NUMBER_OF_SESSIONS)%nat ∧ ep_volatile_load_session j s = 0) →
     ep_session_alloc_result o ≠ 0 →
     ep_session_is_valid o = true →
     ep_event_source_enable_result o = true →
     id = ep_session_alloc_result o ∧ id ≠ 0)
  ∧ registry_wf s'
  ∧ (∀ p q obj_p obj_q,
       p ≠ 0 → q ≠ 0 → p ≠ q → registered p s' → registered q s' →
       heap s' !! p = Some obj_p → heap s' !! q = Some obj_q →
       ep_session_get_index obj_p ≠ ep_session_get_index obj_q)
  ∧ ((∀ j, (j < EP_MAX_NUMBER_OF_SESSIONS)%nat → ep_volatile_load_session j s ≠ 0) →
     id = 0
     ∧ _ep_sessions s' = _ep_sessions s
     ∧ _ep_allow_write s' = _ep_allow_write s
     ∧ _ep_number_of_sessions s' = _ep_number_of_sessions s).
Proof.
  intros Hwf Hfresh id s' i.
  pose proof (enable_wf o options queue s Hwf Hfresh) as Hwf'. fold s' in Hwf'.
  pose proof (generate_session_index_spec s) as Hgen. cbv zeta in Hgen. fold i in Hgen.
  pose proof (enable_inv o options queue s) as Hinv. cbv zeta in Hinv.
  fold id s' i in Hinv.
  split; [|split; [|split; [done|split]]].
  - intros Hid. destruct Hinv as [(H0 & _)|(obj & H)]; [done|].
    destruct H as (Hp & Hp0 & _ & Hi & Hfree & _ & _ & _ & _ & Hs & _).
    destruct Hgen as [[? _]|(_ & _ & Hlow)]; [lia|].
    rewrite Hp. repeat split; try done.
    by apply registry_wf_fresh.
  - intros Hst (j & Hj & Hj0) Halloc Hvalid Hsrc.
    destruct Hinv as [(_ & _ & Hwhy)|(obj & H)].
    + exfalso. destruct Hwhy as [?|[Hfull|[?|[?|[Hn|?]]]]]; try congruence.
      * destruct Hgen as [[_ Hall]|[? _]]; [|lia]. by apply (Hall j).
      * assert (_ep_sessions s !! j = Some 0) as Hj'.
        { rewrite <- Hj0. apply load_session_inv. by rewrite (wf_length _ Hwf). }
        pose proof (live_count_free _ _ Hj') as Hlt.
        rewrite (wf_length _ Hwf) in Hlt. rewrite (wf_count _ Hwf) in Hn.
        unfold live_sessions in Hn. lia.
    + by destruct H as (-> & ? & _).
  - intros p q obj_p obj_q. by apply registry_wf_exclusive.
  - intros Hfull. destruct Hinv as [(H0 & [(_ & Hn & Hs & Haw & _) _] & _)|(obj & H)].
    + done.
    + destruct H as (_ & _ & _ & Hi & Hfree & _). exfalso. by apply (Hfull i).
Qed.

Lemma registry_wf_started : @registry_wf coreclr started.
Proof.
  split.
  - vm_compute. lia.
  - by vm_compute.
  - intros i p H Hp. exfalso. apply Hp.
    assert (_ep_sessions started = replicate 64 0) as Hs by by vm_compute.
    rewrite Hs in H. by apply lookup_replicate in H as [-> _].
  - by vm_compute.
Qed.

Lemma registry_wf_one_session : @registry_wf coreclr one_session.
Proof.
  assert (one_session
          = (@enable coreclr (quiet_oracle 1000) listener_options []
               (log Call_ep_provider_callback_data_queue_init started)).2) as ->
    by by vm_compute.
  apply enable_wf; [|by vm_compute].
  eapply registry_wf_frame; [apply registry_wf_started|by vm_compute|].
  apply (frame_log 0).
Qed.

Lemma enable_lowest_free_slot_witness :
  @registry_wf coreclr started
  ∧ heap started !! ep_session_alloc_result (quiet_oracle 1000) = None
  ∧ (@enable coreclr (quiet_oracle 1000) listener_options [] started).1.1 = 1000
  ∧ (@enable coreclr (quiet_oracle 1000) listener_options [] started).1.1 ≠ 0.
Proof.
  assert (heap started !! ep_session_alloc_result (quiet_oracle 1000) = None) as Hfresh
    by by vm_compute.
  split; [exact registry_wf_started|]. split; [exact Hfresh|].
  refine (proj1 (proj2 (@enable_lowest_free_slot coreclr (quiet_oracle 1000)
            listener_options [] started registry_wf_started Hfresh)) _ _ _ _ _).
  - by vm_compute.
  - exists 0%nat. split; [vm_compute; lia|by vm_compute].
  - discriminate.
  - reflexivity.
  - reflexivity.
Defined.

(** ** The registry: disable *)

Section DisableFacts.
Context {rt : Runtime}.
Implicit Type s : EventPipe.

Lemma registered_ext p s s' :
  _ep_sessions s = _ep_sessions s' → registered p s → registered p s'.
Proof.
  intros H (i & Hi & Hp). exists i. split; [done|].
  by rewrite <- (load_session_ext i s s').
Qed.

(** is_session_id_in_collection tells whether a slot holds the pointer;
    on a well-formed registry and a non-null id its assertions hold. *)
Lemma is_session_id_in_collection_spec id s :
  ((is_session_id_in_collection id s).1 = true ↔ registered id s)
  ∧ frame 0 s (is_session_id_in_collection id s).2.
Proof.
  unfold is_session_id_in_collection.
  set (s0 := EP_ASSERT _ _ s).
  assert (frame 0 s s0) as H0 by apply frame_assert.
  pose proof H0 as [(_ & _ & Hs & _) _].
  pose proof (find_session_registered id s0) as Hf.
  destruct (find_session_from _ 0 id s0) as [i|]; simpl.
  - split.
    + split; [intros _|done]. eapply registered_ext; [exact Hs|].
      apply Hf. by eexists.
    + eapply frame_trans; [exact H0|apply frame_assert].
  - split; [|done]. split; [done|]. intros Hr. exfalso.
    apply (registered_ext _ _ s0) in Hr; [|done].
    apply Hf in Hr. by destruct Hr.
Qed.

Lemma is_session_id_in_collection_unregistered id s :
  id ≠ 0 → ¬ registered id s →
  is_session_id_in_collection id s = (false, s).
Proof.
  intros Hid Hr. unfold is_session_id_in_collection, EP_ASSERT.
  rewrite (proj2 (Z.eqb_neq _ _) Hid). simpl.
  pose proof (find_session_registered id s) as Hf.
  destruct (find_session_from _ 0 id s) as [i|]; [|done].
  exfalso. apply Hr, Hf. by eexists.
Qed.

Lemma is_session_id_in_collection_registered id s :
  registry_wf s → id ≠ 0 → registered id s →
  is_session_id_in_collection id s = (true, s).
Proof.
  intros Hwf Hid Hr. unfold is_session_id_in_collection, EP_ASSERT.
  rewrite (proj2 (Z.eqb_neq _ _) Hid). simpl.
  pose proof (find_session_from_spec EP_MAX_NUMBER_OF_SESSIONS 0 id s eq_refl) as Hf.
  destruct (find_session_from _ 0 id s) as [i|].
  - destruct Hf as (Hi & Hp & _).
    assert (_ep_sessions s !! i = Some id) as Hl.
    { rewrite <- Hp. apply load_session_inv. rewrite (wf_length _ Hwf). lia. }
    destruct (wf_slot _ Hwf _ _ Hl Hid) as (obj & -> & <-).
    by rewrite bool_decide_eq_true_2.
  - exfalso. destruct Hr as (i & Hi & Hp). apply (Hf i); [lia|done].
Qed.

Lemma registered_count_positive id s :
  registry_wf s → id ≠ 0 → registered id s → 0 < _ep_number_of_sessions s.
Proof.
  intros Hwf Hid Hr.
  apply (registered_lookup _ _ (wf_length _ Hwf)) in Hr as [i Hi].
  rewrite (wf_count _ Hwf). unfold live_sessions.
  assert (id ∈ filter (λ p : Z, p ≠ 0) (_ep_sessions s)) as Hin.
  { apply list_elem_of_filter. split; [done|]. by eapply list_elem_of_lookup_2. }
  destruct (filter _ _); [by apply elem_of_nil in Hin|]. simpl. lia.
Qed.

Lemma rundown_spec o id queue s :
  frame 0 s (rundown o id queue s).2
  ∧ heap (rundown o id queue s).2 = heap s
  ∧ trace (rundown o id queue s).2
    = trace s ++ rundown_events o id (_ep_rundown_execution_checkpoints s).
Proof.
  unfold rundown, rundown_events, config_enable_disable.
  destruct (negb (ep_thread_get_or_create_result o =? 0)); simpl;
    rewrite <- ?app_assoc; simpl; repeat split; done.
Qed.

(** disable_holding_lock on a registered session. *)
Lemma disable_holding_lock_registered o id queue s :
  registry_wf s → id ≠ 0 → registered id s →
  ∃ session q s',
    heap s !! id = Some session
    ∧ _ep_sessions s !! ep_session_get_index session = Some id
    ∧ disable_holding_lock o id queue s = Some (q, s')
    ∧ trace s' =
        trace s
        ++ (if session_requested_sampling session
            then [Call_ep_sample_profiler_disable] else [])
        ++ [Call_log_process_info_event;
            Call_config_enable_disable id false;
            Call_ep_session_disable id]
        ++ (if negb (ep_session_get_rundown_keyword session =? 0)
               && _ep_can_start_threads s
            then rundown_events o id (_ep_rundown_execution_checkpoints s) else [])
        ++ [Store_allow_write
              (Z.land (_ep_allow_write s)
                      (Z.lnot (ep_session_get_mask session) mod 2 ^ 64));
            Store_session (ep_session_get_index session) 0;
            Call_ep_session_suspend_write_event id;
            Call_ep_session_write_all_buffers_to_file id;
            Store_number_of_sessions ((_ep_number_of_sessions s - 1) mod 2 ^ 32);
            Call_ep_session_write_sequence_point_unbuffered id;
            Call_ep_session_dec_ref id]
    ∧ _ep_sessions s' = <[ep_session_get_index session := 0]> (_ep_sessions s)
    ∧ _ep_number_of_sessions s' = (_ep_number_of_sessions s - 1) mod 2 ^ 32
    ∧ _ep_allow_write s'
      = Z.land (_ep_allow_write s) (Z.lnot (ep_session_get_mask session) mod 2 ^ 64)
    ∧ _ep_state s' = _ep_state s
    ∧ _ep_can_start_threads s' = _ep_can_start_threads s
    ∧ _ep_deferred_enable_session_ids s' = _ep_deferred_enable_session_ids s
    ∧ _ep_deferred_disable_session_ids s' = _ep_deferred_disable_session_ids s
    ∧ (∀ x, x ≠ id → heap s' !! x = heap s !! x).
Proof.
  intros Hwf Hid Hr.
  destruct (registry_wf_registered _ _ Hwf Hid Hr) as (session & Hsess & Hslot).
  pose proof (registered_count_positive _ _ Hwf Hid Hr) as Hpos.
  unfold disable_holding_lock, EP_ASSERT.
  rewrite (proj2 (Z.eqb_neq _ _) Hid). cbn [negb].
  rewrite (proj2 (Z.ltb_lt _ _) Hpos).
  rewrite is_session_id_in_collection_registered by done.
  rewrite Hsess. cbn [mbind option_bind].
  unfold config_enable_disable at 1.
  set (sA := log (Call_ep_session_disable id) _).
  assert (frame 0 s sA ∧ heap sA = heap s
          ∧ trace sA = trace s
              ++ (if session_requested_sampling session
                  then [Call_ep_sample_profiler_disable] else [])
              ++ [Call_log_process_info_event;
                  Call_config_enable_disable id false;
                  Call_ep_session_disable id]) as (HfA & HhA & HtA).
  { unfold sA. destruct (session_requested_sampling session); simpl;
      rewrite <- ?app_assoc; repeat split; done. }
  clearbody sA.
  pose proof HfA as [(HstA & HnA & HsA & HawA & HctA & HdeA & HddA & HcbA & HckA) _].
  set (r := if _ && _ then rundown o id _ sA else _).
  assert (frame 0 s r.2 ∧ heap r.2 = heap s
          ∧ trace r.2 = trace s
              ++ (if session_requested_sampling session
                  then [Call_ep_sample_profiler_disable] else [])
              ++ [Call_log_process_info_event;
                  Call_config_enable_disable id false;
                  Call_ep_session_disable id]
              ++ (if negb (ep_session_get_rundown_keyword session =? 0)
                     && _ep_can_start_threads s
                  then rundown_events o id (_ep_rundown_execution_checkpoints s)
                  else [])) as (Hf0 & Hh0 & Ht0).
  { subst r. rewrite HctA.
    destruct (negb (ep_session_get_rundown_keyword session =? 0)
              && _ep_can_start_threads s).
    - destruct (rundown_spec o id (queue ++ config_enable_disable_callbacks o id false) sA)
        as (Hf & Hh & Ht).
      split; [eapply frame_trans; [exact HfA|exact Hf]|]. split; [congruence|].
      rewrite Ht, HtA, HckA, <- !app_assoc. done.
    - simpl. rewrite HtA. done. }
  clearbody r. destruct r as [q0 s0]. simpl in Hf0, Hh0, Ht0.
  pose proof Hf0 as [(Hst0 & Hn0 & Hs0 & Haw0 & Hct0 & Hde0 & Hdd0 & Hcb0 & Hck0) _].
  assert ((ep_volatile_load_session (ep_session_get_index session)
            (ep_volatile_store_allow_write
               (Z.land (_ep_allow_write s0)
                  (Z.lnot (ep_session_get_mask session) `mod` 2 ^ 64)) s0) =? id) = true)
    as ->.
  { apply Z.eqb_eq. rewrite (load_session_ext _ _ s) by done.
    by apply load_session_lookup. }
  exists session. eexists. eexists. split; [done|]. split; [done|].
  split; [reflexivity|].
  pose proof (frame_dec_ref id
    (log (Call_ep_session_write_sequence_point_unbuffered id)
       (ep_volatile_store_number_of_sessions
          ((_ep_number_of_sessions
              (log (Call_ep_session_write_all_buffers_to_file id)
                 (log (Call_ep_session_suspend_write_event id)
                    (ep_volatile_store_session (ep_session_get_index session) 0
                       (ep_volatile_store_allow_write
                          (Z.land (_ep_allow_write s0)
                             (Z.lnot (ep_session_get_mask session) `mod` 2 ^ 64))
                          s0)))) - 1) `mod` 2 ^ 32)
          (log (Call_ep_session_write_all_buffers_to_file id)
             (log (Call_ep_session_suspend_write_event id)
                (ep_volatile_store_session (ep_session_get_index session) 0
                   (ep_volatile_store_allow_write
                      (Z.land (_ep_allow_write s0)
                         (Z.lnot (ep_session_get_mask session) `mod` 2 ^ 64))
                      s0)))))))
    as [(Hst' & Hn' & Hs' & Haw' & Hct' & Hde' & Hdd' & Hcb' & Hck') Hh'].
  split.
  { unfold ep_session_dec_ref. rewrite (proj2 (Z.eqb_neq _ _) Hid).
    cbn -[Z.pow Z.modulo]. rewrite Hh0, Hsess.
    destruct (ref_count session - 1 <=? 0); cbn -[Z.pow Z.modulo];
      rewrite Ht0, Hn0, Haw0, <- !app_assoc; done. }
  rewrite Hst', Hn', Hs', Haw', Hct', Hde', Hdd'. cbn -[Z.pow Z.modulo].
  rewrite Hs0, Hn0, Haw0, Hst0, Hct0, Hde0, Hdd0.
  repeat split; try done.
  intros x Hx. rewrite (proj2 (frame_dec_ref id _) x Hx). cbn. by rewrite Hh0.
Qed.
Lemma registry_wf_ext s s' :
  _ep_sessions s' = _ep_sessions s →
  _ep_number_of_sessions s' = _ep_number_of_sessions s →
  heap s' = heap s →
  registry_wf s → registry_wf s'.
Proof.
  intros Hs Hn Hh Hwf. split.
  - apply (wf_max _ Hwf).
  - rewrite Hs. apply (wf_length _ Hwf).
  - intros i p. rewrite Hs, Hh. apply (wf_slot _ Hwf).
  - unfold live_sessions. rewrite Hn, Hs. apply (wf_count _ Hwf).
Qed.

Lemma invoke_callbacks_spec queue s :
  frame 0 s (invoke_callbacks queue s)
  ∧ heap (invoke_callbacks queue s) = heap s
  ∧ trace (invoke_callbacks queue s) = trace s ++ (Call_provider_invoke_callback <$> queue).
Proof.
  unfold invoke_callbacks. revert s.
  induction queue as [|c queue IH]; intros s; simpl.
  - rewrite app_nil_r. split; [apply frame_refl|done].
  - destruct (IH (log (Call_provider_invoke_callback c) s)) as (Hf & Hh & Ht).
    split; [eapply frame_trans; [apply frame_log|exact Hf]|].
    split; [by rewrite Hh|]. rewrite Ht. simpl. by rewrite <- app_assoc.
Qed.

(** disable_helper on an id that no slot holds: only the thread set-up
    and the callback queue show in the trace. *)
Lemma disable_helper_unregistered o id s :
  (id ≠ 0 → ¬ registered id s) →
  (_ep_number_of_sessions s = 0 → ep_rt_providers_validate_all_disabled o = true) →
  ∃ s', disable_helper o id s = Some s'
        ∧ frame 0 s s'
        ∧ heap s' = heap s
        ∧ trace s' = trace s
            ++ (if _ep_can_start_threads s then [Call_ep_rt_thread_setup] else [])
            ++ (if id =? 0 then [] else [Call_ep_provider_callback_data_queue_init]).
Proof.
  intros Hr Hv. unfold disable_helper.
  set (s0 := if _ep_can_start_threads s then _ else _).
  assert (frame 0 s s0 ∧ heap s0 = heap s
          ∧ trace s0 = trace s
              ++ (if _ep_can_start_threads s then [Call_ep_rt_thread_setup] else []))
    as (Hf0 & Hh0 & Ht0).
  { unfold s0. destruct (_ep_can_start_threads s); simpl; rewrite ?app_nil_r;
      repeat split; done. }
  clearbody s0.
  pose proof Hf0 as [(Hst0 & Hn0 & Hs0 & _) _].
  destruct (id =? 0) eqn:Eid.
  { exists s0. rewrite app_nil_r. done. }
  apply Z.eqb_neq in Eid. specialize (Hr Eid).
  set (s1 := log Call_ep_provider_callback_data_queue_init s0).
  assert (disable_holding_lock o id [] s1 = Some ([], s1) ∨ ¬ 0 < _ep_number_of_sessions s1)
    as Hd.
  { destruct (decide (0 < _ep_number_of_sessions s1)) as [Hpos|]; [left|by right].
    unfold disable_holding_lock, EP_ASSERT.
    rewrite (proj2 (Z.eqb_neq _ _) Eid). cbn [negb].
    rewrite (proj2 (Z.ltb_lt _ _) Hpos).
    rewrite is_session_id_in_collection_unregistered; [done..|].
    intros Hr'. apply Hr. eapply registered_ext; [|exact Hr']. simpl. done. }
  assert ((if 0 <? _ep_number_of_sessions s1
           then disable_holding_lock o id [] s1 else Some ([], s1)) = Some ([], s1)) as ->.
  { destruct (0 <? _ep_number_of_sessions s1) eqn:E; [|done].
    apply Z.ltb_lt in E. by destruct Hd. }
  cbn [mbind option_bind invoke_callbacks foldl].
  eexists. split; [reflexivity|].
  assert (frame 0 s s1 ∧ heap s1 = heap s
          ∧ trace s1 = trace s
              ++ (if _ep_can_start_threads s then [Call_ep_rt_thread_setup] else [])
              ++ [Call_ep_provider_callback_data_queue_init]) as (Hf1 & Hh1 & Ht1).
  { unfold s1. split; [eapply frame_trans; [exact Hf0|apply frame_log]|].
    split; [done|]. simpl. by rewrite Ht0, <- app_assoc. }
  destruct ((_ep_number_of_sessions s1 =? 0) && _) eqn:Ec; [|done].
  apply andb_true_iff in Ec as [Ec _]. apply Z.eqb_eq in Ec.
  unfold EP_ASSERT. rewrite Hv; [done|].
  unfold s1 in Ec. simpl in Ec. congruence.
Qed.

(** disable_helper keeps the registry well formed, removes the id from
    it, and leaves the deferral state alone. *)
Lemma disable_helper_wf o id s :
  registry_wf s →
  ∃ s', disable_helper o id s = Some s'
        ∧ registry_wf s'
        ∧ (id ≠ 0 → ¬ registered id s')
        ∧ _ep_state s' = _ep_state s
        ∧ _ep_can_start_threads s' = _ep_can_start_threads s
        ∧ _ep_deferred_enable_session_ids s' = _ep_deferred_enable_session_ids s
        ∧ _ep_deferred_disable_session_ids s' = _ep_deferred_disable_session_ids s.
Proof.
  intros Hwf. unfold disable_helper.
  set (s0 := if _ep_can_start_threads s then _ else _).
  assert (frame 0 s s0 ∧ heap s0 = heap s) as (Hf0 & Hh0).
  { unfold s0. destruct (_ep_can_start_threads s); simpl; repeat split; done. }
  clearbody s0.
  pose proof Hf0 as [(Hst0 & Hn0 & Hs0 & Haw0 & Hct0 & Hde0 & Hdd0 & _) _].
  assert (registry_wf s0) as Hwf0 by by eapply registry_wf_ext.
  destruct (id =? 0) eqn:Eid.
  { exists s0. split; [done|]. split; [done|]. apply Z.eqb_eq in Eid.
    done. }
  apply Z.eqb_neq in Eid.
  set (s1 := log Call_ep_provider_callback_data_queue_init s0).
  assert (registry_wf s1) as Hwf1 by by eapply registry_wf_ext.
  pose (fin := λ (q : list Z) (s2 : EventPipe),
          let s3 := invoke_callbacks q s2 in
          if (_ep_number_of_sessions s3 =? 0)
             && negb (bool_decide (_ep_state s3 = EP_STATE_SHUTTING_DOWN))
          then EP_ASSERT (ep_rt_providers_validate_all_disabled o)
                 "ep_rt_providers_validate_all_disabled ()" s3
          else s3).
  assert (∀ q s2, frame 0 s2 (fin q s2) ∧ heap (fin q s2) = heap s2) as Htail.
  { intros q s2. unfold fin. cbv zeta.
    destruct (invoke_callbacks_spec q s2) as (Hf & Hh & _).
    destruct (_ && _).
    - split; [eapply frame_trans; [exact Hf|apply frame_assert]|].
      by rewrite heap_assert.
    - done. }
  destruct (find_session_from EP_MAX_NUMBER_OF_SESSIONS 0 id s1) as [k|] eqn:Efind.
  - (* the session is torn down *)
    assert (registered id s1) as Hr.
    { apply find_session_registered. rewrite Efind. by eexists. }
    destruct (disable_holding_lock_registered o id [] s1 Hwf1 Eid Hr)
      as (session & q & s2 & Hsess & Hslot & -> & _ & Hs2 & Hn2 & _ & Hst2 & Hct2
          & Hde2 & Hdd2 & Hh2).
    rewrite (proj2 (Z.ltb_lt _ _) (registered_count_positive _ _ Hwf1 Eid Hr)).
    cbn [mbind option_bind].
    exists (fin q s2). split; [reflexivity|].
    destruct (Htail q s2)
      as ([(Hst' & Hn' & Hs' & _ & Hct' & Hde' & Hdd' & _) _] & Hh').
    set (s' := fin q s2) in *. clearbody s'.
    assert (∀ j p, j ≠ ep_session_get_index session →
              _ep_sessions s1 !! j = Some p → p ≠ id) as Hother.
    { intros j p Hj Hl ->. destruct (wf_slot _ Hwf1 _ _ Hl Eid) as (obj & Ho & Hi).
      rewrite Hsess in Ho. by injection Ho as <-. }
    assert (∀ x j, _ep_sessions s' !! j = Some x →
              (j = ep_session_get_index session ∧ x = 0)
              ∨ (j ≠ ep_session_get_index session ∧ _ep_sessions s1 !! j = Some x))
      as Hslots.
    { intros x j Hl. rewrite Hs', Hs2 in Hl.
      destruct (decide (j = ep_session_get_index session)) as [->|Hne].
      - rewrite list_lookup_insert_eq in Hl by (by eapply lookup_lt_Some).
        left. by injection Hl as <-.
      - rewrite list_lookup_insert_ne in Hl by done. by right. }
    assert (registry_wf s') as Hwf'.
    { split.
      - apply (wf_max _ Hwf).
      - rewrite Hs', Hs2, length_insert. apply (wf_length _ Hwf1).
      - intros j p Hl Hp. rewrite Hh'.
        destruct (Hslots _ _ Hl) as [[_ ?]|[Hne Hl1]]; [done|].
        rewrite Hh2 by by eapply Hother. by apply (wf_slot _ Hwf1).
      - unfold live_sessions. rewrite Hn', Hs', Hn2, Hs2.
        pose proof (live_count_remove _ _ _ Hslot Eid) as Hc.
        rewrite (wf_count _ Hwf1). unfold live_sessions. rewrite <- Hc.
        pose proof (live_count_bound
                      (<[ep_session_get_index session:=0]> (_ep_sessions s1))) as Hb.
        rewrite length_insert, (wf_length _ Hwf1) in Hb. pose proof (wf_max _ Hwf).
        rewrite Z.mod_small; lia. }
    split; [done|]. split.
    + intros _ Hr'. apply (registered_lookup _ _ (wf_length _ Hwf')) in Hr' as [j Hj].
      destruct (Hslots _ _ Hj) as [[_ ?]|[Hne Hl]]; [done|]. by eapply Hother.
    + rewrite Hst', Hct', Hde', Hdd', Hst2, Hct2, Hde2, Hdd2. simpl. done.
  - (* no slot holds the id *)
    assert (¬ registered id s1) as Hr.
    { intros Hr. apply find_session_registered in Hr. rewrite Efind in Hr.
      by destruct Hr. }
    assert ((if 0 <? _ep_number_of_sessions s1
             then disable_holding_lock o id [] s1 else Some ([], s1)) = Some ([], s1))
      as ->.
    { destruct (0 <? _ep_number_of_sessions s1) eqn:E; [|done].
      unfold disable_holding_lock, EP_ASSERT.
      rewrite (proj2 (Z.eqb_neq _ _) Eid). cbn [negb]. rewrite E.
      by rewrite is_session_id_in_collection_unregistered. }
    cbn [mbind option_bind].
    exists (fin [] s1). split; [reflexivity|].
    destruct (Htail [] s1)
      as ([(Hst' & Hn' & Hs' & _ & Hct' & Hde' & Hdd' & _) _] & Hh').
    set (s' := fin [] s1) in *. clearbody s'.
    split; [by eapply registry_wf_ext|]. split.
    + intros _ Hr'. apply Hr. eapply registered_ext; [|exact Hr']. done.
    + rewrite Hst', Hct', Hde', Hdd'. simpl. done.
Qed.
(** The last step of disable_holding_lock on a registered session is the
    release of its reference; nothing before it touches the session
    objects. *)
Lemma disable_holding_lock_released o id queue s session :
  registry_wf s → id ≠ 0 → registered id s → heap s !! id = Some session →
  ∃ q X, disable_holding_lock o id queue s = Some (q, ep_session_dec_ref id X)
         ∧ heap X = heap s.
Proof.
  intros Hwf Hid Hr Hsess.
  pose proof (registered_count_positive _ _ Hwf Hid Hr) as Hpos.
  unfold disable_holding_lock, EP_ASSERT.
  rewrite (proj2 (Z.eqb_neq _ _) Hid). cbn [negb].
  rewrite (proj2 (Z.ltb_lt _ _) Hpos).
  rewrite is_session_id_in_collection_registered by done.
  rewrite Hsess. cbn [mbind option_bind].
  unfold config_enable_disable at 1.
  set (sA := log (Call_ep_session_disable id) _).
  assert (heap sA = heap s) as HhA.
  { unfold sA. by destruct (session_requested_sampling session). }
  clearbody sA.
  set (r := if _ && _ then rundown o id _ sA else _).
  assert (heap r.2 = heap s) as Hh0.
  { subst r. destruct (_ && _); [|done].
    destruct (rundown_spec o id (queue ++ config_enable_disable_callbacks o id false) sA)
      as (_ & Hh & _). congruence. }
  clearbody r. destruct r as [q0 s0]. simpl in Hh0.
  eexists _, _. split; [reflexivity|].
  destruct (_ =? id); simpl; exact Hh0.
Qed.

Lemma heap_dec_ref_at id X session :
  id ≠ 0 → heap X !! id = Some session →
  heap (ep_session_dec_ref id X) !! id
  = if ref_count session - 1 <=? 0 then None
    else Some {| ep_session_get_index := ep_session_get_index session;
                 ep_session_get_session_type := ep_session_get_session_type session;
                 ep_session_get_rundown_keyword := ep_session_get_rundown_keyword session;
                 ep_session_get_providers := ep_session_get_providers session;
                 ref_count := ref_count session - 1 |}.
Proof.
  intros Hid Hs. unfold ep_session_dec_ref.
  rewrite (proj2 (Z.eqb_neq _ _) Hid). cbn. rewrite Hs.
  destruct (_ <=? 0); cbn; [apply lookup_delete_eq|apply lookup_insert_eq].
Qed.

End DisableFacts.
Lemma registry_wf_running : @registry_wf coreclr running.
Proof.
  apply (@registry_wf_ext coreclr one_session); try by vm_compute.
  apply registry_wf_one_session.
Qed.

(** C1, as the code has it. For an id that is in the registry,
    disable_holding_lock leaves the following trace, in this order: the
    sample profiler is disabled if the session asked for sampling, the
    process-info event is logged, the provider filters are switched off
    and the session is disabled; the rundown block is entered if and only
    if the rundown keyword of the session is non-zero and
    _ep_can_start_threads is set, and the rundown itself is executed if
    and only if, besides, ep_thread_get_or_create returns a thread (with
    no thread the block stops at a failed assertion after
    ep_session_enable_rundown); then the allow_write bit is cleared, the
    registry slot is set to NULL, ep_session_suspend_write_event waits
    for the writers, the buffers are written out, the session count is
    decremented, the final sequence point is written and the reference is
    released. Every event of the rundown block precedes the store of NULL
    into the slot. The stores take effect: afterwards the bit of the
    session is clear and the other bits are as before, the slot is NULL
    and the other slots are as before, the count is one less, the session
    object has one reference less or is freed with the last one, and no
    other session object, nor any other global, has changed. *)
Theorem disable_holding_lock_order {rt : Runtime}
    (o : Oracle) (id : Z) (queue : list Z) (s : EventPipe) :
  registry_wf s → id ≠ 0 → registered id s →
  ∃ session q s' events,
    heap s !! id = Some session
    ∧ disable_holding_lock o id queue s = Some (q, s')
    ∧ trace s' = trace s ++ events
    ∧ events =
        (if session_requested_sampling session
         then [Call_ep_sample_profiler_disable] else [])
        ++ [Call_log_process_info_event;
            Call_config_enable_disable id false;
            Call_ep_session_disable id]
        ++ (if negb (ep_session_get_rundown_keyword session =? 0)
               && _ep_can_start_threads s
            then rundown_events o id (_ep_rundown_execution_checkpoints s) else [])
        ++ [Store_allow_write
              (Z.land (_ep_allow_write s)
                      (Z.lnot (ep_session_get_mask session) mod 2 ^ 64));
            Store_session (ep_session_get_index session) 0;
            Call_ep_session_suspend_write_event id;
            Call_ep_session_write_all_buffers_to_file id;
            Store_number_of_sessions ((_ep_number_of_sessions s - 1) mod 2 ^ 32);
            Call_ep_session_write_sequence_point_unbuffered id;
            Call_ep_session_dec_ref id]
    ∧ (Call_ep_session_enable_rundown id ∈ events
       ↔ ep_session_get_rundown_keyword session ≠ 0 ∧ _ep_can_start_threads s = true)
    ∧ ((∃ checkpoints, Call_ep_session_execute_rundown id checkpoints ∈ events)
       ↔ ep_session_get_rundown_keyword session ≠ 0 ∧ _ep_can_start_threads s = true
         ∧ ep_thread_get_or_create_result o ≠ 0)
    ∧ ep_volatile_load_session (ep_session_get_index session) s = id
    ∧ _ep_sessions s' = <[ep_session_get_index session := 0]> (_ep_sessions s)
    ∧ ep_volatile_load_session (ep_session_get_index session) s' = 0
    ∧ _ep_allow_write s'
      = Z.land (_ep_allow_write s) (Z.lnot (ep_session_get_mask session) mod 2 ^ 64)
    ∧ Z.testbit (_ep_allow_write s') (Z.of_nat (ep_session_get_index session)) = false
    ∧ (∀ j : nat, (j < 64)%nat → j ≠ ep_session_get_index session →
         Z.testbit (_ep_allow_write s') (Z.of_nat j)
         = Z.testbit (_ep_allow_write s) (Z.of_nat j))
    ∧ _ep_number_of_sessions s' = _ep_number_of_sessions s - 1
    ∧ heap s' !! id
      = (if ref_count session - 1 <=? 0 then None
         else Some {| ep_session_get_index := ep_session_get_index session;
                      ep_session_get_session_type := ep_session_get_session_type session;
                      ep_session_get_rundown_keyword :=
                        ep_session_get_rundown_keyword session;
                      ep_session_get_providers := ep_session_get_providers session;
                      ref_count := ref_count session - 1 |})
    ∧ (∀ x, x ≠ id → heap s' !! x = heap s !! x)
    ∧ _ep_state s' = _ep_state s
    ∧ _ep_can_start_threads s' = _ep_can_start_threads s
    ∧ _ep_deferred_enable_session_ids s' = _ep_deferred_enable_session_ids s
    ∧ _ep_deferred_disable_session_ids s' = _ep_deferred_disable_session_ids s.
Proof.
  intros Hwf Hid Hr.
  destruct (disable_holding_lock_registered o id queue s Hwf Hid Hr)
    as (session & q & s' & Hsess & Hslot & Hd & Ht & Hs & Hn & Ha & Hst & Hct & Hde
        & Hdd & Hh).
  destruct (disable_holding_lock_released o id queue s session Hwf Hid Hr Hsess)
    as (q' & X & Hd' & HX).
  assert (ep_session_get_index session < 64)%nat as Hi.
  { apply lookup_lt_Some in Hslot. rewrite (wf_length _ Hwf) in Hslot.
    pose proof (wf_max _ Hwf). lia. }
  exists session, q, s'. eexists.
  split; [done|]. split; [done|]. split; [exact Ht|]. split; [reflexivity|].
  split.
  { unfold rundown_events. rewrite !list_elem_of_In, !in_app_iff.
    destruct (session_requested_sampling session),
      (Z.eqb_spec (ep_session_get_rundown_keyword session) 0) as [Hk|Hk],
      (_ep_can_start_threads s),
      (Z.eqb_spec (ep_thread_get_or_create_result o) 0) as [Hth|Hth];
      cbn; split;
      try (intros H; repeat destruct H as [H|H]; try discriminate H; try done;
           split; done);
      try (intros [? ?]; done); try (intros _; tauto). }
  split.
  { unfold rundown_events. split.
    - intros [checkpoints H]. revert H. rewrite !list_elem_of_In, !in_app_iff.
      destruct (session_requested_sampling session),
        (Z.eqb_spec (ep_session_get_rundown_keyword session) 0) as [Hk|Hk],
        (_ep_can_start_threads s),
        (Z.eqb_spec (ep_thread_get_or_create_result o) 0) as [Hth|Hth];
        cbn; intros H; repeat destruct H as [H|H]; try discriminate H; try done.
    - intros (Hk & Hc & Hth). exists (_ep_rundown_execution_checkpoints s).
      rewrite Hc, (proj2 (Z.eqb_neq _ _) Hk), (proj2 (Z.eqb_neq _ _) Hth).
      rewrite !list_elem_of_In, !in_app_iff. cbn. tauto. }
  split; [by apply load_session_lookup|]. split; [exact Hs|].
  split.
  { apply load_session_lookup. rewrite Hs.
    apply list_lookup_insert_eq. by eapply lookup_lt_Some. }
  split; [exact Ha|].
  split.
  { rewrite Ha, Z.land_spec, Z.testbit_mod_pow2, Z.lnot_spec by lia.
    unfold ep_session_get_mask.
    rewrite Z.shiftl_1_l, Z.pow2_bits_true by lia.
    replace (Z.of_nat (ep_session_get_index session) <? 64) with true
      by (symmetry; apply Z.ltb_lt; lia).
    apply andb_false_r. }
  split.
  { intros j Hj Hne.
    rewrite Ha, Z.land_spec, Z.testbit_mod_pow2, Z.lnot_spec by lia.
    unfold ep_session_get_mask.
    rewrite Z.shiftl_1_l, Z.pow2_bits_false by lia.
    replace (Z.of_nat j <? 64) with true by (symmetry; apply Z.ltb_lt; lia).
    apply andb_true_r. }
  split.
  { rewrite Hn. apply Z.mod_small.
    pose proof (registered_count_positive _ _ Hwf Hid Hr) as Hpos.
    pose proof (wf_count _ Hwf) as Hc. pose proof (wf_length _ Hwf) as Hl.
    pose proof (wf_max _ Hwf) as Hm.
    pose proof (live_count_bound (_ep_sessions s)) as Hb. unfold live_sessions in Hc.
    lia. }
  split.
  { assert (s' = ep_session_dec_ref id X) as -> by congruence.
    apply heap_dec_ref_at; [done|]. by rewrite HX. }
  done.
Qed.

Lemma disable_holding_lock_order_witness :
  @registry_wf coreclr running ∧ 1000 ≠ 0 ∧ @registered coreclr 1000 running
  ∧ _ep_allow_write running = 1 ∧ _ep_number_of_sessions running = 1
  ∧ ∃ session q s',
      heap running !! 1000 = Some session
      ∧ @disable_holding_lock coreclr (quiet_oracle 0) 1000 [] running = Some (q, s')
      ∧ ep_volatile_load_session (ep_session_get_index session) s' = 0
      ∧ _ep_allow_write s' = 0
      ∧ _ep_number_of_sessions s' = 0
      ∧ heap s' !! 1000 = None.
Proof.
  assert (@registered coreclr 1000 running) as Hr.
  { exists 0%nat. split; [vm_compute; lia|by vm_compute]. }
  split; [exact registry_wf_running|]. split; [discriminate|]. split; [exact Hr|].
  split; [reflexivity|]. split; [reflexivity|].
  destruct (@disable_holding_lock_order coreclr (quiet_oracle 0) 1000 [] running
              registry_wf_running ltac:(discriminate) Hr)
    as (session & q & s' & events & H1 & H2 & _ & _ & _ & _ & _ & _ & H3 & H4 & _ & _
        & H5 & H6 & _).
  exists session, q, s'. split; [exact H1|]. split; [exact H2|]. split; [exact H3|].
  assert (session = {| ep_session_get_index := 0;
                       ep_session_get_session_type := EP_SESSION_TYPE_LISTENER;
                       ep_session_get_rundown_keyword := ep_default_rundown_keyword;
                       ep_session_get_providers :=
                         [ep_provider_config_init (Some "Foo") 0x10 3 None];
                       ref_count := 1 |}) as Hsession.
  { vm_compute in H1. by injection H1 as <-. }
  subst session. split; [exact H4|]. split; [exact H5|exact H6].
Defined.

(** C1 as the specification words it does not hold: a non-zero rundown
    keyword and permitted threads do not suffice for the rundown to run.
    When ep_thread_get_or_create returns no thread, disable_holding_lock
    skips the rundown and goes on with the teardown. *)
Lemma rundown_skipped_without_thread :
  ¬ ∀ (o : Oracle) (id : Z) (s : EventPipe) (session : EventPipeSession)
      (q : list Z) (s' : EventPipe),
      @registry_wf coreclr s → id ≠ 0 → @registered coreclr id s →
      heap s !! id = Some session →
      @disable_holding_lock coreclr o id [] s = Some (q, s') →
      ((∃ checkpoints, Call_ep_session_execute_rundown id checkpoints ∈ trace s')
       ↔ ep_session_get_rundown_keyword session ≠ 0 ∧ _ep_can_start_threads s = true).
Proof.
  intros H.
  assert (@registered coreclr 1000 running) as Hr.
  { exists 0%nat. split; [vm_compute; lia|by vm_compute]. }
  destruct (proj2 (H no_thread_oracle 1000 running _ _ _ registry_wf_running
                     ltac:(discriminate) Hr ltac:(by vm_compute) ltac:(by vm_compute))
                  ltac:(split; [discriminate|reflexivity]))
    as [checkpoints Hin].
  apply list_elem_of_In in Hin. vm_compute in Hin.
  repeat destruct Hin as [Hin|Hin]; try discriminate Hin. done.
Qed.

(** C5. Disabling an id that no registry slot holds, in particular an id
    that an earlier disable has removed, changes neither the slots nor the
    allow_write mask nor the session count, releases no session object,
    and fails no assertion: ep_disable either defers the request or runs
    disable_helper, whose only effects are the thread set-up call and the
    callback queue (which holds no callback); provided the runtime
    confirms that all providers are disabled when no session is left. *)
Theorem disable_unregistered_is_noop {rt : Runtime}
    (o : Oracle) (id : Z) (s : EventPipe) :
  (id ≠ 0 → ¬ registered id s)
  ∨ (∃ o0 s0, registry_wf s0 ∧ disable_helper o0 id s0 = Some s) →
  (_ep_number_of_sessions s = 0 → ep_rt_providers_validate_all_disabled o = true) →
  is_Some (_ep_deferred_disable_session_ids s) →
  let benign (t : list Event) :=
    ∀ e, e ∈ t →
      e = Call_ep_rt_thread_setup ∨ e = Call_ep_provider_callback_data_queue_init in
  (∃ s', disable_helper o id s = Some s'
         ∧ frame 0 s s'
         ∧ heap s' = heap s
         ∧ ∃ t, trace s' = trace s ++ t ∧ benign t)
  ∧ (∃ s', ep_disable o id s = Some s'
           ∧ _ep_state s' = _ep_state s
           ∧ _ep_sessions s' = _ep_sessions s
           ∧ _ep_allow_write s' = _ep_allow_write s
           ∧ _ep_number_of_sessions s' = _ep_number_of_sessions s
           ∧ heap s' = heap s
           ∧ ∃ t, trace s' = trace s ++ t ∧ benign t).
Proof.
  intros Hr Hv [ids Hq] benign.
  assert (id ≠ 0 → ¬ registered id s) as Hr'.
  { destruct Hr as [Hr|(o0 & s0 & Hwf & Hd)]; [done|].
    destruct (disable_helper_wf o0 id s0 Hwf) as (s' & Hd' & _ & Hn & _).
    rewrite Hd in Hd'. by injection Hd' as <-. }
  destruct (disable_helper_unregistered o id s Hr' Hv) as (s' & Hd & Hf & Hh & Ht).
  assert (∃ t, trace s' = trace s ++ t ∧ benign t) as Hb.
  { eexists. split; [exact Ht|]. intros e He.
    apply elem_of_app in He as [He|He].
    - destruct (_ep_can_start_threads s); [|by apply elem_of_nil in He].
      apply list_elem_of_singleton in He. by left.
    - destruct (id =? 0); [by apply elem_of_nil in He|].
      apply list_elem_of_singleton in He. by right. }
  split; [by exists s'|].
  unfold ep_disable.
  destruct (negb (_ep_can_start_threads s) && _).
  - rewrite Hq. simpl. eexists. split; [reflexivity|]. simpl.
    repeat split; try done. exists []. rewrite app_nil_r. split; [done|].
    intros e He. by apply elem_of_nil in He.
  - exists s'. destruct Hf as [(? & ? & ? & ? & _) _]. done.
Qed.

Lemma disable_unregistered_is_noop_witness :
  (∃ o0 s0, @registry_wf coreclr s0 ∧ @disable_helper coreclr o0 1000 s0 = Some disabled_once)
  ∧ ep_rt_providers_validate_all_disabled (quiet_oracle 0) = true
  ∧ is_Some (_ep_deferred_disable_session_ids disabled_once)
  ∧ ∃ s', @ep_disable coreclr (quiet_oracle 0) 1000 disabled_once = Some s'
          ∧ _ep_sessions s' = _ep_sessions disabled_once
          ∧ heap s' = heap disabled_once.
Proof.
  assert (∃ o0 s0, @registry_wf coreclr s0
                   ∧ @disable_helper coreclr o0 1000 s0 = Some disabled_once) as H1.
  { exists (quiet_oracle 0), running. split; [exact registry_wf_running|by vm_compute]. }
  assert (is_Some (_ep_deferred_disable_session_ids disabled_once)) as H3.
  { eexists. by vm_compute. }
  split; [exact H1|]. split; [reflexivity|]. split; [exact H3|].
  destruct (proj2 (@disable_unregistered_is_noop coreclr (quiet_oracle 0) 1000
                     disabled_once (or_intror H1) (λ _, eq_refl) H3))
    as (s' & Hd & _ & Hs & _ & _ & Hh & _).
  exists s'. auto.
Defined.

(** ** The deferred start-up queues *)

Section DeferredFacts.
Context {rt : Runtime}.
Implicit Type s : EventPipe.

Lemma is_session_id_in_collection_ext id s s' :
  _ep_sessions s = _ep_sessions s' →
  (is_session_id_in_collection id s).1 = (is_session_id_in_collection id s').1.
Proof.
  intros H.
  destruct (is_session_id_in_collection_spec id s) as [H1 _].
  destruct (is_session_id_in_collection_spec id s') as [H2 _].
  destruct (is_session_id_in_collection id s).1 eqn:E1,
           (is_session_id_in_collection id s').1 eqn:E2; try done.
  - assert (registered id s') as Hr by (eapply registered_ext; [done|by apply H1]).
    apply H2 in Hr. congruence.
  - assert (registered id s) as Hr by (eapply registered_ext; [done|by apply H2]).
    apply H1 in Hr. congruence.
Qed.

(** The replay of the deferred-enable queue starts streaming for the ids
    that are still registered, in queue order, and changes nothing else. *)
Lemma start_deferred_sessions_spec ids s :
  registry_wf s → Forall (λ id, id ≠ 0) ids →
  frame 0 s (start_deferred_sessions ids s)
  ∧ heap (start_deferred_sessions ids s) = heap s
  ∧ trace (start_deferred_sessions ids s)
    = trace s
      ++ (Call_ep_session_start_streaming
            <$> filter (λ id, (is_session_id_in_collection id s).1 = true) ids).
Proof.
  unfold start_deferred_sessions. revert s.
  induction ids as [|id ids IH]; intros s Hwf Hids.
  - simpl. rewrite app_nil_r. split; [apply frame_refl|done].
  - apply Forall_cons in Hids as [Hid Hids]. cbn [foldl].
    set (s1 := let '(found, s0) := is_session_id_in_collection id s in
               if found then log (Call_ep_session_start_streaming id) s0 else s0).
    assert (frame 0 s s1 ∧ heap s1 = heap s
            ∧ trace s1 = trace s
                ++ (if (is_session_id_in_collection id s).1
                    then [Call_ep_session_start_streaming id] else [])) as (Hf & Hh & Ht).
    { unfold s1.
      destruct (find_session_from EP_MAX_NUMBER_OF_SESSIONS 0 id s) as [k|] eqn:Efind.
      - rewrite is_session_id_in_collection_registered; [|done..|].
        + simpl. split; [apply frame_log|done].
        + apply find_session_registered. rewrite Efind. by eexists.
      - rewrite is_session_id_in_collection_unregistered; [|done|].
        + simpl. rewrite app_nil_r. split; [apply frame_refl|done].
        + intros Hr. apply find_session_registered in Hr. rewrite Efind in Hr.
          by destruct Hr. }
    clearbody s1.
    pose proof Hf as [(_ & Hn & Hs & _) _].
    destruct (IH s1) as (Hf' & Hh' & Ht'); [by eapply registry_wf_ext|done|].
    split; [by eapply frame_trans|]. split; [congruence|].
    rewrite Ht', Ht, <- app_assoc. f_equal.
    rewrite (filter_cons (λ id, (is_session_id_in_collection id s).1 = true)).
    assert (filter (λ id0, (is_session_id_in_collection id0 s1).1 = true) ids
            = filter (λ id0, (is_session_id_in_collection id0 s).1 = true) ids) as ->.
    { apply list_filter_iff. intros x.
      by rewrite (is_session_id_in_collection_ext x s1 s). }
    destruct (is_session_id_in_collection id s).1; by case_decide.
Qed.

Lemma disable_deferred_sessions_cons o id ids s :
  disable_deferred_sessions o (id :: ids) s
  = disable_helper o id s ≫= disable_deferred_sessions o ids.
Proof.
  unfold disable_deferred_sessions. cbn [foldl mbind option_bind].
  destruct (disable_helper o id s) as [s1|]; [done|].
  induction ids as [|x ids IH]; [done|]. exact IH.
Qed.

(** The replay of the deferred-disable queue goes through on a
    well-formed registry and leaves the deferral state alone. *)
Lemma disable_deferred_sessions_wf o ids s :
  registry_wf s →
  ∃ s', disable_deferred_sessions o ids s = Some s'
        ∧ registry_wf s'
        ∧ _ep_state s' = _ep_state s
        ∧ _ep_can_start_threads s' = _ep_can_start_threads s
        ∧ _ep_deferred_enable_session_ids s' = _ep_deferred_enable_session_ids s
        ∧ _ep_deferred_disable_session_ids s' = _ep_deferred_disable_session_ids s.
Proof.
  revert s. induction ids as [|id ids IH]; intros s Hwf.
  - exists s. done.
  - rewrite disable_deferred_sessions_cons.
    destruct (disable_helper_wf o id s Hwf) as (s1 & -> & Hwf1 & _ & Hst & Hct & Hde & Hdd).
    cbn [mbind option_bind].
    destruct (IH s1 Hwf1) as (s' & -> & Hwf' & Hst' & Hct' & Hde' & Hdd').
    exists s'. rewrite Hst', Hct', Hde', Hdd'. done.
Qed.

End DeferredFacts.

(** C4, as the code has it. While _ep_can_start_threads is unset,
    ep_disable defers only if no diagnostic port is reported suspended: it
    then appends the id to the deferred-disable queue and does nothing
    else; with a suspended port it runs disable_helper at once.
    ep_finish_init sets _ep_can_start_threads, replays the deferred-enable
    queue in order (starting streaming for each id still in the registry)
    and clears it, then replays the deferred-disable queue in order
    through disable_helper and clears it. Once _ep_can_start_threads is
    set, ep_disable and ep_start_streaming never append to either queue
    and the flag stays set. *)
Theorem deferred_queues_replay {rt : Runtime}
    (o : Oracle) (s : EventPipe) (id : Z) (eids dids : list Z) :
  registry_wf s →
  _ep_state s = EP_STATE_INITIALIZED →
  _ep_can_start_threads s = false →
  _ep_deferred_enable_session_ids s = Some eids →
  _ep_deferred_disable_session_ids s = Some dids →
  Forall (λ x, x ≠ 0) eids →
  (ipc_stream_factory_any_suspended_ports o s = false →
   ep_disable o id s = Some (set_deferred_disable_session_ids (Some (dids ++ [id])) s))
  ∧ (ipc_stream_factory_any_suspended_ports o s = true →
     ep_disable o id s = disable_helper o id s)
  ∧ (∃ s2 s3,
       trace s2 = trace s
         ++ [Call_ep_rt_init_finish]
         ++ (Call_ep_session_start_streaming
               <$> filter (λ x, (is_session_id_in_collection x s).1 = true) eids)
         ++ [Call_ep_sample_profiler_can_start_sampling]
       ∧ _ep_sessions s2 = _ep_sessions s
       ∧ heap s2 = heap s
       ∧ _ep_can_start_threads s2 = true
       ∧ _ep_deferred_enable_session_ids s2 = Some []
       ∧ foldl (λ r x, r ≫= disable_helper o x) (Some s2) dids = Some s3
       ∧ ep_finish_init o s = Some (set_deferred_disable_session_ids (Some []) s3)
       ∧ registry_wf s3
       ∧ _ep_can_start_threads s3 = true
       ∧ _ep_deferred_enable_session_ids s3 = Some [])
  ∧ (∀ o' x t,
       registry_wf t → _ep_can_start_threads t = true →
       (∃ t', ep_disable o' x t = Some t'
              ∧ disable_helper o' x t = Some t'
              ∧ _ep_can_start_threads t' = true
              ∧ _ep_deferred_enable_session_ids t' = _ep_deferred_enable_session_ids t
              ∧ _ep_deferred_disable_session_ids t' = _ep_deferred_disable_session_ids t)
       ∧ (∃ t', ep_start_streaming x t = Some t'
                ∧ _ep_can_start_threads t' = true
                ∧ _ep_deferred_enable_session_ids t' = _ep_deferred_enable_session_ids t
                ∧ _ep_deferred_disable_session_ids t' = _ep_deferred_disable_session_ids t)).
Proof.
  intros Hwf Hst Hct Hde Hdd Heids.
  split; [|split; [|split]].
  - intros Hp. unfold ep_disable. rewrite Hct, Hp, Hdd. done.
  - intros Hp. unfold ep_disable. by rewrite Hct, Hp.
  - set (s1 := set_can_start_threads true (log Call_ep_rt_init_finish s)).
    assert (registry_wf s1) as Hwf1 by (by apply (registry_wf_ext s)).
    destruct (start_deferred_sessions_spec eids s1 Hwf1 Heids)
      as ([(Hst1 & Hn1 & Hs1 & _ & Hct1 & _ & Hdd1 & _) _] & Hh1 & Ht1).
    set (s2 := log Call_ep_sample_profiler_can_start_sampling
                 (set_deferred_enable_session_ids (Some [])
                    (start_deferred_sessions eids s1))).
    assert (registry_wf s2) as Hwf2.
    { apply (registry_wf_ext s1); [exact Hs1|exact Hn1|exact Hh1|done]. }
    destruct (disable_deferred_sessions_wf o dids s2 Hwf2)
      as (s3 & Hd3 & Hwf3 & Hst3 & Hct3 & Hde3 & Hdd3).
    exists s2, s3.
    split.
    { unfold s2. simpl. rewrite Ht1. simpl. rewrite <- !app_assoc. simpl.
      do 2 f_equal. f_equal. f_equal. apply list_filter_iff. intros x.
      by rewrite (is_session_id_in_collection_ext x s1 s). }
    split; [exact Hs1|]. split; [exact Hh1|].
    split; [exact Hct1|]. split; [reflexivity|].
    split; [exact Hd3|]. split.
    { unfold ep_finish_init. cbv zeta. fold s1.
      assert (bool_decide (_ep_state s1 = EP_STATE_INITIALIZED) = true) as ->
        by (apply bool_decide_eq_true_2; exact Hst).
      assert (_ep_deferred_enable_session_ids s1 = Some eids) as -> by exact Hde.
      fold s2.
      assert (bool_decide (_ep_state s2 = EP_STATE_INITIALIZED) = true) as ->.
      { apply bool_decide_eq_true_2. etrans; [exact Hst1|exact Hst]. }
      assert (_ep_deferred_disable_session_ids s2 = Some dids) as ->.
      { etrans; [exact Hdd1|exact Hdd]. }
      unfold disable_deferred_sessions in Hd3. cbn [mbind option_bind].
      unfold disable_deferred_sessions. rewrite Hd3. done. }
    split; [done|]. split; [rewrite Hct3; exact Hct1|].
    rewrite Hde3. reflexivity.
  - intros o' x t Hwft Hctt. split.
    + destruct (disable_helper_wf o' x t Hwft) as (t' & Hd & _ & _ & _ & Hct' & Hde' & Hdd').
      exists t'. unfold ep_disable. rewrite Hctt. simpl.
      rewrite Hd, Hct', Hde', Hdd'. done.
    + unfold ep_start_streaming.
      destruct (is_session_id_in_collection_spec x t)
        as [_ [(_ & _ & _ & _ & Hct' & Hde' & Hdd' & _) _]].
      destruct (is_session_id_in_collection x t) as [found t0]. simpl in *.
      destruct found.
      * rewrite Hct', Hctt. eexists. split; [reflexivity|]. simpl.
        rewrite Hct', Hde', Hdd'. done.
      * exists t0. rewrite Hct', Hde', Hdd'. done.
Qed.

(** C4 as the specification words it does not hold: with a suspended
    diagnostic port, ep_disable before ep_finish_init does not queue the
    id but tears the session down at once. *)
Lemma ep_disable_not_always_deferred :
  ¬ ∀ (o : Oracle) (id : Z) (s : EventPipe) (ids : list Z),
      _ep_can_start_threads s = false →
      _ep_deferred_disable_session_ids s = Some ids →
      @ep_disable coreclr o id s
      = Some (set_deferred_disable_session_ids (Some (ids ++ [id])) s).
Proof.
  intros H.
  specialize (H suspended_oracle 1000 suspended_at_startup []
                ltac:(by vm_compute) ltac:(by vm_compute)).
  apply (f_equal (fmap _ep_number_of_sessions)) in H.
  vm_compute in H. discriminate H.
Qed.

Lemma registry_wf_suspended_at_startup : @registry_wf coreclr suspended_at_startup.
Proof.
  apply (@registry_wf_ext coreclr one_session); try by vm_compute.
  apply registry_wf_one_session.
Qed.

Lemma deferred_queues_replay_witness :
  @registry_wf coreclr suspended_at_startup
  ∧ _ep_state suspended_at_startup = EP_STATE_INITIALIZED
  ∧ _ep_can_start_threads suspended_at_startup = false
  ∧ _ep_deferred_enable_session_ids suspended_at_startup = Some []
  ∧ _ep_deferred_disable_session_ids suspended_at_startup = Some []
  ∧ Forall (λ x, x ≠ 0) ([] : list Z)
  ∧ @ep_disable coreclr suspended_oracle 1000 suspended_at_startup
    = @disable_helper coreclr suspended_oracle 1000 suspended_at_startup.
Proof.
  split; [exact registry_wf_suspended_at_startup|].
  do 4 (split; [by vm_compute|]). split; [constructor|].
  refine (proj1 (proj2 (@deferred_queues_replay coreclr suspended_oracle
            suspended_at_startup 1000 [] [] registry_wf_suspended_at_startup
            ltac:(by vm_compute) ltac:(by vm_compute) ltac:(by vm_compute)
            ltac:(by vm_compute) (Forall_nil_2 _))) _).
  by vm_compute.
Defined.

(** ** The default session of the environment *)

(** C8. When the default session is enabled from the environment, the
    output path handed to ep_enable_2 is the configured template with every
    occurrence of the token {pid} replaced by the decimal process id; the
    replacement loop comes to an end and the path it leaves contains no
    {pid} token. The text put in place of the token is the decimal numeral
    of the process id as an unsigned 32-bit number: it consists of digits,
    has no leading zero, and denotes that number. *)
Theorem default_session_output_path_replaces_pid {rt : Runtime}
    (o : Oracle) (s : EventPipe) (template : string) :
  ep_rt_config_value_get_output_path o = Some template →
  let pidStr := pid_string (ep_rt_current_process_get_id o) in
  let path := substitute_all "{pid}" pidStr template 0 in
  default_session_output_path o = Some path
  ∧ strstr path "{pid}" = None
  ∧ all_digits pidStr = true
  ∧ pidStr ≠ ""
  ∧ decimal_value pidStr = ep_rt_current_process_get_id o mod 2 ^ 32
  ∧ (pidStr = "0" ∨ CStr.deref pidStr ≠ "0"%char)
  ∧ (ep_rt_config_value_get_enable o = true →
     enable_default_session_via_env_variables o s
     = let ep_circular_mb := ep_rt_config_value_get_circular_mb o in
       let r := ep_enable_2 o (Some path)
                  (if 0 <? ep_circular_mb then ep_circular_mb else 1)
                  (ep_rt_config_value_get_config o)
                  (if ep_rt_config_value_get_output_streaming o
                   then EP_SESSION_TYPE_FILESTREAM else EP_SESSION_TYPE_FILE)
                  EP_SERIALIZATION_FORMAT_NETTRACE_V4 ep_default_rundown_keyword
                  None None None s in
       if negb (r.1 =? 0) then ep_start_streaming r.1 r.2 else Some r.2).
Proof.
  intros Hpath pidStr path.
  destruct (replace_pid_loop_result (ep_rt_current_process_get_id o) template)
    as (r & Hloop & Hnone & Hr).
  fold pidStr in Hloop, Hr. fold path in Hr. subst r.
  assert (default_session_output_path o = Some path) as Hd.
  { unfold default_session_output_path. cbv zeta. rewrite Hpath. cbn [default].
    fold pidStr. unfold id. by rewrite Hloop. }
  split; [done|]. split; [done|].
  split; [apply pid_string_digits|].
  split; [apply pid_string_digits|].
  split; [apply pid_string_decimal|].
  split; [apply pid_string_decimal|].
  intros He. unfold enable_default_session_via_env_variables.
  rewrite He, Hd. cbn [mbind option_bind].
  by destruct (ep_enable_2 _ _ _ _ _ _ _ _ _ _ _).
Qed.

Lemma default_session_output_path_replaces_pid_witness :
  ep_rt_config_value_get_output_path tracing_oracle = Some "trace_{pid}.nettrace"
  ∧ @default_session_output_path tracing_oracle = Some "trace_4242.nettrace"
  ∧ strstr "trace_4242.nettrace" "{pid}" = None
  ∧ decimal_value "4242" = ep_rt_current_process_get_id tracing_oracle mod 2 ^ 32.
Proof.
  split; [reflexivity|].
  destruct (@default_session_output_path_replaces_pid coreclr tracing_oracle started
              "trace_{pid}.nettrace" eq_refl) as (H1 & H2 & _ & _ & H3 & _).
  split; [exact H1|]. split; [exact H2|exact H3].
Defined.

(** ** The quiescence handshake *)

Module QuiescenceFacts.
Import Quiescence.

Section Facts.
Context {rt : Runtime}.
Implicit Type s : State.

Lemma NoDup_filter_lookup (P : Z → Prop) `{!∀ x, Decision (P x)} (l : list Z) i j x :
  NoDup (filter P l) → P x → l !! i = Some x → l !! j = Some x → i = j.
Proof.
  revert i j. induction l as [|a l IH]; intros i j Hnd Hx Hi Hj; [done|].
  rewrite filter_cons in Hnd. destruct (decide (P a)) as [Ha|Ha].
  - apply NoDup_cons in Hnd as [Hnotin Hnd].
    destruct i as [|i], j as [|j]; simplify_eq/=; try done.
    + exfalso. apply Hnotin, list_elem_of_filter. split; [done|].
      by eapply list_elem_of_lookup_2.
    + exfalso. apply Hnotin, list_elem_of_filter. split; [done|].
      by eapply list_elem_of_lookup_2.
    + f_equal. by apply IH.
  - destruct i as [|i], j as [|j]; simplify_eq/=; try done.
    f_equal. by apply IH.
Qed.

Lemma no_write_after_free_write l t p :
  no_write_after_free l → Free p ∉ l → no_write_after_free (l ++ [Write t p]).
Proof.
  intros Hl Hp i j t' p' Hi Hj.
  apply lookup_snoc_Some in Hi as [[Hi Hf]|[_ [=]]].
  apply lookup_snoc_Some in Hj as [[Hj Hw]|[-> [= <- <-]]].
  - by eapply Hl.
  - exfalso. apply Hp. by eapply list_elem_of_lookup_2.
Qed.

Lemma no_write_after_free_free l p :
  no_write_after_free l → no_write_after_free (l ++ [Free p]).
Proof.
  intros Hl i j t' p' Hi Hj.
  apply lookup_snoc_Some in Hj as [[Hj Hw]|[_ [=]]].
  apply lookup_snoc_Some in Hi as [[Hi Hf]|[-> _]].
  - by eapply Hl.
  - done.
Qed.

Lemma initial_invariant target index s :
  initial target index s = true → invariant target index s.
Proof.
  unfold initial. intros H.
  repeat (apply andb_true_iff in H as [H ?]).
  destruct (disabler s) eqn:Hd; try done.
  destruct (history s) eqn:Hh; try done.
  match goal with H : negb _ = true |- _ => apply negb_true_iff, Z.eqb_neq in H end.
  repeat match goal with H : bool_decide _ = true |- _ => apply bool_decide_eq_true in H end.
  match goal with H : forallb (writer_consistent s) _ = true |- _ =>
    rename H into Hw; rewrite forallb_forall in Hw end.
  match goal with H : forallb _ (sessions s) = true |- _ =>
    rename H into Hs; rewrite forallb_forall in Hs end.
  split.
  - done.
  - intros i p Hi Hp. specialize (Hs p (proj1 (list_elem_of_In _ _)
      (list_elem_of_lookup_2 _ _ _ Hi))).
    apply orb_true_iff in Hs as [Hs|Hs]; [by apply Z.eqb_eq in Hs|].
    by apply bool_decide_eq_true in Hs.
  - intros i j p Hp Hi Hj. by eapply (NoDup_filter_lookup (λ p, p ≠ 0)).
  - unfold disabler_invariant. by rewrite Hd.
  - intros t w Ht. specialize (Hw w (proj1 (list_elem_of_In _ _)
      (list_elem_of_lookup_2 _ _ _ Ht))).
    unfold writer_consistent in Hw. unfold writer_invariant.
    destruct (pc w); try done.
    + by apply Z.eqb_eq in Hw.
    + apply andb_true_iff in Hw as [Hw Hl]. apply andb_true_iff in Hw as [Hm Hn].
      apply Z.eqb_eq in Hm. apply negb_true_iff, Z.eqb_neq in Hn.
      apply bool_decide_eq_true in Hl.
      split; [done|]. split; [done|]. split; [|by left].
      specialize (Hs session (proj1 (list_elem_of_In _ _)
        (list_elem_of_lookup_2 _ _ _ Hl))).
      apply orb_true_iff in Hs as [Hs|Hs]; [by apply Z.eqb_eq in Hs|].
      by apply bool_decide_eq_true in Hs.
  - rewrite Hh. intros p Hp. by apply elem_of_nil in Hp.
  - rewrite Hh. intros i j t p Hi. done.
Qed.

Lemma invariant_set_writer target index s t w' :
  invariant target index s →
  writer_invariant target index s t w' →
  invariant target index (set_writer t w' s).
Proof.
  intros [H1 H2 H3 H4 H5 H6 H7] Hw. split; try done.
  intros t0 w0 Ht0. simpl in Ht0.
  apply list_lookup_insert_Some in Ht0 as [(-> & <- & _)|[Hne Ht0]]; [done|].
  by apply H5.
Qed.

Lemma invariant_record_write target index s t p :
  invariant target index s → p ∈ allocated s →
  invariant target index (record_access (Write t p) s).
Proof.
  intros [H1 H2 H3 H4 H5 H6 H7] Hp. split; try done.
  - intros q Hq. simpl in Hq. apply elem_of_app in Hq as [Hq|Hq]; [by apply H6|].
    by apply list_elem_of_singleton in Hq.
  - simpl. apply no_write_after_free_write; [done|]. intros Hf. by apply (H6 p).
Qed.

(** A step of a writer keeps the invariant. *)
Lemma writer_step_invariant target index t s :
  invariant target index s → invariant target index (writer_step t s).
Proof.
  intros Hinv. unfold writer_step.
  destruct (threads s !! t) as [w|] eqn:Ht; [|done].
  pose proof (inv_writers _ _ _ Hinv _ _ Ht) as Hw. unfold writer_invariant in Hw.
  destruct (pc w) as [|i|i|i|i p|i] eqn:Hpc.
  - by apply invariant_set_writer.
  - destruct (_ <=? _)%nat; [by apply invariant_set_writer|].
    destruct (_ =? 0); by apply invariant_set_writer.
  - by apply invariant_set_writer.
  - destruct (sessions s !! i) as [p|] eqn:Hi; simpl.
    + destruct (p =? 0) eqn:Hp; [by apply invariant_set_writer|].
      apply Z.eqb_neq in Hp. apply invariant_set_writer; [done|].
      unfold writer_invariant. simpl. split; [done|]. split; [done|].
      split; [|by left]. by eapply inv_allocated.
    + by apply invariant_set_writer.
  - destruct Hw as (Hm & Hp & Ha & _).
    apply invariant_record_write; [|done]. by apply invariant_set_writer.
  - by apply invariant_set_writer.
Qed.

Lemma writers_at_rest target index s :
  invariant target index s →
  (∀ remaining, disabler s ≠ D_wait remaining) →
  ∀ t w i p, threads s !! t = Some w → pc w = W_write i p →
    session_write_in_progress w = Z.of_nat i ∧ p ≠ 0 ∧ p ∈ allocated s
    ∧ sessions s !! i = Some p.
Proof.
  intros Hinv Hd t w i p Ht Hpc.
  pose proof (inv_writers _ _ _ Hinv _ _ Ht) as Hw. unfold writer_invariant in Hw.
  rewrite Hpc in Hw. destruct Hw as (? & ? & ? & [?|(_ & _ & rem & Hrem & _)]); [done|].
  by destruct (Hd rem).
Qed.

(** Outside the wait, a writer that holds a session still finds it in
    its slot; this carries the writers over a step of the disabler that
    changes neither slots nor allocation. *)
Lemma writers_carry_over target index s s' :
  invariant target index s →
  (∀ remaining, disabler s ≠ D_wait remaining) →
  threads s' = threads s →
  (∀ i p, p ≠ 0 → sessions s !! i = Some p → p ≠ target ∨ disabler s' = D_null_slot →
          sessions s' !! i = Some p ∧ p ∈ allocated s') →
  (∀ i, sessions s !! i = Some target → disabler s' ≠ D_null_slot →
        i = index ∧ ∃ remaining, disabler s' = D_wait remaining
                                 ∧ target ∈ allocated s'
                                 ∧ ∀ t, (t < length (threads s))%nat → t ∈ remaining) →
  ∀ t w, threads s' !! t = Some w → writer_invariant target index s' t w.
Proof.
  intros Hinv Hd Hth Hkeep Htarget t w Ht. rewrite Hth in Ht.
  pose proof (inv_writers _ _ _ Hinv _ _ Ht) as Hw.
  unfold writer_invariant in *.
  destruct (pc w) as [|i|i|i|i p|i] eqn:Hpc; try done.
  destruct (writers_at_rest _ _ _ Hinv Hd _ _ _ _ Ht Hpc) as (Hm & Hp & Ha & Hi).
  split; [done|]. split; [done|].
  destruct (decide (p = target ∧ disabler s' ≠ D_null_slot)) as [[-> Hn]|Hn].
  - destruct (Htarget _ Hi Hn) as (-> & rem & Hrem & Hal & Hall).
    split; [done|]. right. split; [done|]. split; [done|]. exists rem.
    split; [done|]. apply Hall. by eapply lookup_lt_Some.
  - destruct (Hkeep i p Hp Hi) as [Hi' Ha'].
    { destruct (decide (p = target)) as [->|]; [|by left].
      right. destruct (decide (disabler s' = D_null_slot)); [done|]. by destruct Hn. }
    split; [done|]. by left.
Qed.

(** A step of the disabling thread keeps the invariant. *)
Lemma disabler_step_invariant target index s :
  invariant target index s → invariant target index (disabler_step target index s).
Proof.
  intros Hinv. pose proof Hinv as [H1 H2 H3 H4 H5 H6 H7].
  unfold disabler_step. unfold disabler_invariant in H4. revert H4.
  destruct (disabler s) as [| |remaining| | | | |] eqn:Hd; intros H4.
  - (* the allow_write bit is cleared *)
    split; [done|exact H2|exact H3|exact H4| |exact H6|exact H7].
    apply (writers_carry_over target index s); [done|by rewrite Hd|done|..].
    + intros i p Hp Hi _. split; [done|]. by eapply H2.
    + intros i _ Hn. by destruct Hn.
  - (* the slot is set to NULL *)
    assert (∀ i p, p ≠ 0 → <[index:=0]> (sessions s) !! i = Some p →
              i ≠ index ∧ sessions s !! i = Some p) as Hslots.
    { intros i p Hp Hi. apply list_lookup_insert_Some in Hi as [(-> & <- & _)|[Hne Hi]];
        done. }
    split; [done| | | | |exact H6|exact H7].
    + intros i p Hi Hp. simpl in *. destruct (Hslots _ _ Hp Hi). by eapply H2.
    + intros i j p Hp Hi Hj. simpl in *.
      destruct (Hslots _ _ Hp Hi), (Hslots _ _ Hp Hj). by eapply H3.
    + unfold disabler_invariant. simpl. split; [|by eapply H2].
      intros i Hi. destruct (Hslots _ _ H1 Hi) as [Hne Hi']. apply Hne. by eapply H3.
    + apply (writers_carry_over target index s); [done|by rewrite Hd|done|..].
      * intros i p Hp Hi [Hne|Hn]; [|done]. simpl. split; [|by eapply H2].
        rewrite list_lookup_insert_ne; [done|]. intros ->. congruence.
      * intros i Hi _. split; [by eapply H3|]. eexists. split; [reflexivity|].
        split; [by eapply H2|]. intros t Ht. apply elem_of_seq. simpl. lia.
  - (* waiting for the writers *)
    destruct H4 as [H4 H4'].
    assert (∀ remaining',
              (∀ t w, threads s !! t = Some w → t ∈ remaining → t ∉ remaining' →
                      pc w = W_write index target → False) →
              invariant target index (set_disabler (D_wait remaining') s)) as Hgo.
    { intros remaining' Hquiet.
      split; [done|exact H2|exact H3|by split| |exact H6|exact H7].
      intros t w Ht. simpl in Ht. pose proof (H5 _ _ Ht) as Hw.
      unfold writer_invariant in *. simpl.
      destruct (pc w) as [|i|i|i|i p|i] eqn:Hpc; try done.
      destruct Hw as (Hm & Hp & Ha & [Hi|(-> & -> & rem & Hrem & Hin)]); [by auto|].
      rewrite Hd in Hrem. injection Hrem as <-.
      split; [done|]. split; [done|]. split; [done|]. right.
      split; [done|]. split; [done|]. exists remaining'. split; [done|].
      destruct (decide (t ∈ remaining')) as [|Hnot]; [done|].
      by destruct (Hquiet _ _ Ht Hin Hnot). }
    destruct remaining as [|t' remaining].
    + (* every thread was seen quiet *)
      split; [done|exact H2|exact H3|by split| |exact H6|exact H7].
      intros t w Ht. simpl in Ht. pose proof (H5 _ _ Ht) as Hw.
      unfold writer_invariant in *. simpl.
      destruct (pc w) as [|i|i|i|i p|i] eqn:Hpc; try done.
      destruct Hw as (Hm & Hp & Ha & [Hi|(-> & -> & rem & Hrem & Hin)]); [by auto|].
      rewrite Hd in Hrem. injection Hrem as <-. by apply elem_of_nil in Hin.
    + destruct (threads s !! t') as [w'|] eqn:Ht'.
      * destruct (session_write_in_progress w' =? Z.of_nat index) eqn:Hm; [done|].
        apply Z.eqb_neq in Hm. apply Hgo. intros t w Ht Hin Hnot Hpc.
        apply elem_of_cons in Hin as [->|Hin]; [|done].
        rewrite Ht' in Ht. injection Ht as <-.
        pose proof (H5 _ _ Ht') as Hw. unfold writer_invariant in Hw.
        rewrite Hpc in Hw. by destruct Hw as [? _].
      * apply Hgo. intros t w Ht Hin Hnot Hpc.
        apply elem_of_cons in Hin as [->|Hin]; [|done]. congruence.
  - (* the buffers are written out *)
    destruct H4 as [H4 H4'].
    split; [done|exact H2|exact H3|by split| |exact H6|exact H7].
    apply (writers_carry_over target index s); [done|by rewrite Hd|done|..].
    + intros i p Hp Hi _. split; [done|]. by eapply H2.
    + intros i Hi. by destruct (H4 i).
  - (* the session count is decremented *)
    destruct H4 as [H4 H4'].
    split; [done|exact H2|exact H3|by split| |exact H6|exact H7].
    apply (writers_carry_over target index s); [done|by rewrite Hd|done|..].
    + intros i p Hp Hi _. split; [done|]. by eapply H2.
    + intros i Hi. by destruct (H4 i).
  - (* the sequence point is written *)
    destruct H4 as [H4 H4'].
    split; [done|exact H2|exact H3|by split| |exact H6|exact H7].
    apply (writers_carry_over target index s); [done|by rewrite Hd|done|..].
    + intros i p Hp Hi _. split; [done|]. by eapply H2.
    + intros i Hi. by destruct (H4 i).
  - (* the session is freed *)
    destruct H4 as [H4 H4'].
    split; [done| |exact H3|exact H4| | |].
    + intros i p Hi Hp. simpl in *. apply elem_of_difference. split; [by eapply H2|].
      intros ->%elem_of_singleton. by apply (H4 i).
    + apply (writers_carry_over target index s); [done|by rewrite Hd|done|..].
      * intros i p Hp Hi _. split; [done|]. simpl.
        apply elem_of_difference. split; [by eapply H2|].
        intros ->%elem_of_singleton. by apply (H4 i).
      * intros i Hi. by destruct (H4 i).
    + intros p Hp. simpl in *. apply elem_of_app in Hp as [Hp|Hp].
      * intros [Ha _]%elem_of_difference. by apply (H6 p).
      * apply list_elem_of_singleton in Hp. injection Hp as ->.
        intros [_ Hn]%elem_of_difference. apply Hn. by apply elem_of_singleton.
    + simpl. by apply no_write_after_free_free.
  - done.
Qed.

Lemma run_invariant target index schedule s :
  invariant target index s → invariant target index (run target index schedule s).
Proof.
  unfold run. revert s. induction schedule as [|a schedule IH]; intros s Hinv; [done|].
  simpl. apply IH. destruct a as [t|]; simpl.
  - by apply writer_step_invariant.
  - by apply disabler_step_invariant.
Qed.

End Facts.

(** C2. In every interleaving of writer threads running the loop of
    write_event_2 with a thread running the teardown of disable, started
    in a state in which the session is registered, no event is written
    into a session after that session was freed; and in every state that is
    reached, a writer that has set its in-progress marker for slot i and
    reloaded a non-null session pointer has the marker still set and holds
    a session that is allocated and was not freed. *)
Theorem writers_never_touch_freed_session {rt : Runtime}
    (target : Z) (index : nat) (schedule : list Actor) (s0 : State) :
  initial target index s0 = true →
  let s := run target index schedule s0 in
  no_write_after_free (history s)
  ∧ ∀ t w i p,
      threads s !! t = Some w → pc w = W_write i p →
      session_write_in_progress w = Z.of_nat i
      ∧ p ≠ 0
      ∧ p ∈ allocated s
      ∧ Free p ∉ history s.
Proof.
  intros Hinit s.
  assert (invariant target index s) as Hinv.
  { apply run_invariant. by apply initial_invariant. }
  split; [apply (inv_history _ _ _ Hinv)|].
  intros t w i p Ht Hpc.
  pose proof (inv_writers _ _ _ Hinv _ _ Ht) as Hw. unfold writer_invariant in Hw.
  rewrite Hpc in Hw. destruct Hw as (Hm & Hp & Ha & _).
  split; [done|]. split; [done|]. split; [done|].
  intros Hf. by apply (inv_freed _ _ _ Hinv p).
Qed.

Lemma writers_never_touch_freed_session_witness :
  @initial 1000 0 two_writers = true
  ∧ history (@run coreclr 1000 0 racing_schedule two_writers) = [Write 0 1000; Free 1000]
  ∧ no_write_after_free (history (@run coreclr 1000 0 racing_schedule two_writers)).
Proof.
  split; [by vm_compute|]. split; [by vm_compute|].
  apply (@writers_never_touch_freed_session coreclr 1000 0 racing_schedule two_writers).
  by vm_compute.
Defined.

End QuiescenceFacts.

(** ** More on the provider-configuration parser *)

Section ParserLockstep.
Context {rt : Runtime}.

Lemma skip_to_comma_field v rest :
  is_field_text v = true → skip_to_comma (v +:+ rest) = skip_to_comma rest.
Proof.
  induction v as [|c v IH]; intros H; [done|].
  apply is_field_text_cons in H as (? & ? & ? & H).
  rewrite append_cons. simpl. rewrite !bool_decide_eq_false_2 by done. simpl. auto.
Qed.

Lemma skip_to_comma_stop p :
  CStr.deref p = CStr.NUL ∨ CStr.deref p = ","%char → skip_to_comma p = p.
Proof.
  destruct p as [|c p]; [done|]. simpl. intros [->| ->]; done.
Qed.

Lemma get_next_config_value_split data :
  is_field_text (get_next_config_value data).1 = true
  ∧ match (get_next_config_value data).2 with
    | None => ∃ rest, data = (get_next_config_value data).1 +:+ rest
                      ∧ CStr.deref rest = CStr.NUL
    | Some q => data = (get_next_config_value data).1 +:+ String ":" q
                ∨ (data = (get_next_config_value data).1 +:+ q
                   ∧ CStr.deref q = ","%char)
    end.
Proof.
  induction data as [|c data IH]; simpl.
  - split; [done|]. by exists "".
  - case_bool_decide as Hnul; simpl.
    { split; [done|]. exists (String c data). by subst. }
    case_bool_decide as Hcomma; simpl.
    { split; [done|]. right. by subst. }
    case_bool_decide as Hcolon; simpl.
    { split; [done|]. left. by subst. }
    destruct (get_next_config_value data) as [v p]. simpl in *.
    destruct IH as [Hv Hp]. split.
    + unfold is_delimiter. rewrite !bool_decide_eq_false_2 by done. done.
    + destruct p as [q|].
      * destruct Hp as [->|[-> ?]]; [by left|by right].
      * destruct Hp as (rest & -> & ?). by exists rest.
Qed.

Lemma along_get_next_config_value p q :
  along p (Some q) → along p (get_next_config_value q).2.
Proof.
  simpl. intros Hq.
  destruct (get_next_config_value_split q) as [Hv Hp].
  destruct (get_next_config_value q) as [v [q'|]]; simpl in *.
  - rewrite <- Hq. destruct Hp as [->|[-> ?]].
    + rewrite skip_to_comma_field by done. done.
    + by rewrite skip_to_comma_field.
  - destruct Hp as (rest & -> & Hr). rewrite <- Hq.
    rewrite skip_to_comma_field by done. rewrite skip_to_comma_stop; auto.
Qed.

Lemma along_utf8_string p q :
  along p (Some q) → along p (get_next_config_value_as_utf8_string q).2.
Proof.
  intros H. apply along_get_next_config_value in H.
  unfold get_next_config_value_as_utf8_string.
  by destruct (get_next_config_value q).
Qed.

Lemma along_uint64 p q :
  along p (Some q) → along p (get_next_config_value_as_uint64_t q).2.
Proof.
  intros H. apply along_utf8_string in H.
  unfold get_next_config_value_as_uint64_t.
  by destruct (get_next_config_value_as_utf8_string q).
Qed.

Lemma along_uint32 p q :
  along p (Some q) → along p (get_next_config_value_as_uint32_t q).2.
Proof.
  intros H. apply along_utf8_string in H.
  unfold get_next_config_value_as_uint32_t.
  by destruct (get_next_config_value_as_utf8_string q).
Qed.

Lemma along_step p (x : option string) (A : Type)
    (f : string → A * option string) (d : A) :
  (∀ q, along p (Some q) → along p (f q).2) →
  along p x →
  along p (match x with
           | Some q => if at_field x then f q else (d, x)
           | None => (d, x)
           end).2.
Proof.
  intros Hf Hx. destruct x as [q|]; [|done].
  destruct (at_field (Some q)); [by apply Hf|done].
Qed.

Lemma parse_provider_along p cfg x :
  parse_provider p = Some (cfg, x) → along p x.
Proof.
  unfold parse_provider.
  assert (along p (Some p)) as H0 by done.
  destruct (at_field (Some p)) eqn:Ea.
  - pose proof (along_utf8_string p p H0) as H1.
    destruct (get_next_config_value_as_utf8_string p) as [n p1]. simpl in H1.
    destruct (negb (negb (is_null n))); [done|].
    pose proof (along_step p p1 _ get_next_config_value_as_uint64_t 0
                  (along_uint64 p) H1) as H2.
    destruct (match p1 with Some _ => _ | None => _ end) as [kw p2]. simpl in H2.
    pose proof (along_step p p2 _ get_next_config_value_as_uint32_t
                  EP_EVENT_LEVEL_VERBOSE (along_uint32 p) H2) as H3.
    destruct (match p2 with Some _ => _ | None => _ end) as [lv p3]. simpl in H3.
    pose proof (along_step p p3 _ get_next_config_value_as_utf8_string
                  None (along_utf8_string p) H3) as H4.
    destruct (match p3 with Some _ => _ | None => _ end) as [ar p4]. simpl in H4.
    by intros [= <- <-].
  - simpl in *. rewrite Ea. simpl. rewrite Ea. simpl. rewrite Ea.
    by intros [= <- <-].
Qed.

Lemma count_parse_lockstep fuel fuel' p n l :
  count_providers fuel p = Some n →
  parse_providers fuel' p = Parsed l →
  n = Z.of_nat (length l).
Proof.
  revert fuel' p n l. induction fuel as [|fuel IH]; intros fuel' p n l; [done|].
  destruct fuel' as [|fuel']; [done|]. simpl.
  case_bool_decide as Hnul.
  { by intros [= <-] [= <-]. }
  destruct (count_providers fuel (skip_one (skip_to_comma p))) as [m|] eqn:Ec; [|done].
  simpl. intros [= <-].
  destruct (parse_provider p) as [[cfg [q|]]|] eqn:Ep; [| |done].
  - apply parse_provider_along in Ep. simpl in Ep. rewrite Ep.
    destruct (parse_providers fuel' _) as [| |l'] eqn:El; [done..|].
    intros [= <-]. rewrite (IH _ _ _ _ Ec El). simpl. lia.
  - apply parse_provider_along in Ep. simpl in Ep.
    intros [= <-]. simpl.
    unfold skip_one in Ec. rewrite bool_decide_eq_true_2 in Ec by done.
    destruct fuel as [|fuel]; [done|]. simpl in Ec.
    rewrite bool_decide_eq_true_2 in Ec by done. by injection Ec as <-.
Qed.

End ParserLockstep.

(** X2. The provider array of ep_enable_2 is filled exactly: whenever the
    configuration string is accepted, the number of providers counted by
    the first loop (providers_len, the size of the array that is
    allocated) equals the number of entries the parsing loop writes, and
    it is at least one; the null and the empty string give the three
    default entries. *)
Theorem providers_of_config_fills_array {rt : Runtime}
    (providers_config : option string)
    (providers : list EventPipeProviderConfiguration) (providers_len : Z) :
  providers_of_config providers_config = Some (providers, providers_len) →
  providers_len = Z.of_nat (length providers) ∧ 0 < providers_len.
Proof.
  unfold providers_of_config.
  assert (∀ a b c : EventPipeProviderConfiguration,
            Some ([a; b; c], 3) = Some (providers, providers_len) →
            providers_len = Z.of_nat (length providers) ∧ 0 < providers_len) as Hd.
  { intros a b c [= <- <-]. simpl. lia. }
  destruct providers_config as [cfg|]; [|apply Hd].
  case_bool_decide as Hnul; [apply Hd|].
  destruct (count_providers _ cfg) as [n|] eqn:Ec; [|done].
  destruct (parse_providers _ cfg) as [| |l] eqn:El; [done..|].
  intros [= <- <-]. split; [by eapply count_parse_lockstep|].
  simpl in Ec. rewrite bool_decide_eq_false_2 in Ec by done.
  destruct (count_providers _ _) as [m|] eqn:Em; [|done].
  injection Ec as <-.
  assert (∀ f p k, count_providers f p = Some k → 0 ≤ k) as Hpos.
  { clear. induction f as [|f IH]; intros p k; [done|]. simpl.
    case_bool_decide; [intros [= <-]; lia|].
    destruct (count_providers f _) as [k'|] eqn:E; [|done].
    intros [= <-]. specialize (IH _ _ E). lia. }
  specialize (Hpos _ _ _ Em). lia.
Qed.

Lemma providers_of_config_fills_array_witness :
  @providers_of_config coreclr (Some "Foo:10:3,Bar")
  = Some ([ ep_provider_config_init (Some "Foo") 0x10 3 None;
            ep_provider_config_init (Some "Bar") 0 5 None ], 2)
  ∧ 2 = Z.of_nat 2 ∧ 0 < 2.
Proof.
  assert (@providers_of_config coreclr (Some "Foo:10:3,Bar")
          = Some ([ ep_provider_config_init (Some "Foo") 0x10 3 None;
                    ep_provider_config_init (Some "Bar") 0 5 None ], 2)) as H
    by by vm_compute.
  split; [exact H|].
  exact (@providers_of_config_fills_array coreclr _ _ _ H).
Defined.
Section ParserNames.
Context {rt : Runtime}.

Lemma get_next_config_value_stop v rest :
  is_field_text v = true → CStr.deref rest = CStr.NUL →
  get_next_config_value (v +:+ rest) = (v, None).
Proof.
  intros Hv Hr. induction v as [|c v IH].
  - destruct rest as [|c rest]; [done|]. simpl in *. subst c. done.
  - apply is_field_text_cons in Hv as (? & ? & ? & Hv).
    rewrite append_cons. simpl. rewrite !bool_decide_eq_false_2 by done.
    by rewrite IH.
Qed.

Lemma parse_provider_name_comma name rest :
  is_field_text name = true → name ≠ "" →
  parse_provider (name +:+ String "," rest)
  = Some (ep_provider_config_init (Some name) 0 EP_EVENT_LEVEL_VERBOSE None,
          Some (String "," rest)).
Proof.
  intros Hf Hne. unfold parse_provider.
  rewrite (at_field_text name _ Hf Hne).
  unfold get_next_config_value_as_utf8_string.
  rewrite get_next_config_value_comma by done.
  rewrite (proj2 (length_zero_iff name) Hne). simpl. done.
Qed.

Lemma parse_provider_colon rest : parse_provider (String ":" rest) = None.
Proof. done. Qed.

Lemma field_text_deref name :
  is_field_text name = true → name ≠ "" → CStr.deref name ≠ CStr.NUL.
Proof.
  destruct name as [|c name]; [done|]. intros H _.
  by apply is_field_text_cons in H as (? & _).
Qed.

Lemma parse_providers_names names fuel :
  names ≠ [] → Forall (λ n, is_field_text n = true ∧ n ≠ "") names →
  (length names ≤ fuel)%nat →
  parse_providers fuel (comma_separated names)
  = Parsed ((λ n, ep_provider_config_init (Some n) 0 EP_EVENT_LEVEL_VERBOSE None)
              <$> names).
Proof.
  revert fuel. induction names as [|name names IH]; intros fuel Hne Hall Hlen; [done|].
  apply Forall_cons in Hall as [[Hf Hn] Hall].
  destruct fuel as [|fuel]; [simpl in Hlen; lia|].
  destruct names as [|name2 names].
  - simpl. rewrite bool_decide_eq_false_2 by by apply field_text_deref.
    by rewrite parse_provider_name_only.
  - change (comma_separated (name :: name2 :: names))
      with (name +:+ String "," (comma_separated (name2 :: names))).
    cbn [parse_providers].
    rewrite bool_decide_eq_false_2.
    2: { destruct name as [|c name]; [done|].
         apply is_field_text_cons in Hf as (? & _). done. }
    rewrite parse_provider_name_comma by done.
    assert (skip_one (skip_to_comma (String "," (comma_separated (name2 :: names))))
            = comma_separated (name2 :: names)) as -> by done.
    rewrite IH; [done|done|done|simpl in *; lia].
Qed.

Lemma comma_separated_length names :
  Forall (λ n, is_field_text n = true ∧ n ≠ "") names →
  (length names ≤ String.length (comma_separated names))%nat.
Proof.
  assert (∀ a b, String.length (a +:+ b) = (String.length a + String.length b)%nat)
    as Happ.
  { induction a as [|c a IHa]; intros b; [done|]. rewrite append_cons. simpl.
    by rewrite IHa. }
  induction names as [|name names IH]; intros Hall; [done|].
  apply Forall_cons in Hall as [[_ Hn] Hall]. specialize (IH Hall).
  destruct names as [|name2 names].
  - destruct name; [done|]. simpl. lia.
  - change (comma_separated (name :: name2 :: names))
      with (name +:+ String "," (comma_separated (name2 :: names))).
    rewrite Happ. destruct name; [done|]. simpl in *. lia.
Qed.

Lemma comma_separated_deref names :
  names ≠ [] → Forall (λ n, is_field_text n = true ∧ n ≠ "") names →
  CStr.deref (comma_separated names) ≠ CStr.NUL.
Proof.
  destruct names as [|name names]; [done|]. intros _ Hall.
  apply Forall_cons in Hall as [[Hf Hn] _].
  destruct name as [|c name]; [done|].
  apply is_field_text_cons in Hf as (? & _).
  destruct names; done.
Qed.

(** Skipping to the comma that follows a text without NUL. *)
Lemma skip_to_comma_prefix pre s :
  mem_char CStr.NUL pre = false →
  ∃ y, skip_to_comma (pre +:+ String "," s) = String "," y
       ∧ (y = s
          ∨ ∃ pre', y = pre' +:+ String "," s
                    ∧ mem_char CStr.NUL pre' = false
                    ∧ (String.length pre' < String.length pre)%nat).
Proof.
  induction pre as [|c pre IH]; intros Hnul.
  - exists s. split; [done|by left].
  - simpl in Hnul. apply orb_false_elim in Hnul as [Hc Hnul].
    apply bool_decide_eq_false in Hc.
    rewrite append_cons. simpl.
    rewrite (bool_decide_eq_false_2 (c = CStr.NUL)) by done. simpl.
    case_bool_decide as Hcomma.
    + subst c. exists (pre +:+ String "," s). split; [done|]. right.
      exists pre. split; [done|]. split; [done|]. simpl. lia.
    + destruct (IH Hnul) as (y & -> & Hy). exists y. split; [done|].
      destruct Hy as [->|(pre' & -> & ? & ?)]; [by left|].
      right. exists pre'. split; [done|]. split; [done|]. simpl. lia.
Qed.

Lemma parse_providers_empty_name n rest :
  ∀ pre fuel,
    (String.length pre ≤ n)%nat → (n + 2 ≤ fuel)%nat →
    mem_char CStr.NUL pre = false →
    parse_providers fuel (pre +:+ String "," (String ":" rest)) = ParseError.
Proof.
  induction n as [|n IH]; intros pre fuel Hlen Hfuel Hnul.
  - destruct pre; [|simpl in Hlen; lia].
    destruct fuel as [|[|fuel]]; [lia..|]. done.
  - destruct fuel as [|fuel]; [lia|].
    set (p := pre +:+ String "," (String ":" rest)).
    cbn [parse_providers].
    assert (CStr.deref p ≠ CStr.NUL) as Hp.
    { unfold p. destruct pre as [|c pre]; [done|].
      simpl in Hnul. apply orb_false_elim in Hnul as [Hc _].
      apply bool_decide_eq_false in Hc. rewrite append_cons. simpl. congruence. }
    rewrite bool_decide_eq_false_2 by done.
    destruct (skip_to_comma_prefix pre (String ":" rest) Hnul) as (y & Hskip & Hy).
    fold p in Hskip.
    destruct (parse_provider p) as [[cfg x]|] eqn:Ep; [|done].
    apply parse_provider_along in Ep.
    destruct x as [q|]; simpl in Ep.
    2: { rewrite Hskip in Ep. done. }
    rewrite Ep, Hskip.
    assert (skip_one (String "," y) = y) as -> by done.
    destruct Hy as [->|(pre' & -> & Hnul' & Hlen')].
    + destruct fuel as [|fuel]; [lia|]. done.
    + rewrite IH; [done|simpl in *; lia|lia|done].
Qed.

Lemma providers_of_config_error cfg :
  CStr.deref cfg ≠ CStr.NUL →
  parse_providers (S (String.length cfg)) cfg = ParseError →
  providers_of_config (Some cfg) = None.
Proof.
  intros Hnul Hp. apply providers_of_config_total. by exists cfg.
Qed.

(** The parsing loop leaves nothing but failed assertions of
    ep_provider_config_init in the trace. *)
Lemma parse_providers_asserts_spec fuel p s :
  ∃ n, same_globals s (parse_providers_asserts fuel p s)
       ∧ heap (parse_providers_asserts fuel p s) = heap s
       ∧ trace (parse_providers_asserts fuel p s)
         = trace s ++ replicate n (Assert_failed "provider_name != NULL").
Proof.
  revert p s. induction fuel as [|fuel IH]; intros p s; cbn [parse_providers_asserts].
  { exists 0%nat. split; [apply same_globals_refl|]. by rewrite app_nil_r. }
  case_bool_decide.
  { exists 0%nat. split; [apply same_globals_refl|]. by rewrite app_nil_r. }
  destruct (parse_provider p) as [[cfg [q|]]|].
  - destruct (IH (skip_one (skip_to_comma q))
                (EP_ASSERT (negb (is_null (provider_name cfg)))
                   "provider_name != NULL" s)) as (n & Hg & Hh & Ht).
    destruct (negb (is_null (provider_name cfg))); cbn [EP_ASSERT] in *.
    + by exists n.
    + exists (S n). split; [|split].
      * eapply same_globals_trans; [apply same_globals_log|exact Hg].
      * by rewrite Hh.
      * rewrite Ht. cbn. by rewrite <- app_assoc.
  - destruct (negb (is_null (provider_name cfg))); cbn [EP_ASSERT].
    + exists 0%nat. split; [apply same_globals_refl|]. by rewrite app_nil_r.
    + exists 1%nat. split; [apply same_globals_log|]. done.
  - exists 0%nat. split; [apply same_globals_refl|]. by rewrite app_nil_r.
Qed.

(** Specs with names before the spec without one fail no assertion. *)
Lemma parse_providers_asserts_names names rest fuel s :
  names ≠ [] → Forall (λ n, is_field_text n = true ∧ n ≠ "") names →
  (length names < fuel)%nat →
  parse_providers_asserts fuel
    (comma_separated names +:+ String "," (String ":" rest)) s = s.
Proof.
  assert (∀ a b c, (a +:+ b) +:+ c = a +:+ (b +:+ c)) as Hassoc.
  { induction a as [|x a IHa]; intros b c; [done|].
    rewrite !append_cons. by rewrite IHa. }
  revert fuel. induction names as [|name names IH]; intros fuel Hne Hall Hlen; [done|].
  apply Forall_cons in Hall as [[Hf Hn] Hall].
  destruct fuel as [|fuel]; [simpl in Hlen; lia|].
  assert (∀ tail, CStr.deref (name +:+ tail) ≠ CStr.NUL) as Hd.
  { intros tail. destruct name as [|c name]; [done|].
    apply is_field_text_cons in Hf as (? & _). done. }
  destruct names as [|name2 names].
  - cbn [comma_separated parse_providers_asserts].
    rewrite bool_decide_eq_false_2 by apply Hd.
    rewrite parse_provider_name_comma by done.
    cbn [provider_name ep_provider_config_init is_null negb EP_ASSERT].
    assert (skip_one (skip_to_comma (String "," (String ":" rest))) = String ":" rest)
      as -> by done.
    destruct fuel as [|fuel]; [simpl in Hlen; lia|]. done.
  - change (comma_separated (name :: name2 :: names))
      with (name +:+ String "," (comma_separated (name2 :: names))).
    rewrite Hassoc, append_cons. cbn [parse_providers_asserts].
    rewrite bool_decide_eq_false_2 by apply Hd.
    rewrite parse_provider_name_comma by done.
    cbn [provider_name ep_provider_config_init is_null negb EP_ASSERT].
    assert (∀ x, skip_one (skip_to_comma (String "," x)) = x) as -> by done.
    apply IH; [done|done|simpl in *; lia].
Qed.

End ParserNames.

(** X1. get_next_config_value cuts one field: the value between *start
    and *end holds no NUL, comma or colon; the text read is the value
    followed either by the end of the string (the result is NULL), by a
    comma (the result points at the comma, which is not consumed) or by a
    colon (the result points past the colon). The other way round, a
    delimiter-free text followed by one of the three is read back as that
    text with that result. *)
Theorem get_next_config_value_delimits {rt : Runtime} (data : string) :
  let v := (get_next_config_value data).1 in
  is_field_text v = true
  ∧ match (get_next_config_value data).2 with
    | None => ∃ rest, data = v +:+ rest ∧ CStr.deref rest = CStr.NUL
    | Some q => data = v +:+ String ":" q
                ∨ (data = v +:+ q ∧ CStr.deref q = ","%char)
    end
  ∧ ∀ text rest,
      is_field_text text = true →
      get_next_config_value (text +:+ String ":" rest) = (text, Some rest)
      ∧ get_next_config_value (text +:+ String "," rest)
        = (text, Some (String "," rest))
      ∧ (CStr.deref rest = CStr.NUL →
         get_next_config_value (text +:+ rest) = (text, None)).
Proof.
  intros v. destruct (get_next_config_value_split data) as [Hv Hp].
  split; [exact Hv|]. split; [exact Hp|].
  intros text rest Ht. split; [by apply get_next_config_value_colon|].
  split; [by apply get_next_config_value_comma|].
  intros Hr. by apply get_next_config_value_stop.
Qed.

(** X3. A comma-separated list of provider names, each non-empty and free
    of delimiters, is accepted and gives one provider per name, in the
    order of the list, each with keyword mask 0, the verbose level and no
    filter data; providers_len is the length of the list. *)
Theorem providers_of_config_names {rt : Runtime} (names : list string) :
  names ≠ [] →
  Forall (λ n, is_field_text n = true ∧ n ≠ "") names →
  providers_of_config (Some (comma_separated names))
  = Some ((λ n, ep_provider_config_init (Some n) 0 EP_EVENT_LEVEL_VERBOSE None)
            <$> names,
          Z.of_nat (length names)).
Proof.
  intros Hne Hall. unfold providers_of_config.
  rewrite bool_decide_eq_false_2 by by apply comma_separated_deref.
  pose proof (comma_separated_length names Hall) as Hlen.
  destruct (count_providers_terminates (S (String.length (comma_separated names)))
              (comma_separated names) ltac:(lia)) as [n Hn].
  pose proof (parse_providers_names names (S (String.length (comma_separated names)))
                Hne Hall ltac:(lia)) as Hp.
  rewrite Hn, Hp.
  rewrite (count_parse_lockstep _ _ _ _ _ Hn Hp). by rewrite length_fmap.
Qed.

Lemma providers_of_config_names_witness :
  @providers_of_config coreclr (Some "Alpha,Beta,Gamma")
  = Some ([ ep_provider_config_init (Some "Alpha") 0 5 None;
            ep_provider_config_init (Some "Beta") 0 5 None;
            ep_provider_config_init (Some "Gamma") 0 5 None ], 3).
Proof.
  apply (@providers_of_config_names coreclr ["Alpha"; "Beta"; "Gamma"]).
  - discriminate.
  - repeat constructor; discriminate.
Defined.

(** X4. A provider spec with an empty name rejects the whole
    configuration: when the string starts with a colon, or when a colon
    follows a comma anywhere in it, the parsing loop raises its error and
    ep_enable_2 returns the session id 0 without calling ep_enable. No
    global and no session object changes; the trace gains only the failed
    assertions of ep_provider_config_init for the specs without a name
    that were read before the error: none when the string starts with
    the colon or when the specs before the bad one are plain names, and
    exactly one for a string that starts with a comma and a colon. *)
Theorem ep_enable_2_empty_name {rt : Runtime}
    (o : Oracle) (output_path : option string) (circular_buffer_size_in_mb : Z)
    (pre rest : string) (names : list string)
    (session_type : EventPipeSessionType) (format : Z)
    (rundown_keyword : Z) (stream sync_callback callback_additional_data : option Z)
    (s : EventPipe) :
  mem_char CStr.NUL pre = false →
  names ≠ [] → Forall (λ n, is_field_text n = true ∧ n ≠ "") names →
  let ep_enable_2_of providers_config :=
    ep_enable_2 o output_path circular_buffer_size_in_mb (Some providers_config)
      session_type format rundown_keyword stream sync_callback
      callback_additional_data s in
  providers_of_config (Some (String ":" rest)) = None
  ∧ providers_of_config (Some (pre +:+ String "," (String ":" rest))) = None
  ∧ ep_enable_2_of (String ":" rest) = (0, s)
  ∧ (∃ n s', ep_enable_2_of (pre +:+ String "," (String ":" rest)) = (0, s')
             ∧ same_globals s s'
             ∧ heap s' = heap s
             ∧ trace s'
               = trace s ++ replicate n (Assert_failed "provider_name != NULL"))
  ∧ ep_enable_2_of (String "," (String ":" rest))
    = (0, log (Assert_failed "provider_name != NULL") s)
  ∧ ep_enable_2_of (comma_separated names +:+ String "," (String ":" rest)) = (0, s).
Proof.
  intros Hnul Hne Hall ep_enable_2_of.
  assert (∀ a b, String.length (a +:+ b) = (String.length a + String.length b)%nat)
    as Happ.
  { induction a as [|c a IHa]; intros b; [done|]. rewrite append_cons. simpl.
    by rewrite IHa. }
  assert (providers_of_config (Some (String ":" rest)) = None) as H1.
  { apply providers_of_config_error; done. }
  assert (∀ pre', mem_char CStr.NUL pre' = false →
            providers_of_config (Some (pre' +:+ String "," (String ":" rest))) = None)
    as H2.
  { intros pre' Hnul'. apply providers_of_config_error.
    - destruct pre' as [|c pre']; [done|].
      simpl in Hnul'. apply orb_false_elim in Hnul' as [Hc _].
      apply bool_decide_eq_false in Hc. rewrite append_cons. simpl. congruence.
    - apply (parse_providers_empty_name (String.length pre')); [done| |done].
      rewrite Happ. simpl. lia. }
  split; [exact H1|]. split; [by apply H2|].
  split.
  { unfold ep_enable_2_of, ep_enable_2. by rewrite H1. }
  split.
  { unfold ep_enable_2_of, ep_enable_2. rewrite (H2 pre Hnul).
    unfold providers_of_config_asserts.
    destruct (bool_decide _); [exists 0%nat, s|].
    - split; [done|]. split; [apply same_globals_refl|]. split; [done|].
      by rewrite app_nil_r.
    - destruct (parse_providers_asserts_spec
                  (S (String.length (pre +:+ String "," (String ":" rest))))
                  (pre +:+ String "," (String ":" rest)) s) as (n & Hg & Hh & Ht).
      by eexists n, _. }
  split.
  { unfold ep_enable_2_of, ep_enable_2.
    pose proof (H2 "" eq_refl) as H3.
    change ("" +:+ String "," (String ":" rest))
      with (String "," (String ":" rest)) in H3.
    rewrite H3. done. }
  unfold ep_enable_2_of, ep_enable_2.
  assert (mem_char CStr.NUL (comma_separated names) = false) as Hnul'.
  { clear -Hall. induction names as [|name names IH]; [done|].
    apply Forall_cons in Hall as [[Hf _] Hall]. specialize (IH Hall).
    assert (∀ tail, mem_char CStr.NUL tail = false →
                    mem_char CStr.NUL (name +:+ tail) = false) as Hn.
    { intros tail Ht. induction name as [|c name IHn]; [done|].
      apply is_field_text_cons in Hf as (? & ? & ? & Hf). rewrite append_cons.
      simpl. rewrite bool_decide_eq_false_2 by done. by apply IHn. }
    destruct names as [|name2 names].
    - specialize (Hn "" eq_refl). by rewrite append_empty_r in Hn.
    - change (comma_separated (name :: name2 :: names))
        with (name +:+ String "," (comma_separated (name2 :: names))).
      apply Hn. simpl. exact IH. }
  rewrite (H2 _ Hnul'). unfold providers_of_config_asserts.
  rewrite bool_decide_eq_false_2.
  2: { destruct names as [|name names]; [done|].
       apply Forall_cons in Hall as [[Hf Hn] _].
       destruct name as [|c name]; [done|].
       apply is_field_text_cons in Hf as (? & _).
       destruct names; done. }
  rewrite parse_providers_asserts_names; [done|done|done|].
  pose proof (comma_separated_length names Hall). rewrite Happ. simpl. lia.
Qed.

Lemma ep_enable_2_empty_name_witness :
  mem_char CStr.NUL "a," = false
  ∧ @ep_enable_2 coreclr (quiet_oracle 1000) None 1 (Some "Foo:10:3,:1f")
      EP_SESSION_TYPE_LISTENER 1 ep_default_rundown_keyword None None None started
    = (0, started)
  ∧ @ep_enable_2 coreclr (quiet_oracle 1000) None 1 (Some ",:x")
      EP_SESSION_TYPE_LISTENER 1 ep_default_rundown_keyword None None None started
    = (0, log (Assert_failed "provider_name != NULL") started)
  ∧ @ep_enable_2 coreclr (quiet_oracle 1000) None 1 (Some "Alpha,Beta,:x")
      EP_SESSION_TYPE_LISTENER 1 ep_default_rundown_keyword None None None started
    = (0, started).
Proof.
  split; [reflexivity|].
  split; [by vm_compute|].
  pose proof (@ep_enable_2_empty_name coreclr (quiet_oracle 1000) None 1 "a," "x"
                ["Alpha"; "Beta"]
                EP_SESSION_TYPE_LISTENER 1 ep_default_rundown_keyword None None None
                started eq_refl ltac:(discriminate)
                ltac:(repeat constructor; discriminate)) as H.
  split; [exact (proj1 (proj2 (proj2 (proj2 (proj2 H)))))|].
  exact (proj2 (proj2 (proj2 (proj2 (proj2 H))))).
Defined.

(** ** Numbers in the provider configuration *)

Section ParserNumbers.
Context {rt : Runtime}.

Lemma of_uint_acc_le d p : (p ≤ Pos.of_uint_acc d p)%positive.
Proof.
  revert p. induction d; intros p; simpl; [lia|..];
    (etransitivity; [|apply IHd]); lia.
Qed.

Lemma of_hex_uint_acc_le d p : (p ≤ Pos.of_hex_uint_acc d p)%positive.
Proof.
  revert p. induction d; intros p; simpl; [lia|..];
    (etransitivity; [|apply IHd]); lia.
Qed.

Ltac accumulate_step IH p umax :=
  cbn [DecimalString.NilEmpty.string_of_uint
       HexadecimalString.NilEmpty.string_of_uint CStr.accumulate
       Pos.of_uint_acc Pos.of_hex_uint_acc Pos.of_uint Pos.of_hex_uint];
  match goal with
  | |- context [CStr.digit_value ?c] =>
      let v := eval vm_compute in (CStr.digit_value c) in
      change (CStr.digit_value c) with v
  end;
  cbv iota beta;
  match goal with
  | |- context [(?d <? ?b)] =>
      let v := eval vm_compute in (d <? b) in change (d <? b) with v
  end;
  cbv iota beta zeta.

Lemma accumulate_decimal_acc umax d p :
  Z.pos (Pos.of_uint_acc d p) ≤ umax →
  CStr.accumulate 10 umax (DecimalString.NilEmpty.string_of_uint d) (Z.pos p) false
  = (Z.pos (Pos.of_uint_acc d p), false).
Proof.
  revert p. induction d; intros p Hle; [done|..];
    accumulate_step IHd p umax;
    cbn [Pos.of_uint_acc Pos.of_hex_uint_acc Pos.of_uint Pos.of_hex_uint Z.of_N] in Hle;
    match type of Hle with
    | Z.pos (Pos.of_uint_acc _ ?q) ≤ _ =>
        pose proof (of_uint_acc_le d q) as Hq;
        replace (umax <? _) with false by (symmetry; apply Z.ltb_ge; lia);
        rewrite <- (IHd q Hle); f_equal; lia
    end.
Qed.

Lemma accumulate_hexadecimal_acc umax d p :
  Z.pos (Pos.of_hex_uint_acc d p) ≤ umax →
  CStr.accumulate 16 umax (HexadecimalString.NilEmpty.string_of_uint d) (Z.pos p) false
  = (Z.pos (Pos.of_hex_uint_acc d p), false).
Proof.
  revert p. induction d; intros p Hle; [done|..];
    accumulate_step IHd p umax;
    cbn [Pos.of_uint_acc Pos.of_hex_uint_acc Pos.of_uint Pos.of_hex_uint Z.of_N] in Hle;
    match type of Hle with
    | Z.pos (Pos.of_hex_uint_acc _ ?q) ≤ _ =>
        pose proof (of_hex_uint_acc_le d q) as Hq;
        replace (umax <? _) with false by (symmetry; apply Z.ltb_ge; lia);
        rewrite <- (IHd q Hle); f_equal; lia
    end.
Qed.

Lemma accumulate_decimal umax d :
  0 ≤ umax → Z.of_N (N.of_uint d) ≤ umax →
  CStr.accumulate 10 umax (DecimalString.NilEmpty.string_of_uint d) 0 false
  = (Z.of_N (N.of_uint d), false).
Proof.
  intros H0. unfold N.of_uint.
  induction d; intros Hle; [done|..]; accumulate_step IHd 1%positive umax.
  1: { replace (umax <? _) with false by (symmetry; apply Z.ltb_ge; lia).
       by apply IHd. }
  all: cbn [Pos.of_uint_acc Pos.of_hex_uint_acc Pos.of_uint Pos.of_hex_uint Z.of_N] in Hle;
    match type of Hle with
    | Z.pos (Pos.of_uint_acc _ ?q) ≤ _ =>
        pose proof (of_uint_acc_le d q) as Hq;
        replace (umax <? _) with false by (symmetry; apply Z.ltb_ge; lia);
        by apply (accumulate_decimal_acc umax d q)
    end.
Qed.

Lemma accumulate_hexadecimal umax d :
  0 ≤ umax → Z.of_N (N.of_hex_uint d) ≤ umax →
  CStr.accumulate 16 umax (HexadecimalString.NilEmpty.string_of_uint d) 0 false
  = (Z.of_N (N.of_hex_uint d), false).
Proof.
  intros H0. unfold N.of_hex_uint.
  induction d; intros Hle; [done|..]; accumulate_step IHd 1%positive umax.
  1: { replace (umax <? _) with false by (symmetry; apply Z.ltb_ge; lia).
       by apply IHd. }
  all: cbn [Pos.of_uint_acc Pos.of_hex_uint_acc Pos.of_uint Pos.of_hex_uint Z.of_N] in Hle;
    match type of Hle with
    | Z.pos (Pos.of_hex_uint_acc _ ?q) ≤ _ =>
        pose proof (of_hex_uint_acc_le d q) as Hq;
        replace (umax <? _) with false by (symmetry; apply Z.ltb_ge; lia);
        by apply (accumulate_hexadecimal_acc umax d q)
    end.
Qed.


(** strtoul on text that starts with neither white space, nor a sign,
    nor (in base 16) the 0x prefix. *)
Lemma strtou_plain base umax c s :
  CStr.isspace c = false → c ≠ "-"%char → c ≠ "+"%char →
  (base =? 16) && CStr.has_hex_prefix (String c s) = false →
  CStr.strtou base umax (String c s)
  = (let '(v, ovf) := CStr.accumulate base umax (String c s) 0 false in
     if ovf then umax else v).
Proof.
  intros Hsp Hm Hp Hx. unfold CStr.strtou. cbn [CStr.skip_space]. rewrite Hsp.
  assert (match String c s with
          | String "-"%char rest => (true, rest)
          | String "+"%char rest => (false, rest)
          | _ => (false, String c s)
          end = (false, String c s)) as ->.
  { destruct c as [[] [] [] [] [] [] [] []]; done. }
  rewrite Hx. by destruct (CStr.accumulate _ _ _ _ _) as [v []].
Qed.

Lemma strtou_level_text umax (l : N) :
  Z.of_N l ≤ umax → CStr.strtou 10 umax (level_text l) = Z.of_N l.
Proof.
  intros Hle. unfold level_text.
  rewrite <- (DecimalN.Unsigned.of_to l) in Hle.
  rewrite <- (DecimalN.Unsigned.of_to l) at 2.
  assert (0 ≤ umax) as H0 by lia.
  pose proof (accumulate_decimal umax (N.to_uint l) H0 Hle) as Ha.
  pose proof (accumulate_decimal umax (Decimal.D0 Decimal.Nil) H0 ltac:(done)) as Hz.
  destruct (N.to_uint l) as [|d|d|d|d|d|d|d|d|d|d];
    unfold DecimalString.NilZero.string_of_uint;
    cbn [DecimalString.NilEmpty.string_of_uint] in Ha, Hz |- *;
    (rewrite strtou_plain by done); [by rewrite Hz|by rewrite Ha..].
Qed.

Lemma strtou_keywords_text umax (k : N) :
  Z.of_N k ≤ umax → CStr.strtou 16 umax (keywords_text k) = Z.of_N k.
Proof.
  intros Hle. unfold keywords_text.
  rewrite <- (HexadecimalN.Unsigned.of_to k) in Hle.
  rewrite <- (HexadecimalN.Unsigned.of_to k) at 2.
  assert (0 ≤ umax) as H0 by lia.
  pose proof (accumulate_hexadecimal umax (N.to_hex_uint k) H0 Hle) as Ha.
  pose proof (accumulate_hexadecimal umax (Hexadecimal.D0 Hexadecimal.Nil) H0
                ltac:(done)) as Hz.
  destruct (N.to_hex_uint k) as [|d|d|d|d|d|d|d|d|d|d|d|d|d|d|d|d];
    unfold HexadecimalString.NilZero.string_of_uint;
    cbn [HexadecimalString.NilEmpty.string_of_uint] in Ha, Hz |- *;
    (rewrite strtou_plain by (done || by destruct d));
    [by rewrite Hz|by rewrite Ha..].
Qed.

Lemma level_text_field l : is_field_text (level_text l) = true ∧ level_text l ≠ "".
Proof.
  unfold level_text, DecimalString.NilZero.string_of_uint.
  assert (∀ d, is_field_text (DecimalString.NilEmpty.string_of_uint d) = true) as H
    by (induction d; simpl; done).
  destruct (N.to_uint l) eqn:E; [done|..]; (split; [apply (H (_ _))|done]).
Qed.

Lemma keywords_text_field k :
  is_field_text (keywords_text k) = true ∧ keywords_text k ≠ "".
Proof.
  unfold keywords_text, HexadecimalString.NilZero.string_of_uint.
  assert (∀ d, is_field_text (HexadecimalString.NilEmpty.string_of_uint d) = true) as H
    by (induction d; simpl; done).
  destruct (N.to_hex_uint k) eqn:E; [done|..]; (split; [apply (H (_ _))|done]).
Qed.


Lemma parse_provider_numbers name k l :
  is_field_text name = true → name ≠ "" →
  (k < 2 ^ 64)%N → (l < 2 ^ 32)%N →
  parse_provider (name +:+ String ":" (keywords_text k +:+ String ":" (level_text l)))
  = Some (ep_provider_config_init (Some name) (Z.of_N k) (Z.of_N l) None, None).
Proof.
  intros Hf Hne Hk Hl.
  destruct (keywords_text_field k) as [Hkf Hkne], (level_text_field l) as [Hlf Hlne].
  unfold parse_provider.
  rewrite (at_field_text name _ Hf Hne).
  unfold get_next_config_value_as_utf8_string at 1.
  rewrite get_next_config_value_colon by done.
  rewrite (proj2 (length_zero_iff name) Hne). cbn [is_null negb].
  rewrite (at_field_text _ _ Hkf Hkne).
  unfold get_next_config_value_as_uint64_t, get_next_config_value_as_utf8_string.
  rewrite get_next_config_value_colon by done.
  rewrite (proj2 (length_zero_iff _) Hkne).
  pose proof (at_field_text _ "" Hlf Hlne) as Hal. rewrite append_empty_r in Hal.
  rewrite Hal.
  unfold get_next_config_value_as_uint32_t, get_next_config_value_as_utf8_string.
  rewrite get_next_config_value_end by done.
  rewrite (proj2 (length_zero_iff _) Hlne).
  rewrite strtou_keywords_text by (unfold UINT64_MAX; lia).
  rewrite strtou_level_text by (unfold ULONG_MAX, UINT64_MAX, UINT32_MAX;
                                destruct data_model; lia).
  rewrite !Z.mod_small by lia. done.
Qed.

Lemma parse_provider_numbers_args name k l args :
  is_field_text name = true → name ≠ "" →
  is_field_text args = true → args ≠ "" →
  (k < 2 ^ 64)%N → (l < 2 ^ 32)%N →
  parse_provider
    (name +:+ String ":" (keywords_text k +:+ String ":"
                            (level_text l +:+ String ":" args)))
  = Some (ep_provider_config_init (Some name) (Z.of_N k) (Z.of_N l) (Some args), None).
Proof.
  intros Hf Hne Haf Hane Hk Hl.
  destruct (keywords_text_field k) as [Hkf Hkne], (level_text_field l) as [Hlf Hlne].
  unfold parse_provider.
  rewrite (at_field_text name _ Hf Hne).
  unfold get_next_config_value_as_utf8_string at 1.
  rewrite get_next_config_value_colon by done.
  rewrite (proj2 (length_zero_iff name) Hne). cbn [is_null negb].
  rewrite (at_field_text _ _ Hkf Hkne).
  unfold get_next_config_value_as_uint64_t, get_next_config_value_as_utf8_string.
  rewrite get_next_config_value_colon by done.
  rewrite (proj2 (length_zero_iff _) Hkne).
  rewrite (at_field_text _ _ Hlf Hlne).
  unfold get_next_config_value_as_uint32_t, get_next_config_value_as_utf8_string.
  rewrite get_next_config_value_colon by done.
  rewrite (proj2 (length_zero_iff _) Hlne).
  pose proof (at_field_text _ "" Haf Hane) as Haa. rewrite append_empty_r in Haa.
  rewrite Haa.
  rewrite get_next_config_value_end by done.
  rewrite (proj2 (length_zero_iff _) Hane).
  rewrite strtou_keywords_text by (unfold UINT64_MAX; lia).
  rewrite strtou_level_text by (unfold ULONG_MAX, UINT64_MAX, UINT32_MAX;
                                destruct data_model; lia).
  rewrite !Z.mod_small by lia. done.
Qed.

(** A configuration that is one provider spec which the parser reads to
    its end gives an array of that one provider. *)
Lemma providers_of_config_single spec cfg :
  CStr.deref spec ≠ CStr.NUL → parse_provider spec = Some (cfg, None) →
  providers_of_config (Some spec) = Some ([cfg], 1).
Proof.
  intros Hd Hp. unfold providers_of_config.
  rewrite bool_decide_eq_false_2 by done.
  destruct (count_providers_terminates (S (String.length spec)) spec ltac:(lia))
    as [n Hn].
  assert (parse_providers (S (String.length spec)) spec = Parsed [cfg]) as Hps.
  { cbn [parse_providers]. rewrite bool_decide_eq_false_2 by done. by rewrite Hp. }
  rewrite Hn, Hps. by rewrite (count_parse_lockstep _ _ _ _ _ Hn Hps).
Qed.

End ParserNumbers.

(** X23. Numbers written into a provider spec are read back as their
    values: in Name:Keywords:Level, with the keyword mask below 2^64
    written in hexadecimal digits (lower case, no prefix) and the level
    below 2^32 written in decimal digits, the provider gets exactly that
    mask and that level, whatever the width of unsigned long; a fourth
    field, when there is one, becomes the filter data. *)
Theorem providers_of_config_numbers {rt : Runtime} (name args : string) (k l : N) :
  is_field_text name = true → name ≠ "" →
  is_field_text args = true → args ≠ "" →
  (k < 2 ^ 64)%N → (l < 2 ^ 32)%N →
  providers_of_config
    (Some (name +:+ String ":" (keywords_text k +:+ String ":" (level_text l))))
  = Some ([ep_provider_config_init (Some name) (Z.of_N k) (Z.of_N l) None], 1)
  ∧ providers_of_config
      (Some (name +:+ String ":" (keywords_text k +:+ String ":"
                                    (level_text l +:+ String ":" args))))
    = Some ([ep_provider_config_init (Some name) (Z.of_N k) (Z.of_N l) (Some args)], 1).
Proof.
  intros Hf Hne Haf Hane Hk Hl.
  assert (∀ rest, CStr.deref (name +:+ rest) ≠ CStr.NUL) as Hd.
  { intros rest. destruct name as [|c name]; [done|].
    apply is_field_text_cons in Hf as (? & _). done. }
  split; apply providers_of_config_single; try apply Hd.
  - by apply parse_provider_numbers.
  - by apply parse_provider_numbers_args.
Qed.

Lemma providers_of_config_numbers_witness :
  @providers_of_config coreclr (Some "Microsoft-Windows-DotNETRuntime:4c14fccbd:5")
  = Some ([ep_provider_config_init (Some "Microsoft-Windows-DotNETRuntime")
             0x4c14fccbd 5 None], 1).
Proof.
  exact (proj1 (@providers_of_config_numbers coreclr "Microsoft-Windows-DotNETRuntime"
                  "x" 0x4c14fccbd%N 5%N eq_refl ltac:(discriminate) eq_refl
                  ltac:(discriminate) ltac:(reflexivity) ltac:(reflexivity))).
Defined.

(** ** The write mask, look-up and the life cycle *)

Section MaskFacts.
Context {rt : Runtime}.
Implicit Type s : EventPipe.

Lemma testbit_land_bit (a : Z) (i : nat) :
  Z.testbit a (Z.of_nat i) = negb (Z.land a (Z.shiftl 1 (Z.of_nat i)) =? 0).
Proof.
  rewrite Z.shiftl_1_l.
  destruct (Z.testbit a (Z.of_nat i)) eqn:E; symmetry.
  - apply negb_true_iff, Z.eqb_neq. intros H.
    apply (f_equal (λ x, Z.testbit x (Z.of_nat i))) in H.
    rewrite Z.land_spec, E, Z.pow2_bits_true, Z.bits_0 in H by lia. done.
  - apply negb_false_iff, Z.eqb_eq. apply Z.bits_inj'. intros j Hj.
    rewrite Z.land_spec, Z.bits_0, Z.pow2_bits_eqb by lia.
    destruct (Z.eqb_spec (Z.of_nat i) j) as [<-|]; [by rewrite E|].
    apply andb_false_r.
Qed.

Lemma allow_write_wf_ext s s' :
  _ep_allow_write s' = _ep_allow_write s → _ep_sessions s' = _ep_sessions s →
  allow_write_wf s → allow_write_wf s'.
Proof.
  intros Ha Hs H i. rewrite Ha, (load_session_ext i s' s) by done. apply H.
Qed.

Lemma load_session_out i s :
  (length (_ep_sessions s) ≤ i)%nat → ep_volatile_load_session i s = 0.
Proof.
  intros H. unfold ep_volatile_load_session. by rewrite lookup_ge_None_2.
Qed.

Lemma load_session_insert i j p s s' :
  (i < length (_ep_sessions s))%nat →
  _ep_sessions s' = <[i := p]> (_ep_sessions s) →
  ep_volatile_load_session j s'
  = if decide (j = i) then p else ep_volatile_load_session j s.
Proof.
  intros Hi Hs. unfold ep_volatile_load_session. rewrite Hs.
  destruct (decide (j = i)) as [->|Hne].
  - by rewrite list_lookup_insert_eq.
  - by rewrite list_lookup_insert_ne.
Qed.

(** After the store of a session into a slot and of its bit into the
    mask. *)
Lemma allow_write_wf_set s s' (i : nat) p :
  allow_write_wf s → (i < length (_ep_sessions s))%nat →
  (length (_ep_sessions s) ≤ 64)%nat → p ≠ 0 →
  _ep_sessions s' = <[i := p]> (_ep_sessions s) →
  _ep_allow_write s' = Z.lor (_ep_allow_write s) (Z.shiftl 1 (Z.of_nat i)) mod 2 ^ 64 →
  allow_write_wf s'.
Proof.
  intros Hwf Hi Hlen Hp Hs Ha j.
  rewrite (load_session_insert i j p s s' Hi Hs), Ha.
  rewrite Z.testbit_mod_pow2, Z.lor_spec, Z.shiftl_1_l, Z.pow2_bits_eqb, Hwf by lia.
  destruct (decide (j = i)) as [->|Hne].
  - rewrite Z.eqb_refl, orb_true_r, (proj2 (Z.eqb_neq _ _) Hp).
    rewrite (proj2 (Z.ltb_lt _ _)) by lia. done.
  - rewrite (proj2 (Z.eqb_neq (Z.of_nat i) (Z.of_nat j))) by lia.
    rewrite orb_false_r.
    destruct (decide (j < length (_ep_sessions s))%nat) as [Hj|Hj].
    + rewrite (proj2 (Z.ltb_lt _ _)) by lia. done.
    + rewrite load_session_out by lia. by rewrite andb_false_r.
Qed.

(** After the bit is cleared and NULL is stored into the slot. *)
Lemma allow_write_wf_clear s s' (i : nat) :
  allow_write_wf s → (i < length (_ep_sessions s))%nat →
  (length (_ep_sessions s) ≤ 64)%nat →
  _ep_sessions s' = <[i := 0]> (_ep_sessions s) →
  _ep_allow_write s'
  = Z.land (_ep_allow_write s) (Z.lnot (Z.shiftl 1 (Z.of_nat i)) mod 2 ^ 64) →
  allow_write_wf s'.
Proof.
  intros Hwf Hi Hlen Hs Ha j.
  rewrite (load_session_insert i j 0 s s' Hi Hs), Ha.
  rewrite Z.land_spec, Z.testbit_mod_pow2, Z.lnot_spec, Z.shiftl_1_l,
    Z.pow2_bits_eqb, Hwf by lia.
  destruct (decide (j = i)) as [->|Hne].
  - rewrite Z.eqb_refl. simpl. by rewrite andb_false_r, andb_false_r.
  - rewrite (proj2 (Z.eqb_neq (Z.of_nat i) (Z.of_nat j))) by lia.
    simpl. rewrite andb_true_r.
    destruct (decide (j < length (_ep_sessions s))%nat) as [Hj|Hj].
    + rewrite (proj2 (Z.ltb_lt _ _)) by lia. by rewrite andb_true_r.
    + rewrite load_session_out by lia. done.
Qed.

(** The mask of a registry without sessions is zero, and the other way
    round. *)
Lemma allow_write_wf_range s :
  allow_write_wf s → (length (_ep_sessions s) ≤ 64)%nat →
  0 ≤ _ep_allow_write s < 2 ^ 64.
Proof.
  intros Hwf Hlen.
  assert (_ep_allow_write s = _ep_allow_write s mod 2 ^ 64) as ->; [|by apply Z.mod_pos_bound].
  apply Z.bits_inj'. intros j Hj.
  rewrite Z.testbit_mod_pow2 by lia.
  destruct (Z.ltb_spec j 64) as [Hlt|Hge]; [done|].
  rewrite <- (Z2Nat.id j) by lia. rewrite Hwf, load_session_out by lia. done.
Qed.

Lemma heap_dec_ref_last p obj X (h : gmap Z EventPipeSession) :
  p ≠ 0 → heap X = <[p := obj]> h → h !! p = None → ref_count obj = 1 →
  heap (ep_session_dec_ref p X) = h.
Proof.
  intros Hp HX Hh Hr. unfold ep_session_dec_ref.
  rewrite (proj2 (Z.eqb_neq _ _) Hp). cbn. rewrite HX, lookup_insert_eq, Hr. cbn.
  by rewrite delete_insert_id.
Qed.

(** What [enable] does to the session objects: a failed call leaves none
    behind, a successful one adds the new session with one reference. *)
Lemma enable_heap o options queue s :
  heap s !! ep_session_alloc_result o = None →
  let r := enable o options queue s in
  let p := ep_session_alloc_result o in
  (r.1.1 = 0 ∧ heap r.2 = heap s)
  ∨ (r.1.1 = p ∧ p ≠ 0
     ∧ heap r.2
       = <[p := {| ep_session_get_index := generate_session_index s;
                   ep_session_get_session_type := session_type options;
                   ep_session_get_rundown_keyword := rundown_keyword options;
                   ep_session_get_providers := default [] (providers options);
                   ref_count := 1 |}]> (heap s)).
Proof.
  intros Hfresh. cbv zeta. unfold enable.
  set (p := ep_session_alloc_result o) in *.
  set (s0 := EP_ASSERT _ _ (EP_ASSERT _ _ (EP_ASSERT _ _ s))).
  assert (heap s0 = heap s) as Hh0 by (unfold s0; by rewrite !heap_assert).
  assert (generate_session_index s0 = generate_session_index s) as Hg.
  { apply generate_session_index_ext.
    assert (frame 0 s s0) as [(_ & _ & Hs & _) _]; [|done].
    unfold s0. repeat (eapply frame_trans; [|apply frame_assert]). apply frame_refl. }
  clearbody s0. rewrite Hg.
  destruct (negb (bool_decide (_ep_state s0 = EP_STATE_INITIALIZED))); [by left|].
  destruct (negb (generate_session_index s <? EP_MAX_NUMBER_OF_SESSIONS)%nat);
    [by left|].
  unfold ep_session_alloc. fold p.
  destruct (p =? 0) eqn:E3; [by left|].
  apply Z.eqb_neq in E3.
  set (obj := {| ep_session_get_index := generate_session_index s |}).
  set (s1 := set_heap _ _).
  assert (heap s1 = <[p := obj]> (heap s)) as Hh1.
  { unfold s1. simpl. by rewrite Hh0. }
  clearbody s1.
  assert (∀ q X, heap X = heap s1 →
            (enable_on_error p q X).1.1 = 0 ∧ heap (enable_on_error p q X).2 = heap s)
    as Herr.
  { intros q X HX. split; [done|]. simpl.
    apply (heap_dec_ref_last p obj); [done|congruence|done|done]. }
  destruct (negb (ep_session_is_valid o)); [left; by apply Herr|].
  destruct (EP_MAX_NUMBER_OF_SESSIONS <=? ep_session_get_index obj)%nat;
    [left; by apply Herr|].
  destruct (Z.of_nat EP_MAX_NUMBER_OF_SESSIONS <=? _ep_number_of_sessions s1);
    [left; by apply Herr|].
  destruct (negb (ep_event_source_enable_result o)); [left; by apply Herr|].
  match goal with |- context [negb (?x =? 0)] => destruct (negb (x =? 0)) end;
    [left; by apply Herr|].
  right. unfold config_enable_disable.
  destruct (session_requested_sampling obj); simpl; rewrite Hh1; done.
Qed.

End MaskFacts.
Section EngineFacts.
Context {rt : Runtime}.
Implicit Type s : EventPipe.

(** ep_enable_3 with its effect spelled out: a failed call changes no
    global and no session object; a successful one puts the new session
    with one reference into the lowest free slot. *)
Lemma ep_enable_3_effect o options s :
  registry_wf s → allow_write_wf s →
  heap s !! ep_session_alloc_result o = None →
  let r := ep_enable_3 o options s in
  let i := generate_session_index s in
  let p := ep_session_alloc_result o in
  registry_wf r.2 ∧ allow_write_wf r.2
  ∧ _ep_state r.2 = _ep_state s
  ∧ _ep_can_start_threads r.2 = _ep_can_start_threads s
  ∧ _ep_deferred_enable_session_ids r.2 = _ep_deferred_enable_session_ids s
  ∧ _ep_deferred_disable_session_ids r.2 = _ep_deferred_disable_session_ids s
  ∧ ((r.1 = 0 ∧ same_globals s r.2 ∧ heap r.2 = heap s)
     ∨ (r.1 = p ∧ p ≠ 0
        ∧ _ep_state s = EP_STATE_INITIALIZED
        ∧ (i < EP_MAX_NUMBER_OF_SESSIONS)%nat
        ∧ ep_volatile_load_session i s = 0
        ∧ _ep_sessions r.2 = <[i := p]> (_ep_sessions s)
        ∧ _ep_number_of_sessions r.2 = _ep_number_of_sessions s + 1
        ∧ _ep_allow_write r.2
          = Z.lor (_ep_allow_write s) (Z.shiftl 1 (Z.of_nat i))
        ∧ heap r.2
          = <[p := {| ep_session_get_index := i;
                      ep_session_get_session_type := session_type options;
                      ep_session_get_rundown_keyword := rundown_keyword options;
                      ep_session_get_providers := default [] (providers options);
                      ref_count := 1 |}]> (heap s))).
Proof.
  intros Hwf Hmask Hfresh. cbv zeta. unfold ep_enable_3.
  destruct (negb (check_options_valid options)).
  { simpl. repeat (split; [done|]). left. split; [done|].
    split; [apply same_globals_refl|done]. }
  set (s1 := log Call_ep_provider_callback_data_queue_init s).
  assert (registry_wf s1) as Hwf1 by (by apply (registry_wf_ext s)).
  assert (allow_write_wf s1) as Hmask1 by (by apply (allow_write_wf_ext s)).
  assert (heap s1 !! ep_session_alloc_result o = None) as Hfresh1 by done.
  assert (heap s1 = heap s) as Hh1 by done.
  pose proof (same_globals_log Call_ep_provider_callback_data_queue_init s)
    as (Hst1 & Hn1 & Hs1 & Haw1 & Hct1 & Hde1 & Hdd1 & Hcb1 & Hck1).
  fold s1 in Hst1, Hn1, Hs1, Haw1, Hct1, Hde1, Hdd1, Hcb1, Hck1.
  clearbody s1.
  pose proof (enable_wf o options [] s1 Hwf1 Hfresh1) as Hwf2.
  pose proof (enable_inv o options [] s1) as Hinv. cbv zeta in Hinv.
  pose proof (enable_heap o options [] s1 Hfresh1) as Hheap. cbv zeta in Hheap.
  destruct (enable o options [] s1) as [[id queue] s2]. simpl in *.
  destruct (invoke_callbacks_spec queue s2)
    as ([(Hst3 & Hn3 & Hs3 & Haw3 & Hct3 & Hde3 & Hdd3 & Hcb3 & Hck3) _] & Hh3 & _).
  set (s3 := invoke_callbacks queue s2) in *. clearbody s3.
  assert (registry_wf s3) as Hwf3 by (by apply (registry_wf_ext s2)).
  split; [exact Hwf3|].
  destruct Hinv as [(Hid & [(Hst & Hn & Hs & Haw & Hct & Hde & Hdd & Hcb & Hck) _] & _)
                   |(obj & H)].
  - subst id. split; [apply (allow_write_wf_ext s1); [congruence..|done]|].
    do 4 (split; [congruence|]). left. split; [done|].
    split; [unfold same_globals; repeat split; congruence|].
    destruct Hheap as [[_ Hh]|(Hp & Hp0 & _)]; [congruence|congruence].
  - destruct H as (Hid & Hp & Hst & Hi & Hfree & Hn & Hidx & _ & _ & Hs & _ & Hc & Haw
                   & Hst2 & Hct2 & Hde2 & Hdd2).
    assert (generate_session_index s1 = generate_session_index s) as Hg
      by by apply generate_session_index_ext.
    rewrite Hg in *. clear Hg.
    set (i := generate_session_index s) in *.
    assert (i < length (_ep_sessions s))%nat as Hil by by rewrite (wf_length _ Hwf).
    pose proof (wf_max _ Hwf) as Hmax.
    pose proof (allow_write_wf_range s Hmask ltac:(rewrite (wf_length _ Hwf); lia))
      as Hrange.
    assert (Z.lor (_ep_allow_write s) (Z.shiftl 1 (Z.of_nat i)) mod 2 ^ 64
            = Z.lor (_ep_allow_write s) (Z.shiftl 1 (Z.of_nat i))) as Hlor.
    { apply Z.mod_small. split.
      - apply Z.lor_nonneg. split; [lia|]. apply Z.shiftl_nonneg. lia.
      - assert (0 ≤ Z.shiftl 1 (Z.of_nat i) < 2 ^ 64) as Hb.
        { rewrite Z.shiftl_1_l. split; [apply Z.pow_nonneg; lia|].
          apply Z.pow_lt_mono_r; lia. }
        destruct (Z.eq_dec (Z.lor (_ep_allow_write s) (Z.shiftl 1 (Z.of_nat i))) 0)
          as [->|Hne]; [lia|].
        apply Z.log2_lt_pow2; [|rewrite Z.log2_lor by lia; apply Z.max_lub_lt].
        + assert (0 ≤ Z.lor (_ep_allow_write s) (Z.shiftl 1 (Z.of_nat i))); [|lia].
          apply Z.lor_nonneg. lia.
        + destruct (Z.eq_dec (_ep_allow_write s) 0) as [->|?]; [done|].
          apply Z.log2_lt_pow2; lia.
        + destruct (Z.eq_dec (Z.shiftl 1 (Z.of_nat i)) 0) as [->|?]; [done|].
          apply Z.log2_lt_pow2; lia. }
    unfold ep_session_get_mask in Haw. rewrite Hidx in Haw.
    rewrite Hs1 in Hs. rewrite Hn1 in Hc, Hn. rewrite Haw1 in Haw.
    rewrite (load_session_ext i s1 s) in Hfree by done.
    split.
    { apply (allow_write_wf_set s s3 i id Hmask Hil).
      + rewrite (wf_length _ Hwf). lia.
      + congruence.
      + congruence.
      + rewrite Haw3, Haw. done. }
    do 4 (split; [simpl in *; congruence|]).
    right. split; [exact Hid|]. split; [exact Hp|]. split; [congruence|].
    split; [exact Hi|]. split; [exact Hfree|].
    split; [congruence|]. split.
    { rewrite Hn3, Hc. apply Z.mod_small.
      pose proof (wf_count _ Hwf). lia. }
    split; [rewrite Haw3, Haw; exact Hlor|].
    destruct Hheap as [[Hz _]|(_ & _ & Hh)]; [congruence|].
    rewrite Hh3, Hh, Hh1. done.
Qed.

End EngineFacts.
Section EngineFacts2.
Context {rt : Runtime}.
Implicit Type s : EventPipe.

(** disable_helper on a registered session, with its effect spelled
    out. *)
Lemma disable_helper_registered o id s :
  registry_wf s → allow_write_wf s → id ≠ 0 → registered id s →
  ∃ session s',
    heap s !! id = Some session
    ∧ _ep_sessions s !! ep_session_get_index session = Some id
    ∧ disable_helper o id s = Some s'
    ∧ registry_wf s' ∧ allow_write_wf s'
    ∧ _ep_sessions s' = <[ep_session_get_index session := 0]> (_ep_sessions s)
    ∧ _ep_number_of_sessions s' = _ep_number_of_sessions s - 1
    ∧ _ep_allow_write s'
      = Z.land (_ep_allow_write s)
          (Z.lnot (Z.shiftl 1 (Z.of_nat (ep_session_get_index session))) mod 2 ^ 64)
    ∧ _ep_state s' = _ep_state s
    ∧ _ep_can_start_threads s' = _ep_can_start_threads s
    ∧ _ep_deferred_enable_session_ids s' = _ep_deferred_enable_session_ids s
    ∧ _ep_deferred_disable_session_ids s' = _ep_deferred_disable_session_ids s
    ∧ (∀ x, x ≠ id → heap s' !! x = heap s !! x)
    ∧ heap s' !! id
      = if ref_count session - 1 <=? 0 then None
        else Some {| ep_session_get_index := ep_session_get_index session;
                     ep_session_get_session_type := ep_session_get_session_type session;
                     ep_session_get_rundown_keyword :=
                       ep_session_get_rundown_keyword session;
                     ep_session_get_providers := ep_session_get_providers session;
                     ref_count := ref_count session - 1 |}.
Proof.
  intros Hwf Hmask Hid Hr.
  destruct (disable_helper_wf o id s Hwf) as (s' & Hd & Hwf' & _ & Hst & Hct & Hde & Hdd).
  pose proof Hd as Hd0.
  unfold disable_helper in Hd.
  set (s0 := if _ep_can_start_threads s then _ else _) in Hd.
  assert (frame 0 s s0 ∧ heap s0 = heap s) as (Hf0 & Hh0).
  { unfold s0. destruct (_ep_can_start_threads s); simpl; repeat split; done. }
  clearbody s0.
  pose proof Hf0 as [(Hst0 & Hn0 & Hs0 & Haw0 & _) _].
  rewrite (proj2 (Z.eqb_neq _ _) Hid) in Hd.
  set (s1 := log Call_ep_provider_callback_data_queue_init s0) in Hd.
  assert (registry_wf s1) as Hwf1 by (by apply (registry_wf_ext s)).
  assert (registered id s1) as Hr1 by (by apply (registered_ext id s)).
  assert (heap s1 = heap s) as Hh1 by done.
  assert (_ep_sessions s1 = _ep_sessions s) as Hs1 by done.
  assert (_ep_number_of_sessions s1 = _ep_number_of_sessions s) as Hn1 by done.
  assert (_ep_allow_write s1 = _ep_allow_write s) as Haw1 by done.
  clearbody s1.
  destruct (disable_holding_lock_registered o id [] s1 Hwf1 Hid Hr1)
    as (session & q & s2 & Hsess & Hslot & Hd2 & _ & Hs2 & Hn2 & Haw2 & _ & _ & _ & _
        & Hh2).
  destruct (disable_holding_lock_released o id [] s1 session Hwf1 Hid Hr1 Hsess)
    as (q' & X & Hd2' & HX).
  rewrite Hd2 in Hd2'. injection Hd2' as -> ->.
  rewrite (proj2 (Z.ltb_lt _ _) (registered_count_positive _ _ Hwf1 Hid Hr1)) in Hd.
  rewrite Hd2 in Hd. cbn [mbind option_bind] in Hd.
  destruct (invoke_callbacks_spec q' (ep_session_dec_ref id X))
    as ([(_ & Hn3 & Hs3 & Haw3 & _) _] & Hh3 & _).
  assert (_ep_sessions s' = _ep_sessions (ep_session_dec_ref id X)
          ∧ _ep_number_of_sessions s' = _ep_number_of_sessions (ep_session_dec_ref id X)
          ∧ _ep_allow_write s' = _ep_allow_write (ep_session_dec_ref id X)
          ∧ heap s' = heap (ep_session_dec_ref id X)) as (Hs' & Hn' & Haw' & Hh').
  { injection Hd as <-.
    destruct (_ && _); [|by rewrite Hs3, Hn3, Haw3, Hh3].
    destruct (same_globals_assert (ep_rt_providers_validate_all_disabled o)
                "ep_rt_providers_validate_all_disabled ()"
                (invoke_callbacks q' (ep_session_dec_ref id X)))
      as (_ & Hn4 & Hs4 & Haw4 & _).
    rewrite heap_assert, Hs4, Hn4, Haw4, Hs3, Hn3, Haw3, Hh3. done. }
  rewrite Hh1 in Hsess. rewrite Hs1 in Hslot.
  pose proof (wf_max _ Hwf) as Hmax.
  assert (ep_session_get_index session < length (_ep_sessions s))%nat as Hil
    by by eapply lookup_lt_Some.
  unfold ep_session_get_mask in Haw2.
  exists session, s'. split; [exact Hsess|]. split; [exact Hslot|].
  split; [exact Hd0|]. split; [exact Hwf'|].
  split.
  { apply (allow_write_wf_clear s s' (ep_session_get_index session) Hmask Hil).
    - rewrite (wf_length _ Hwf). lia.
    - rewrite Hs', Hs2, Hs1. done.
    - rewrite Haw', Haw2, Haw1. done. }
  split; [rewrite Hs', Hs2, Hs1; done|].
  split.
  { rewrite Hn', Hn2, Hn1. apply Z.mod_small.
    pose proof (registered_count_positive _ _ Hwf Hid Hr).
    pose proof (wf_count _ Hwf) as Hc. unfold live_sessions in Hc.
    pose proof (live_count_bound (_ep_sessions s)) as Hb.
    rewrite (wf_length _ Hwf) in Hb. lia. }
  split; [rewrite Haw', Haw2, Haw1; done|].
  do 4 (split; [done|]).
  split.
  - intros x Hx. rewrite Hh', Hh2, Hh1 by done. done.
  - rewrite Hh'. apply heap_dec_ref_at; [done|]. by rewrite HX, Hh1.
Qed.

End EngineFacts2.
Section EngineFacts3.
Context {rt : Runtime}.
Implicit Type s : EventPipe.

(** disable_helper on an id that no slot holds changes no global and no
    session object, whatever the runtime answers. *)
Lemma disable_helper_unregistered_globals o id s :
  (id ≠ 0 → ¬ registered id s) →
  ∃ s', disable_helper o id s = Some s' ∧ same_globals s s' ∧ heap s' = heap s.
Proof.
  intros Hr. unfold disable_helper.
  set (s0 := if _ep_can_start_threads s then _ else _).
  assert (same_globals s s0 ∧ heap s0 = heap s) as (Hf0 & Hh0).
  { unfold s0. destruct (_ep_can_start_threads s); simpl; repeat split; done. }
  clearbody s0.
  destruct (id =? 0) eqn:Eid; [by exists s0|].
  apply Z.eqb_neq in Eid. specialize (Hr Eid).
  set (s1 := log Call_ep_provider_callback_data_queue_init s0).
  assert (same_globals s s1) as Hf1.
  { eapply same_globals_trans; [exact Hf0|apply same_globals_log]. }
  assert (heap s1 = heap s) as Hh1 by done.
  assert (¬ registered id s1) as Hr1.
  { intros Hr'. apply Hr. eapply registered_ext; [|exact Hr'].
    by destruct Hf1 as (_ & _ & -> & _). }
  clearbody s1.
  assert ((if 0 <? _ep_number_of_sessions s1
           then disable_holding_lock o id [] s1 else Some ([], s1)) = Some ([], s1)) as ->.
  { destruct (0 <? _ep_number_of_sessions s1) eqn:E; [|done].
    unfold disable_holding_lock, EP_ASSERT.
    rewrite (proj2 (Z.eqb_neq _ _) Eid). cbn [negb]. rewrite E.
    by rewrite is_session_id_in_collection_unregistered. }
  cbn [mbind option_bind invoke_callbacks foldl].
  eexists. split; [reflexivity|].
  destruct (_ && _); [|done].
  split; [eapply same_globals_trans; [exact Hf1|apply same_globals_assert]|].
  by rewrite heap_assert.
Qed.

Lemma registered_dec id s : registered id s ∨ ¬ registered id s.
Proof.
  destruct (find_session_from EP_MAX_NUMBER_OF_SESSIONS 0 id s) as [k|] eqn:E.
  - left. apply find_session_registered. rewrite E. by eexists.
  - right. intros Hr. apply find_session_registered in Hr. rewrite E in Hr.
    by destruct Hr.
Qed.

(** disable_helper keeps the registry and the mask in step, whatever the
    id. *)
Lemma disable_helper_engine o id s :
  registry_wf s → allow_write_wf s →
  ∃ s', disable_helper o id s = Some s'
        ∧ registry_wf s' ∧ allow_write_wf s'
        ∧ _ep_state s' = _ep_state s
        ∧ _ep_can_start_threads s' = _ep_can_start_threads s
        ∧ _ep_deferred_enable_session_ids s' = _ep_deferred_enable_session_ids s
        ∧ _ep_deferred_disable_session_ids s' = _ep_deferred_disable_session_ids s.
Proof.
  intros Hwf Hmask.
  destruct (decide (id = 0)) as [->|Hid].
  - destruct (disable_helper_unregistered_globals o 0 s ltac:(done))
      as (s' & Hd & (Hst & Hn & Hs & Haw & Hct & Hde & Hdd & _) & Hh).
    exists s'. split; [done|]. split; [by apply (registry_wf_ext s)|].
    split; [by apply (allow_write_wf_ext s)|]. done.
  - destruct (registered_dec id s) as [Hr|Hr].
    + destruct (disable_helper_registered o id s Hwf Hmask Hid Hr)
        as (session & s' & _ & _ & Hd & Hwf' & Hmask' & _ & _ & _ & Hst & Hct & Hde
            & Hdd & _).
      exists s'. done.
    + destruct (disable_helper_unregistered_globals o id s ltac:(done))
        as (s' & Hd & (Hst & Hn & Hs & Haw & Hct & Hde & Hdd & _) & Hh).
      exists s'. split; [done|]. split; [by apply (registry_wf_ext s)|].
      split; [by apply (allow_write_wf_ext s)|]. done.
Qed.

End EngineFacts3.

(** X5. ep_enable_3 keeps the allow_write mask in step with the registry:
    if bit i of the mask is set exactly for the slots that hold a session
    before the call, the same holds after it, whether the call succeeds or
    fails; after a successful call the bit of the new session is set and
    its slot holds the returned id. *)
Theorem ep_enable_3_keeps_mask {rt : Runtime}
    (o : Oracle) (options : EventPipeSessionOptions) (s : EventPipe) :
  registry_wf s → allow_write_wf s →
  heap s !! ep_session_alloc_result o = None →
  let r := ep_enable_3 o options s in
  let i := generate_session_index s in
  registry_wf r.2 ∧ allow_write_wf r.2
  ∧ (r.1 ≠ 0 →
     Z.testbit (_ep_allow_write s) (Z.of_nat i) = false
     ∧ Z.testbit (_ep_allow_write r.2) (Z.of_nat i) = true
     ∧ ep_volatile_load_session i r.2 = r.1
     ∧ ∀ j : nat, j ≠ i →
         Z.testbit (_ep_allow_write r.2) (Z.of_nat j)
         = Z.testbit (_ep_allow_write s) (Z.of_nat j))
  ∧ (r.1 = 0 → _ep_allow_write r.2 = _ep_allow_write s
               ∧ _ep_sessions r.2 = _ep_sessions s).
Proof.
  intros Hwf Hmask Hfresh r i.
  destruct (ep_enable_3_effect o options s Hwf Hmask Hfresh)
    as (Hwf' & Hmask' & _ & _ & _ & _ & Hcase).
  fold r in Hwf', Hmask', Hcase. fold i in Hcase.
  split; [exact Hwf'|]. split; [exact Hmask'|].
  destruct Hcase as [(H0 & (_ & _ & Hs & Haw & _) & _)
                    |(Hid & Hp & _ & Hi & Hfree & Hs & _ & Haw & _)].
  - split; [intros Hne; by destruct Hne|]. intros _. split; [exact Haw|exact Hs].
  - split; [|intros H0; congruence]. intros _.
    assert (i < length (_ep_sessions s))%nat as Hil by by rewrite (wf_length _ Hwf).
    split; [by rewrite Hmask, Hfree|].
    split; [rewrite Hmask', (load_session_insert i i _ s r.2 Hil Hs), decide_True by done;
            by rewrite (proj2 (Z.eqb_neq _ _) Hp)|].
    split; [rewrite (load_session_insert i i _ s r.2 Hil Hs), decide_True by done;
            by rewrite Hid|].
    intros j Hj. rewrite Hmask', Hmask.
    by rewrite (load_session_insert i j _ s r.2 Hil Hs), decide_False by done.
Qed.

Lemma allow_write_wf_started : allow_write_wf started.
Proof.
  intros i. assert (_ep_allow_write started = 0) as -> by by vm_compute.
  assert (_ep_sessions started = replicate 64 0) as Hs by by vm_compute.
  unfold ep_volatile_load_session. rewrite Hs, Z.bits_0.
  destruct (decide (i < 64)%nat).
  - by rewrite lookup_replicate_2.
  - by rewrite lookup_ge_None_2 by (rewrite length_replicate; lia).
Qed.

Lemma ep_enable_3_keeps_mask_witness :
  @registry_wf coreclr started ∧ allow_write_wf started
  ∧ heap started !! ep_session_alloc_result (quiet_oracle 1000) = None
  ∧ allow_write_wf (@ep_enable_3 coreclr (quiet_oracle 1000) listener_options started).2.
Proof.
  assert (heap started !! ep_session_alloc_result (quiet_oracle 1000) = None) as Hfresh
    by by vm_compute.
  split; [exact registry_wf_started|]. split; [exact allow_write_wf_started|].
  split; [exact Hfresh|].
  exact (proj1 (proj2 (@ep_enable_3_keeps_mask coreclr (quiet_oracle 1000)
           listener_options started registry_wf_started allow_write_wf_started
           Hfresh))).
Defined.
Lemma allow_write_wf_one_session : allow_write_wf one_session.
Proof.
  assert (one_session
          = (@ep_enable_3 coreclr (quiet_oracle 1000) listener_options started).2) as ->
    by by vm_compute.
  apply ep_enable_3_effect;
    [exact registry_wf_started|exact allow_write_wf_started|by vm_compute].
Qed.

Lemma allow_write_wf_running : allow_write_wf running.
Proof.
  apply (allow_write_wf_ext one_session); [by vm_compute..|].
  exact allow_write_wf_one_session.
Qed.

Lemma registered_running : @registered coreclr 1000 running.
Proof. exists 0%nat. split; [vm_compute; lia|by vm_compute]. Qed.

(** X6. ep_disable keeps the allow_write mask in step with the registry,
    whether it defers the request, finds no session under the id or tears
    the session down; when it tears a registered session down, the bit of
    its slot is cleared, the slot holds NULL and the other bits stay. *)
Theorem ep_disable_keeps_mask {rt : Runtime} (o : Oracle) (id : Z) (s : EventPipe) :
  registry_wf s → allow_write_wf s →
  is_Some (_ep_deferred_disable_session_ids s) →
  ∃ s', ep_disable o id s = Some s'
        ∧ registry_wf s' ∧ allow_write_wf s'
        ∧ (_ep_can_start_threads s = true → id ≠ 0 → registered id s →
           ∃ session,
             heap s !! id = Some session
             ∧ Z.testbit (_ep_allow_write s)
                 (Z.of_nat (ep_session_get_index session)) = true
             ∧ Z.testbit (_ep_allow_write s')
                 (Z.of_nat (ep_session_get_index session)) = false
             ∧ ep_volatile_load_session (ep_session_get_index session) s' = 0
             ∧ ∀ j : nat, j ≠ ep_session_get_index session →
                 Z.testbit (_ep_allow_write s') (Z.of_nat j)
                 = Z.testbit (_ep_allow_write s) (Z.of_nat j)).
Proof.
  intros Hwf Hmask [ids Hq]. unfold ep_disable.
  destruct (negb (_ep_can_start_threads s) && _) eqn:Edefer.
  - rewrite Hq. cbn [mbind option_bind]. eexists. split; [reflexivity|].
    split; [by apply (registry_wf_ext s)|].
    split; [by apply (allow_write_wf_ext s)|].
    intros Hct. rewrite Hct in Edefer. done.
  - destruct (disable_helper_engine o id s Hwf Hmask) as (s' & Hd & Hwf' & Hmask' & _).
    exists s'. split; [exact Hd|]. split; [exact Hwf'|]. split; [exact Hmask'|].
    intros _ Hid Hr.
    destruct (disable_helper_registered o id s Hwf Hmask Hid Hr)
      as (session & s'' & Hsess & Hslot & Hd' & _ & _ & Hs & _).
    rewrite Hd in Hd'. injection Hd' as <-.
    assert (ep_session_get_index session < length (_ep_sessions s))%nat as Hil
      by by eapply lookup_lt_Some.
    exists session. split; [exact Hsess|].
    split.
    { rewrite Hmask, (load_session_lookup _ _ _ Hslot).
      by rewrite (proj2 (Z.eqb_neq _ _) Hid). }
    split.
    { rewrite Hmask', (load_session_insert _ _ _ s s' Hil Hs), decide_True by done.
      done. }
    split.
    { by rewrite (load_session_insert _ _ _ s s' Hil Hs), decide_True by done. }
    intros j Hj. rewrite Hmask', Hmask.
    by rewrite (load_session_insert _ j _ s s' Hil Hs), decide_False by done.
Qed.

Lemma ep_disable_keeps_mask_witness :
  @registry_wf coreclr running ∧ allow_write_wf running
  ∧ is_Some (_ep_deferred_disable_session_ids running)
  ∧ ∃ s', @ep_disable coreclr (quiet_oracle 0) 1000 running = Some s'
          ∧ allow_write_wf s'.
Proof.
  assert (is_Some (_ep_deferred_disable_session_ids running)) as Hq.
  { eexists. by vm_compute. }
  split; [exact registry_wf_running|]. split; [exact allow_write_wf_running|].
  split; [exact Hq|].
  destruct (@ep_disable_keeps_mask coreclr (quiet_oracle 0) 1000 running
              registry_wf_running allow_write_wf_running Hq)
    as (s' & Hd & _ & Hmask & _).
  exists s'. split; [exact Hd|exact Hmask].
Defined.

(** X7. Enabling a session and disabling it again restores the registry:
    after a successful ep_enable_3 followed by disable_helper on the
    returned id, the slots, the allow_write mask, the session count and the
    allocated session objects are what they were before the session was
    enabled, and the session object itself has been released. *)
Theorem enable_then_disable_restores {rt : Runtime}
    (o o' : Oracle) (options : EventPipeSessionOptions) (s : EventPipe) :
  registry_wf s → allow_write_wf s →
  heap s !! ep_session_alloc_result o = None →
  let r := ep_enable_3 o options s in
  r.1 ≠ 0 →
  ∃ s', disable_helper o' r.1 r.2 = Some s'
        ∧ _ep_sessions s' = _ep_sessions s
        ∧ _ep_allow_write s' = _ep_allow_write s
        ∧ _ep_number_of_sessions s' = _ep_number_of_sessions s
        ∧ heap s' = heap s
        ∧ _ep_state s' = _ep_state s
        ∧ _ep_can_start_threads s' = _ep_can_start_threads s
        ∧ _ep_deferred_enable_session_ids s' = _ep_deferred_enable_session_ids s
        ∧ _ep_deferred_disable_session_ids s' = _ep_deferred_disable_session_ids s.
Proof.
  intros Hwf Hmask Hfresh r Hne.
  destruct (ep_enable_3_effect o options s Hwf Hmask Hfresh)
    as (Hwf1 & Hmask1 & Hst1 & Hct1 & Hde1 & Hdd1 & Hcase).
  fold r in Hwf1, Hmask1, Hst1, Hct1, Hde1, Hdd1, Hcase.
  destruct Hcase as [(H0 & _)|(Hid & Hp & _ & Hi & Hfree & Hs1 & Hn1 & Haw1 & Hh1)];
    [done|].
  set (i := generate_session_index s) in *.
  assert (i < length (_ep_sessions s))%nat as Hil by by rewrite (wf_length _ Hwf).
  assert (_ep_sessions s !! i = Some 0) as Hi0.
  { rewrite <- Hfree. by apply load_session_inv. }
  assert (registered r.1 r.2) as Hr.
  { exists i. split; [done|].
    by rewrite (load_session_insert i i _ s r.2 Hil Hs1), decide_True. }
  destruct (disable_helper_registered o' r.1 r.2 Hwf1 Hmask1 Hne Hr)
    as (session & s' & Hsess & Hslot & Hd & Hwf' & Hmask' & Hs' & Hn' & _ & Hst' & Hct'
        & Hde' & Hdd' & Hh' & Hhid).
  rewrite Hh1, Hid, lookup_insert_eq in Hsess. injection Hsess as <-.
  cbn [ep_session_get_index ref_count] in *.
  assert (_ep_sessions s' = _ep_sessions s) as Hslots.
  { rewrite Hs', Hs1, list_insert_insert_eq. by apply list_insert_id. }
  exists s'. split; [exact Hd|]. split; [exact Hslots|].
  split.
  { apply Z.bits_inj'. intros j Hj. rewrite <- (Z2Nat.id j) by lia.
    by rewrite Hmask', Hmask, (load_session_ext _ s' s). }
  split; [lia|].
  split.
  { apply map_eq. intros x. destruct (decide (x = r.1)) as [->|Hx].
    - rewrite Hhid. cbn. by rewrite Hid.
    - rewrite (Hh' x Hx), Hh1, lookup_insert_ne; [done|]. by rewrite <- Hid. }
  rewrite Hst', Hct', Hde', Hdd'. done.
Qed.

Lemma enable_then_disable_restores_witness :
  @registry_wf coreclr started ∧ allow_write_wf started
  ∧ heap started !! ep_session_alloc_result (quiet_oracle 1000) = None
  ∧ (@ep_enable_3 coreclr (quiet_oracle 1000) listener_options started).1 ≠ 0
  ∧ ∃ s', @disable_helper coreclr (quiet_oracle 0)
            (@ep_enable_3 coreclr (quiet_oracle 1000) listener_options started).1
            (@ep_enable_3 coreclr (quiet_oracle 1000) listener_options started).2
          = Some s'
          ∧ _ep_sessions s' = _ep_sessions started
          ∧ heap s' = heap started.
Proof.
  assert (heap started !! ep_session_alloc_result (quiet_oracle 1000) = None) as Hfresh
    by by vm_compute.
  assert ((@ep_enable_3 coreclr (quiet_oracle 1000) listener_options started).1 ≠ 0)
    as Hne by by vm_compute.
  split; [exact registry_wf_started|]. split; [exact allow_write_wf_started|].
  split; [exact Hfresh|]. split; [exact Hne|].
  destruct (@enable_then_disable_restores coreclr (quiet_oracle 1000) (quiet_oracle 0)
              listener_options started registry_wf_started allow_write_wf_started
              Hfresh Hne) as (s' & Hd & Hs & _ & _ & Hh & _).
  exists s'. auto.
Defined.
(** X8. Look-up follows the registry: after a successful ep_enable_3 the
    returned id is found by ep_get_session and ep_is_session_enabled
    answers true for it; once disable_helper has run on the id,
    ep_get_session answers NULL. Before ep_init, ep_get_session answers
    NULL for every id. *)
Theorem ep_get_session_follows_registry {rt : Runtime}
    (o o' : Oracle) (options : EventPipeSessionOptions) (s : EventPipe) :
  registry_wf s → allow_write_wf s →
  heap s !! ep_session_alloc_result o = None →
  let r := ep_enable_3 o options s in
  r.1 ≠ 0 →
  ep_get_session r.1 r.2 = (r.1, r.2)
  ∧ ep_is_session_enabled r.1 r.2 = Some true
  ∧ (∃ s', disable_helper o' r.1 r.2 = Some s' ∧ ep_get_session r.1 s' = (0, s'))
  ∧ ∀ id t, _ep_state t = EP_STATE_NOT_INITIALIZED → (ep_get_session id t).1 = 0.
Proof.
  intros Hwf Hmask Hfresh r Hne.
  destruct (ep_enable_3_effect o options s Hwf Hmask Hfresh)
    as (Hwf1 & Hmask1 & Hst1 & _ & _ & _ & Hcase).
  fold r in Hwf1, Hmask1, Hst1, Hcase.
  destruct Hcase as [(H0 & _)|(Hid & Hp & Hst & Hi & Hfree & Hs1 & _ & _ & Hh1)];
    [done|].
  set (i := generate_session_index s) in *.
  assert (i < length (_ep_sessions s))%nat as Hil by by rewrite (wf_length _ Hwf).
  assert (ep_volatile_load_session i r.2 = r.1) as Hload.
  { rewrite (load_session_insert i i _ s r.2 Hil Hs1), decide_True by done.
    by rewrite Hid. }
  assert (registered r.1 r.2) as Hr by (by exists i).
  split.
  { unfold ep_get_session. rewrite Hst1, Hst.
    rewrite bool_decide_eq_false_2 by done.
    by rewrite is_session_id_in_collection_registered. }
  split.
  { unfold ep_is_session_enabled. rewrite (proj2 (Z.eqb_neq _ _) Hne).
    rewrite Hh1, Hid, lookup_insert_eq. cbn [mbind option_bind ep_session_get_index].
    fold i. rewrite Hload. by rewrite (proj2 (Z.eqb_neq _ _) Hne). }
  split.
  { destruct (disable_helper_wf o' r.1 r.2 Hwf1)
      as (s' & Hd & _ & Hnr & Hst' & _).
    exists s'. split; [exact Hd|]. unfold ep_get_session.
    rewrite Hst', Hst1, Hst. rewrite bool_decide_eq_false_2 by done.
    rewrite is_session_id_in_collection_unregistered; [done|done|by apply Hnr]. }
  intros id t Ht. unfold ep_get_session. by rewrite Ht.
Qed.

Lemma ep_get_session_follows_registry_witness :
  @registry_wf coreclr started ∧ allow_write_wf started
  ∧ heap started !! ep_session_alloc_result (quiet_oracle 1000) = None
  ∧ (@ep_enable_3 coreclr (quiet_oracle 1000) listener_options started).1 ≠ 0
  ∧ (@ep_get_session coreclr 1000 one_session).1 = 1000.
Proof.
  assert (heap started !! ep_session_alloc_result (quiet_oracle 1000) = None) as Hfresh
    by by vm_compute.
  assert ((@ep_enable_3 coreclr (quiet_oracle 1000) listener_options started).1 ≠ 0)
    as Hne by by vm_compute.
  split; [exact registry_wf_started|]. split; [exact allow_write_wf_started|].
  split; [exact Hfresh|]. split; [exact Hne|].
  exact (f_equal fst
    (proj1 (@ep_get_session_follows_registry coreclr (quiet_oracle 1000) (quiet_oracle 0)
              listener_options started registry_wf_started allow_write_wf_started
              Hfresh Hne))).
Defined.

(** X9. A session can only be enabled between ep_init and ep_shutdown:
    while the state is not EP_STATE_INITIALIZED, ep_enable_3 returns 0,
    asks for no session object and stores nothing; with valid options the
    initialisation of the callback queue is its only call. *)
Theorem ep_enable_3_needs_initialized {rt : Runtime}
    (o : Oracle) (options : EventPipeSessionOptions) (s : EventPipe) :
  _ep_state s ≠ EP_STATE_INITIALIZED →
  ep_enable_3 o options s
  = (0, if check_options_valid options
        then log Call_ep_provider_callback_data_queue_init s else s).
Proof.
  intros Hst. unfold ep_enable_3.
  destruct (check_options_valid options) eqn:Hv; [|done]. cbn [negb].
  apply check_options_valid_true in Hv as (Hf & Hb & Hp & Hl & _).
  unfold enable.
  rewrite (proj2 (Z.ltb_lt _ _) Hf).
  assert (negb (ep_session_type_uses_buffer_manager (session_type options))
          || (0 <? circular_buffer_size_in_mb options) = true) as ->.
  { destruct (0 <? circular_buffer_size_in_mb options) eqn:E; [apply orb_true_r|].
    apply Z.ltb_ge in E. by rewrite (Hb E). }
  assert ((0 <? providers_len options) && negb (is_null (providers options)) = true)
    as ->.
  { rewrite (proj2 (Z.ltb_lt _ _) Hl). by destruct (providers options). }
  cbn [EP_ASSERT].
  unfold EP_ASSERT.
  rewrite bool_decide_eq_false_2 by done. done.
Qed.

Lemma ep_enable_3_needs_initialized_witness :
  _ep_state (@initial_state coreclr) ≠ EP_STATE_INITIALIZED
  ∧ (@ep_enable_3 coreclr (quiet_oracle 1000) listener_options (@initial_state coreclr)).1
    = 0.
Proof.
  split; [discriminate|].
  exact (f_equal fst
    (@ep_enable_3_needs_initialized coreclr (quiet_oracle 1000) listener_options
       (@initial_state coreclr) ltac:(discriminate))).
Defined.

(** X10. The order in which a successful ep_enable_3 publishes the
    session: the session object is obtained, the sample profiler and the
    event source are set up, then the pointer is stored into its slot
    before the bit of the slot is set in allow_write (so a writer that sees
    the bit finds the session), then the session count is raised, and only
    then are the providers switched on and, outside the lock, their
    callbacks invoked. No assertion fails on the way. *)
Theorem ep_enable_3_publication_order {rt : Runtime}
    (o : Oracle) (options : EventPipeSessionOptions) (s : EventPipe) :
  let r := ep_enable_3 o options s in
  let p := ep_session_alloc_result o in
  let i := generate_session_index s in
  r.1 ≠ 0 →
  ∃ session,
    heap r.2 !! r.1 = Some session
    ∧ r.1 = p
    ∧ ep_session_get_index session = i
    ∧ trace r.2
      = trace s
        ++ [Call_ep_provider_callback_data_queue_init;
            Call_ep_session_alloc p;
            Call_ep_sample_profiler_init;
            Call_ep_event_source_enable p;
            Store_session i p;
            Store_allow_write
              (Z.lor (_ep_allow_write s) (Z.shiftl 1 (Z.of_nat i)) mod 2 ^ 64);
            Store_number_of_sessions ((_ep_number_of_sessions s + 1) mod 2 ^ 32);
            Call_config_enable_disable p true]
        ++ (if session_requested_sampling session
            then [Call_ep_sample_profiler_enable] else [])
        ++ (Call_provider_invoke_callback <$> config_enable_disable_callbacks o p true).
Proof.
  cbv zeta. unfold ep_enable_3.
  destruct (check_options_valid options) eqn:Hv; [|done]. cbn [negb].
  apply check_options_valid_true in Hv as (Hf & Hb & Hp & Hl & _).
  unfold enable.
  rewrite (proj2 (Z.ltb_lt _ _) Hf).
  assert (negb (ep_session_type_uses_buffer_manager (session_type options))
          || (0 <? circular_buffer_size_in_mb options) = true) as ->.
  { destruct (0 <? circular_buffer_size_in_mb options) eqn:E; [apply orb_true_r|].
    apply Z.ltb_ge in E. by rewrite (Hb E). }
  assert ((0 <? providers_len options) && negb (is_null (providers options)) = true)
    as ->.
  { rewrite (proj2 (Z.ltb_lt _ _) Hl). by destruct (providers options). }
  unfold EP_ASSERT.
  set (s1 := log Call_ep_provider_callback_data_queue_init s).
  assert (generate_session_index s1 = generate_session_index s) as ->
    by by apply generate_session_index_ext.
  destruct (negb (bool_decide (_ep_state s1 = EP_STATE_INITIALIZED))); [done|].
  destruct (negb (generate_session_index s <? EP_MAX_NUMBER_OF_SESSIONS)%nat); [done|].
  unfold ep_session_alloc.
  destruct (ep_session_alloc_result o =? 0) eqn:E3; [done|].
  destruct (negb (ep_session_is_valid o)); [done|].
  destruct (EP_MAX_NUMBER_OF_SESSIONS <=? _)%nat; [done|].
  destruct (Z.of_nat EP_MAX_NUMBER_OF_SESSIONS <=? _); [done|].
  destruct (negb (ep_event_source_enable_result o)); [done|].
  match goal with |- context [negb (?x =? 0)] => destruct (negb (x =? 0)) end; [done|].
  unfold config_enable_disable. cbn [fst snd app].
  intros _.
  match goal with
  | |- context [invoke_callbacks ?q ?X] =>
      destruct (invoke_callbacks_spec q X) as (_ & Hh & Ht)
  end.
  eexists. split.
  { rewrite Hh. destruct (session_requested_sampling _); cbn; apply lookup_insert_eq. }
  split; [done|]. split; [done|]. rewrite Ht.
  destruct (session_requested_sampling _); cbn -[Z.pow Z.modulo];
    rewrite <- !app_assoc; done.
Qed.

Lemma ep_enable_3_publication_order_witness :
  (@ep_enable_3 coreclr (quiet_oracle 1000) listener_options started).1 ≠ 0
  ∧ ∃ session,
      heap (@ep_enable_3 coreclr (quiet_oracle 1000) listener_options started).2
        !! (@ep_enable_3 coreclr (quiet_oracle 1000) listener_options started).1
      = Some session
      ∧ ep_session_get_index session = @generate_session_index coreclr started.
Proof.
  assert ((@ep_enable_3 coreclr (quiet_oracle 1000) listener_options started).1 ≠ 0)
    as Hne by by vm_compute.
  split; [exact Hne|].
  destruct (@ep_enable_3_publication_order coreclr (quiet_oracle 1000) listener_options
              started Hne) as (session & H1 & _ & H2 & _).
  exists session. auto.
Defined.
Section CheckpointFacts.
Context {rt : Runtime}.
Implicit Type s : EventPipe.

Lemma checkpoints_dec_ref p s :
  _ep_rundown_execution_checkpoints (ep_session_dec_ref p s)
  = _ep_rundown_execution_checkpoints s.
Proof. by destruct (frame_dec_ref p s) as [(_ & _ & _ & _ & _ & _ & _ & _ & ?) _]. Qed.

Lemma checkpoints_assert c m s :
  _ep_rundown_execution_checkpoints (EP_ASSERT c m s)
  = _ep_rundown_execution_checkpoints s.
Proof. by destruct c. Qed.

(** [enable] leaves the list of execution checkpoints alone. *)
Lemma enable_checkpoints o options queue s :
  _ep_rundown_execution_checkpoints (enable o options queue s).2
  = _ep_rundown_execution_checkpoints s.
Proof.
  unfold enable, enable_on_error, ep_session_alloc, config_enable_disable.
  repeat match goal with
         | |- context [if ?c then _ else _] =>
             lazymatch c with
             | context [if _ then _ else _] => fail
             | _ => destruct c
             end
         end;
    cbn [fst snd]; rewrite ?checkpoints_dec_ref; cbn; rewrite ?checkpoints_assert; done.
Qed.

Lemma ep_enable_3_checkpoints o options s :
  _ep_rundown_execution_checkpoints (ep_enable_3 o options s).2
  = _ep_rundown_execution_checkpoints s.
Proof.
  unfold ep_enable_3. destruct (negb (check_options_valid options)); [done|].
  pose proof (enable_checkpoints o options []
                (log Call_ep_provider_callback_data_queue_init s)) as H.
  destruct (enable o options [] _) as [[id queue] s2]. cbn [fst snd] in *.
  destruct (invoke_callbacks_spec queue s2) as ([(_ & _ & _ & _ & _ & _ & _ & _ & ->) _] & _).
  exact H.
Qed.

End CheckpointFacts.
(** ** Event dispatch *)

Section DispatchFacts.
Context {rt : Runtime}.
Implicit Type s : EventPipe.

(** With the mask in step with the registry, the loop that goes by the
    bits of the mask visits the slots that hold a session. *)
Lemma write_event_2_loop_fan_out s
    (thread ep_event payload activity_id related_activity_id event_thread stack : Z) :
  allow_write_wf s →
  ∀ n i, (i + n ≤ length (_ep_sessions s))%nat →
    Dispatch.write_event_2_loop n i thread ep_event payload activity_id
      related_activity_id event_thread stack s
    = fan_out i (take n (drop i (_ep_sessions s))) thread ep_event payload activity_id
        related_activity_id event_thread stack.
Proof.
  intros Hmask. induction n as [|n IH]; intros i Hlen; [done|].
  destruct (lookup_lt_is_Some_2 (_ep_sessions s) i ltac:(lia)) as [p Hp].
  rewrite (drop_S _ _ _ Hp). cbn [take Dispatch.write_event_2_loop fan_out].
  rewrite <- IH by lia. f_equal.
  pose proof (testbit_land_bit (_ep_allow_write s) i) as Hbit.
  rewrite Hmask, (load_session_lookup _ _ _ Hp) in Hbit.
  rewrite (load_session_lookup _ _ _ Hp).
  destruct (Z.land _ _ =? 0), (p =? 0); simpl in Hbit; done.
Qed.

Lemma written_sessions_app (a b : list Dispatch.Event) :
  Dispatch.written_sessions (a ++ b)
  = Dispatch.written_sessions a ++ Dispatch.written_sessions b.
Proof. apply omap_app. Qed.

Lemma written_sessions_assert c m :
  Dispatch.written_sessions (Dispatch.EP_ASSERT c m) = [].
Proof. by destruct c. Qed.

Lemma written_sessions_fan_out i (slots : list Z)
    (thread ep_event payload activity_id related_activity_id event_thread stack : Z) :
  Dispatch.written_sessions
    (fan_out i slots thread ep_event payload activity_id related_activity_id
       event_thread stack)
  = filter (λ p : Z, p ≠ 0%Z) slots.
Proof.
  revert i. induction slots as [|p slots IH]; intros i; [done|].
  cbn [fan_out]. rewrite written_sessions_app, IH.
  rewrite (filter_cons (λ p : Z, p ≠ 0%Z)).
  destruct (Z.eqb_spec p 0) as [->|Hp].
  - by rewrite decide_False by (intros H; by apply H).
  - by rewrite decide_True.
Qed.

End DispatchFacts.

(** X11. An event written by an ordinary thread reaches every session of
    the registry exactly once, in slot order, and nothing else: with the
    allow_write mask in step with the registry, write_event_2 sets the
    write-in-progress marker of the thread to the slot index, writes the
    event to the session of the slot and resets the marker to UINT32_MAX,
    for each slot that holds a session; slots without a session see no
    call. *)
Theorem write_event_2_reaches_live_sessions {rt : Runtime}
    (o : Oracle) (a : Dispatch.Answers)
    (thread ep_event payload activity_id related_activity_id event_thread stack : Z)
    (s : EventPipe) :
  registry_wf s → allow_write_wf s →
  state_ge_initialized (_ep_state s) = true →
  ep_thread_get_or_create_result o ≠ 0 →
  Dispatch.ep_thread_is_rundown_thread a = false →
  let t := Dispatch.write_event_2 o a thread ep_event payload activity_id
             related_activity_id event_thread stack s in
  t = Dispatch.EP_ASSERT (negb (ep_event =? 0)) "ep_event != NULL"
      ++ Dispatch.EP_ASSERT (negb (payload =? 0)) "payload != NULL"
      ++ [Dispatch.Call_ep_thread_get_or_create (ep_thread_get_or_create_result o)]
      ++ fan_out 0 (_ep_sessions s) thread ep_event payload activity_id
           related_activity_id event_thread stack
  ∧ Dispatch.written_sessions t = live_sessions s.
Proof.
  intros Hwf Hmask Hst Hthread Hrundown t.
  assert (t = Dispatch.EP_ASSERT (negb (ep_event =? 0)) "ep_event != NULL"
      ++ Dispatch.EP_ASSERT (negb (payload =? 0)) "payload != NULL"
      ++ [Dispatch.Call_ep_thread_get_or_create (ep_thread_get_or_create_result o)]
      ++ fan_out 0 (_ep_sessions s) thread ep_event payload activity_id
           related_activity_id event_thread stack) as Ht.
  { unfold t, Dispatch.write_event_2. rewrite Hst. cbn [negb].
    rewrite (proj2 (Z.eqb_neq _ _) Hthread), Hrundown.
    rewrite (write_event_2_loop_fan_out s) by (by rewrite ?(wf_length _ Hwf)).
    rewrite drop_0, <- (wf_length _ Hwf), firstn_all. done. }
  split; [exact Ht|]. rewrite Ht.
  rewrite !written_sessions_app, !written_sessions_assert, written_sessions_fan_out.
  done.
Qed.

Lemma write_event_2_reaches_live_sessions_witness :
  @registry_wf coreclr running ∧ allow_write_wf running
  ∧ Dispatch.written_sessions
      (@Dispatch.write_event_2 coreclr (quiet_oracle 0)
         {| Dispatch.ep_thread_is_rundown_thread := false;
            Dispatch.ep_thread_get_rundown_session := 0;
            Dispatch.ep_event_payload_get_flat_data := 500 |}
         77 300 400 0 0 0 0 running)
    = [1000].
Proof.
  split; [exact registry_wf_running|]. split; [exact allow_write_wf_running|].
  etrans.
  - exact (proj2 (@write_event_2_reaches_live_sessions coreclr (quiet_oracle 0)
             {| Dispatch.ep_thread_is_rundown_thread := false;
                Dispatch.ep_thread_get_rundown_session := 0;
                Dispatch.ep_event_payload_get_flat_data := 500 |}
             77 300 400 0 0 0 0 running registry_wf_running allow_write_wf_running
             eq_refl ltac:(discriminate) eq_refl)).
  - by vm_compute.
Defined.

(** X12. Events of a rundown thread and events written too early never
    fan out: on the rundown thread of a session write_event_2 writes to
    that session only, whatever the registry holds, and sets no
    write-in-progress marker; before ep_init it makes no call at all; and
    when no EventPipeThread can be obtained it writes to no session. *)
Theorem write_event_2_never_fans_out {rt : Runtime}
    (o : Oracle) (a : Dispatch.Answers)
    (thread ep_event payload activity_id related_activity_id event_thread stack : Z)
    (s : EventPipe) :
  let t := Dispatch.write_event_2 o a thread ep_event payload activity_id
             related_activity_id event_thread stack s in
  (_ep_state s = EP_STATE_NOT_INITIALIZED →
   Dispatch.written_sessions t = []
   ∧ ∀ e, e ∈ t → ∃ m, e = Dispatch.Assert_failed m)
  ∧ (ep_thread_get_or_create_result o = 0 → Dispatch.written_sessions t = [])
  ∧ (_ep_state s ≠ EP_STATE_NOT_INITIALIZED →
     ep_thread_get_or_create_result o ≠ 0 →
     Dispatch.ep_thread_is_rundown_thread a = true →
     Dispatch.written_sessions t
     = (if negb (thread =? 0)
           && negb (Dispatch.ep_thread_get_rundown_session a =? 0)
           && negb (Dispatch.ep_event_payload_get_flat_data a =? 0)
        then [Dispatch.ep_thread_get_rundown_session a] else [])
     ∧ ∀ i, Dispatch.Call_ep_thread_set_session_write_in_progress i ∉ t).
Proof.
  intros t. unfold t, Dispatch.write_event_2. split; [|split].
  - intros ->. cbn [state_ge_initialized negb]. rewrite app_nil_r.
    split.
    + by rewrite written_sessions_app, !written_sessions_assert.
    + intros e He. apply elem_of_app in He as [He|He].
      * destruct (negb (ep_event =? 0)); [by apply elem_of_nil in He|].
        apply list_elem_of_singleton in He. by eexists.
      * destruct (negb (payload =? 0)); [by apply elem_of_nil in He|].
        apply list_elem_of_singleton in He. by eexists.
  - intros ->. rewrite !written_sessions_app, !written_sessions_assert.
    by destruct (negb (state_ge_initialized (_ep_state s))).
  - intros Hst Hthread Hrundown.
    assert (state_ge_initialized (_ep_state s) = true) as ->
      by by destruct (_ep_state s).
    cbn [negb]. rewrite (proj2 (Z.eqb_neq _ _) Hthread), Hrundown. split.
    + rewrite !written_sessions_app, !written_sessions_assert.
      by destruct (_ && _).
    + intros i Hi.
      repeat (apply elem_of_app in Hi as [Hi|Hi]);
        try (by destruct (negb _); [apply elem_of_nil in Hi
                                   |apply list_elem_of_singleton in Hi]).
      * by apply list_elem_of_singleton in Hi.
      * destruct (_ && _); [by apply list_elem_of_singleton in Hi
                           |by apply elem_of_nil in Hi].
Qed.

Lemma write_event_2_never_fans_out_witness :
  _ep_state running ≠ EP_STATE_NOT_INITIALIZED
  ∧ ep_thread_get_or_create_result (quiet_oracle 0) ≠ 0
  ∧ Dispatch.written_sessions
      (@Dispatch.write_event_2 coreclr (quiet_oracle 0)
         {| Dispatch.ep_thread_is_rundown_thread := true;
            Dispatch.ep_thread_get_rundown_session := 2000;
            Dispatch.ep_event_payload_get_flat_data := 500 |}
         77 300 400 0 0 0 0 running)
    = [2000].
Proof.
  split; [discriminate|]. split; [discriminate|].
  exact (proj1 (proj2 (proj2 (@write_event_2_never_fans_out coreclr (quiet_oracle 0)
           {| Dispatch.ep_thread_is_rundown_thread := true;
              Dispatch.ep_thread_get_rundown_session := 2000;
              Dispatch.ep_event_payload_get_flat_data := 500 |}
           77 300 400 0 0 0 0 running))
         ltac:(discriminate) ltac:(discriminate) eq_refl)).
Defined.
(** ** Start-up and shutdown *)

Section StartUpFacts.
Context {rt : Runtime}.
Implicit Type s : EventPipe.

Lemma default_session_output_path_total o :
  is_Some (default_session_output_path o).
Proof.
  unfold default_session_output_path.
  destruct (ep_rt_config_value_get_output_path o) as [template|]; [|by eexists].
  destruct (replace_pid_loop_result (ep_rt_current_process_get_id o) template)
    as (r & Hr & _).
  cbn [default]. unfold id. rewrite Hr. by eexists.
Qed.

Lemma live_replicate_insert (n i : nat) (p : Z) :
  (i < n)%nat → p ≠ 0 →
  filter (λ q : Z, q ≠ 0%Z) (<[i := p]> (replicate n 0)) = [p].
Proof.
  revert i. induction n as [|n IH]; intros i Hi Hp; [lia|].
  destruct i as [|i]; simpl.
  - rewrite (filter_cons (λ q : Z, q ≠ 0%Z)), decide_True by done. f_equal.
    clear. induction n as [|n IH]; [done|]. simpl.
    by rewrite (filter_cons (λ q : Z, q ≠ 0%Z)), decide_False by (intros H; by apply H).
  - rewrite (filter_cons (λ q : Z, q ≠ 0%Z)), decide_False by (intros H; by apply H).
    apply IH; [lia|done].
Qed.

Lemma live_replicate (n : nat) : filter (λ q : Z, q ≠ 0%Z) (replicate n 0) = [].
Proof.
  induction n as [|n IH]; [done|]. simpl.
  by rewrite (filter_cons (λ q : Z, q ≠ 0%Z)), decide_False by (intros H; by apply H).
Qed.

(** ep_start_streaming on a registered session: the stream is started
    once threads may run, the id is queued before. *)
Lemma ep_start_streaming_registered id s ids :
  registry_wf s → id ≠ 0 → registered id s →
  _ep_deferred_enable_session_ids s = Some ids →
  ep_start_streaming id s
  = Some (if _ep_can_start_threads s
          then log (Call_ep_session_start_streaming id) s
          else set_deferred_enable_session_ids (Some (ids ++ [id])) s).
Proof.
  intros Hwf Hid Hr Hq. unfold ep_start_streaming.
  rewrite is_session_id_in_collection_registered by done.
  destruct (_ep_can_start_threads s); [done|]. by rewrite Hq.
Qed.

Lemma trace_extends_refl s : trace_extends s s.
Proof. exists []. by rewrite app_nil_r. Qed.

Lemma trace_extends_trans s1 s2 s3 :
  trace_extends s1 s2 → trace_extends s2 s3 → trace_extends s1 s3.
Proof.
  intros [e1 H1] [e2 H2]. exists (e1 ++ e2). by rewrite H2, H1, app_assoc.
Qed.

Lemma trace_extends_eq s s' : trace s' = trace s → trace_extends s s'.
Proof. intros H. exists []. by rewrite app_nil_r. Qed.

Lemma trace_extends_log e s : trace_extends s (log e s).
Proof. by exists [e]. Qed.

Lemma trace_extends_assert c m s : trace_extends s (EP_ASSERT c m s).
Proof. destruct c; [apply trace_extends_refl|apply trace_extends_log]. Qed.

Lemma trace_extends_dec_ref p s : trace_extends s (ep_session_dec_ref p s).
Proof.
  unfold ep_session_dec_ref. destruct (p =? 0); [apply trace_extends_refl|].
  eapply trace_extends_trans; [apply trace_extends_log|].
  apply trace_extends_eq.
  destruct (heap _ !! p) as [obj|]; [|done]. by destruct (_ <=? 0).
Qed.

Lemma trace_extends_set_heap h s : trace_extends s (set_heap h s).
Proof. by apply trace_extends_eq. Qed.

Lemma trace_extends_store_session i p s :
  trace_extends s (ep_volatile_store_session i p s).
Proof. by eexists [_]. Qed.

Lemma trace_extends_store_allow_write v s :
  trace_extends s (ep_volatile_store_allow_write v s).
Proof. by eexists [_]. Qed.

Lemma trace_extends_store_number_of_sessions v s :
  trace_extends s (ep_volatile_store_number_of_sessions v s).
Proof. by eexists [_]. Qed.

Ltac trace_step :=
  lazymatch goal with
  | |- trace_extends ?s ?s => apply trace_extends_refl
  | |- trace_extends _ (log _ _) =>
      eapply trace_extends_trans; [|apply trace_extends_log]
  | |- trace_extends _ (EP_ASSERT _ _ _) =>
      eapply trace_extends_trans; [|apply trace_extends_assert]
  | |- trace_extends _ (ep_session_dec_ref _ _) =>
      eapply trace_extends_trans; [|apply trace_extends_dec_ref]
  | |- trace_extends _ (set_heap _ _) =>
      eapply trace_extends_trans; [|apply trace_extends_set_heap]
  | |- trace_extends _ (ep_volatile_store_session _ _ _) =>
      eapply trace_extends_trans; [|apply trace_extends_store_session]
  | |- trace_extends _ (ep_volatile_store_allow_write _ _) =>
      eapply trace_extends_trans; [|apply trace_extends_store_allow_write]
  | |- trace_extends _ (ep_volatile_store_number_of_sessions _ _) =>
      eapply trace_extends_trans; [|apply trace_extends_store_number_of_sessions]
  | |- trace_extends _ (if ?b then _ else _) => destruct b
  end.

Lemma trace_extends_enable o options queue s :
  trace_extends s (enable o options queue s).2.
Proof.
  unfold enable.
  set (s0 := EP_ASSERT _ _ (EP_ASSERT _ _ (EP_ASSERT _ _ s))).
  assert (trace_extends s s0) as H0 by (unfold s0; repeat trace_step).
  clearbody s0.
  assert (∀ p q X, trace_extends s X → trace_extends s (enable_on_error p q X).2)
    as Herr.
  { intros p q X HX. cbn. eapply trace_extends_trans; [exact HX|].
    apply trace_extends_dec_ref. }
  destruct (negb (bool_decide _)); [by apply Herr|].
  destruct (negb (_ <? _)%nat); [by apply Herr|].
  unfold ep_session_alloc. cbv zeta.
  destruct (_ =? 0).
  { apply Herr. eapply trace_extends_trans; [exact H0|apply trace_extends_log]. }
  set (s1 := set_heap _ _).
  assert (trace_extends s s1) as H1.
  { eapply trace_extends_trans; [exact H0|]. unfold s1. repeat trace_step. }
  clearbody s1.
  destruct (negb (ep_session_is_valid o)); [by apply Herr|].
  destruct (_ <=? _)%nat.
  { apply Herr. eapply trace_extends_trans; [exact H1|apply trace_extends_log]. }
  destruct (_ <=? _).
  { apply Herr. eapply trace_extends_trans; [exact H1|apply trace_extends_log]. }
  destruct (negb (ep_event_source_enable_result o)).
  { apply Herr. eapply trace_extends_trans; [exact H1|]. repeat trace_step. }
  destruct (negb (_ =? 0)).
  { apply Herr. eapply trace_extends_trans; [exact H1|]. repeat trace_step. }
  unfold config_enable_disable. cbn [fst snd].
  eapply trace_extends_trans; [exact H1|]. repeat trace_step.
Qed.

Lemma trace_extends_ep_enable_3 o options s :
  trace_extends s (ep_enable_3 o options s).2.
Proof.
  unfold ep_enable_3. destruct (negb _); [apply trace_extends_refl|].
  pose proof (trace_extends_enable o options []
                (log Call_ep_provider_callback_data_queue_init s)) as He.
  destruct (enable o options [] _) as [[id queue] s2]. cbn [fst snd] in *.
  eapply trace_extends_trans; [apply trace_extends_log|].
  eapply trace_extends_trans; [exact He|].
  destruct (invoke_callbacks_spec queue s2) as (_ & _ & Ht). by eexists.
Qed.

Lemma providers_of_config_asserts_spec cfg s :
  same_globals s (providers_of_config_asserts cfg s)
  ∧ heap (providers_of_config_asserts cfg s) = heap s
  ∧ trace_extends s (providers_of_config_asserts cfg s).
Proof.
  unfold providers_of_config_asserts.
  destruct cfg as [cfg|];
    [|split; [apply same_globals_refl|split; [done|apply trace_extends_refl]]].
  destruct (bool_decide _);
    [split; [apply same_globals_refl|split; [done|apply trace_extends_refl]]|].
  destruct (parse_providers_asserts_spec (S (String.length cfg)) cfg s)
    as (n & Hg & Hh & Ht).
  split; [done|]. split; [done|]. by eexists.
Qed.

(** The loop of ep_init that clears the slots. *)
Lemma clear_sessions_from_spec n i s :
  (i + n ≤ length (_ep_sessions s))%nat →
  _ep_sessions (clear_sessions_from n i s)
  = take i (_ep_sessions s) ++ replicate n 0 ++ drop (i + n) (_ep_sessions s)
  ∧ trace (clear_sessions_from n i s)
    = trace s ++ ((λ j, Store_session j 0) <$> seq i n)
  ∧ _ep_state (clear_sessions_from n i s) = _ep_state s
  ∧ _ep_number_of_sessions (clear_sessions_from n i s) = _ep_number_of_sessions s
  ∧ _ep_allow_write (clear_sessions_from n i s) = _ep_allow_write s
  ∧ _ep_can_start_threads (clear_sessions_from n i s) = _ep_can_start_threads s
  ∧ _ep_deferred_enable_session_ids (clear_sessions_from n i s)
    = _ep_deferred_enable_session_ids s
  ∧ _ep_deferred_disable_session_ids (clear_sessions_from n i s)
    = _ep_deferred_disable_session_ids s
  ∧ _ep_rundown_execution_checkpoints (clear_sessions_from n i s)
    = _ep_rundown_execution_checkpoints s
  ∧ heap (clear_sessions_from n i s) = heap s.
Proof.
  revert i s. induction n as [|n IH]; intros i s Hlen; cbn [clear_sessions_from].
  { rewrite Nat.add_0_r. cbn [replicate app seq fmap list_fmap].
    by rewrite take_drop, app_nil_r. }
  destruct (IH (S i) (ep_volatile_store_session i 0 s)) as (Hs & Ht & Hrest).
  { cbn. rewrite length_insert. lia. }
  split; [|split; [|exact Hrest]].
  - rewrite Hs. cbn [ep_volatile_store_session log set_sessions _ep_sessions].
    rewrite (take_S_r _ _ 0) by (apply list_lookup_insert_eq; lia).
    rewrite take_insert_ge by lia. rewrite drop_insert_lt by lia.
    replace (i + S n)%nat with (S i + n)%nat by lia.
    by rewrite <- app_assoc.
  - rewrite Ht. cbn. by rewrite <- app_assoc.
Qed.

(** The default session on an engine that has just been initialised. *)
Lemma enable_default_session_fresh o t :
  (EP_MAX_NUMBER_OF_SESSIONS ≤ 64)%nat →
  _ep_sessions t = replicate EP_MAX_NUMBER_OF_SESSIONS 0 →
  _ep_state t = EP_STATE_INITIALIZED →
  _ep_number_of_sessions t = 0 →
  _ep_allow_write t = 0 →
  _ep_deferred_enable_session_ids t = Some [] →
  _ep_deferred_disable_session_ids t = Some [] →
  _ep_rundown_execution_checkpoints t = Some [] →
  heap t !! ep_session_alloc_result o = None →
  ∃ s', enable_default_session_via_env_variables o t = Some s'
        ∧ trace_extends t s'
        ∧ (ep_rt_config_value_get_enable o = false → s' = t)
        ∧ _ep_state s' = EP_STATE_INITIALIZED
        ∧ registry_wf s' ∧ allow_write_wf s'
        ∧ is_Some (_ep_deferred_enable_session_ids s')
        ∧ is_Some (_ep_deferred_disable_session_ids s')
        ∧ _ep_rundown_execution_checkpoints s' = Some []
        ∧ ((live_sessions s' = [] ∧ _ep_deferred_enable_session_ids s' = Some [])
           ∨ (ep_rt_config_value_get_enable o = true
              ∧ ep_session_alloc_result o ≠ 0
              ∧ live_sessions s' = [ep_session_alloc_result o]
              ∧ ep_volatile_load_session 0 s' = ep_session_alloc_result o
              ∧ (_ep_can_start_threads t = false →
                 _ep_deferred_enable_session_ids s'
                 = Some [ep_session_alloc_result o]))).
Proof.
  intros Hmax Hslots Hstate Hnt0 Hawt0 Hdet0 Hddt0 Hckt0 Hfresh0.
  assert (∀ si, same_globals t si → heap si = heap t →
            _ep_state si = EP_STATE_INITIALIZED
            ∧ registry_wf si ∧ allow_write_wf si
            ∧ is_Some (_ep_deferred_enable_session_ids si)
            ∧ is_Some (_ep_deferred_disable_session_ids si)
            ∧ _ep_rundown_execution_checkpoints si = Some []
            ∧ live_sessions si = [] ∧ _ep_deferred_enable_session_ids si = Some [])
    as Hsame.
  { intros si (Hst & Hn & Hs & Ha & Hct & Hde & Hdd & Hcb & Hck) Hh.
    assert (live_sessions si = []) as Hlive.
    { unfold live_sessions. rewrite Hs, Hslots. apply live_replicate. }
    split; [congruence|]. split.
    { split.
      - exact Hmax.
      - by rewrite Hs, Hslots, length_replicate.
      - intros i p Hi Hp. rewrite Hs, Hslots in Hi.
        apply lookup_replicate in Hi as [-> _]. done.
      - by rewrite Hn, Hnt0, Hlive. }
    split.
    { intros i. rewrite Ha, Hawt0, Z.bits_0. unfold ep_volatile_load_session.
      rewrite Hs, Hslots.
      destruct (decide (i < EP_MAX_NUMBER_OF_SESSIONS)%nat).
      - by rewrite lookup_replicate_2.
      - by rewrite lookup_ge_None_2 by (rewrite length_replicate; lia). }
    split; [rewrite Hde, Hdet0; by eexists|].
    split; [rewrite Hdd, Hddt0; by eexists|].
    split; [congruence|]. split; [done|congruence]. }
  assert (∀ si, same_globals t si → heap si = heap t → trace_extends t si →
            ∃ s', Some si = Some s'
                  ∧ trace_extends t s'
                  ∧ _ep_state s' = EP_STATE_INITIALIZED
                  ∧ registry_wf s' ∧ allow_write_wf s'
                  ∧ is_Some (_ep_deferred_enable_session_ids s')
                  ∧ is_Some (_ep_deferred_disable_session_ids s')
                  ∧ _ep_rundown_execution_checkpoints s' = Some []
                  ∧ ((live_sessions s' = []
                      ∧ _ep_deferred_enable_session_ids s' = Some [])
                     ∨ (ep_rt_config_value_get_enable o = true
                        ∧ ep_session_alloc_result o ≠ 0
                        ∧ live_sessions s' = [ep_session_alloc_result o]
                        ∧ ep_volatile_load_session 0 s' = ep_session_alloc_result o
                        ∧ (_ep_can_start_threads t = false →
                           _ep_deferred_enable_session_ids s'
                           = Some [ep_session_alloc_result o])))) as Hquiet.
  { intros si Hg Hh Hext.
    destruct (Hsame si Hg Hh) as (? & ? & ? & ? & ? & ? & ? & ?).
    exists si. repeat (split; [done|]). by left. }
  unfold enable_default_session_via_env_variables.
  destruct (ep_rt_config_value_get_enable o) eqn:Een.
  2: { destruct (Hquiet t (same_globals_refl t) eq_refl (trace_extends_refl t))
         as (s' & [= <-] & Hrest).
       exists t. split; [done|]. destruct Hrest as (? & Hrest).
       split; [done|]. split; [done|]. exact Hrest. }
  destruct (default_session_output_path_total o) as [path ->].
  cbn [mbind option_bind]. unfold ep_enable_2.
  destruct (providers_of_config_asserts_spec (ep_rt_config_value_get_config o) t)
    as (HgA & HhA & HeA).
  set (si := providers_of_config_asserts (ep_rt_config_value_get_config o) t) in *.
  clearbody si.
  destruct (Hsame si HgA HhA) as (Hsti & Hwfi & Hmaski & _ & _ & Hcki & Hlive & Hdei).
  pose proof HgA as (_ & Hni & Hsi & Hawi & Hcti & _ & Hddi & _ & _).
  rewrite Hslots in Hsi. rewrite Hddt0 in Hddi.
  assert (heap si !! ep_session_alloc_result o = None) as Hfreshi by by rewrite HhA.
  destruct (providers_of_config (ep_rt_config_value_get_config o))
    as [[providers providers_len]|].
  2: { cbn. destruct (Hquiet si HgA HhA HeA) as (s' & [= <-] & Hext & Hrest).
       exists si. split; [done|]. split; [done|]. split; [done|].
       exact Hrest. }
  unfold ep_enable.
  set (options := ep_session_options_init _ _ _ _ _ _ _ _ _ _ _ _).
  destruct (ep_enable_3_effect o options si Hwfi Hmaski Hfreshi)
    as (Hwf2 & Hmask2 & Hst2 & Hct2 & Hde2 & Hdd2 & Hcase).
  pose proof (generate_session_index_spec si) as Hgen. cbv zeta in Hgen.
  pose proof (ep_enable_3_checkpoints o options si) as Hck2'.
  pose proof (trace_extends_ep_enable_3 o options si) as Hext2.
  destruct (ep_enable_3 o options si) as [id s2]. cbn [fst snd] in *.
  destruct Hcase as [(-> & Hg2 & Hh2)
                    |(-> & Hp & _ & Hi & Hfree & Hs2 & Hn2 & Ha2 & Hh2)].
  { cbn.
    destruct (Hquiet s2) as (s' & [= <-] & Hext & Hrest).
    - eapply same_globals_trans; [exact HgA|exact Hg2].
    - congruence.
    - eapply trace_extends_trans; [exact HeA|exact Hext2].
    - exists s2. split; [done|]. split; [done|]. split; [done|].
      exact Hrest. }
  rewrite (proj2 (Z.eqb_neq _ _) Hp). cbn [negb].
  assert (generate_session_index si = 0%nat) as Hi0.
  { destruct Hgen as [[? _]|(_ & _ & Hlow)]; [lia|].
    destruct (generate_session_index si) as [|k]; [done|].
    exfalso. apply (Hlow 0%nat); [lia|].
    unfold ep_volatile_load_session. rewrite Hsi, lookup_replicate_2; [done|lia]. }
  rewrite Hi0 in *.
  assert (registered (ep_session_alloc_result o) s2) as Hr.
  { exists 0%nat. split; [done|]. unfold ep_volatile_load_session.
    rewrite Hs2, list_lookup_insert_eq; [done|].
    rewrite Hsi, length_replicate. done. }
  rewrite (ep_start_streaming_registered _ s2 [] Hwf2 Hp Hr) by congruence.
  eexists. split; [reflexivity|].
  set (s3 := if _ep_can_start_threads s2 then _ else _).
  assert (_ep_sessions s3 = _ep_sessions s2 ∧ _ep_number_of_sessions s3
          = _ep_number_of_sessions s2 ∧ _ep_allow_write s3 = _ep_allow_write s2
          ∧ heap s3 = heap s2 ∧ _ep_state s3 = _ep_state s2
          ∧ _ep_deferred_disable_session_ids s3 = _ep_deferred_disable_session_ids s2
          ∧ _ep_rundown_execution_checkpoints s3 = _ep_rundown_execution_checkpoints s2)
    as (Hs3 & Hn3 & Ha3 & Hh3 & Hst3 & Hdd3 & Hck3).
  { unfold s3. by destruct (_ep_can_start_threads s2). }
  assert (is_Some (_ep_deferred_enable_session_ids s3)) as Hde3.
  { unfold s3. destruct (_ep_can_start_threads s2); simpl; [|by eexists].
    rewrite Hde2, Hdei. by eexists. }
  assert (_ep_can_start_threads t = false →
          _ep_deferred_enable_session_ids s3 = Some [ep_session_alloc_result o])
    as Hde3'.
  { intros Hct. unfold s3. by rewrite Hct2, Hcti, Hct. }
  assert (trace_extends s2 s3) as Hext3.
  { unfold s3. destruct (_ep_can_start_threads s2);
      [apply trace_extends_log|by apply trace_extends_eq]. }
  clearbody s3.
  split.
  { eapply trace_extends_trans; [exact HeA|].
    eapply trace_extends_trans; [exact Hext2|exact Hext3]. }
  split; [done|].
  split; [congruence|]. split; [by apply (registry_wf_ext s2)|].
  split; [by apply (allow_write_wf_ext s2)|].
  split; [done|]. split; [rewrite Hdd3, Hdd2, Hddi; by eexists|].
  split; [congruence|].
  right. split; [done|]. split; [done|]. split.
  { unfold live_sessions. rewrite Hs3, Hs2, Hsi. by apply live_replicate_insert. }
  split; [|done].
  unfold ep_volatile_load_session. rewrite Hs3, Hs2, list_lookup_insert_eq; [done|].
  by rewrite Hsi, length_replicate.
Qed.

End StartUpFacts.

(** X13. ep_init brings the engine up with a well-formed registry, or
    leaves it not initialised when an allocation fails. From the
    not-initialised state with no session counted and an empty mask it
    calls ep_rt_init and ep_thread_init, stores NULL into every slot in
    index order, initialises configuration, event source and providers
    and sets the sampling rate; the slot array is cleared, the registry
    is well formed and the mask in step with it in every case. If the
    two deferred queues and the checkpoint list are allocated, the state
    becomes EP_STATE_INITIALIZED and the default session of the
    environment is looked at: the registry holds no session unless
    tracing is requested through the environment, and then at most the
    default session, whose id is queued for the deferred start of
    streaming while threads may not yet run. If one of the queues or the
    checkpoint list cannot be allocated, ep_init returns after the
    failed allocation: the state stays EP_STATE_NOT_INITIALIZED, there
    is no further call, no session is created and the globals hold what
    the allocations returned. *)
Theorem ep_init_establishes_registry {rt : Runtime} (o : Oracle)
    (enable_ids_allocated disable_ids_allocated checkpoints_allocated : bool)
    (s : EventPipe) :
  (EP_MAX_NUMBER_OF_SESSIONS ≤ 64)%nat →
  length (_ep_sessions s) = EP_MAX_NUMBER_OF_SESSIONS →
  _ep_state s = EP_STATE_NOT_INITIALIZED →
  _ep_number_of_sessions s = 0 →
  _ep_allow_write s = 0 →
  heap s !! ep_session_alloc_result o = None →
  ∃ s' events,
    ep_init o enable_ids_allocated disable_ids_allocated checkpoints_allocated s
    = Some s'
    ∧ registry_wf s' ∧ allow_write_wf s'
    ∧ trace s'
      = trace s
        ++ [Call_ep_rt_init; Call_ep_thread_init]
        ++ ((λ i, Store_session i 0) <$> seq 0 EP_MAX_NUMBER_OF_SESSIONS)
        ++ [Call_ep_config_init; Call_ep_event_source_init;
            Call_ep_rt_init_providers_and_events;
            Call_ep_sample_profiler_set_sampling_rate
              (if PERFTRACING_DISABLE_THREADS then 5000000 else 1000000)]
        ++ events
    ∧ if enable_ids_allocated && disable_ids_allocated && checkpoints_allocated
      then
        _ep_state s' = EP_STATE_INITIALIZED
        ∧ is_Some (_ep_deferred_enable_session_ids s')
        ∧ is_Some (_ep_deferred_disable_session_ids s')
        ∧ _ep_rundown_execution_checkpoints s' = Some []
        ∧ (ep_rt_config_value_get_enable o = false → events = [])
        ∧ ((live_sessions s' = [] ∧ _ep_deferred_enable_session_ids s' = Some [])
           ∨ (ep_rt_config_value_get_enable o = true
              ∧ ep_session_alloc_result o ≠ 0
              ∧ live_sessions s' = [ep_session_alloc_result o]
              ∧ ep_volatile_load_session 0 s' = ep_session_alloc_result o
              ∧ (_ep_can_start_threads s = false →
                 _ep_deferred_enable_session_ids s'
                 = Some [ep_session_alloc_result o])))
      else
        events = []
        ∧ _ep_state s' = EP_STATE_NOT_INITIALIZED
        ∧ live_sessions s' = []
        ∧ heap s' = heap s
        ∧ _ep_deferred_enable_session_ids s'
          = (if enable_ids_allocated then Some [] else None)
        ∧ _ep_deferred_disable_session_ids s'
          = (if disable_ids_allocated then Some [] else None)
        ∧ _ep_rundown_execution_checkpoints s'
          = (if enable_ids_allocated && disable_ids_allocated then None
             else _ep_rundown_execution_checkpoints s).
Proof.
  intros Hmax Hlen Hst Hn Haw Hfresh. unfold ep_init.
  assert (bool_decide (_ep_state (log Call_ep_rt_init s) = EP_STATE_NOT_INITIALIZED)
          = true) as -> by (by apply bool_decide_eq_true_2).
  cbn [negb].
  destruct (clear_sessions_from_spec EP_MAX_NUMBER_OF_SESSIONS 0
              (log Call_ep_thread_init (log Call_ep_rt_init s)))
    as (Hsc & Htc & Hstc & Hnc & Hawc & Hctc & Hdec & Hddc & Hckc & Hhc).
  { cbn. lia. }
  set (sc := clear_sessions_from _ _ _) in *.
  assert (_ep_sessions sc = replicate EP_MAX_NUMBER_OF_SESSIONS 0) as Hslots.
  { rewrite Hsc. cbn [take app log _ep_sessions Nat.add].
    rewrite drop_ge by (cbn; lia). by rewrite app_nil_r. }
  cbn [log trace _ep_state _ep_number_of_sessions _ep_allow_write
       _ep_can_start_threads _ep_rundown_execution_checkpoints heap] in
    Htc, Hstc, Hnc, Hawc, Hctc, Hckc, Hhc.
  clear Hsc Hdec Hddc. clearbody sc.
  assert (∀ t, _ep_sessions t = replicate EP_MAX_NUMBER_OF_SESSIONS 0 →
               _ep_number_of_sessions t = 0 → _ep_allow_write t = 0 →
               registry_wf t ∧ allow_write_wf t ∧ live_sessions t = []) as Hbase.
  { intros t Hs Hn' Ha.
    assert (live_sessions t = []) as Hlive.
    { unfold live_sessions. rewrite Hs. apply live_replicate. }
    split; [|split; [|done]].
    - split.
      + exact Hmax.
      + by rewrite Hs, length_replicate.
      + intros i p Hi Hp. rewrite Hs in Hi.
        apply lookup_replicate in Hi as [-> _]. done.
      + by rewrite Hn', Hlive.
    - intros i. rewrite Ha, Z.bits_0. unfold ep_volatile_load_session. rewrite Hs.
      destruct (decide (i < EP_MAX_NUMBER_OF_SESSIONS)%nat).
      + by rewrite lookup_replicate_2.
      + by rewrite lookup_ge_None_2 by (rewrite length_replicate; lia). }
  assert (∀ rest : list Event,
            (trace s ++ [Call_ep_rt_init] ++ [Call_ep_thread_init])
              ++ ((λ i, Store_session i 0) <$> seq 0 EP_MAX_NUMBER_OF_SESSIONS)
              ++ rest
            = trace s
              ++ [Call_ep_rt_init; Call_ep_thread_init]
              ++ ((λ i, Store_session i 0) <$> seq 0 EP_MAX_NUMBER_OF_SESSIONS)
              ++ rest) as Hassoc.
  { intros rest. by rewrite <- !app_assoc. }
  destruct enable_ids_allocated, disable_ids_allocated, checkpoints_allocated;
    cbn [andb negb].
  1: { set (si := set_state EP_STATE_INITIALIZED _).
       destruct (enable_default_session_fresh o si Hmax)
         as (s' & Hd & [events Hev] & Hoff & Hrest);
         [exact Hslots|reflexivity|cbn; congruence|cbn; congruence
         |reflexivity|reflexivity|reflexivity
         |change (heap sc !! ep_session_alloc_result o = None); by rewrite Hhc|].
       exists s', events. split; [exact Hd|].
       destruct Hrest as (Hst' & Hwf' & Hmask' & Hde' & Hdd' & Hck' & Hcase).
       split; [done|]. split; [done|]. split.
       { rewrite Hev. cbn [si set_state log trace set_rundown_execution_checkpoints
                           set_deferred_disable_session_ids
                           set_deferred_enable_session_ids].
         rewrite Htc, <- !app_assoc. done. }
       split; [done|]. split; [done|]. split; [done|]. split; [done|].
       split.
       { intros Hoff'. specialize (Hoff Hoff'). subst s'.
         apply (app_inv_head (trace si)). by rewrite app_nil_r. }
       destruct Hcase as [Hc|(? & ? & ? & ? & Hq)]; [by left|].
       right. repeat (split; [done|]). intros Hct. apply Hq. cbn. by rewrite Hctc. }
  all: eexists _, []; split; [reflexivity|];
    match goal with
    | |- registry_wf ?t ∧ _ =>
        destruct (Hbase t) as (Hwf' & Hmask' & Hlive'); [done|by rewrite <- Hn|by rewrite <- Haw|]
    end;
    (split; [exact Hwf'|]); (split; [exact Hmask'|]);
    (split; [cbn; rewrite Htc, <- !app_assoc; done|]);
    repeat split; try done; cbn; congruence.
Qed.

Lemma ep_init_establishes_registry_witness :
  (@EP_MAX_NUMBER_OF_SESSIONS coreclr ≤ 64)%nat
  ∧ _ep_state (@initial_state coreclr) = EP_STATE_NOT_INITIALIZED
  ∧ (∃ s', @ep_init coreclr tracing_oracle true true true (@initial_state coreclr)
           = Some s'
           ∧ @registry_wf coreclr s' ∧ allow_write_wf s'
           ∧ _ep_state s' = EP_STATE_INITIALIZED)
  ∧ (∃ s', @ep_init coreclr tracing_oracle true false true (@initial_state coreclr)
           = Some s'
           ∧ _ep_state s' = EP_STATE_NOT_INITIALIZED
           ∧ live_sessions s' = []).
Proof.
  split; [vm_compute; lia|]. split; [reflexivity|]. split.
  - destruct (@ep_init_establishes_registry coreclr tracing_oracle true true true
                (@initial_state coreclr)
                ltac:(vm_compute; lia) eq_refl eq_refl eq_refl eq_refl eq_refl)
      as (s' & events & Hi & Hwf & Hmask & _ & Hst & _).
    exists s'. auto.
  - destruct (@ep_init_establishes_registry coreclr tracing_oracle true false true
                (@initial_state coreclr)
                ltac:(vm_compute; lia) eq_refl eq_refl eq_refl eq_refl eq_refl)
      as (s' & events & Hi & _ & _ & _ & _ & Hst & Hlive & _).
    exists s'. auto.
Defined.

(** X14. ep_init is guarded against a second call: when the state is
    already past EP_STATE_NOT_INITIALIZED, it calls ep_rt_init, reports
    the failed assertion and returns; no global changes, so the sessions
    that are registered stay registered and the deferred queues keep their
    entries. *)
Theorem ep_init_twice_changes_nothing {rt : Runtime} (o : Oracle)
    (enable_ids_allocated disable_ids_allocated checkpoints_allocated : bool)
    (s : EventPipe) :
  _ep_state s ≠ EP_STATE_NOT_INITIALIZED →
  ∃ s', ep_init o enable_ids_allocated disable_ids_allocated checkpoints_allocated s
        = Some s'
        ∧ same_globals s s'
        ∧ heap s' = heap s
        ∧ trace s' = trace s
            ++ [Call_ep_rt_init; Assert_failed "EventPipe already initialized."].
Proof.
  intros Hst. unfold ep_init.
  assert (bool_decide (_ep_state (log Call_ep_rt_init s) = EP_STATE_NOT_INITIALIZED)
          = false) as -> by (by apply bool_decide_eq_false_2).
  cbn [negb]. eexists. split; [reflexivity|].
  split; [by repeat split|]. split; [done|]. cbn. by rewrite <- app_assoc.
Qed.

Lemma ep_init_twice_changes_nothing_witness :
  _ep_state started ≠ EP_STATE_NOT_INITIALIZED
  ∧ ∃ s', @ep_init coreclr tracing_oracle true true true started = Some s'
          ∧ _ep_sessions s' = _ep_sessions started.
Proof.
  split; [discriminate|].
  destruct (@ep_init_twice_changes_nothing coreclr tracing_oracle true true true started
              ltac:(discriminate)) as (s' & Hi & (_ & _ & Hs & _) & _).
  exists s'. auto.
Defined.
Section ShutdownFacts.
Context {rt : Runtime}.
Implicit Type s : EventPipe.

Lemma shutdown_sessions_spec o (h0 : gmap Z EventPipeSession) (l0 : list Z) :
  length l0 = EP_MAX_NUMBER_OF_SESSIONS →
  ∀ n i t,
    (i + n = EP_MAX_NUMBER_OF_SESSIONS)%nat →
    registry_wf t → allow_write_wf t →
    _ep_can_start_threads t = true →
    _ep_sessions t
    = ((λ p, if is_listener h0 p then p else 0) <$> take i l0) ++ drop i l0 →
    (∀ j p, (i ≤ j)%nat → l0 !! j = Some p → p ≠ 0 → heap t !! p = h0 !! p) →
    ∃ t', shutdown_sessions o n i t = Some t'
          ∧ registry_wf t' ∧ allow_write_wf t'
          ∧ _ep_sessions t' = (λ p, if is_listener h0 p then p else 0) <$> l0
          ∧ _ep_state t' = _ep_state t
          ∧ _ep_can_start_threads t' = true
          ∧ _ep_deferred_enable_session_ids t' = _ep_deferred_enable_session_ids t
          ∧ _ep_deferred_disable_session_ids t' = _ep_deferred_disable_session_ids t.
Proof.
  intros Hlen. induction n as [|n IH]; intros i t Hin Hwf Hmask Hct Hs Hheap.
  - exists t. split; [done|]. split; [done|]. split; [done|].
    split; [|done].
    rewrite Hs, firstn_all2, skipn_all2 by lia. by rewrite app_nil_r.
  - destruct (lookup_lt_is_Some_2 l0 i ltac:(lia)) as [p Hp].
    assert (length ((λ p, if is_listener h0 p then p else 0) <$> take i l0) = i)
      as Hpre by (rewrite length_fmap, length_take; lia).
    assert (_ep_sessions t !! i = Some p) as Hslot.
    { rewrite Hs, lookup_app_r by lia. rewrite Hpre, Nat.sub_diag.
      by rewrite lookup_drop, Nat.add_0_r. }
    assert (((λ p, if is_listener h0 p then p else 0) <$> take (S i) l0)
              ++ drop (S i) l0
            = ((λ p, if is_listener h0 p then p else 0) <$> take i l0)
              ++ (if is_listener h0 p then p else 0) :: drop (S i) l0) as Hnext.
    { rewrite (take_S_r _ _ _ Hp), fmap_app, <- app_assoc. done. }
    cbn [shutdown_sessions]. rewrite (load_session_lookup _ _ _ Hslot).
    destruct (Z.eqb_spec p 0) as [->|Hp0]; cbn [negb mbind option_bind].
    { apply IH; [lia|done..| |].
      - rewrite Hnext, Hs, (drop_S _ _ _ Hp). by destruct (is_listener h0 0).
      - intros j q Hj. apply Hheap. lia. }
    destruct (wf_slot _ Hwf _ _ Hslot Hp0) as (obj & Hobj & Hidx).
    rewrite Hobj. cbn [mbind option_bind].
    assert (is_listener h0 p
            = bool_decide (ep_session_get_session_type obj = EP_SESSION_TYPE_LISTENER))
      as Hlis.
    { unfold is_listener. rewrite <- (Hheap i p), Hobj; done. }
    destruct (bool_decide (ep_session_get_session_type obj = EP_SESSION_TYPE_LISTENER))
      eqn:Etype; cbn [negb].
    { apply IH; [lia|done..| |].
      - rewrite Hnext, Hs, (drop_S _ _ _ Hp), Hlis. done.
      - intros j q Hj. apply Hheap. lia. }
    assert (registered p t) as Hr.
    { exists i. split; [lia|]. by apply load_session_lookup. }
    destruct (disable_helper_registered o p t Hwf Hmask Hp0 Hr)
      as (session & t1 & Hsess & _ & Hd & Hwf1 & Hmask1 & Hs1 & _ & _ & Hst1 & Hct1
          & Hde1 & Hdd1 & Hh1 & _).
    rewrite Hobj in Hsess. injection Hsess as <-. rewrite Hidx in Hs1.
    unfold ep_disable. rewrite Hct. cbn [negb andb]. rewrite Hd.
    cbn [mbind option_bind].
    destruct (IH (S i) t1) as (t' & Hsd & Hwf' & Hmask' & Hs' & Hst' & Hct' & Hde' & Hdd');
      [lia|done|done|congruence| | |].
    + rewrite Hs1, Hs, Hnext, Hlis, (drop_S _ _ _ Hp).
      rewrite insert_app_r_alt by lia. by rewrite Hpre, Nat.sub_diag.
    + intros j q Hj Hq Hq0. rewrite Hh1; [apply (Hheap j); [lia|done..]|].
      intros ->.
      assert (_ep_sessions t !! j = Some p) as Hslotj.
      { rewrite Hs, lookup_app_r by lia. rewrite Hpre, lookup_drop.
        by replace (i + (j - i))%nat with j by lia. }
      destruct (wf_slot _ Hwf _ _ Hslotj Hp0) as (obj' & Hobj' & Hidx').
      rewrite Hobj in Hobj'. injection Hobj' as <-. lia.
    + exists t'. rewrite Hsd, Hst', Hde', Hdd'. done.
Qed.

(** Before threads may run and with no suspended port, every disable of
    the loop is deferred. *)
Lemma shutdown_sessions_deferred o :
  ∀ n i t ids,
    registry_wf t →
    _ep_can_start_threads t = false →
    ipc_stream_factory_any_suspended_ports o t = false →
    _ep_deferred_disable_session_ids t = Some ids →
    ∃ t' ids', shutdown_sessions o n i t = Some t'
               ∧ t' = set_deferred_disable_session_ids (Some (ids ++ ids')) t.
Proof.
  induction n as [|n IH]; intros i t ids Hwf Hct Hports Hq.
  - exists t, []. split; [done|]. rewrite app_nil_r. destruct t. simpl in *. by subst.
  - cbn [shutdown_sessions].
    assert (∀ ids', ∃ t' ids'',
              shutdown_sessions o n (S i)
                (set_deferred_disable_session_ids (Some (ids ++ ids')) t) = Some t'
              ∧ t' = set_deferred_disable_session_ids (Some (ids ++ ids'')) t) as Hgo.
    { intros ids'.
      destruct (IH (S i) (set_deferred_disable_session_ids (Some (ids ++ ids')) t)
                  (ids ++ ids')) as (t' & ids2 & Hsd & ->); [by apply (registry_wf_ext t)|done..|].
      exists (set_deferred_disable_session_ids (Some ((ids ++ ids') ++ ids2))
                (set_deferred_disable_session_ids (Some (ids ++ ids')) t)),
             (ids' ++ ids2).
      split; [done|]. by rewrite app_assoc. }
    assert (set_deferred_disable_session_ids (Some (ids ++ [])) t = t) as Hid.
    { rewrite app_nil_r. destruct t. simpl in *. by subst. }
    destruct (ep_volatile_load_session i t =? 0) eqn:E0; cbn [negb mbind option_bind].
    { destruct (Hgo []) as (t' & ids' & Hsd & ->). rewrite Hid in Hsd. by eexists _, ids'. }
    apply Z.eqb_neq in E0.
    destruct (decide (i < length (_ep_sessions t))%nat) as [Hi|Hi].
    2: { rewrite load_session_out in E0 by lia. done. }
    destruct (wf_slot _ Hwf i _ (load_session_inv i t Hi) E0) as (obj & -> & _).
    cbn [mbind option_bind].
    destruct (negb (bool_decide _)).
    + unfold ep_disable. rewrite Hct, Hports, Hq. cbn [negb andb mbind option_bind].
      destruct (Hgo [ep_volatile_load_session i t]) as (t' & ids' & Hsd & ->).
      by eexists _, ids'.
    + destruct (Hgo []) as (t' & ids' & Hsd & ->). rewrite Hid in Hsd. by eexists _, ids'.
Qed.

End ShutdownFacts.

(** X15. ep_shutdown of a running engine disables every session except
    the listeners: from the state EP_STATE_INITIALIZED, with threads
    allowed to run, it moves to EP_STATE_SHUTTING_DOWN, tears down each
    registered session whose type is not EP_SESSION_TYPE_LISTENER, leaves
    the listener sessions in their slots, keeps registry and mask well
    formed, frees the checkpoint list and both deferred queues and ends in
    ep_rt_shutdown. In any other state, or when the process is detaching,
    it returns at once and changes nothing. *)
Theorem ep_shutdown_spares_listeners {rt : Runtime} (o : Oracle) (s : EventPipe) :
  registry_wf s → allow_write_wf s →
  _ep_state s = EP_STATE_INITIALIZED →
  _ep_can_start_threads s = true →
  (∃ s', ep_shutdown o false s = Some (true, s')
         ∧ _ep_state s' = EP_STATE_SHUTTING_DOWN
         ∧ _ep_sessions s'
           = (λ p, if is_listener (heap s) p then p else 0) <$> _ep_sessions s
         ∧ registry_wf s' ∧ allow_write_wf s'
         ∧ _ep_rundown_execution_checkpoints s' = None
         ∧ _ep_deferred_enable_session_ids s' = None
         ∧ _ep_deferred_disable_session_ids s' = None)
  ∧ ep_shutdown o true s = Some (false, s)
  ∧ ∀ detach t, _ep_state t ≠ EP_STATE_INITIALIZED →
      ep_shutdown o detach t = Some (false, t).
Proof.
  intros Hwf Hmask Hst Hct. split; [|split].
  - unfold ep_shutdown. rewrite Hst.
    rewrite bool_decide_eq_false_2 by done.
    rewrite bool_decide_eq_true_2 by done. cbn [negb].
    set (s1 := set_state EP_STATE_SHUTTING_DOWN s).
    destruct (shutdown_sessions_spec o (heap s) (_ep_sessions s) (wf_length _ Hwf)
                EP_MAX_NUMBER_OF_SESSIONS 0 s1)
      as (t' & Hsd & Hwf' & Hmask' & Hs' & Hst' & _);
      [done|by apply (registry_wf_ext s)|by apply (allow_write_wf_ext s)|done|done|done|].
    rewrite Hsd. cbn [mbind option_bind]. eexists. split; [reflexivity|].
    split; [by destruct (is_null _)|].
    split; [by destruct (is_null _)|].
    split; [destruct (is_null _); by apply (registry_wf_ext t')|].
    split; [destruct (is_null _); by apply (allow_write_wf_ext t')|].
    split; [|done].
    destruct (_ep_rundown_execution_checkpoints t') eqn:E; simpl; done.
  - unfold ep_shutdown. rewrite Hst. by rewrite bool_decide_eq_false_2.
  - intros detach t Ht. unfold ep_shutdown.
    case_bool_decide; [done|]. destruct detach; [done|].
    by rewrite bool_decide_eq_false_2.
Qed.

Lemma ep_shutdown_spares_listeners_witness :
  @registry_wf coreclr running ∧ allow_write_wf running
  ∧ _ep_state running = EP_STATE_INITIALIZED
  ∧ _ep_can_start_threads running = true
  ∧ ∃ s', @ep_shutdown coreclr (quiet_oracle 0) false running = Some (true, s')
          ∧ ep_volatile_load_session 0 s' = 1000.
Proof.
  split; [exact registry_wf_running|]. split; [exact allow_write_wf_running|].
  split; [reflexivity|]. split; [reflexivity|].
  destruct (proj1 (@ep_shutdown_spares_listeners coreclr (quiet_oracle 0) running
              registry_wf_running allow_write_wf_running eq_refl eq_refl))
    as (s' & Hsd & _ & Hs & _).
  exists s'. split; [exact Hsd|].
  unfold ep_volatile_load_session. rewrite Hs. by vm_compute.
Defined.

(** X16. ep_shutdown before ep_finish_init tears no session down: while
    _ep_can_start_threads is unset and no diagnostic port is reported
    suspended, every ep_disable of the shutdown loop only queues the id,
    and the queue is freed right after; the slots, the mask, the session
    count and the session objects are what they were, only the state is
    EP_STATE_SHUTTING_DOWN and the queues and the checkpoint list are
    gone. *)
Theorem ep_shutdown_before_finish_init {rt : Runtime} (o : Oracle) (s : EventPipe) :
  registry_wf s →
  _ep_state s = EP_STATE_INITIALIZED →
  _ep_can_start_threads s = false →
  ipc_stream_factory_any_suspended_ports o s = false →
  is_Some (_ep_deferred_disable_session_ids s) →
  ∃ s', ep_shutdown o false s = Some (true, s')
        ∧ _ep_state s' = EP_STATE_SHUTTING_DOWN
        ∧ _ep_sessions s' = _ep_sessions s
        ∧ _ep_allow_write s' = _ep_allow_write s
        ∧ _ep_number_of_sessions s' = _ep_number_of_sessions s
        ∧ heap s' = heap s
        ∧ trace s' = trace s
        ∧ _ep_rundown_execution_checkpoints s' = None
        ∧ _ep_deferred_enable_session_ids s' = None
        ∧ _ep_deferred_disable_session_ids s' = None.
Proof.
  intros Hwf Hst Hct Hports [ids Hq]. unfold ep_shutdown. rewrite Hst.
  rewrite bool_decide_eq_false_2 by done.
  rewrite bool_decide_eq_true_2 by done. cbn [negb].
  destruct (shutdown_sessions_deferred o EP_MAX_NUMBER_OF_SESSIONS 0
              (set_state EP_STATE_SHUTTING_DOWN s) ids)
    as (t' & ids' & Hsd & ->); [by apply (registry_wf_ext s)|done..|].
  rewrite Hsd. cbn [mbind option_bind]. eexists. split; [reflexivity|].
  simpl. destruct (_ep_rundown_execution_checkpoints s) eqn:E; simpl; rewrite ?E;
    repeat split; done.
Qed.

Lemma ep_shutdown_before_finish_init_witness :
  @registry_wf coreclr one_session
  ∧ _ep_state one_session = EP_STATE_INITIALIZED
  ∧ _ep_can_start_threads one_session = false
  ∧ ∃ s', @ep_shutdown coreclr (quiet_oracle 0) false one_session = Some (true, s')
          ∧ _ep_sessions s' = _ep_sessions one_session.
Proof.
  split; [exact registry_wf_one_session|]. split; [reflexivity|].
  split; [reflexivity|].
  destruct (@ep_shutdown_before_finish_init coreclr (quiet_oracle 0) one_session
              registry_wf_one_session eq_refl eq_refl eq_refl
              ltac:(eexists; reflexivity))
    as (s' & Hsd & _ & Hs & _).
  exists s'. auto.
Defined.
(** Membership of an event in an explicit list of events. *)
Ltac in_list H :=
  repeat (apply elem_of_cons in H as [H|H];
          [first [discriminate H | by injection H as -> | by injection H]|]);
  by apply elem_of_nil in H.

(** X17. A checkpoint that ep_add_rundown_execution_checkpoint has
    appended is handed to the rundown of a session that is disabled later:
    the call appends (name, timestamp) at the end of the checkpoint list
    and reports true, and disable_holding_lock then passes the list with
    the new checkpoint last to ep_session_execute_rundown, provided the
    session has a rundown keyword, threads may run and the rundown thread
    is obtained. If the checkpoint object or the room in the list cannot
    be allocated, the call reports false and changes nothing. *)
Theorem ep_add_rundown_execution_checkpoint_reaches_rundown {rt : Runtime}
    (o : Oracle) (allocated pushed : bool) (name : option string) (timestamp : Z)
    (id : Z) (s : EventPipe) (checkpoints : list EventPipeExecutionCheckpoint) :
  registry_wf s → id ≠ 0 → registered id s →
  _ep_rundown_execution_checkpoints s = Some checkpoints →
  let r := ep_add_rundown_execution_checkpoint allocated pushed name timestamp s in
  let added :=
    checkpoints ++ [{| checkpoint_name := name; checkpoint_timestamp := timestamp |}] in
  (allocated && pushed = false → r = Some (false, s))
  ∧ (allocated && pushed = true →
     ∃ s1 session q s2,
       r = Some (true, s1)
       ∧ _ep_rundown_execution_checkpoints s1 = Some added
       ∧ same_globals s (set_rundown_execution_checkpoints (Some checkpoints) s1)
       ∧ heap s !! id = Some session
       ∧ disable_holding_lock o id [] s1 = Some (q, s2)
       ∧ (ep_session_get_rundown_keyword session ≠ 0 →
          _ep_can_start_threads s = true →
          ep_thread_get_or_create_result o ≠ 0 →
          Call_ep_session_execute_rundown id (Some added) ∈ trace s2)
       ∧ ∀ other,
           Call_ep_session_execute_rundown id other ∈ trace s2 →
           Call_ep_session_execute_rundown id other ∈ trace s ∨ other = Some added).
Proof.
  intros Hwf Hid Hr Hck r added. unfold r, ep_add_rundown_execution_checkpoint.
  split.
  { intros Hfail. unfold ep_execution_checkpoint_alloc.
    destruct allocated; [|done]. simpl in Hfail. subst pushed.
    by rewrite Hck. }
  intros [-> ->]%andb_true_iff. cbn [ep_execution_checkpoint_alloc].
  rewrite Hck. cbn [mbind option_bind].
  set (s1 := set_rundown_execution_checkpoints _ s).
  assert (registry_wf s1) as Hwf1 by (by apply (registry_wf_ext s)).
  assert (registered id s1) as Hr1 by (by apply (registered_ext id s)).
  destruct (disable_holding_lock_registered o id [] s1 Hwf1 Hid Hr1)
    as (session & q & s2 & Hsess & _ & Hd & Ht & _).
  exists s1, session, q, s2. split; [done|]. split; [done|].
  split. { unfold same_globals. simpl. rewrite Hck. by repeat split. }
  split; [exact Hsess|]. split; [exact Hd|].
  assert (_ep_rundown_execution_checkpoints s1 = Some added) as Hck1 by done.
  assert (trace s1 = trace s) as Ht1 by done.
  assert (_ep_can_start_threads s1 = _ep_can_start_threads s) as Hct1 by done.
  rewrite Hck1, Ht1, Hct1 in Ht. clearbody s1. rewrite Ht. split.
  - intros Hkw Hct Hthread. rewrite Hct.
    rewrite (proj2 (Z.eqb_neq _ _) Hkw). cbn [negb andb].
    apply elem_of_app. right. apply elem_of_app. right. apply elem_of_app. right.
    apply elem_of_app. left. unfold rundown_events.
    rewrite (proj2 (Z.eqb_neq _ _) Hthread). cbn [negb].
    apply elem_of_app. right.
    apply list_elem_of_further, list_elem_of_further, list_elem_of_here.
  - intros other Hin.
    apply elem_of_app in Hin as [Hin|Hin]; [by left|]. right.
    apply elem_of_app in Hin as [Hin|Hin].
    { destruct (session_requested_sampling session); in_list Hin. }
    apply elem_of_app in Hin as [Hin|Hin]; [in_list Hin|].
    apply elem_of_app in Hin as [Hin|Hin]; [|in_list Hin].
    destruct (_ && _); [|in_list Hin]. unfold rundown_events in Hin.
    apply elem_of_app in Hin as [Hin|Hin]; [in_list Hin|].
    destruct (negb _); in_list Hin.
Qed.

Lemma ep_add_rundown_execution_checkpoint_reaches_rundown_witness :
  @registry_wf coreclr running ∧ 1000 ≠ 0 ∧ @registered coreclr 1000 running
  ∧ _ep_rundown_execution_checkpoints running = Some []
  ∧ ∃ s1, @ep_add_rundown_execution_checkpoint (true) (true) (Some "start") 100 running
          = Some (true, s1)
          ∧ _ep_rundown_execution_checkpoints s1
            = Some [{| checkpoint_name := Some "start"; checkpoint_timestamp := 100 |}].
Proof.
  split; [exact registry_wf_running|]. split; [discriminate|].
  split; [exact registered_running|]. split; [reflexivity|].
  destruct (proj2 (@ep_add_rundown_execution_checkpoint_reaches_rundown coreclr
              (quiet_oracle 0) true true (Some "start") 100 1000 running []
              registry_wf_running ltac:(discriminate) registered_running eq_refl)
              eq_refl)
    as (s1 & _ & _ & _ & Hr & Hck & _).
  exists s1. auto.
Defined.

(** X18. ep_enabled tells whether a session is registered: on a
    well-formed registry it answers true exactly when the engine is
    initialised (or shutting down) and some slot holds a session, and it
    agrees with the test that [enabled] makes under the lock. *)
Theorem ep_enabled_tells_registered_session {rt : Runtime} (s : EventPipe) :
  registry_wf s →
  (ep_enabled s = true
   ↔ _ep_state s ≠ EP_STATE_NOT_INITIALIZED ∧ ∃ p, p ≠ 0 ∧ registered p s)
  ∧ ep_enabled s = enabled s.
Proof.
  intros Hwf. split; [|done]. unfold ep_enabled.
  rewrite andb_true_iff, Z.ltb_lt. split.
  - intros [Hst Hn]. split; [by destruct (_ep_state s)|].
    rewrite (wf_count _ Hwf) in Hn. unfold live_sessions in Hn.
    destruct (filter (λ p : Z, p ≠ 0%Z) (_ep_sessions s)) as [|p l] eqn:E;
      [simpl in Hn; lia|].
    assert (p ∈ filter (λ p : Z, p ≠ 0%Z) (_ep_sessions s)) as Hin
      by (rewrite E; apply list_elem_of_here).
    apply list_elem_of_filter in Hin as [Hp Hin].
    apply list_elem_of_lookup_1 in Hin as [i Hi].
    exists p. split; [done|].
    apply (registered_lookup _ _ (wf_length _ Hwf)). by exists i.
  - intros [Hst (p & Hp & Hr)]. split; [by destruct (_ep_state s)|].
    by apply (registered_count_positive p).
Qed.

Lemma ep_enabled_tells_registered_session_witness :
  @registry_wf coreclr running ∧ @ep_enabled running = true.
Proof.
  split; [exact registry_wf_running|].
  apply (proj1 (@ep_enabled_tells_registered_session coreclr running
                  registry_wf_running)).
  split; [discriminate|]. exists 1000. split; [discriminate|].
  exact registered_running.
Defined.
Section FinishInitFacts.
Context {rt : Runtime}.
Implicit Type s : EventPipe.

Lemma start_deferred_sessions_globals ids s :
  same_globals s (start_deferred_sessions ids s)
  ∧ heap (start_deferred_sessions ids s) = heap s.
Proof.
  unfold start_deferred_sessions. revert s.
  induction ids as [|id ids IH]; intros s; [split; [apply same_globals_refl|done]|].
  cbn [foldl].
  destruct (is_session_id_in_collection_spec id s) as [_ [Hg Hh]].
  assert (heap (is_session_id_in_collection id s).2 = heap s) as Hh'.
  { unfold is_session_id_in_collection.
    destruct (find_session_from _ _ _ _); simpl; by rewrite ?heap_assert. }
  destruct (is_session_id_in_collection id s) as [found s0]. simpl in *.
  set (s1 := if found then _ else _).
  assert (same_globals s s1 ∧ heap s1 = heap s) as [Hg1 Hh1].
  { unfold s1. destruct found; [|done].
    split; [eapply same_globals_trans; [exact Hg|apply same_globals_log]|done]. }
  destruct (IH s1) as [Hg2 Hh2].
  split; [by eapply same_globals_trans|congruence].
Qed.

Lemma disable_deferred_sessions_engine o ids s :
  registry_wf s → allow_write_wf s →
  ∃ s', disable_deferred_sessions o ids s = Some s'
        ∧ registry_wf s' ∧ allow_write_wf s'
        ∧ _ep_state s' = _ep_state s
        ∧ _ep_can_start_threads s' = _ep_can_start_threads s
        ∧ _ep_deferred_enable_session_ids s' = _ep_deferred_enable_session_ids s
        ∧ _ep_deferred_disable_session_ids s' = _ep_deferred_disable_session_ids s.
Proof.
  revert s. induction ids as [|id ids IH]; intros s Hwf Hmask.
  - exists s. done.
  - rewrite disable_deferred_sessions_cons.
    destruct (disable_helper_engine o id s Hwf Hmask)
      as (s1 & -> & Hwf1 & Hmask1 & Hst & Hct & Hde & Hdd).
    cbn [mbind option_bind].
    destruct (IH s1 Hwf1 Hmask1) as (s' & -> & Hwf' & Hmask' & Hst' & Hct' & Hde' & Hdd').
    exists s'. rewrite Hst', Hct', Hde', Hdd'. done.
Qed.

End FinishInitFacts.

(** X19. ep_finish_init keeps the registry and the mask well formed
    and is harmless when repeated: it sets _ep_can_start_threads, leaves
    the state alone and, on an initialised engine, leaves both deferred
    queues empty; a second call then replays nothing and changes no
    global, its only calls being ep_rt_init_finish and
    ep_sample_profiler_can_start_sampling. *)
Theorem ep_finish_init_keeps_registry {rt : Runtime} (o o' : Oracle) (s : EventPipe) :
  registry_wf s → allow_write_wf s →
  ∃ s1, ep_finish_init o s = Some s1
        ∧ registry_wf s1 ∧ allow_write_wf s1
        ∧ _ep_can_start_threads s1 = true
        ∧ _ep_state s1 = _ep_state s
        ∧ (_ep_state s = EP_STATE_INITIALIZED →
           is_Some (_ep_deferred_enable_session_ids s) →
           is_Some (_ep_deferred_disable_session_ids s) →
           _ep_deferred_enable_session_ids s1 = Some []
           ∧ _ep_deferred_disable_session_ids s1 = Some []
           ∧ ∃ s2, ep_finish_init o' s1 = Some s2
                   ∧ same_globals s1 s2
                   ∧ heap s2 = heap s1
                   ∧ trace s2 = trace s1
                       ++ [Call_ep_rt_init_finish;
                           Call_ep_sample_profiler_can_start_sampling]).
Proof.
  intros Hwf Hmask. unfold ep_finish_init at 1.
  set (sa := set_can_start_threads true (log Call_ep_rt_init_finish s)).
  assert (registry_wf sa) as Hwfa by (by apply (registry_wf_ext s)).
  assert (allow_write_wf sa) as Hmaska by (by apply (allow_write_wf_ext s)).
  assert (_ep_state sa = _ep_state s) as Hsta by done.
  assert (_ep_can_start_threads sa = true) as Hcta by done.
  assert (_ep_deferred_enable_session_ids sa = _ep_deferred_enable_session_ids s)
    as Hdea by done.
  assert (_ep_deferred_disable_session_ids sa = _ep_deferred_disable_session_ids s)
    as Hdda by done.
  clearbody sa.
  set (sb := if bool_decide (_ep_state sa = EP_STATE_INITIALIZED) then _ else sa).
  assert (registry_wf sb ∧ allow_write_wf sb ∧ _ep_state sb = _ep_state s
          ∧ _ep_can_start_threads sb = true
          ∧ _ep_deferred_disable_session_ids sb = _ep_deferred_disable_session_ids s
          ∧ (_ep_state s = EP_STATE_INITIALIZED →
             is_Some (_ep_deferred_enable_session_ids s) →
             _ep_deferred_enable_session_ids sb = Some []))
    as (Hwfb & Hmaskb & Hstb & Hctb & Hddb & Hdeb).
  { unfold sb. case_bool_decide as Hi.
    - destruct (_ep_deferred_enable_session_ids sa) as [ids|] eqn:Eq.
      + destruct (start_deferred_sessions_globals ids sa)
          as [(Hst & Hn & Hs & Ha & Hct & Hde & Hdd & _) Hh].
        split; [by apply (registry_wf_ext sa)|].
        split; [by apply (allow_write_wf_ext sa)|].
        cbn. rewrite Hst, Hct, Hdd. done.
      + do 5 (split; [done|]). intros _ [ids Hq]. congruence.
    - do 5 (split; [done|]). intros Hi'. congruence. }
  clearbody sb.
  set (sc := log Call_ep_sample_profiler_can_start_sampling sb).
  assert (registry_wf sc) as Hwfc by (by apply (registry_wf_ext sb)).
  assert (allow_write_wf sc) as Hmaskc by (by apply (allow_write_wf_ext sb)).
  assert (_ep_state sc = _ep_state s) as Hstc by done.
  assert (_ep_can_start_threads sc = true) as Hctc by done.
  assert (_ep_deferred_disable_session_ids sc = _ep_deferred_disable_session_ids s)
    as Hddc by done.
  assert (_ep_deferred_enable_session_ids sc = _ep_deferred_enable_session_ids sb)
    as Hdec by done.
  clearbody sc.
  assert (∀ s1, _ep_can_start_threads s1 = true →
                _ep_state s1 = EP_STATE_INITIALIZED →
                _ep_deferred_enable_session_ids s1 = Some [] →
                _ep_deferred_disable_session_ids s1 = Some [] →
                ∃ s2, ep_finish_init o' s1 = Some s2
                      ∧ same_globals s1 s2 ∧ heap s2 = heap s1
                      ∧ trace s2 = trace s1
                          ++ [Call_ep_rt_init_finish;
                              Call_ep_sample_profiler_can_start_sampling]) as Hagain.
  { intros s1 Hct1 Hst1 Hde1 Hdd1. unfold ep_finish_init.
    set (t1 := set_can_start_threads true (log Call_ep_rt_init_finish s1)).
    assert (bool_decide (_ep_state t1 = EP_STATE_INITIALIZED) = true) as ->
      by (by apply bool_decide_eq_true_2).
    assert (_ep_deferred_enable_session_ids t1 = Some []) as -> by exact Hde1.
    cbn [start_deferred_sessions foldl].
    set (t2 := log Call_ep_sample_profiler_can_start_sampling _).
    assert (bool_decide (_ep_state t2 = EP_STATE_INITIALIZED) = true) as ->
      by (by apply bool_decide_eq_true_2).
    assert (_ep_deferred_disable_session_ids t2 = Some []) as -> by exact Hdd1.
    cbn [disable_deferred_sessions foldl mbind option_bind].
    eexists. split; [reflexivity|]. cbn.
    split; [unfold same_globals; cbn; by rewrite Hct1, Hde1, Hdd1|].
    split; [done|]. by rewrite <- app_assoc. }
  case_bool_decide as Hi.
  - destruct (_ep_deferred_disable_session_ids sc) as [ids|] eqn:Eq.
    + destruct (disable_deferred_sessions_engine o ids sc Hwfc Hmaskc)
        as (sd & -> & Hwfd & Hmaskd & Hstd & Hctd & Hded & Hddd).
      cbn [mbind option_bind]. eexists. split; [reflexivity|].
      split; [by apply (registry_wf_ext sd)|].
      split; [by apply (allow_write_wf_ext sd)|].
      split; [cbn; congruence|]. split; [cbn; congruence|].
      intros Hst He Hd.
      assert (_ep_deferred_enable_session_ids sd = Some []) as Hde'.
      { rewrite Hded, Hdec. by apply Hdeb. }
      split; [exact Hde'|]. split; [done|].
      apply Hagain; cbn; congruence.
    + exists sc. split; [done|]. split; [done|]. split; [done|].
      split; [done|]. split; [done|].
      intros _ _ [ids Hq]. congruence.
  - exists sc. split; [done|]. split; [done|]. split; [done|].
    split; [done|]. split; [done|]. intros Hi'. congruence.
Qed.

Lemma ep_finish_init_keeps_registry_witness :
  @registry_wf coreclr one_session ∧ allow_write_wf one_session
  ∧ ∃ s1, @ep_finish_init coreclr (quiet_oracle 0) one_session = Some s1
          ∧ @registry_wf coreclr s1 ∧ allow_write_wf s1
          ∧ _ep_can_start_threads s1 = true.
Proof.
  split; [exact registry_wf_one_session|]. split; [exact allow_write_wf_one_session|].
  destruct (@ep_finish_init_keeps_registry coreclr (quiet_oracle 0) (quiet_oracle 0)
              one_session registry_wf_one_session allow_write_wf_one_session)
    as (s1 & Hf & Hwf & Hmask & Hct & _).
  exists s1. auto.
Defined.

(** X22. A deferred start of streaming is dropped when its session is
    disabled before ep_finish_init: ep_start_streaming before threads may
    run only queues the id; if the session is then torn down (as
    ep_disable does at once while a diagnostic port is suspended),
    ep_finish_init finds the id in no slot and calls
    ep_session_start_streaming for it not at all, so the released session
    is not touched. Without the disable, ep_finish_init starts the stream
    exactly once. *)
Theorem deferred_start_of_disabled_session_is_dropped {rt : Runtime}
    (o o' : Oracle) (id : Z) (s : EventPipe) :
  registry_wf s → id ≠ 0 → registered id s →
  _ep_state s = EP_STATE_INITIALIZED →
  _ep_can_start_threads s = false →
  _ep_deferred_enable_session_ids s = Some [] →
  _ep_deferred_disable_session_ids s = Some [] →
  ∃ s1 s2 s3 s4,
    ep_start_streaming id s = Some s1
    ∧ s1 = set_deferred_enable_session_ids (Some [id]) s
    ∧ disable_helper o id s1 = Some s2
    ∧ ep_finish_init o' s2 = Some s3
    ∧ trace s3
      = trace s2 ++ [Call_ep_rt_init_finish; Call_ep_sample_profiler_can_start_sampling]
    ∧ _ep_deferred_enable_session_ids s3 = Some []
    ∧ ep_finish_init o' s1 = Some s4
    ∧ trace s4
      = trace s1 ++ [Call_ep_rt_init_finish;
                     Call_ep_session_start_streaming id;
                     Call_ep_sample_profiler_can_start_sampling].
Proof.
  intros Hwf Hid Hr Hst Hct Hde Hdd.
  pose proof (ep_start_streaming_registered id s [] Hwf Hid Hr Hde) as Hss.
  rewrite Hct in Hss. cbn [app] in Hss.
  set (s1 := set_deferred_enable_session_ids (Some [id]) s) in *.
  assert (registry_wf s1) as Hwf1 by (by apply (registry_wf_ext s)).
  assert (registered id s1) as Hr1 by (by apply (registered_ext id s)).
  destruct (disable_helper_wf o id s1 Hwf1)
    as (s2 & Hd & Hwf2 & Hnr & Hst2 & Hct2 & Hde2 & Hdd2).
  specialize (Hnr Hid).
  assert (∀ t found,
            registry_wf t → _ep_state t = EP_STATE_INITIALIZED →
            _ep_deferred_enable_session_ids t = Some [id] →
            _ep_deferred_disable_session_ids t = Some [] →
            is_session_id_in_collection id
              (set_can_start_threads true (log Call_ep_rt_init_finish t))
            = (found, set_can_start_threads true (log Call_ep_rt_init_finish t)) →
            ∃ t', ep_finish_init o' t = Some t'
                  ∧ trace t'
                    = trace t ++ [Call_ep_rt_init_finish]
                      ++ (if found then [Call_ep_session_start_streaming id] else [])
                      ++ [Call_ep_sample_profiler_can_start_sampling]
                  ∧ _ep_deferred_enable_session_ids t' = Some []) as Hfin.
  { intros t found Hwft Hstt Hdet Hddt Hfound. unfold ep_finish_init.
    set (ta := set_can_start_threads true (log Call_ep_rt_init_finish t)) in *.
    assert (bool_decide (_ep_state ta = EP_STATE_INITIALIZED) = true) as ->
      by (by apply bool_decide_eq_true_2).
    assert (_ep_deferred_enable_session_ids ta = Some [id]) as -> by exact Hdet.
    cbn [start_deferred_sessions foldl]. rewrite Hfound.
    set (tb := log Call_ep_sample_profiler_can_start_sampling _).
    assert (bool_decide (_ep_state tb = EP_STATE_INITIALIZED) = true) as ->.
    { apply bool_decide_eq_true_2. unfold tb. by destruct found. }
    assert (_ep_deferred_disable_session_ids tb = Some []) as ->.
    { unfold tb. by destruct found. }
    cbn [disable_deferred_sessions foldl mbind option_bind].
    eexists. split; [reflexivity|]. unfold tb.
    destruct found; cbn; rewrite <- !app_assoc; done. }
  destruct (Hfin s2 false Hwf2) as (s3 & Hf3 & Ht3 & Hde3).
  { rewrite Hst2. exact Hst. }
  { rewrite Hde2. reflexivity. }
  { rewrite Hdd2. exact Hdd. }
  { apply is_session_id_in_collection_unregistered; [done|].
    intros Hr'. apply Hnr. by apply (registered_ext id _ s2) in Hr'. }
  destruct (Hfin s1 true Hwf1) as (s4 & Hf4 & Ht4 & Hde4).
  { exact Hst. }
  { reflexivity. }
  { exact Hdd. }
  { apply is_session_id_in_collection_registered; [|done|].
    - by apply (registry_wf_ext s1).
    - by apply (registered_ext id s1). }
  exists s1, s2, s3, s4. done.
Qed.

Lemma deferred_start_of_disabled_session_is_dropped_witness :
  @registry_wf coreclr one_session
  ∧ @registered coreclr 1000 one_session
  ∧ _ep_can_start_threads one_session = false
  ∧ ∃ s1, @ep_start_streaming coreclr 1000 one_session = Some s1
          ∧ _ep_deferred_enable_session_ids s1 = Some [1000].
Proof.
  assert (@registered coreclr 1000 one_session) as Hr.
  { exists 0%nat. split; [vm_compute; lia|by vm_compute]. }
  split; [exact registry_wf_one_session|].
  split; [exact Hr|]. split; [reflexivity|].
  destruct (@deferred_start_of_disabled_session_is_dropped coreclr (quiet_oracle 0)
              (quiet_oracle 0) 1000 one_session registry_wf_one_session
              ltac:(discriminate) Hr eq_refl eq_refl
              eq_refl eq_refl)
    as (s1 & _ & _ & _ & Hss & -> & _).
  exists (set_deferred_enable_session_ids (Some [1000]) one_session).
  split; [exact Hss|reflexivity].
Defined.
(** ** The queue of provider callbacks *)

Section CallbackQueueFacts.
Import ProviderCallback.

Lemma queue_wf_lookup st contents i p :
  queue_wf st contents → queue st !! i = Some p →
  ∃ d, contents !! i = Some d ∧ objects st !! p = Some d.
Proof.
  intros (_ & _ & Hc) Hp.
  apply (f_equal (λ l, l !! i)) in Hc. rewrite !list_lookup_fmap, Hp in Hc.
  simpl in Hc. destruct (contents !! i) as [d|]; [|done].
  exists d. split; [done|]. by injection Hc.
Qed.

Lemma queue_wf_length st contents :
  queue_wf st contents → length (queue st) = length contents.
Proof.
  intros (_ & _ & Hc). apply (f_equal length) in Hc. by rewrite !length_fmap in Hc.
Qed.

Lemma queue_wf_allocated st contents p :
  queue_wf st contents → p ∈ queue st → is_Some (objects st !! p).
Proof.
  intros Hwf Hin. apply list_elem_of_lookup_1 in Hin as [i Hi].
  destruct (queue_wf_lookup _ _ _ _ Hwf Hi) as (d & _ & ->). by eexists.
Qed.

Lemma enqueue_wf st contents instance d :
  queue_wf st contents → instance ≠ 0 → objects st !! instance = None →
  ep_provider_callback_data_queue_enqueue instance true d st
  = (true, zeroed, {| queue := queue st ++ [instance];
                      objects := <[instance := d]> (objects st) |})
  ∧ queue_wf {| queue := queue st ++ [instance];
                objects := <[instance := d]> (objects st) |} (contents ++ [d]).
Proof.
  intros Hwf Hi Hfresh.
  unfold ep_provider_callback_data_queue_enqueue, ep_provider_callback_data_alloc_move.
  rewrite (proj2 (Z.eqb_neq _ _) Hi). cbn. rewrite (proj2 (Z.eqb_neq _ _) Hi).
  split; [done|].
  pose proof Hwf as (Hnd & H0 & Hc).
  assert (instance ∉ queue st) as Hni.
  { intros Hin. destruct (queue_wf_allocated _ _ _ Hwf Hin) as [x Hx]. congruence. }
  split; [|split]; cbn.
  - apply NoDup_app. split; [done|]. split; [|apply NoDup_singleton].
    intros x Hx Hx'. apply list_elem_of_singleton in Hx'. by subst.
  - intros Hin. apply elem_of_app in Hin as [Hin|Hin]; [done|].
    apply list_elem_of_singleton in Hin. done.
  - rewrite !fmap_app. cbn. rewrite lookup_insert_eq. f_equal.
    rewrite <- Hc. apply list_fmap_ext. intros i p Hp.
    rewrite lookup_insert_ne; [done|]. intros ->.
    apply Hni. by eapply list_elem_of_lookup_2.
Qed.

Lemma try_dequeue_wf st d contents dst :
  queue_wf st (d :: contents) →
  ∃ value rest,
    queue st = value :: rest
    ∧ ep_provider_callback_data_queue_try_dequeue dst st
      = Some (true, d, {| queue := rest; objects := delete value (objects st) |})
    ∧ queue_wf {| queue := rest; objects := delete value (objects st) |} contents.
Proof.
  intros Hwf. pose proof Hwf as (Hnd & H0 & Hc).
  destruct (queue st) as [|value rest] eqn:Eq; [done|].
  exists value, rest. split; [done|].
  assert (value ≠ 0) as Hv.
  { intros ->. apply H0. apply list_elem_of_here. }
  assert (objects st !! value = Some d) as Hd.
  { cbn in Hc. by injection Hc. }
  split.
  - unfold ep_provider_callback_data_queue_try_dequeue. rewrite Eq.
    rewrite (proj2 (Z.eqb_neq _ _) Hv). cbn. rewrite Hd. cbn.
    unfold ep_provider_callback_data_free. rewrite (proj2 (Z.eqb_neq _ _) Hv). cbn.
    by rewrite delete_insert_eq.
  - apply NoDup_cons in Hnd as [Hnv Hnd].
    split; [done|]. split; cbn.
    + intros Hin. apply H0. by apply list_elem_of_further.
    + cbn in Hc. injection Hc as _ Hc. rewrite <- Hc.
      apply list_fmap_ext. intros i p Hp. rewrite lookup_delete_ne; [done|].
      intros <-. apply Hnv. by eapply list_elem_of_lookup_2.
Qed.

Lemma try_dequeue_empty st dst :
  queue_wf st [] →
  ep_provider_callback_data_queue_try_dequeue dst st = Some (false, dst, st).
Proof.
  intros Hwf. pose proof (queue_wf_length _ _ Hwf) as Hl.
  unfold ep_provider_callback_data_queue_try_dequeue.
  by destruct (queue st).
Qed.

Lemma drain_wf fuel dst st contents :
  queue_wf st contents → (length contents < fuel)%nat →
  ∃ st', drain fuel dst st = Some (contents, st')
         ∧ queue st' = []
         ∧ (∀ p, p ∈ queue st → objects st' !! p = None)
         ∧ (∀ p, p ∉ queue st → objects st' !! p = objects st !! p).
Proof.
  revert dst st contents. induction fuel as [|fuel IH]; intros dst st contents Hwf Hlen;
    [lia|].
  destruct contents as [|d contents].
  - exists st. cbn [drain]. rewrite (try_dequeue_empty _ _ Hwf).
    pose proof (queue_wf_length _ _ Hwf) as Hl.
    destruct (queue st) eqn:E; [|done].
    split; [done|]. split; [done|]. split; [|done].
    intros p Hp. by apply elem_of_nil in Hp.
  - destruct (try_dequeue_wf st d contents dst Hwf) as (value & rest & Eq & Hd & Hwf').
    cbn [drain]. rewrite Hd.
    destruct (IH d _ contents Hwf' ltac:(simpl in Hlen; lia))
      as (st' & -> & Hq & Hfreed & Hkept).
    exists st'. split; [done|]. split; [done|]. cbn in Hfreed, Hkept.
    pose proof Hwf as (Hnd & _). rewrite Eq in Hnd. apply NoDup_cons in Hnd as [Hnv _].
    rewrite Eq. split.
    + intros p Hp. apply elem_of_cons in Hp as [->|Hp]; [|by apply Hfreed].
      rewrite Hkept by done. apply lookup_delete_eq.
    + intros p Hp. rewrite Hkept.
      * apply lookup_delete_ne. intros <-. apply Hp, list_elem_of_here.
      * intros Hin. apply Hp. by apply list_elem_of_further.
Qed.

End CallbackQueueFacts.

(** X20. The callback queue is first in, first out and moves ownership:
    ep_provider_callback_data_queue_enqueue moves the caller's record
    into a new heap object at the tail of the queue and leaves the
    caller's copy zeroed, so the filter string has one owner; the
    dequeue loop then hands out the records that were queued before,
    followed by the new one, in the order of their enqueue, frees every
    queued object and leaves the queue empty and the other objects
    untouched. *)
Theorem callback_queue_first_in_first_out
    (st : ProviderCallback.State)
    (contents : list ProviderCallback.EventPipeProviderCallbackData)
    (instance : Z) (d dst : ProviderCallback.EventPipeProviderCallbackData) :
  ProviderCallback.queue_wf st contents →
  instance ≠ 0 →
  ProviderCallback.objects st !! instance = None →
  let r := ProviderCallback.ep_provider_callback_data_queue_enqueue instance true d st in
  r.1.1 = true
  ∧ r.1.2 = ProviderCallback.zeroed
  ∧ ProviderCallback.queue r.2 = ProviderCallback.queue st ++ [instance]
  ∧ ProviderCallback.objects r.2 !! instance = Some d
  ∧ ∃ st', ProviderCallback.drain (S (S (length contents))) dst r.2
           = Some (contents ++ [d], st')
           ∧ ProviderCallback.queue st' = []
           ∧ (∀ p, p ∈ ProviderCallback.queue st ∨ p = instance →
                   ProviderCallback.objects st' !! p = None)
           ∧ (∀ p, p ∉ ProviderCallback.queue st → p ≠ instance →
                   ProviderCallback.objects st' !! p
                   = ProviderCallback.objects st !! p).
Proof.
  intros Hwf Hi Hfresh r.
  destruct (enqueue_wf st contents instance d Hwf Hi Hfresh) as [Hr Hwf'].
  unfold r. rewrite Hr. cbn [fst snd].
  split; [done|]. split; [done|]. split; [done|].
  split; [cbn; apply lookup_insert_eq|].
  destruct (drain_wf (S (S (length contents))) dst _ _ Hwf')
    as (st' & Hd & Hq & Hfreed & Hkept).
  { rewrite length_app. simpl. lia. }
  exists st'. split; [exact Hd|]. split; [exact Hq|]. cbn in Hfreed, Hkept. split.
  - intros p [Hp| ->]; apply Hfreed, elem_of_app; [by left|right].
    apply list_elem_of_singleton. done.
  - intros p Hp Hne. rewrite Hkept.
    + by apply lookup_insert_ne.
    + intros Hin. apply elem_of_app in Hin as [Hin|Hin]; [done|].
      apply list_elem_of_singleton in Hin. done.
Qed.

Lemma callback_queue_first_in_first_out_witness :
  ProviderCallback.queue_wf
    {| ProviderCallback.queue := []; ProviderCallback.objects := ∅ |} []
  ∧ ∃ st', ProviderCallback.drain 2 ProviderCallback.zeroed
             (ProviderCallback.ep_provider_callback_data_queue_enqueue 500 true
                {| ProviderCallback.filter_data := Some "filter";
                   ProviderCallback.callback_function := 11;
                   ProviderCallback.callback_data := 12;
                   ProviderCallback.keywords := 16;
                   ProviderCallback.provider_level := 4;
                   ProviderCallback.enabled := true;
                   ProviderCallback.session_id := 1000;
                   ProviderCallback.provider := 13 |}
                {| ProviderCallback.queue := []; ProviderCallback.objects := ∅ |}).2
           = Some ([{| ProviderCallback.filter_data := Some "filter";
                       ProviderCallback.callback_function := 11;
                       ProviderCallback.callback_data := 12;
                       ProviderCallback.keywords := 16;
                       ProviderCallback.provider_level := 4;
                       ProviderCallback.enabled := true;
                       ProviderCallback.session_id := 1000;
                       ProviderCallback.provider := 13 |}], st')
           ∧ ProviderCallback.queue st' = [].
Proof.
  assert (ProviderCallback.queue_wf
            {| ProviderCallback.queue := []; ProviderCallback.objects := ∅ |} []) as Hwf.
  { split; [constructor|]. split; [apply not_elem_of_nil|done]. }
  split; [exact Hwf|].
  destruct (@callback_queue_first_in_first_out _ [] 500
              {| ProviderCallback.filter_data := Some "filter";
                 ProviderCallback.callback_function := 11;
                 ProviderCallback.callback_data := 12;
                 ProviderCallback.keywords := 16;
                 ProviderCallback.provider_level := 4;
                 ProviderCallback.enabled := true;
                 ProviderCallback.session_id := 1000;
                 ProviderCallback.provider := 13 |}
              ProviderCallback.zeroed Hwf ltac:(discriminate) eq_refl)
    as (_ & _ & _ & _ & st' & Hd & Hq & _).
  exists st'. split; [exact Hd|exact Hq].
Defined.

(** X21. How the callback queue fails: when no object can be allocated,
    enqueue returns false and neither the queue nor the caller's record
    changes; when dn_queue_push fails, enqueue returns false after the
    move, so the heap copy is freed again and the caller's record is left
    zeroed; try_dequeue on an empty queue returns false and leaves the
    caller's record alone; and on a queue that holds records it never
    fails but hands out the oldest one and frees its object. *)
Theorem callback_queue_failures
    (st : ProviderCallback.State)
    (contents : list ProviderCallback.EventPipeProviderCallbackData)
    (instance : Z) (pushed : bool)
    (d dst : ProviderCallback.EventPipeProviderCallbackData) :
  ProviderCallback.queue_wf st contents →
  ProviderCallback.ep_provider_callback_data_queue_enqueue 0 pushed d st
  = (false, d, st)
  ∧ (instance ≠ 0 → ProviderCallback.objects st !! instance = None →
     ProviderCallback.ep_provider_callback_data_queue_enqueue instance false d st
     = (false, ProviderCallback.zeroed, st))
  ∧ (contents = [] →
     ProviderCallback.ep_provider_callback_data_queue_try_dequeue dst st
     = Some (false, dst, st))
  ∧ (∀ oldest others, contents = oldest :: others →
     ∃ value rest,
       ProviderCallback.queue st = value :: rest
       ∧ ProviderCallback.ep_provider_callback_data_queue_try_dequeue dst st
         = Some (true, oldest,
                 {| ProviderCallback.queue := rest;
                    ProviderCallback.objects :=
                      delete value (ProviderCallback.objects st) |})
       ∧ ProviderCallback.queue_wf
           {| ProviderCallback.queue := rest;
              ProviderCallback.objects :=
                delete value (ProviderCallback.objects st) |} others).
Proof.
  intros Hwf. split; [done|]. split; [|split].
  - intros Hi Hfresh.
    unfold ProviderCallback.ep_provider_callback_data_queue_enqueue,
      ProviderCallback.ep_provider_callback_data_alloc_move,
      ProviderCallback.ep_provider_callback_data_free.
    rewrite (proj2 (Z.eqb_neq _ _) Hi). cbn. rewrite (proj2 (Z.eqb_neq _ _) Hi). cbn.
    rewrite delete_insert_id by done. by destruct st.
  - intros ->. by apply try_dequeue_empty.
  - intros oldest others ->. by apply try_dequeue_wf.
Qed.

Lemma callback_queue_failures_witness :
  ProviderCallback.queue_wf
    {| ProviderCallback.queue := []; ProviderCallback.objects := ∅ |} []
  ∧ ProviderCallback.ep_provider_callback_data_queue_try_dequeue ProviderCallback.zeroed
      {| ProviderCallback.queue := []; ProviderCallback.objects := ∅ |}
    = Some (false, ProviderCallback.zeroed,
            {| ProviderCallback.queue := []; ProviderCallback.objects := ∅ |}).
Proof.
  assert (ProviderCallback.queue_wf
            {| ProviderCallback.queue := []; ProviderCallback.objects := ∅ |} []) as Hwf.
  { split; [constructor|]. split; [apply not_elem_of_nil|done]. }
  split; [exact Hwf|].
  exact (proj1 (proj2 (proj2
    (@callback_queue_failures _ [] 0 true ProviderCallback.zeroed ProviderCallback.zeroed
       Hwf))) eq_refl).
Defined.

(** ** A writer lets go of a slot that is being disabled *)

Section ReleaseFacts.
Context {rt : Runtime}.
Import Quiescence.

Lemma releasing_mono index t n m s :
  releasing index t n s → (n ≤ m)%nat → releasing index t m s.
Proof.
  intros (Hb & w & Hw & Hn & H0) Hle. split; [done|]. exists w.
  split; [done|]. split; [lia|done].
Qed.

Lemma releasing_own_step index t n s :
  Z.of_nat index < UINT32_MAX →
  releasing index t n s → releasing index t (n - 1) (writer_step t s).
Proof.
  intros Hi (Hb & w & Hw & Hn & H0). unfold writer_step. rewrite Hw.
  assert (t < length (threads s))%nat as Hlt by by eapply lookup_lt_Some.
  assert (∀ w', (steps_to_release index w' ≤ n - 1)%nat →
                (steps_to_release index w' = 0%nat →
                 session_write_in_progress w' ≠ Z.of_nat index) →
                releasing index t (n - 1) (set_writer t w' s)) as Hset.
  { intros w' H1 H2. split; [done|]. exists w'. split; [|done].
    simpl. by apply list_lookup_insert_eq. }
  assert (∀ w', (steps_to_release index w' ≤ n - 1)%nat →
                (steps_to_release index w' = 0%nat →
                 session_write_in_progress w' ≠ Z.of_nat index) →
                ∀ a, releasing index t (n - 1) (record_access a (set_writer t w' s)))
    as Hrec.
  { intros w' H1 H2 a. destruct (Hset w' H1 H2) as (? & ? & ? & ?).
    split; [done|]. by eexists. }
  unfold steps_to_release in *. destruct w as [p m]. simpl in *.
  destruct p as [|i|i|i|i session|i]; simpl in *.
  - apply Hset; simpl; [lia|]. intros _; by apply H0.
  - destruct (EP_MAX_NUMBER_OF_SESSIONS <=? i)%nat.
    { apply Hset; simpl; [lia|]. intros _; by apply H0. }
    destruct (Z.land _ _ =? 0) eqn:E.
    { apply Hset; simpl; [lia|]. intros _; by apply H0. }
    apply Z.eqb_neq in E.
    assert (i ≠ index) by (intros ->; done).
    apply Hset; simpl; rewrite bool_decide_eq_false_2 by done; [lia|].
    intros _. by apply H0.
  - case_bool_decide as Ei.
    + subst i. apply Hset; simpl; rewrite bool_decide_eq_true_2 by done; [lia|done].
    + apply Hset; simpl; rewrite bool_decide_eq_false_2 by done; [lia|].
      intros _. lia.
  - case_bool_decide as Ei.
    + subst i. destruct (_ =? 0); apply Hset; simpl;
        rewrite bool_decide_eq_true_2 by done; (lia || done).
    + destruct (_ =? 0); apply Hset; simpl;
        rewrite bool_decide_eq_false_2 by done; (lia || (intros _; split; [by apply H0|done])).
  - case_bool_decide as Ei.
    + subst i. apply Hrec; simpl; rewrite bool_decide_eq_true_2 by done; [lia|done].
    + apply Hrec; simpl; rewrite bool_decide_eq_false_2 by done; [lia|].
      intros _; by apply H0.
  - apply Hset; simpl; [lia|]. intros _. lia.
Qed.

Lemma releasing_other_step index t t' n s :
  t' ≠ t → releasing index t n s → releasing index t n (writer_step t' s).
Proof.
  intros Hne (Hb & w & Hw & Hn & H0). unfold writer_step.
  assert (∀ w', releasing index t n (set_writer t' w' s)) as Hset.
  { intros w'. split; [done|]. exists w. split; [|done].
    simpl. by rewrite list_lookup_insert_ne. }
  destruct (threads s !! t') as [w'|]; [|by split; [|exists w]].
  destruct (pc w');
    repeat match goal with
           | |- context [if ?b then _ else _] => destruct b
           end; apply Hset.
Qed.

Lemma releasing_disabler_step target index t n s :
  releasing index t n s → releasing index t n (disabler_step target index s).
Proof.
  intros (Hb & w & Hw & Hn & H0). unfold disabler_step.
  destruct (disabler s) as [| |[|t' remaining]| | | | |]; simpl;
    try (split; [done|by exists w]).
  - split; [|by exists w]. simpl.
    rewrite <- Z.land_assoc, (Z.land_comm (_ mod _)), Z.land_assoc, Hb.
    apply Z.land_0_l.
  - destruct (threads s !! t') as [w'|]; [destruct (_ =? _)|];
      (split; [done|by exists w]).
Qed.

Lemma releasing_run target index t schedule n s :
  Z.of_nat index < UINT32_MAX →
  releasing index t n s →
  releasing index t (n - steps_of t schedule) (run target index schedule s).
Proof.
  intros Hi. revert n s. induction schedule as [|a schedule IH]; intros n s Hr.
  { simpl. by rewrite Nat.sub_0_r. }
  unfold run. cbn [foldl]. fold (run target index schedule (step target index s a)).
  destruct a as [t'|]; cbn [steps_of step].
  - case_bool_decide as Et.
    + subst t'. replace (n - (1 + steps_of t schedule))%nat
        with (n - 1 - steps_of t schedule)%nat by lia.
      apply IH. by apply releasing_own_step.
    + apply IH. by apply releasing_other_step.
  - apply IH. by apply releasing_disabler_step.
Qed.

End ReleaseFacts.

(** X24. A writer lets go of a slot that is being disabled: once the
    allow_write bit of the slot is clear, a thread in the loop of
    write_event_2 has its in-progress marker off that slot after at most
    four steps of its own, however the other writers and the disabling
    thread are interleaved with it, because it resets the marker after
    each slot and tests the bit before it sets the marker again. The wait
    of the disabling thread for that writer then ends at its next step. *)
Theorem writer_releases_marker {rt : Runtime}
    (target : Z) (index t : nat) (schedule : list Quiescence.Actor)
    (s : Quiescence.State) (w : Quiescence.Writer) :
  Z.of_nat index < UINT32_MAX →
  Z.land (Quiescence.allow_write s) (Z.shiftl 1 (Z.of_nat index)) = 0 →
  Quiescence.threads s !! t = Some w →
  (Quiescence.session_write_in_progress w = Z.of_nat index →
   Quiescence.pc w = Quiescence.W_load index
   ∨ (∃ p, Quiescence.pc w = Quiescence.W_write index p)
   ∨ Quiescence.pc w = Quiescence.W_clear index) →
  (4 ≤ steps_of t schedule)%nat →
  let s' := Quiescence.run target index schedule s in
  (∃ w', Quiescence.threads s' !! t = Some w'
         ∧ Quiescence.session_write_in_progress w' ≠ Z.of_nat index)
  ∧ ∀ remaining,
      Quiescence.disabler s' = Quiescence.D_wait (t :: remaining) →
      Quiescence.disabler (Quiescence.disabler_step target index s')
      = Quiescence.D_wait remaining.
Proof.
  intros Hi Hb Hw Hm Hsteps s'.
  assert (releasing index t 4 s) as Hr.
  { split; [done|]. exists w. split; [done|]. split.
    - unfold steps_to_release.
      destruct (Quiescence.pc w); try case_bool_decide; lia.
    - intros H0 Hidx. unfold steps_to_release in H0.
      destruct (Hm Hidx) as [E|[[p E]|E]]; rewrite E in H0;
        rewrite bool_decide_eq_true_2 in H0 by done; lia. }
  pose proof (releasing_run target index t schedule 4 s Hi Hr) as (_ & w' & Hw' & Hn & H0).
  fold s' in Hw'. assert (Quiescence.session_write_in_progress w' ≠ Z.of_nat index)
    as Hne by (apply H0; lia).
  split; [by exists w'|].
  intros remaining Hd. unfold Quiescence.disabler_step. rewrite Hd, Hw'.
  apply Z.eqb_neq in Hne. by rewrite Hne.
Qed.

Lemma writer_releases_marker_witness :
  Quiescence.threads caught_writing !! 0%nat
  = Some {| Quiescence.pc := Quiescence.W_write 0 1000;
            Quiescence.session_write_in_progress := 0 |}
  ∧ ∃ w', Quiescence.threads
            (@Quiescence.run coreclr 1000 0 release_schedule caught_writing) !! 0%nat
          = Some w'
          ∧ Quiescence.session_write_in_progress w' ≠ 0.
Proof.
  assert (Quiescence.threads caught_writing !! 0%nat
          = Some {| Quiescence.pc := Quiescence.W_write 0 1000;
                    Quiescence.session_write_in_progress := 0 |}) as Hw
    by (by vm_compute).
  split; [exact Hw|].
  refine (proj1 (@writer_releases_marker coreclr 1000 0 0 release_schedule
                   caught_writing _ _ _ Hw _ _)).
  - by vm_compute.
  - by vm_compute.
  - intros _. right. left. by eexists.
  - vm_compute. lia.
Defined.
